(** * Dimensional warehouse builder: a shallow embedding of
      [scripts/transformation/load_warehouse.py]

    The warehouse build is a sequence of SQL statements executed on one
    connection inside [engine.begin()].  Tables are lists of rows (order and
    duplicates matter), SQL operators are list functions, the connection is
    an explicit state threaded through an exception monad, and calendar
    dates are proleptic Gregorian ordinals as in Python's [datetime]. *)

From Stdlib Require Import ZArith List String Ascii Bool Lia QArith.
Import ListNotations.
Open Scope string_scope.
Open Scope list_scope.
Open Scope Z_scope.

Set Implicit Arguments.

(* ------------------------------------------------------------------ *)
(** * Relational primitives *)
(* ------------------------------------------------------------------ *)

Module Sql.

Section Joins.
Context {A B : Type}.

(** [l INNER JOIN r ON on] *)
Definition inner_join (on : A -> B -> bool) (l : list A) (r : list B)
  : list (A * B) :=
  flat_map (fun a => map (pair a) (filter (on a) r)) l.

(** [l LEFT JOIN r ON on]: an unmatched left row is kept, padded with NULL *)
Definition left_join (on : A -> B -> bool) (l : list A) (r : list B)
  : list (A * option B) :=
  flat_map (fun a =>
              match filter (on a) r with
              | [] => [(a, None)]
              | ms => map (fun b => (a, Some b)) ms
              end) l.
End Joins.

Section Rows.
Context {R : Type}.

(** [INSERT ... ON CONFLICT DO NOTHING]: proposed rows are taken one at a
    time; a row that conflicts with a row already in the table (or inserted
    earlier by the same statement) is dropped.  Returns the new table and
    the statement's rowcount. *)
Fixpoint insert_on_conflict_do_nothing (conflicts : R -> R -> bool)
         (table proposed : list R) : list R * Z :=
  match proposed with
  | [] => (table, 0)
  | r :: rest =>
      if existsb (conflicts r) table
      then insert_on_conflict_do_nothing conflicts table rest
      else let '(table', n) :=
             insert_on_conflict_do_nothing conflicts (table ++ [r]) rest in
           (table', n + 1)
  end.

(** [UPDATE table SET ... WHERE cond]: rows keep their position. *)
Definition update_where (cond : R -> bool) (set : R -> R) (table : list R)
  : list R * Z :=
  (map (fun r => if cond r then set r else r) table,
   Z.of_nat (List.length (filter cond table))).

(** [SELECT DISTINCT]: first occurrence of every row, in order. *)
Fixpoint distinct (eqb : R -> R -> bool) (rows : list R) : list R :=
  match rows with
  | [] => []
  | r :: rest => r :: filter (fun x => negb (eqb r x)) (distinct eqb rest)
  end.

(** Values of a serial column handed to the proposed rows of one INSERT. *)
Fixpoint with_serial {P : Type} (next : Z) (mk : Z -> P -> R) (ps : list P)
  : list R :=
  match ps with
  | [] => []
  | p :: rest => mk next p :: with_serial (next + 1) mk rest
  end.
End Rows.

Section GroupBy.
Context {R K : Type} (keq : K -> K -> bool).

(** One step of a hash aggregation: the row joins its key's group, or opens
    a new group at the end. *)
Fixpoint add_to_group (k : K) (r : R) (groups : list (K * list R))
  : list (K * list R) :=
  match groups with
  | [] => [(k, [r])]
  | (k', rs) :: rest =>
      if keq k' k then (k', rs ++ [r]) :: rest
      else (k', rs) :: add_to_group k r rest
  end.

(** [GROUP BY key]: groups in order of first appearance, each holding its
    rows in table order. *)
Definition group_by (key : R -> K) (rows : list R) : list (K * list R) :=
  fold_left (fun groups r => add_to_group (key r) r groups) rows [].
End GroupBy.

(** [SUM] over an integer or fixed-point column. *)
Definition sum (l : list Z) : Z := fold_right Z.add 0 l.

(** [COUNT(DISTINCT col)] *)
Definition count_distinct {K : Type} (keq : K -> K -> bool) (l : list K) : Z :=
  Z.of_nat (List.length (distinct keq l)).

(** [AVG] over a fixed-point column of a non-empty group, kept as an exact
    rational (the scale it is rounded to is a property of the target
    column). *)
Definition avg (l : list Z) : Q := Qmake (sum l) (Pos.of_nat (List.length l)).

(** [MIN] and [MAX]: NULL over no rows. *)
Definition min (l : list Z) : option Z :=
  match l with
  | [] => None
  | x :: rest => Some (fold_left Z.min rest x)
  end.

Definition max (l : list Z) : option Z :=
  match l with
  | [] => None
  | x :: rest => Some (fold_left Z.max rest x)
  end.

End Sql.

(* ------------------------------------------------------------------ *)
(** * Calendar dates *)
(* ------------------------------------------------------------------ *)

(** A date is its proleptic Gregorian ordinal (0001-01-01 is day 1).  The
    field accessors follow Python's [datetime], on which [pandas.Timestamp]
    is built. *)
Module Calendar.

Definition date := Z.

Definition is_leap (year : Z) : bool :=
  (year mod 4 =? 0) && (negb (year mod 100 =? 0) || (year mod 400 =? 0)).

Definition days_before_year (year : Z) : Z :=
  let y := year - 1 in
  y * 365 + y / 4 - y / 100 + y / 400.

Definition DAYS_IN_MONTH (month : Z) : Z :=
  match month with
  | 1 => 31 | 2 => 28 | 3 => 31 | 4 => 30 | 5 => 31 | 6 => 30
  | 7 => 31 | 8 => 31 | 9 => 30 | 10 => 31 | 11 => 30 | 12 => 31
  | _ => -1
  end.

Definition DAYS_BEFORE_MONTH (month : Z) : Z :=
  match month with
  | 1 => 0 | 2 => 31 | 3 => 59 | 4 => 90 | 5 => 120 | 6 => 151
  | 7 => 181 | 8 => 212 | 9 => 243 | 10 => 273 | 11 => 304 | 12 => 334
  | _ => -1
  end.

Definition days_in_month (year month : Z) : Z :=
  if (month =? 2) && is_leap year then 29 else DAYS_IN_MONTH month.

Definition days_before_month (year month : Z) : Z :=
  DAYS_BEFORE_MONTH month + (if (2 <? month) && is_leap year then 1 else 0).

Definition ymd2ord (year month day : Z) : date :=
  days_before_year year + days_before_month year month + day.

Definition DI400Y : Z := 146097.
Definition DI100Y : Z := 36524.
Definition DI4Y : Z := 1461.

(** Month and day of the [n]-th day (from 0) of a year. *)
Definition month_day_of_yday (leapyear : bool) (n : Z) : Z * Z :=
  let month := Z.shiftr (n + 50) 5 in
  let preceding :=
    DAYS_BEFORE_MONTH month + (if (2 <? month) && leapyear then 1 else 0) in
  if n <? preceding
  then let month' := month - 1 in
       let preceding' :=
         preceding
         - (DAYS_IN_MONTH month' + (if (month' =? 2) && leapyear then 1 else 0)) in
       (month', n - preceding' + 1)
  else (month, n - preceding + 1).

Definition ord2ymd (ordinal : date) : Z * Z * Z :=
  let n := ordinal - 1 in
  let n400 := n / DI400Y in
  let n := n mod DI400Y in
  let n100 := n / DI100Y in
  let n := n mod DI100Y in
  let n4 := n / DI4Y in
  let n := n mod DI4Y in
  let n1 := n / 365 in
  let n := n mod 365 in
  let year := n400 * 400 + 1 + n100 * 100 + n4 * 4 + n1 in
  if (n1 =? 4) || (n100 =? 4) then (year - 1, 12, 31)
  else
    let leapyear := (n1 =? 3) && (negb (n4 =? 24) || (n100 =? 3)) in
    let '(month, day) := month_day_of_yday leapyear n in
    (year, month, day).

Definition year (d : date) : Z := fst (fst (ord2ymd d)).
Definition month (d : date) : Z := snd (fst (ord2ymd d)).
Definition day (d : date) : Z := snd (ord2ymd d).

(** [Timestamp.dayofweek]: Monday is 0, Sunday is 6. *)
Definition dayofweek (d : date) : Z := (d + 6) mod 7.

Definition day_name (d : date) : string :=
  match dayofweek d with
  | 0 => "Monday" | 1 => "Tuesday" | 2 => "Wednesday" | 3 => "Thursday"
  | 4 => "Friday" | 5 => "Saturday" | _ => "Sunday"
  end.

Definition month_name (d : date) : string :=
  match month d with
  | 1 => "January" | 2 => "February" | 3 => "March" | 4 => "April"
  | 5 => "May" | 6 => "June" | 7 => "July" | 8 => "August"
  | 9 => "September" | 10 => "October" | 11 => "November" | _ => "December"
  end.

(** Ordinal of the Monday that starts ISO week 1 of [year]. *)
Definition isoweek1monday (year : Z) : Z :=
  let THURSDAY := 3 in
  let firstday := ymd2ord year 1 1 in
  let firstweekday := (firstday + 6) mod 7 in
  let week1monday := firstday - firstweekday in
  if THURSDAY <? firstweekday then week1monday + 7 else week1monday.

(** [isocalendar()]: ISO year, ISO week number, ISO weekday. *)
Definition isocalendar (d : date) : Z * Z * Z :=
  let year := year d in
  let week1monday := isoweek1monday year in
  let today := d in
  let week := (today - week1monday) / 7 in
  let day := (today - week1monday) mod 7 in
  if week <? 0 then
    let year := year - 1 in
    let week1monday := isoweek1monday year in
    let week := (today - week1monday) / 7 in
    let day := (today - week1monday) mod 7 in
    (year, week + 1, day + 1)
  else if (52 <=? week) && (isoweek1monday (year + 1) <=? today) then
    (year + 1, 0 + 1, day + 1)
  else (year, week + 1, day + 1).

Definition isoweek (d : date) : Z := snd (fst (isocalendar d)).

(** ** Text form: [str(date)] and the parsing done by [pandas.Timestamp] *)

Definition digit (n : Z) : ascii := ascii_of_nat (48 + Z.to_nat (n mod 10)).

(** [str(d)] for a [datetime.date]: ["%04d-%02d-%02d"]. *)
Definition isoformat (d : date) : string :=
  let '(y, m, dd) := ord2ymd d in
  String (digit (y / 1000)) (String (digit (y / 100)) (String (digit (y / 10))
  (String (digit y) (String "-" (String (digit (m / 10)) (String (digit m)
  (String "-" (String (digit (dd / 10)) (String (digit dd) EmptyString))))))))).

Definition digit_value (c : ascii) : option Z :=
  let n := Z.of_nat (nat_of_ascii c) in
  if (48 <=? n) && (n <=? 57) then Some (n - 48) else None.

Definition number2 (a b : ascii) : option Z :=
  match digit_value a, digit_value b with
  | Some x, Some y => Some (10 * x + y)
  | _, _ => None
  end.

Definition number4 (a b c d : ascii) : option Z :=
  match number2 a b, number2 c d with
  | Some x, Some y => Some (100 * x + y)
  | _, _ => None
  end.

(** The date a text denotes.  Only the form the coordinator produces
    ([YYYY-MM-DD]) is recognised; every other text, in particular ["None"]
    (the text of a NULL aggregate), is not a date. *)
Definition parse_date (s : string) : option date :=
  match s with
  | String y1 (String y2 (String y3 (String y4 (String "-"
    (String m1 (String m2 (String "-" (String d1 (String d2 EmptyString))))))))) =>
      match number4 y1 y2 y3 y4, number2 m1 m2, number2 d1 d2 with
      | Some y, Some m, Some d =>
          if (1 <=? y) && (1 <=? m) && (m <=? 12)
             && (1 <=? d) && (d <=? days_in_month y m)
          then Some (ymd2ord y m d) else None
      | _, _, _ => None
      end
  | _ => None
  end.

(** ** [pandas.Timestamp]: signed 64-bit nanoseconds since 1970-01-01 *)

Definition EPOCH_ORDINAL : Z := 719163.
Definition NS_PER_DAY : Z := 86400 * 1000000000.

Definition timestamp_value (d : date) : Z := (d - EPOCH_ORDINAL) * NS_PER_DAY.

(** The minimum int64 is reserved for NaT. *)
Definition timestamp_in_bounds (d : date) : bool :=
  (- 2 ^ 63 <? timestamp_value d) && (timestamp_value d <=? 2 ^ 63 - 1).

End Calendar.

(* ------------------------------------------------------------------ *)
(** * Schemas *)
(* ------------------------------------------------------------------ *)

Import Calendar.

(** NUMERIC columns (prices, totals, percentages) hold hundredths. *)
Definition numeric := Z.

(** ** production (read only) *)

Record customer := {
  c_customer_id : string;
  c_first_name : string;
  c_last_name : string;
  c_email : string;
  c_phone : string;
  c_city : string;
  c_state : string;
  c_country : string;
  c_age_group : string;
  c_registration_date : date;
  c_is_active : bool
}.

Record product := {
  p_product_id : string;
  p_product_name : string;
  p_category : string;
  p_sub_category : string;
  p_price : numeric;
  p_cost : numeric;
  p_brand : string;
  p_is_active : bool
}.

Record transaction := {
  t_transaction_id : string;
  t_customer_id : string;
  t_transaction_date : date;
  t_payment_method : string;
  t_shipping_address : string;
  t_total_amount : numeric
}.

Record transaction_item := {
  ti_item_id : string;
  ti_transaction_id : string;
  ti_product_id : string;
  ti_quantity : Z;
  ti_unit_price : numeric;
  ti_discount_percentage : numeric;
  ti_line_total : numeric
}.

(** What the build reads: the production schema and staging.transactions. *)
Record sources := {
  customers : list customer;
  products : list product;
  transactions : list transaction;
  transaction_items : list transaction_item;
  staging_transactions : list transaction
}.

(** ** warehouse *)

Record dim_customer := {
  dc_customer_sk : Z;
  dc_customer_id : string;
  dc_first_name : string;
  dc_last_name : string;
  dc_email : string;
  dc_phone : string;
  dc_city : string;
  dc_state : string;
  dc_country : string;
  dc_age_group : string;
  dc_registration_date : date;
  dc_is_current : bool;
  dc_effective_date : date;
  dc_end_date : option date
}.

Record dim_product := {
  dp_product_sk : Z;
  dp_product_id : string;
  dp_product_name : string;
  dp_category : string;
  dp_sub_category : string;
  dp_price : numeric;
  dp_cost : numeric;
  dp_brand : string;
  dp_is_current : bool;
  dp_effective_date : date;
  dp_end_date : option date
}.

Record dim_date_row := {
  dd_date_sk : Z;
  dd_date_id : date;
  dd_day_of_month : Z;
  dd_day_of_week : Z;
  dd_day_name : string;
  dd_month : Z;
  dd_month_name : string;
  dd_quarter : Z;
  dd_year : Z;
  dd_week_of_year : Z;
  dd_is_weekend : bool
}.

Record dim_payment_method_row := {
  dpm_payment_method_sk : Z;
  dpm_payment_method_id : string;
  dpm_payment_method_name : string;
  dpm_category : string;
  dpm_is_active : bool
}.

Record fact_sales_row := {
  fs_transaction_id : string;
  fs_item_id : string;
  fs_customer_sk : Z;
  fs_product_sk : Z;
  fs_date_sk : Z;
  fs_payment_method_sk : option Z;
  fs_quantity : Z;
  fs_unit_price : numeric;
  fs_discount_percentage : numeric;
  fs_line_total : numeric;
  fs_transaction_total : numeric;
  fs_shipping_address : string
}.

Record agg_daily_sales_row := {
  ads_date_sk : Z;
  ads_total_sales : numeric;
  ads_total_units_sold : Z;
  ads_transaction_count : Z;
  ads_customer_count : Z;
  ads_avg_transaction_value : Q
}.

Record agg_product_sales_row := {
  aps_product_sk : Z;
  aps_total_sales : numeric;
  aps_total_units_sold : Z;
  aps_transaction_count : Z;
  aps_avg_discount : Q
}.

Record agg_customer_lifetime_row := {
  acl_customer_sk : Z;
  acl_total_spent : numeric;
  acl_total_units_purchased : Z;
  acl_transaction_count : Z;
  acl_first_purchase_date : option date;
  acl_last_purchase_date : option date;
  acl_avg_transaction_value : Q
}.

(** The tables the build writes, with the counters of their serial
    surrogate-key columns. *)
Record warehouse := {
  dim_customers : list dim_customer;
  dim_products : list dim_product;
  dim_date : list dim_date_row;
  dim_payment_method : list dim_payment_method_row;
  fact_sales : list fact_sales_row;
  agg_daily_sales : list agg_daily_sales_row;
  agg_product_sales : list agg_product_sales_row;
  agg_customer_lifetime : list agg_customer_lifetime_row;
  customer_sk_seq : Z;
  product_sk_seq : Z;
  date_sk_seq : Z;
  payment_method_sk_seq : Z
}.

Definition empty_warehouse : warehouse :=
  {| dim_customers := []; dim_products := []; dim_date := [];
     dim_payment_method := []; fact_sales := []; agg_daily_sales := [];
     agg_product_sales := []; agg_customer_lifetime := [];
     customer_sk_seq := 1; product_sk_seq := 1; date_sk_seq := 1;
     payment_method_sk_seq := 1 |}.

Definition set_dim_customers (rows : list dim_customer) (next : Z)
           (w : warehouse) : warehouse :=
  {| dim_customers := rows; dim_products := dim_products w;
     dim_date := dim_date w; dim_payment_method := dim_payment_method w;
     fact_sales := fact_sales w; agg_daily_sales := agg_daily_sales w;
     agg_product_sales := agg_product_sales w;
     agg_customer_lifetime := agg_customer_lifetime w;
     customer_sk_seq := next; product_sk_seq := product_sk_seq w;
     date_sk_seq := date_sk_seq w;
     payment_method_sk_seq := payment_method_sk_seq w |}.

Definition set_dim_products (rows : list dim_product) (next : Z)
           (w : warehouse) : warehouse :=
  {| dim_customers := dim_customers w; dim_products := rows;
     dim_date := dim_date w; dim_payment_method := dim_payment_method w;
     fact_sales := fact_sales w; agg_daily_sales := agg_daily_sales w;
     agg_product_sales := agg_product_sales w;
     agg_customer_lifetime := agg_customer_lifetime w;
     customer_sk_seq := customer_sk_seq w; product_sk_seq := next;
     date_sk_seq := date_sk_seq w;
     payment_method_sk_seq := payment_method_sk_seq w |}.

Definition set_dim_date (rows : list dim_date_row) (next : Z)
           (w : warehouse) : warehouse :=
  {| dim_customers := dim_customers w; dim_products := dim_products w;
     dim_date := rows; dim_payment_method := dim_payment_method w;
     fact_sales := fact_sales w; agg_daily_sales := agg_daily_sales w;
     agg_product_sales := agg_product_sales w;
     agg_customer_lifetime := agg_customer_lifetime w;
     customer_sk_seq := customer_sk_seq w; product_sk_seq := product_sk_seq w;
     date_sk_seq := next;
     payment_method_sk_seq := payment_method_sk_seq w |}.

Definition set_dim_payment_method (rows : list dim_payment_method_row)
           (next : Z) (w : warehouse) : warehouse :=
  {| dim_customers := dim_customers w; dim_products := dim_products w;
     dim_date := dim_date w; dim_payment_method := rows;
     fact_sales := fact_sales w; agg_daily_sales := agg_daily_sales w;
     agg_product_sales := agg_product_sales w;
     agg_customer_lifetime := agg_customer_lifetime w;
     customer_sk_seq := customer_sk_seq w; product_sk_seq := product_sk_seq w;
     date_sk_seq := date_sk_seq w; payment_method_sk_seq := next |}.

Definition set_fact_sales (rows : list fact_sales_row) (w : warehouse)
  : warehouse :=
  {| dim_customers := dim_customers w; dim_products := dim_products w;
     dim_date := dim_date w; dim_payment_method := dim_payment_method w;
     fact_sales := rows; agg_daily_sales := agg_daily_sales w;
     agg_product_sales := agg_product_sales w;
     agg_customer_lifetime := agg_customer_lifetime w;
     customer_sk_seq := customer_sk_seq w; product_sk_seq := product_sk_seq w;
     date_sk_seq := date_sk_seq w;
     payment_method_sk_seq := payment_method_sk_seq w |}.

Definition set_agg_daily_sales (rows : list agg_daily_sales_row)
           (w : warehouse) : warehouse :=
  {| dim_customers := dim_customers w; dim_products := dim_products w;
     dim_date := dim_date w; dim_payment_method := dim_payment_method w;
     fact_sales := fact_sales w; agg_daily_sales := rows;
     agg_product_sales := agg_product_sales w;
     agg_customer_lifetime := agg_customer_lifetime w;
     customer_sk_seq := customer_sk_seq w; product_sk_seq := product_sk_seq w;
     date_sk_seq := date_sk_seq w;
     payment_method_sk_seq := payment_method_sk_seq w |}.

Definition set_agg_product_sales (rows : list agg_product_sales_row)
           (w : warehouse) : warehouse :=
  {| dim_customers := dim_customers w; dim_products := dim_products w;
     dim_date := dim_date w; dim_payment_method := dim_payment_method w;
     fact_sales := fact_sales w; agg_daily_sales := agg_daily_sales w;
     agg_product_sales := rows;
     agg_customer_lifetime := agg_customer_lifetime w;
     customer_sk_seq := customer_sk_seq w; product_sk_seq := product_sk_seq w;
     date_sk_seq := date_sk_seq w;
     payment_method_sk_seq := payment_method_sk_seq w |}.

Definition set_agg_customer_lifetime (rows : list agg_customer_lifetime_row)
           (w : warehouse) : warehouse :=
  {| dim_customers := dim_customers w; dim_products := dim_products w;
     dim_date := dim_date w; dim_payment_method := dim_payment_method w;
     fact_sales := fact_sales w; agg_daily_sales := agg_daily_sales w;
     agg_product_sales := agg_product_sales w;
     agg_customer_lifetime := rows;
     customer_sk_seq := customer_sk_seq w; product_sk_seq := product_sk_seq w;
     date_sk_seq := date_sk_seq w;
     payment_method_sk_seq := payment_method_sk_seq w |}.

(* ------------------------------------------------------------------ *)
(** * The connection: state and exceptions *)
(* ------------------------------------------------------------------ *)

(** The commands the build sends to the store, one per call site. *)
Inductive statement :=
| InsertDimCustomers
| InsertDimProducts
| SelectDateRange
| InsertDimDate
| InsertDimPaymentMethod
| InsertFactSales
| InsertAggDailySales
| InsertAggProductSales
| InsertAggCustomerLifetime
| UpdateDimCustomers
| UpdateDimProducts.

Definition statement_eqb (a b : statement) : bool :=
  match a, b with
  | InsertDimCustomers, InsertDimCustomers
  | InsertDimProducts, InsertDimProducts
  | SelectDateRange, SelectDateRange
  | InsertDimDate, InsertDimDate
  | InsertDimPaymentMethod, InsertDimPaymentMethod
  | InsertFactSales, InsertFactSales
  | InsertAggDailySales, InsertAggDailySales
  | InsertAggProductSales, InsertAggProductSales
  | InsertAggCustomerLifetime, InsertAggCustomerLifetime
  | UpdateDimCustomers, UpdateDimCustomers
  | UpdateDimProducts, UpdateDimProducts => true
  | _, _ => false
  end.

Inductive exn :=
| DateParseError (text : string)       (* a ValueError of pandas *)
| OutOfBoundsDatetime (text : string)  (* a ValueError of pandas *)
| StoreError (s : statement).          (* raised by the store while executing s *)

Inductive result (A : Type) :=
| Ok (a : A)
| Err (e : exn).
Arguments Ok {A} a.
Arguments Err {A} e.

(** An open connection inside a transaction: the tables as the transaction
    sees them, the store's clock, the statements the store will reject, and
    the statements executed so far. *)
Record connection := {
  conn_src : sources;
  conn_wh : warehouse;
  CURRENT_DATE : date;
  store_fails : statement -> bool;
  executed : list statement
}.

Inductive outcome (A : Type) :=
| Returns (a : A) (c : connection)
| Raises (e : exn).
Arguments Returns {A} a c.
Arguments Raises {A} e.

Definition M (A : Type) := connection -> outcome A.

Definition ret {A} (a : A) : M A := fun c => Returns a c.

Definition bind {A B} (m : M A) (k : A -> M B) : M B :=
  fun c => match m c with
           | Returns a c' => k a c'
           | Raises e => Raises e
           end.

Definition lift {A} (r : result A) : M A :=
  fun c => match r with
           | Ok a => Returns a c
           | Err e => Raises e
           end.

Notation "x <- m ;; k" := (bind m (fun x => k))
  (at level 61, m at next level, right associativity).
Notation "' p <- m ;; k" := (bind m (fun x => let 'p := x in k))
  (at level 61, p pattern, m at next level, right associativity).

(** [connection.execute(query)] for a statement that writes the warehouse. *)
Definition execute {A} (s : statement)
           (effect : sources -> date -> warehouse -> warehouse * A) : M A :=
  fun c =>
    if store_fails c s then Raises (StoreError s)
    else let '(w, a) := effect (conn_src c) (CURRENT_DATE c) (conn_wh c) in
         Returns a {| conn_src := conn_src c; conn_wh := w;
                      CURRENT_DATE := CURRENT_DATE c;
                      store_fails := store_fails c;
                      executed := executed c ++ [s] |}.

(** A statement that only reads. *)
Definition query {A} (s : statement) (read : sources -> warehouse -> A) : M A :=
  execute s (fun src _ w => (w, read src w)).

(* ------------------------------------------------------------------ *)
(** * Dimension builders *)
(* ------------------------------------------------------------------ *)

(** Modelled from the spec: the uniqueness constraint of
    [warehouse.dim_customers] that [ON CONFLICT DO NOTHING] relies on (the
    table's declaration is not part of the sources).  The spec makes the
    insert conditional on the absence of the business key: "no dimension row
    with that business key exists yet". *)
Definition dim_customers_conflict (new old : dim_customer) : bool :=
  (dc_customer_id new =? dc_customer_id old)%string.

(** Modelled from the spec: the uniqueness constraint of
    [warehouse.dim_products], as for the customers. *)
Definition dim_products_conflict (new old : dim_product) : bool :=
  (dp_product_id new =? dp_product_id old)%string.

(** The SELECT list of [build_dim_customers]. *)
Definition dim_customer_of (today : date) (sk : Z) (c : customer)
  : dim_customer :=
  {| dc_customer_sk := sk;
     dc_customer_id := c_customer_id c;
     dc_first_name := c_first_name c;
     dc_last_name := c_last_name c;
     dc_email := c_email c;
     dc_phone := c_phone c;
     dc_city := c_city c;
     dc_state := c_state c;
     dc_country := c_country c;
     dc_age_group := c_age_group c;
     dc_registration_date := c_registration_date c;
     dc_is_current := true;
     dc_effective_date := today;
     dc_end_date := None |}.

Definition insert_dim_customers (src : sources) (today : date) (w : warehouse)
  : warehouse * Z :=
  let selected := filter c_is_active (customers src) in
  let proposed :=
    Sql.with_serial (customer_sk_seq w) (dim_customer_of today) selected in
  let '(rows, rowcount) :=
    Sql.insert_on_conflict_do_nothing dim_customers_conflict
                                      (dim_customers w) proposed in
  (set_dim_customers rows
     (customer_sk_seq w + Z.of_nat (List.length selected)) w,
   rowcount).

Definition build_dim_customers : M Z :=
  execute InsertDimCustomers insert_dim_customers.

(** The SELECT list of [build_dim_products]. *)
Definition dim_product_of (today : date) (sk : Z) (p : product) : dim_product :=
  {| dp_product_sk := sk;
     dp_product_id := p_product_id p;
     dp_product_name := p_product_name p;
     dp_category := p_category p;
     dp_sub_category := p_sub_category p;
     dp_price := p_price p;
     dp_cost := p_cost p;
     dp_brand := p_brand p;
     dp_is_current := true;
     dp_effective_date := today;
     dp_end_date := None |}.

Definition insert_dim_products (src : sources) (today : date) (w : warehouse)
  : warehouse * Z :=
  let selected := filter p_is_active (products src) in
  let proposed :=
    Sql.with_serial (product_sk_seq w) (dim_product_of today) selected in
  let '(rows, rowcount) :=
    Sql.insert_on_conflict_do_nothing dim_products_conflict
                                      (dim_products w) proposed in
  (set_dim_products rows
     (product_sk_seq w + Z.of_nat (List.length selected)) w,
   rowcount).

Definition build_dim_products : M Z :=
  execute InsertDimProducts insert_dim_products.

(** ** Date dimension *)

(** [pd.Timestamp(text)] restricted to dates. *)
Definition to_timestamp (text : string) : result date :=
  match parse_date text with
  | None => Err (DateParseError text)
  | Some d =>
      if timestamp_in_bounds d then Ok d else Err (OutOfBoundsDatetime text)
  end.

(** [pd.date_range(start=, end=, freq='D')] *)
Definition date_range (start_date end_date : string) : result (list date) :=
  match to_timestamp start_date with
  | Err e => Err e
  | Ok s =>
      match to_timestamp end_date with
      | Err e => Err e
      | Ok e =>
          Ok (map (fun i => s + Z.of_nat i) (seq 0 (Z.to_nat (e - s + 1))))
      end
  end.

(** The dictionary appended for day [d], with the key the store assigns. *)
Definition dim_date_row_of (sk : Z) (d : date) : dim_date_row :=
  {| dd_date_sk := sk;
     dd_date_id := d;
     dd_day_of_month := day d;
     dd_day_of_week := dayofweek d + 1;
     dd_day_name := day_name d;
     dd_month := month d;
     dd_month_name := month_name d;
     dd_quarter := (month d - 1) / 3 + 1;
     dd_year := year d;
     dd_week_of_year := isoweek d;
     dd_is_weekend := 5 <=? dayofweek d |}.

(** [df.to_sql(..., if_exists="append")] *)
Definition append_dim_date (dates : list date) (_ : sources) (_ : date)
           (w : warehouse) : warehouse * Z :=
  let rows := Sql.with_serial (date_sk_seq w) dim_date_row_of dates in
  (set_dim_date (dim_date w ++ rows)
                (date_sk_seq w + Z.of_nat (List.length dates)) w,
   Z.of_nat (List.length rows)).

Definition build_dim_date (start_date end_date : string) : M Z :=
  dates <- lift (date_range start_date end_date) ;;
  execute InsertDimDate (append_dim_date dates).

(** ** Payment-method dimension *)

Definition lower_ascii (c : ascii) : ascii :=
  let n := nat_of_ascii c in
  if (65 <=? n)%nat && (n <=? 90)%nat then ascii_of_nat (n + 32) else c.

(** [LOWER(s)], on the ASCII letters. *)
Fixpoint LOWER (s : string) : string :=
  match s with
  | EmptyString => EmptyString
  | String c rest => String (lower_ascii c) (LOWER rest)
  end.

(** [REPLACE(s, from, to)] for one-character patterns. *)
Fixpoint REPLACE (s : string) (from to : ascii) : string :=
  match s with
  | EmptyString => EmptyString
  | String c rest =>
      String (if Ascii.eqb c from then to else c) (REPLACE rest from to)
  end.

Definition payment_method_id (payment_method : string) : string :=
  LOWER (REPLACE payment_method " " "_").

Definition payment_method_category (payment_method : string) : string :=
  if ((payment_method =? "Credit Card") || (payment_method =? "Debit Card"))%string
  then "Card"
  else if (payment_method =? "UPI")%string then "Digital"
  else if (payment_method =? "Net Banking")%string then "Digital"
  else if (payment_method =? "Cash on Delivery")%string then "Cash"
  else "Other".

(** A row of the SELECT DISTINCT: id, name, category, is_active. *)
Definition payment_method_select_row (t : transaction)
  : string * string * string * bool :=
  (payment_method_id (t_payment_method t), t_payment_method t,
   payment_method_category (t_payment_method t), true).

Definition select_row_eqb (a b : string * string * string * bool) : bool :=
  let '(i1, n1, c1, a1) := a in
  let '(i2, n2, c2, a2) := b in
  (i1 =? i2)%string && (n1 =? n2)%string && (c1 =? c2)%string
  && Bool.eqb a1 a2.

Definition dim_payment_method_of (sk : Z) (r : string * string * string * bool)
  : dim_payment_method_row :=
  let '(id, name, category, active) := r in
  {| dpm_payment_method_sk := sk;
     dpm_payment_method_id := id;
     dpm_payment_method_name := name;
     dpm_category := category;
     dpm_is_active := active |}.

(** [ON CONFLICT (payment_method_id)] *)
Definition dim_payment_method_conflict (new old : dim_payment_method_row)
  : bool :=
  (dpm_payment_method_id new =? dpm_payment_method_id old)%string.

Definition insert_dim_payment_method (src : sources) (_ : date) (w : warehouse)
  : warehouse * Z :=
  let selected :=
    Sql.distinct select_row_eqb
                 (map payment_method_select_row (staging_transactions src)) in
  let proposed :=
    Sql.with_serial (payment_method_sk_seq w) dim_payment_method_of selected in
  let '(rows, rowcount) :=
    Sql.insert_on_conflict_do_nothing dim_payment_method_conflict
                                      (dim_payment_method w) proposed in
  (set_dim_payment_method rows
     (payment_method_sk_seq w + Z.of_nat (List.length selected)) w,
   rowcount).

Definition build_dim_payment_method : M Z :=
  execute InsertDimPaymentMethod insert_dim_payment_method.

(* ------------------------------------------------------------------ *)
(** * Fact loader *)
(* ------------------------------------------------------------------ *)

(** The FROM clause of [build_fact_sales]. *)
Definition fact_sales_from (src : sources) (w : warehouse) :=
  let ti_t :=
    Sql.inner_join
      (fun ti t => (ti_transaction_id ti =? t_transaction_id t)%string)
      (transaction_items src) (transactions src) in
  let ti_t_dc :=
    Sql.inner_join
      (fun '(ti, t) dc =>
         (t_customer_id t =? dc_customer_id dc)%string && dc_is_current dc)
      ti_t (dim_customers w) in
  let ti_t_dc_dp :=
    Sql.inner_join
      (fun '(ti, t, dc) dp =>
         (ti_product_id ti =? dp_product_id dp)%string && dp_is_current dp)
      ti_t_dc (dim_products w) in
  let ti_t_dc_dp_dd :=
    Sql.inner_join
      (fun '(ti, t, dc, dp) dd => t_transaction_date t =? dd_date_id dd)
      ti_t_dc_dp (dim_date w) in
  Sql.left_join
    (fun '(ti, t, dc, dp, dd) dpm =>
       (payment_method_id (t_payment_method t)
        =? dpm_payment_method_id dpm)%string)
    ti_t_dc_dp_dd (dim_payment_method w).

(** The WHERE clause: no fact row carries the line item's [item_id].  The
    subquery reads the fact table as it is when the statement starts. *)
Definition not_yet_loaded (w : warehouse) (ti : transaction_item) : bool :=
  negb (existsb (fun fs => (fs_item_id fs =? ti_item_id ti)%string)
                (fact_sales w)).

(** The SELECT list. *)
Definition fact_sales_row_of
           (j : transaction_item * transaction * dim_customer * dim_product
                * dim_date_row * option dim_payment_method_row)
  : fact_sales_row :=
  let '(ti, t, dc, dp, dd, dpm) := j in
  {| fs_transaction_id := t_transaction_id t;
     fs_item_id := ti_item_id ti;
     fs_customer_sk := dc_customer_sk dc;
     fs_product_sk := dp_product_sk dp;
     fs_date_sk := dd_date_sk dd;
     fs_payment_method_sk := option_map dpm_payment_method_sk dpm;
     fs_quantity := ti_quantity ti;
     fs_unit_price := ti_unit_price ti;
     fs_discount_percentage := ti_discount_percentage ti;
     fs_line_total := ti_line_total ti;
     fs_transaction_total := t_total_amount t;
     fs_shipping_address := t_shipping_address t |}.

Definition fact_sales_select (src : sources) (w : warehouse)
  : list fact_sales_row :=
  map fact_sales_row_of
      (filter (fun '(ti, _, _, _, _, _) => not_yet_loaded w ti)
              (fact_sales_from src w)).

Definition insert_fact_sales (src : sources) (_ : date) (w : warehouse)
  : warehouse * Z :=
  let selected := fact_sales_select src w in
  (set_fact_sales (fact_sales w ++ selected) w, Z.of_nat (List.length selected)).

Definition build_fact_sales : M Z :=
  execute InsertFactSales insert_fact_sales.

(* ------------------------------------------------------------------ *)
(** * Aggregate builders *)
(* ------------------------------------------------------------------ *)

(** Modelled from the spec: the primary keys of the three aggregate tables
    (their declarations are not part of the sources): "each insert is
    skip-on-conflict by grouping key". *)
Definition agg_daily_sales_conflict (new old : agg_daily_sales_row) : bool :=
  ads_date_sk new =? ads_date_sk old.

Definition agg_product_sales_conflict (new old : agg_product_sales_row)
  : bool :=
  aps_product_sk new =? aps_product_sk old.

Definition agg_customer_lifetime_conflict
           (new old : agg_customer_lifetime_row) : bool :=
  acl_customer_sk new =? acl_customer_sk old.

Definition agg_daily_sales_of (group : Z * list fact_sales_row)
  : agg_daily_sales_row :=
  let '(date_sk, fs) := group in
  {| ads_date_sk := date_sk;
     ads_total_sales := Sql.sum (map fs_line_total fs);
     ads_total_units_sold := Sql.sum (map fs_quantity fs);
     ads_transaction_count :=
       Sql.count_distinct String.eqb (map fs_transaction_id fs);
     ads_customer_count := Sql.count_distinct Z.eqb (map fs_customer_sk fs);
     ads_avg_transaction_value := Sql.avg (map fs_transaction_total fs) |}.

Definition agg_daily_sales_select (w : warehouse) : list agg_daily_sales_row :=
  map agg_daily_sales_of (Sql.group_by Z.eqb fs_date_sk (fact_sales w)).

Definition insert_agg_daily_sales (_ : sources) (_ : date) (w : warehouse)
  : warehouse * Z :=
  let '(rows, rowcount) :=
    Sql.insert_on_conflict_do_nothing agg_daily_sales_conflict
      (agg_daily_sales w) (agg_daily_sales_select w) in
  (set_agg_daily_sales rows w, rowcount).

Definition build_agg_daily_sales : M Z :=
  execute InsertAggDailySales insert_agg_daily_sales.

Definition agg_product_sales_of (group : Z * list fact_sales_row)
  : agg_product_sales_row :=
  let '(product_sk, fs) := group in
  {| aps_product_sk := product_sk;
     aps_total_sales := Sql.sum (map fs_line_total fs);
     aps_total_units_sold := Sql.sum (map fs_quantity fs);
     aps_transaction_count :=
       Sql.count_distinct String.eqb (map fs_transaction_id fs);
     aps_avg_discount := Sql.avg (map fs_discount_percentage fs) |}.

Definition agg_product_sales_select (w : warehouse)
  : list agg_product_sales_row :=
  map agg_product_sales_of (Sql.group_by Z.eqb fs_product_sk (fact_sales w)).

Definition insert_agg_product_sales (_ : sources) (_ : date) (w : warehouse)
  : warehouse * Z :=
  let '(rows, rowcount) :=
    Sql.insert_on_conflict_do_nothing agg_product_sales_conflict
      (agg_product_sales w) (agg_product_sales_select w) in
  (set_agg_product_sales rows w, rowcount).

Definition build_agg_product_sales : M Z :=
  execute InsertAggProductSales insert_agg_product_sales.

Definition agg_customer_lifetime_of
           (group : Z * list (fact_sales_row * dim_date_row))
  : agg_customer_lifetime_row :=
  let '(customer_sk, rows) := group in
  let fs := map fst rows in
  let dd := map snd rows in
  {| acl_customer_sk := customer_sk;
     acl_total_spent := Sql.sum (map fs_line_total fs);
     acl_total_units_purchased := Sql.sum (map fs_quantity fs);
     acl_transaction_count :=
       Sql.count_distinct String.eqb (map fs_transaction_id fs);
     acl_first_purchase_date := Sql.min (map dd_date_id dd);
     acl_last_purchase_date := Sql.max (map dd_date_id dd);
     acl_avg_transaction_value := Sql.avg (map fs_transaction_total fs) |}.

Definition agg_customer_lifetime_select (w : warehouse)
  : list agg_customer_lifetime_row :=
  map agg_customer_lifetime_of
      (Sql.group_by Z.eqb (fun r => fs_customer_sk (fst r))
         (Sql.inner_join (fun fs dd => fs_date_sk fs =? dd_date_sk dd)
                         (fact_sales w) (dim_date w))).

Definition insert_agg_customer_lifetime (_ : sources) (_ : date)
           (w : warehouse) : warehouse * Z :=
  let '(rows, rowcount) :=
    Sql.insert_on_conflict_do_nothing agg_customer_lifetime_conflict
      (agg_customer_lifetime w) (agg_customer_lifetime_select w) in
  (set_agg_customer_lifetime rows w, rowcount).

Definition build_agg_customer_lifetime : M Z :=
  execute InsertAggCustomerLifetime insert_agg_customer_lifetime.

(* ------------------------------------------------------------------ *)
(** * SCD Type 2 retirement *)
(* ------------------------------------------------------------------ *)

Definition retire_customer (today : date) (r : dim_customer) : dim_customer :=
  {| dc_customer_sk := dc_customer_sk r;
     dc_customer_id := dc_customer_id r;
     dc_first_name := dc_first_name r;
     dc_last_name := dc_last_name r;
     dc_email := dc_email r;
     dc_phone := dc_phone r;
     dc_city := dc_city r;
     dc_state := dc_state r;
     dc_country := dc_country r;
     dc_age_group := dc_age_group r;
     dc_registration_date := dc_registration_date r;
     dc_is_current := false;
     dc_effective_date := dc_effective_date r;
     dc_end_date := Some (today - 1) |}.

Definition retire_product (today : date) (r : dim_product) : dim_product :=
  {| dp_product_sk := dp_product_sk r;
     dp_product_id := dp_product_id r;
     dp_product_name := dp_product_name r;
     dp_category := dp_category r;
     dp_sub_category := dp_sub_category r;
     dp_price := dp_price r;
     dp_cost := dp_cost r;
     dp_brand := dp_brand r;
     dp_is_current := false;
     dp_effective_date := dp_effective_date r;
     dp_end_date := Some (today - 1) |}.

(** [SELECT customer_id FROM production.customers WHERE is_active = FALSE] *)
Definition inactive_customer_ids (src : sources) : list string :=
  map c_customer_id (filter (fun c => negb (c_is_active c)) (customers src)).

Definition inactive_product_ids (src : sources) : list string :=
  map p_product_id (filter (fun p => negb (p_is_active p)) (products src)).

Definition update_dim_customers (src : sources) (today : date) (w : warehouse)
  : warehouse * Z :=
  let '(rows, rowcount) :=
    Sql.update_where
      (fun r => dc_is_current r
                && existsb (String.eqb (dc_customer_id r))
                           (inactive_customer_ids src))
      (retire_customer today) (dim_customers w) in
  (set_dim_customers rows (customer_sk_seq w) w, rowcount).

Definition update_dim_products (src : sources) (today : date) (w : warehouse)
  : warehouse * Z :=
  let '(rows, rowcount) :=
    Sql.update_where
      (fun r => dp_is_current r
                && existsb (String.eqb (dp_product_id r))
                           (inactive_product_ids src))
      (retire_product today) (dim_products w) in
  (set_dim_products rows (product_sk_seq w) w, rowcount).

Record scd_result := {
  dimension : string;
  records_updated : Z;
  status : string
}.

Definition apply_scd_type2 (dimension_name : string) : M scd_result :=
  let result := {| dimension := dimension_name;
                   records_updated := 0;
                   status := "success" |} in
  if (dimension_name =? "dim_customers")%string then
    rowcount <- execute UpdateDimCustomers update_dim_customers ;;
    ret {| dimension := dimension result;
           records_updated := rowcount;
           status := status result |}
  else if (dimension_name =? "dim_products")%string then
    rowcount <- execute UpdateDimProducts update_dim_products ;;
    ret {| dimension := dimension result;
           records_updated := rowcount;
           status := status result |}
  else ret result.

(* ------------------------------------------------------------------ *)
(** * The build coordinator *)
(* ------------------------------------------------------------------ *)

Record build_log := {
  warehouse_build_timestamp : string;
  dimensions_built : list (string * Z);
  fact_tables_built : list (string * Z);
  aggregates_built : list (string * Z);
  scd_updates : list (string * scd_result)
}.

(** Lookup in a dictionary kept in insertion order. *)
Fixpoint dict_get {V : Type} (k : string) (d : list (string * V)) : option V :=
  match d with
  | [] => None
  | (k', v) :: rest => if (k' =? k)%string then Some v else dict_get k rest
  end.

(** [str(x)] for a cell read from a DATE column. *)
Definition str (cell : option date) : string :=
  match cell with
  | None => "None"
  | Some d => isoformat d
  end.

(** [SELECT MIN(transaction_date), MAX(transaction_date)
     FROM production.transactions] *)
Definition select_date_range (src : sources) (_ : warehouse)
  : option date * option date :=
  (Sql.min (map t_transaction_date (transactions src)),
   Sql.max (map t_transaction_date (transactions src))).

(** The body of [with engine.begin() as conn] in [main].  The log is a
    local dictionary filled as the steps return; it is given here once all
    of them have. *)
Definition main_transaction (utcnow : string) : M build_log :=
  cust_count <- build_dim_customers ;;
  prod_count <- build_dim_products ;;
  date_range <- query SelectDateRange select_date_range ;;
  let min_date := fst date_range in
  let max_date := snd date_range in
  date_count <- build_dim_date (str min_date) (str max_date) ;;
  pm_count <- build_dim_payment_method ;;
  fact_count <- build_fact_sales ;;
  agg_daily <- build_agg_daily_sales ;;
  agg_prod <- build_agg_product_sales ;;
  agg_cust <- build_agg_customer_lifetime ;;
  scd_cust <- apply_scd_type2 "dim_customers" ;;
  scd_prod <- apply_scd_type2 "dim_products" ;;
  ret {| warehouse_build_timestamp := utcnow;
         dimensions_built :=
           [("dim_customers", cust_count); ("dim_products", prod_count);
            ("dim_date", date_count); ("dim_payment_method", pm_count)];
         fact_tables_built := [("fact_sales", fact_count)];
         aggregates_built :=
           [("agg_daily_sales", agg_daily); ("agg_product_sales", agg_prod);
            ("agg_customer_lifetime", agg_cust)];
         scd_updates :=
           [("dim_customers", scd_cust); ("dim_products", scd_prod)] |}.

(** What is durably stored. *)
Record database := {
  db_src : sources;
  db_wh : warehouse
}.

(** What the store does on a given day: its date and the statements it
    rejects. *)
Record store_behaviour := {
  today : date;
  rejects : statement -> bool
}.

Definition no_failure (_ : statement) : bool := false.

Definition connect (env : store_behaviour) (db : database) : connection :=
  {| conn_src := db_src db; conn_wh := db_wh db;
     CURRENT_DATE := today env; store_fails := rejects env;
     executed := [] |}.

(** [with engine.begin() as conn: body]: commit when the body returns, roll
    back and re-raise when it raises. *)
Definition engine_begin {A} (env : store_behaviour) (db : database)
           (body : M A) : database * result A :=
  match body (connect env db) with
  | Returns a c => ({| db_src := db_src db; db_wh := conn_wh c |}, Ok a)
  | Raises e => (db, Err e)
  end.

(** [main()]: the committed database after the call, and the returned log
    or the exception that escapes. *)
Definition main (utcnow : string) (env : store_behaviour) (db : database)
  : database * result build_log :=
  engine_begin env db (main_transaction utcnow).

(* ------------------------------------------------------------------ *)
(** * Properties of tables, connections and builds *)
(* ------------------------------------------------------------------ *)

Unset Implicit Arguments.

(** The rows of a table that are the current version of business key [k]. *)
Definition current_rows {R : Type} (key : R -> string) (current : R -> bool)
           (k : string) (table : list R) : list R :=
  filter (fun r => current r && (key r =? k)%string) table.

(** The two connections see the same sources, clock and store behaviour. *)
Definition same_context (c c' : connection) : Prop :=
  conn_src c' = conn_src c /\ CURRENT_DATE c' = CURRENT_DATE c
  /\ store_fails c' = store_fails c.

(** [preserves I m]: when [m] returns, [I] carries over from the warehouse
    the connection saw before to the one it sees after, and [m] leaves the
    context alone. *)
Definition preserves {A} (I : warehouse -> Prop) (m : M A) : Prop :=
  forall c a c', m c = Returns a c' ->
                 same_context c c' /\ (I (conn_wh c) -> I (conn_wh c')).

Definition current_customer_rows (customer_id : string) (w : warehouse)
  : list dim_customer :=
  current_rows dc_customer_id dc_is_current customer_id (dim_customers w).

Definition current_product_rows (product_id : string) (w : warehouse)
  : list dim_product :=
  current_rows dp_product_id dp_is_current product_id (dim_products w).

Definition at_most_one_current (w : warehouse) : Prop :=
  forall business_key,
    (List.length (current_customer_rows business_key w) <= 1)%nat
    /\ (List.length (current_product_rows business_key w) <= 1)%nat.

(** A build as the orchestration layer can start it: one of the dimension
    steps on its own, or the whole of [main], each in a transaction of its
    own. *)
Inductive build :=
| RunBuildDimCustomers
| RunBuildDimProducts
| RunApplyScdType2 (dimension_name : string)
| RunMain (utcnow : string).

Definition discard {A} (m : M A) : M unit := _ <- m ;; ret tt.

Definition build_body (b : build) : M unit :=
  match b with
  | RunBuildDimCustomers => discard build_dim_customers
  | RunBuildDimProducts => discard build_dim_products
  | RunApplyScdType2 dimension_name => discard (apply_scd_type2 dimension_name)
  | RunMain utcnow => discard (main_transaction utcnow)
  end.

(** One build against the sources as they are at that moment (they are
    written by other programs between builds). *)
Definition run_build (w : warehouse)
           (b : sources * store_behaviour * build) : warehouse :=
  let '(src, env, what) := b in
  db_wh (fst (engine_begin env {| db_src := src; db_wh := w |}
                           (build_body what))).

Definition run_builds (builds : list (sources * store_behaviour * build))
           (w : warehouse) : warehouse :=
  fold_left run_build builds w.

(** Statements that write neither dimension keep whatever holds of them. *)
Definition same_scd_dimensions (w w' : warehouse) : Prop :=
  dim_customers w' = dim_customers w /\ dim_products w' = dim_products w.

(** [executes m l]: whenever [m] returns, it has executed exactly the
    statements [l], in that order, and the store rejected none of them. *)
Definition executes {A} (m : M A) (l : list statement) : Prop :=
  forall c a c',
    m c = Returns a c' ->
    same_context c c'
    /\ executed c' = executed c ++ l
    /\ Forall (fun s => store_fails c s = false) l.

Definition main_statements : list statement :=
  [InsertDimCustomers; InsertDimProducts; SelectDateRange; InsertDimDate;
   InsertDimPaymentMethod; InsertFactSales; InsertAggDailySales;
   InsertAggProductSales; InsertAggCustomerLifetime; UpdateDimCustomers;
   UpdateDimProducts].

(** ** Orderings of the executed statements *)

Fixpoint position (s : statement) (trace : list statement) : option nat :=
  match trace with
  | [] => None
  | x :: rest =>
      if statement_eqb x s then Some O else option_map S (position s rest)
  end.

(** Both statements were executed, [a] before [b]. *)
Definition completes_before (a b : statement) (trace : list statement)
  : bool :=
  match position a trace, position b trace with
  | Some i, Some j => (i <? j)%nat
  | _, _ => false
  end.

Definition all_before (first second : list statement)
           (trace : list statement) : bool :=
  forallb (fun a => forallb (fun b => completes_before a b trace) second)
          first.

(** The statements of each component. *)
Definition scd_insertion : list statement :=
  [InsertDimCustomers; InsertDimProducts].
Definition scd_retirement : list statement :=
  [UpdateDimCustomers; UpdateDimProducts].
Definition date_dimension_generator : list statement := [InsertDimDate].
Definition reference_dimension_builder : list statement :=
  [InsertDimPaymentMethod].
Definition fact_loader : list statement := [InsertFactSales].
Definition aggregate_builder : list statement :=
  [InsertAggDailySales; InsertAggProductSales; InsertAggCustomerLifetime].

(** The order in which every dimension statement, retirement included,
    precedes the fact load, and the fact load precedes the aggregates. *)
Definition retirement_before_fact_order (trace : list statement) : bool :=
  all_before (scd_insertion ++ scd_retirement ++ date_dimension_generator
              ++ reference_dimension_builder) fact_loader trace
  && all_before fact_loader aggregate_builder trace.

(** The order in which the inserting dimension statements precede the fact
    load, the fact load precedes the aggregates, and the aggregates precede
    the retirements. *)
Definition retirement_last_order (trace : list statement) : bool :=
  all_before (scd_insertion ++ date_dimension_generator
              ++ reference_dimension_builder) fact_loader trace
  && all_before fact_loader aggregate_builder trace
  && all_before aggregate_builder scd_retirement trace.

(* ------------------------------------------------------------------ *)
(** * Sample data *)
(* ------------------------------------------------------------------ *)

Module Sample.

Definition a_customer (id : string) (active : bool) : customer :=
  {| c_customer_id := id; c_first_name := "Asha"; c_last_name := "Rao";
     c_email := "asha@example.com"; c_phone := "Unknown";
     c_city := "Pune"; c_state := "MH"; c_country := "India";
     c_age_group := "26-35"; c_registration_date := ymd2ord 2023 6 1;
     c_is_active := active |}.

Definition a_product (id : string) (active : bool) : product :=
  {| p_product_id := id; p_product_name := "Books Product 1";
     p_category := "Books"; p_sub_category := "General";
     p_price := 1500; p_cost := 700; p_brand := "Acme";
     p_is_active := active |}.

Definition a_transaction (id customer_id : string) (on : date)
           (payment_method : string) (total : numeric) : transaction :=
  {| t_transaction_id := id; t_customer_id := customer_id;
     t_transaction_date := on; t_payment_method := payment_method;
     t_shipping_address := "12 Hill Road"; t_total_amount := total |}.

Definition an_item (id transaction_id product_id : string) (quantity : Z)
           (line_total : numeric) : transaction_item :=
  {| ti_item_id := id; ti_transaction_id := transaction_id;
     ti_product_id := product_id; ti_quantity := quantity;
     ti_unit_price := 1500; ti_discount_percentage := 0;
     ti_line_total := line_total |}.

Definition jan (d : Z) : date := ymd2ord 2024 1 d.

(** Two customers buy the same product on 1 and 3 January 2024. *)
Definition day1 : sources :=
  let txns := [a_transaction "T1" "C1" (jan 1) "Net Banking" 3000;
               a_transaction "T2" "C2" (jan 3) "Cash on Delivery" 2000] in
  {| customers := [a_customer "C1" true; a_customer "C2" true];
     products := [a_product "P1" true];
     transactions := txns;
     transaction_items := [an_item "I1" "T1" "P1" 2 3000;
                           an_item "I2" "T2" "P1" 1 2000];
     staging_transactions := txns |}.

(** Later the first customer is deactivated and one more of their purchases
    arrives. *)
Definition day2 : sources :=
  let txns := [a_transaction "T3" "C1" (jan 4) "UPI" 1500] in
  {| customers := [a_customer "C1" false; a_customer "C2" true];
     products := [a_product "P1" true];
     transactions := txns;
     transaction_items := [an_item "I3" "T3" "P1" 1 1500];
     staging_transactions := txns |}.

(** Customers and products, but no transaction yet. *)
Definition no_transactions : sources :=
  {| customers := [a_customer "C1" true];
     products := [a_product "P1" true];
     transactions := [];
     transaction_items := [];
     staging_transactions := [] |}.

(** Two line items of different transactions carry the same [item_id]. *)
Definition shared_item_id : sources :=
  let txns := [a_transaction "T1" "C1" (jan 1) "UPI" 3000;
               a_transaction "T2" "C2" (jan 1) "UPI" 2000] in
  {| customers := [a_customer "C1" true; a_customer "C2" true];
     products := [a_product "P1" true];
     transactions := txns;
     transaction_items := [an_item "I1" "T1" "P1" 2 3000;
                           an_item "I1" "T2" "P1" 1 2000];
     staging_transactions := txns |}.

(** Later still the product is withdrawn, and the second customer has
    bought it once more on a day the date dimension already covers. *)
Definition product_withdrawn : sources :=
  let txns := [a_transaction "T4" "C2" (jan 3) "UPI" 1500] in
  {| customers := [a_customer "C1" true; a_customer "C2" true];
     products := [a_product "P1" false];
     transactions := txns;
     transaction_items := [an_item "I4" "T4" "P1" 1 1500];
     staging_transactions := txns |}.

(** A new transaction whose line item reuses the [item_id] of a line item
    of another transaction that is already loaded. *)
Definition reused_item_id : sources :=
  let txns := [a_transaction "T9" "C2" (jan 3) "UPI" 1500] in
  {| customers := [a_customer "C1" true; a_customer "C2" true];
     products := [a_product "P1" true];
     transactions := txns;
     transaction_items := [an_item "I1" "T9" "P1" 1 1500];
     staging_transactions := txns |}.

Definition healthy_store : store_behaviour :=
  {| today := ymd2ord 2024 2 1; rejects := no_failure |}.

(** A store that fails while the fact table is loaded. *)
Definition fact_load_fails : store_behaviour :=
  {| today := ymd2ord 2024 2 1;
     rejects := fun s => statement_eqb s InsertFactSales |}.

Definition fresh (src : sources) : database :=
  {| db_src := src; db_wh := empty_warehouse |}.

Definition utcnow : string := "2024-02-01T00:00:00".

(** The warehouse after a first successful build over [day1]. *)
Definition after_day1 : warehouse :=
  db_wh (fst (main utcnow healthy_store (fresh day1))).

(** That warehouse, with the sources then replaced by [day2]. *)
Definition second_day : database :=
  {| db_src := day2; db_wh := after_day1 |}.

(** What a build over [day1] commits when the store fails during the fact
    load. *)
Definition after_failed_fact_load : database :=
  fst (main utcnow fact_load_fails (fresh day1)).

(** The outcome of a build when there are no transactions. *)
Definition outcome_without_transactions : result build_log :=
  snd (main utcnow healthy_store (fresh no_transactions)).

(** The warehouse after a build over [shared_item_id]. *)
Definition after_shared_item_id : warehouse :=
  db_wh (fst (main utcnow healthy_store (fresh shared_item_id))).

(** A connection on the warehouse built over [day1], with the sources then
    replaced by [product_withdrawn]. *)
Definition after_withdrawal : connection :=
  connect healthy_store {| db_src := product_withdrawn; db_wh := after_day1 |}.

(** A connection on the warehouse built over [day1], with the sources then
    replaced by [reused_item_id]. *)
Definition after_reuse : connection :=
  connect healthy_store {| db_src := reused_item_id; db_wh := after_day1 |}.

(** The connection of a build over [day1] at the point where the four
    dimensions are built and the fact table is still empty. *)
Definition dimensions_only : M unit :=
  _ <- build_dim_customers ;;
  _ <- build_dim_products ;;
  _ <- build_dim_date "2024-01-01" "2024-01-03" ;;
  _ <- build_dim_payment_method ;;
  ret tt.

Definition before_fact_load : connection :=
  match dimensions_only (connect healthy_store (fresh day1)) with
  | Returns _ c => c
  | Raises _ => connect healthy_store (fresh day1)
  end.

End Sample.

(* ------------------------------------------------------------------ *)
(** * Views of the fact load *)
(* ------------------------------------------------------------------ *)

(** A row of the FROM clause of the fact load. *)
Definition joined : Type :=
  transaction_item * transaction * dim_customer * dim_product
  * dim_date_row * option dim_payment_method_row.

Definition line_item_of (j : joined) : transaction_item :=
  let '(ti, _, _, _, _, _) := j in ti.

Definition transaction_of (j : joined) : transaction :=
  let '(_, t, _, _, _, _) := j in t.

Definition customer_version_of (j : joined) : dim_customer :=
  let '(_, _, dc, _, _, _) := j in dc.

Definition product_version_of (j : joined) : dim_product :=
  let '(_, _, _, dp, _, _) := j in dp.

(** The joined rows that pass the WHERE clause: the line items a load
    appends, with the rows they were resolved against. *)
Definition loaded_by (src : sources) (w : warehouse) : list joined :=
  filter (fun j => not_yet_loaded w (line_item_of j)) (fact_sales_from src w).

(** Within production, line items that share an [item_id] belong to one
    transaction (as they do when [item_id] identifies the line item). *)
Definition item_id_names_transaction_in_production (src : sources) : Prop :=
  forall ti1 ti2,
    In ti1 (transaction_items src) -> In ti2 (transaction_items src) ->
    ti_item_id ti1 = ti_item_id ti2 ->
    ti_transaction_id ti1 = ti_transaction_id ti2.

(** Within the fact table, rows that share an [item_id] belong to one
    transaction. *)
Definition item_id_names_transaction (facts : list fact_sales_row) : Prop :=
  forall r1 r2,
    In r1 facts -> In r2 facts ->
    fs_item_id r1 = fs_item_id r2 ->
    fs_transaction_id r1 = fs_transaction_id r2.

(** The business key belongs to a deactivated production entity. *)
Definition deactivated_customer (src : sources) (customer_id : string)
  : Prop :=
  exists c, In c (customers src) /\ c_customer_id c = customer_id
            /\ c_is_active c = false.

Definition deactivated_product (src : sources) (product_id : string) : Prop :=
  exists p, In p (products src) /\ p_product_id p = product_id
            /\ p_is_active p = false.

(* ------------------------------------------------------------------ *)
(** * Payment-method normalisation, character by character *)
(* ------------------------------------------------------------------ *)




(* ------------------------------------------------------------------ *)
(** * Aggregates as sums over the fact table *)
(* ------------------------------------------------------------------ *)

(** The rows of a group, looked up by key. *)
Definition group_rows {R K : Type} (keq : K -> K -> bool) (k : K)
           (groups : list (K * list R)) : list R :=
  match find (fun g => keq (fst g) k) groups with
  | Some g => snd g
  | None => []
  end.

(** What a fold of [add_to_group] keeps true of the groups built from the
    rows seen so far. *)
Definition well_grouped {R K : Type} (keq : K -> K -> bool) (key : R -> K)
           (groups : list (K * list R)) (seen : list R) : Prop :=
  NoDup (map fst groups)
  /\ (forall k, group_rows keq k groups
                = filter (fun r => keq (key r) k) seen)
  /\ (forall k rs, In (k, rs) groups -> rs <> [])
  /\ (forall r, In r seen -> In (key r) (map fst groups)).










(* ------------------------------------------------------------------ *)
(** * Calendar notions the date dimension is checked against *)
(* ------------------------------------------------------------------ *)

(** The check that [month_day_of_yday] places day [n] of a year. *)
Definition month_day_ok (leapyear : bool) (n : Z) : bool :=
  let '(m, d) := month_day_of_yday leapyear n in
  (1 <=? m) && (m <=? 12) && (1 <=? d)
  && (d <=? DAYS_IN_MONTH m + (if (m =? 2) && leapyear then 1 else 0))
  && (DAYS_BEFORE_MONTH m + (if (2 <? m) && leapyear then 1 else 0) + d
      =? n + 1).

(** ISO 8601: a week runs from Monday to Sunday and belongs to the year
    its Thursday falls in; its number counts the Thursdays of that year up
    to its own. *)
Definition thursday_of_week (d : date) : date := d - dayofweek d + 3.

Definition iso_week_number (d : date) : Z :=
  let thursday := thursday_of_week d in
  (thursday - ymd2ord (year thursday) 1 1) / 7 + 1.

(** A day known to be a Monday. *)
Definition A_MONDAY : date := ymd2ord 2024 1 1.

(** The ceiling of [a / b], for positive [b]. *)
Definition ceiling_div (a b : Z) : Z := - ((- a) / b).

(** What the spec asks of the row of one calendar day. *)
Definition date_row_is_correct (r : dim_date_row) : Prop :=
  let d := dd_date_id r in
  ymd2ord (dd_year r) (dd_month r) (dd_day_of_month r) = d
  /\ 1 <= dd_month r <= 12
  /\ 1 <= dd_day_of_week r <= 7
  /\ dd_day_of_week r = (d - A_MONDAY) mod 7 + 1
  /\ dd_quarter r = ceiling_div (dd_month r) 3
  /\ dd_week_of_year r = iso_week_number d
  /\ (dd_is_weekend r = true
      <-> dd_day_of_week r = 6 \/ dd_day_of_week r = 7).

From Stdlib Require Import Qround Lqa.


(* ------------------------------------------------------------------ *)
(** * More views of the warehouse build *)
(* ------------------------------------------------------------------ *)

(** [r'] is [r] with, at most, its versioning flags rewritten: the keys,
    the descriptive attributes and the effective date are the same. *)
Definition same_customer_version (r r' : dim_customer) : Prop :=
  dc_customer_sk r' = dc_customer_sk r
  /\ dc_customer_id r' = dc_customer_id r
  /\ dc_first_name r' = dc_first_name r
  /\ dc_last_name r' = dc_last_name r
  /\ dc_email r' = dc_email r
  /\ dc_phone r' = dc_phone r
  /\ dc_city r' = dc_city r
  /\ dc_state r' = dc_state r
  /\ dc_country r' = dc_country r
  /\ dc_age_group r' = dc_age_group r
  /\ dc_registration_date r' = dc_registration_date r
  /\ dc_effective_date r' = dc_effective_date r.

Definition same_product_version (r r' : dim_product) : Prop :=
  dp_product_sk r' = dp_product_sk r
  /\ dp_product_id r' = dp_product_id r
  /\ dp_product_name r' = dp_product_name r
  /\ dp_category r' = dp_category r
  /\ dp_sub_category r' = dp_sub_category r
  /\ dp_price r' = dp_price r
  /\ dp_cost r' = dp_cost r
  /\ dp_brand r' = dp_brand r
  /\ dp_effective_date r' = dp_effective_date r.

(** The number of rows of a dimension that are flagged current. *)
Definition current_customers (w : warehouse) : Z :=
  Z.of_nat (List.length (filter dc_is_current (dim_customers w))).

Definition current_products (w : warehouse) : Z :=
  Z.of_nat (List.length (filter dp_is_current (dim_products w))).

(** The payment-method rows whose id is [id]. *)
Definition payment_method_rows (id : string) (w : warehouse)
  : list dim_payment_method_row :=
  filter (fun r => (dpm_payment_method_id r =? id)%string)
         (dim_payment_method w).

(** The fact row [fs] was resolved, in warehouse [w], from line item [ti] of
    transaction [t] against the customer version [dc], the product version
    [dp] and the date row [dd]. *)
Definition resolved_from (src : sources) (w : warehouse)
           (fs : fact_sales_row) (ti : transaction_item) (t : transaction)
           (dc : dim_customer) (dp : dim_product) (dd : dim_date_row)
  : Prop :=
  (In ti (transaction_items src) /\ In t (transactions src)
   /\ ti_transaction_id ti = t_transaction_id t)
  /\ (In dc (dim_customers w) /\ dc_is_current dc = true
      /\ dc_customer_id dc = t_customer_id t)
  /\ (In dp (dim_products w) /\ dp_is_current dp = true
      /\ dp_product_id dp = ti_product_id ti)
  /\ (In dd (dim_date w) /\ dd_date_id dd = t_transaction_date t)
  /\ fs_item_id fs = ti_item_id ti
  /\ fs_transaction_id fs = t_transaction_id t
  /\ fs_customer_sk fs = dc_customer_sk dc
  /\ fs_product_sk fs = dp_product_sk dp
  /\ fs_date_sk fs = dd_date_sk dd
  /\ fs_quantity fs = ti_quantity ti
  /\ fs_unit_price fs = ti_unit_price ti
  /\ fs_discount_percentage fs = ti_discount_percentage ti
  /\ fs_line_total fs = ti_line_total ti
  /\ fs_transaction_total fs = t_total_amount t
  /\ fs_shipping_address fs = t_shipping_address t.

(** The payment-method key of [fs] is that of a dimension row whose id is
    the normalised label of [t], or NULL when the dimension has no such
    row. *)
Definition payment_method_resolved (w : warehouse) (fs : fact_sales_row)
           (t : transaction) : Prop :=
  match fs_payment_method_sk fs with
  | Some sk =>
      exists m, In m (dim_payment_method w)
                /\ dpm_payment_method_id m
                   = payment_method_id (t_payment_method t)
                /\ dpm_payment_method_sk m = sk
  | None =>
      forall m, In m (dim_payment_method w) ->
                dpm_payment_method_id m
                <> payment_method_id (t_payment_method t)
  end.

(* ------------------------------------------------------------------ *)
(** * More sample data *)
(* ------------------------------------------------------------------ *)

Module MoreSamples.

(** The sources of [Sample.day1] with nothing staged: the payment-method
    dimension stays empty. *)
Definition nothing_staged : sources :=
  {| customers := customers Sample.day1;
     products := products Sample.day1;
     transactions := transactions Sample.day1;
     transaction_items := transaction_items Sample.day1;
     staging_transactions := [] |}.

(** A connection over these sources with the dimensions built and the fact
    table still empty. *)
Definition before_fact_load : connection :=
  match Sample.dimensions_only
          (connect Sample.healthy_store (Sample.fresh nothing_staged)) with
  | Returns _ c => c
  | Raises _ => connect Sample.healthy_store (Sample.fresh nothing_staged)
  end.

(** Two staged transactions whose labels differ only in case. *)
Definition lower_case_label : transaction :=
  Sample.a_transaction "T1" "C1" (Sample.jan 1) "upi" 3000.

Definition upper_case_label : transaction :=
  Sample.a_transaction "T2" "C2" (Sample.jan 3) "UPI" 2000.

Definition mixed_case_labels : sources :=
  {| customers := customers Sample.day1;
     products := products Sample.day1;
     transactions := [lower_case_label; upper_case_label];
     transaction_items := transaction_items Sample.day1;
     staging_transactions := [lower_case_label; upper_case_label] |}.

(** A connection over [Sample.day1] with the dimensions built, the date
    range appended a second time, and the fact table still empty. *)
Definition doubled_dates : connection :=
  match build_dim_date "2024-01-01" "2024-01-03" Sample.before_fact_load with
  | Returns _ c => c
  | Raises _ => Sample.before_fact_load
  end.


End MoreSamples.

(** Two warehouses that differ at most in the two SCD dimensions. *)
Definition same_outside_scd_dimensions (w w' : warehouse) : Prop :=
  dim_date w' = dim_date w
  /\ dim_payment_method w' = dim_payment_method w
  /\ fact_sales w' = fact_sales w
  /\ agg_daily_sales w' = agg_daily_sales w
  /\ agg_product_sales w' = agg_product_sales w
  /\ agg_customer_lifetime w' = agg_customer_lifetime w
  /\ customer_sk_seq w' = customer_sk_seq w
  /\ product_sk_seq w' = product_sk_seq w
  /\ date_sk_seq w' = date_sk_seq w
  /\ payment_method_sk_seq w' = payment_method_sk_seq w.

(** Row by row, [rows'] holds the same customer versions as [rows]; a row
    is rewritten only if it was current, and then it no longer is. *)
Definition customer_history_kept (rows rows' : list dim_customer) : Prop :=
  List.length rows' = List.length rows
  /\ forall i r,
      nth_error rows i = Some r ->
      exists r',
        nth_error rows' i = Some r'
        /\ same_customer_version r r'
        /\ (r' = r \/ (dc_is_current r = true /\ dc_is_current r' = false)).

Definition product_history_kept (rows rows' : list dim_product) : Prop :=
  List.length rows' = List.length rows
  /\ forall i r,
      nth_error rows i = Some r ->
      exists r',
        nth_error rows' i = Some r'
        /\ same_product_version r r'
        /\ (r' = r \/ (dp_is_current r = true /\ dp_is_current r' = false)).

(* ------------------------------------------------------------------ *)
(** * The build report against the tables *)
(* ------------------------------------------------------------------ *)

Definition rows {R : Type} (table : list R) : Z := Z.of_nat (List.length table).

(** The sizes of the eight tables, and the numbers of current customer and
    product versions. *)
Definition census (w : warehouse) : list Z :=
  [rows (dim_customers w); rows (dim_products w); rows (dim_date w);
   rows (dim_payment_method w); rows (fact_sales w);
   rows (agg_daily_sales w); rows (agg_product_sales w);
   rows (agg_customer_lifetime w);
   current_customers w; current_products w].

Definition add_census (sizes changes : list Z) : list Z :=
  map (fun p => fst p + snd p) (combine sizes changes).

(** The report [log] of a build that took the warehouse from [w] to [w']
    states, for every table, the number of rows the build added to it, and
    for every SCD dimension the number of versions the build retired. *)
Definition report_matches (log : build_log) (w w' : warehouse) : Prop :=
  dimensions_built log
  = [("dim_customers", rows (dim_customers w') - rows (dim_customers w));
     ("dim_products", rows (dim_products w') - rows (dim_products w));
     ("dim_date", rows (dim_date w') - rows (dim_date w));
     ("dim_payment_method",
      rows (dim_payment_method w') - rows (dim_payment_method w))]
  /\ fact_tables_built log
     = [("fact_sales", rows (fact_sales w') - rows (fact_sales w))]
  /\ aggregates_built log
     = [("agg_daily_sales",
         rows (agg_daily_sales w') - rows (agg_daily_sales w));
        ("agg_product_sales",
         rows (agg_product_sales w') - rows (agg_product_sales w));
        ("agg_customer_lifetime",
         rows (agg_customer_lifetime w') - rows (agg_customer_lifetime w))]
  /\ scd_updates log
     = [("dim_customers",
         {| dimension := "dim_customers";
            records_updated :=
              current_customers w
              + (rows (dim_customers w') - rows (dim_customers w))
              - current_customers w';
            status := "success" |});
        ("dim_products",
         {| dimension := "dim_products";
            records_updated :=
              current_products w
              + (rows (dim_products w') - rows (dim_products w))
              - current_products w';
            status := "success" |})].

(* ------------------------------------------------------------------ *)
(** * The pipeline orchestrator ([scripts/pipeline_orchestrator.py]) *)
(* ------------------------------------------------------------------ *)

(** The orchestrator calls five steps in a world [W] it does not look into
    (the store, the files, the clock).  A step either returns a value or
    raises an exception, of which the orchestrator uses the message and the
    formatted traceback; either way the world may have changed.  [value] is
    what a step's result looks like once it is put in the log.  Logger
    output is left out. *)
Module Orchestrator.

Section Pipeline.
Context {W value : Type}.

Inductive step_outcome :=
| StepReturns (result : value)
| StepRaises (message traceback : string).

(** An entry of [execution_log["steps"]]. *)
Record step_record := {
  step_status : string;
  step_timestamp : string;
  step_result : option value;
  step_error : option string
}.

Record execution_log := {
  pipeline_start : string;
  steps : list (string * step_record);
  overall_status : string;
  errors : list string;
  pipeline_end : option string
}.

(** What the orchestrator is connected to. *)
Record environment := {
  utcnow : W -> string;
  make_directories : W -> W;
  save_execution_log : execution_log -> W -> W;
  generate_data : W -> W * step_outcome;
  ingest_to_staging : W -> W * step_outcome;
  validate_data : W -> W * step_outcome;
  staging_to_production : W -> W * step_outcome;
  load_warehouse : W -> W * step_outcome
}.

(** [d[k] = v] on a dictionary kept in insertion order. *)
Fixpoint dict_set {V : Type} (k : string) (v : V) (d : list (string * V))
  : list (string * V) :=
  match d with
  | [] => [(k, v)]
  | (k', v') :: rest =>
      if (k' =? k)%string then (k, v) :: rest
      else (k', v') :: dict_set k v rest
  end.

Definition set_step (step_name : string) (r : step_record)
           (log : execution_log) : execution_log :=
  {| pipeline_start := pipeline_start log;
     steps := dict_set step_name r (steps log);
     overall_status := overall_status log;
     errors := errors log;
     pipeline_end := pipeline_end log |}.

Definition append_error (error_msg : string) (log : execution_log)
  : execution_log :=
  {| pipeline_start := pipeline_start log;
     steps := steps log;
     overall_status := overall_status log;
     errors := errors log ++ [error_msg];
     pipeline_end := pipeline_end log |}.

Definition set_overall_status (s : string) (log : execution_log)
  : execution_log :=
  {| pipeline_start := pipeline_start log;
     steps := steps log;
     overall_status := s;
     errors := errors log;
     pipeline_end := pipeline_end log |}.

Definition set_pipeline_end (t : string) (log : execution_log)
  : execution_log :=
  {| pipeline_start := pipeline_start log;
     steps := steps log;
     overall_status := overall_status log;
     errors := errors log;
     pipeline_end := Some t |}.

(** [PipelineOrchestrator.__init__]: the new orchestrator's log, and the
    world with the directories made. *)
Definition init (env : environment) (w : W) : execution_log * W :=
  ({| pipeline_start := utcnow env w;
      steps := [];
      overall_status := "pending";
      errors := [];
      pipeline_end := None |},
   make_directories env w).

(** [run_step]: the flag it returns, the log and the world afterwards. *)
Definition run_step (env : environment) (step_name : string)
           (step_func : W -> W * step_outcome)
           (log : execution_log) (w : W) : bool * execution_log * W :=
  match step_func w with
  | (w', StepReturns result) =>
      (true,
       set_step step_name
                {| step_status := "success";
                   step_timestamp := utcnow env w';
                   step_result := Some result;
                   step_error := None |} log,
       w')
  | (w', StepRaises message traceback) =>
      let error_msg :=
        String.append step_name
          (String.append " failed: "
             (String.append message
                (String (ascii_of_nat 10) traceback))) in
      (false,
       append_error error_msg
         (set_step step_name
                   {| step_status := "failed";
                      step_timestamp := utcnow env w';
                      step_result := None;
                      step_error := Some message |} log),
       w')
  end.

(** [execute_pipeline], on the orchestrator's log [log]. *)
Definition execute_pipeline (env : environment) (log : execution_log) (w : W)
  : execution_log * W :=
  let all_success := true in
  let '(ok, log, w) :=
    run_step env "data_generation" (generate_data env) log w in
  let all_success := if ok then all_success else false in
  let '(ok, log, w) :=
    run_step env "ingestion_to_staging" (ingest_to_staging env) log w in
  if negb ok then
    let log := set_overall_status "failed" log in
    (log, save_execution_log env log w)
  else
  let '(ok, log, w) :=
    run_step env "data_quality_validation" (validate_data env) log w in
  let all_success := if ok then all_success else false in
  let '(ok, log, w) :=
    run_step env "staging_to_production_transform"
             (staging_to_production env) log w in
  if negb ok then
    let log := set_overall_status "failed" log in
    (log, save_execution_log env log w)
  else
  let '(ok, log, w) :=
    run_step env "warehouse_load" (load_warehouse env) log w in
  let all_success := if ok then all_success else false in
  let log := set_pipeline_end (utcnow env w) log in
  let log :=
    set_overall_status
      (if all_success then "success" else "completed_with_warnings") log in
  (log, save_execution_log env log w).

(** [main]: the exit code. *)
Definition main (env : environment) (w : W) : Z * W :=
  let '(orchestrator, w) := init env w in
  let '(result, w) := execute_pipeline env orchestrator w in
  ((if (overall_status result =? "success")%string then 0 else 1), w).

(** What [main] has [execute_pipeline] return. *)
Definition pipeline_result (env : environment) (w : W) : execution_log * W :=
  execute_pipeline env (fst (init env w)) (snd (init env w)).

(** The worlds the steps are run in, one after the other. *)
Definition world_after_generation (env : environment) (w : W) : W :=
  fst (generate_data env (make_directories env w)).
Definition world_after_ingestion (env : environment) (w : W) : W :=
  fst (ingest_to_staging env (world_after_generation env w)).
Definition world_after_validation (env : environment) (w : W) : W :=
  fst (validate_data env (world_after_ingestion env w)).
Definition world_after_transformation (env : environment) (w : W) : W :=
  fst (staging_to_production env (world_after_validation env w)).
Definition world_after_warehouse_load (env : environment) (w : W) : W :=
  fst (load_warehouse env (world_after_transformation env w)).

Definition returns (o : step_outcome) : bool :=
  match o with
  | StepReturns _ => true
  | StepRaises _ _ => false
  end.

(** Whether each step, run in its turn, returns. *)
Definition generation_ok (env : environment) (w : W) : bool :=
  returns (snd (generate_data env (make_directories env w))).
Definition ingestion_ok (env : environment) (w : W) : bool :=
  returns (snd (ingest_to_staging env (world_after_generation env w))).
Definition validation_ok (env : environment) (w : W) : bool :=
  returns (snd (validate_data env (world_after_ingestion env w))).
Definition transformation_ok (env : environment) (w : W) : bool :=
  returns (snd (staging_to_production env (world_after_validation env w))).
Definition warehouse_load_ok (env : environment) (w : W) : bool :=
  returns (snd (load_warehouse env (world_after_transformation env w))).

(** The names of the five steps, in the order of [execute_pipeline]. *)
Definition step_names : list string :=
  ["data_generation"; "ingestion_to_staging"; "data_quality_validation";
   "staging_to_production_transform"; "warehouse_load"].

(** The entries of the log that record a failed step. *)
Definition failed_steps (log : execution_log) : list (string * step_record) :=
  filter (fun e => (step_status (snd e) =? "failed")%string) (steps log).

(** An entry is well formed: a successful step has a result and no error, a
    failed one an error and no result. *)
Definition well_formed_record (r : step_record) : Prop :=
  (step_status r = "success" /\ step_result r <> None /\ step_error r = None)
  \/ (step_status r = "failed" /\ step_result r = None
      /\ step_error r <> None).

(** Two environments agree up to the ingestion step. *)
Definition same_until_ingestion (env env' : environment) : Prop :=
  utcnow env = utcnow env'
  /\ make_directories env = make_directories env'
  /\ save_execution_log env = save_execution_log env'
  /\ generate_data env = generate_data env'
  /\ ingest_to_staging env = ingest_to_staging env'.

(** Two environments agree up to the transformation step. *)
Definition same_until_transformation (env env' : environment) : Prop :=
  same_until_ingestion env env'
  /\ validate_data env = validate_data env'
  /\ staging_to_production env = staging_to_production env'.

End Pipeline.

Arguments step_outcome : clear implicits.
Arguments step_record : clear implicits.
Arguments execution_log : clear implicits.
Arguments environment : clear implicits.

End Orchestrator.

(** [main()] of load_warehouse.py from its first line to its last.  Around
    the transaction of [main] above it has [_get_engine()], which reads
    config/config.yaml and can raise before anything is executed, and,
    after the commit, the lines that make data/processed, write
    warehouse_build_report.json and print, which can raise with the build
    already committed. *)
Record build_files := {
  engine_created : bool;
  report_written : build_log -> bool
}.

Inductive build_outcome :=
| BuildReturns (log : build_log)
| BuildRaisesBeforeCommit
| BuildRaisesAfterCommit (log : build_log).

Definition main_and_report (files : build_files) (utcnow : string)
           (env : store_behaviour) (db : database)
  : database * build_outcome :=
  if engine_created files then
    match main utcnow env db with
    | (db', Ok log) =>
        (db', if report_written files log
              then BuildReturns log
              else BuildRaisesAfterCommit log)
    | (db', Err _) => (db', BuildRaisesBeforeCommit)
    end
  else (db, BuildRaisesBeforeCommit).

(** The orchestrator's warehouse step is [load_warehouse.main]: seen through
    [db_of], [store_of], [files_of] and [now], a call of [step] leaves the
    database [main_and_report] leaves, and raises exactly when it does. *)
Definition runs_warehouse_build {W value : Type}
           (db_of : W -> database) (store_of : W -> store_behaviour)
           (files_of : W -> build_files) (now : W -> string)
           (step : W -> W * Orchestrator.step_outcome value) : Prop :=
  forall w,
    let build := main_and_report (files_of w) (now w) (store_of w) (db_of w) in
    db_of (fst (step w)) = fst build
    /\ Orchestrator.returns (snd (step w))
       = match snd build with
         | BuildReturns _ => true
         | _ => false
         end.

(** Writing the execution log does not touch the database. *)
Definition save_keeps_database {W value : Type} (db_of : W -> database)
           (env : Orchestrator.environment W value) : Prop :=
  forall log w,
    db_of (Orchestrator.save_execution_log env log w) = db_of w.

Module PipelineSample.

(** A world that is just the database; the clock is stopped. *)
Definition step_that_returns
  : database -> database * Orchestrator.step_outcome build_log :=
  fun db =>
    (db,
     Orchestrator.StepReturns
       {| warehouse_build_timestamp := "";
          dimensions_built := [];
          fact_tables_built := [];
          aggregates_built := [];
          scd_updates := [] |}).

Definition step_that_raises
  : database -> database * Orchestrator.step_outcome build_log :=
  fun db => (db, Orchestrator.StepRaises "connection refused" "Traceback").

(** The report file can always be written, or never. *)
Definition files (writable : bool) : build_files :=
  {| engine_created := true; report_written := fun _ => writable |}.

Definition warehouse_step_with (writable : bool) (store : store_behaviour)
  : database -> database * Orchestrator.step_outcome build_log :=
  fun db =>
    match main_and_report (files writable) Sample.utcnow store db with
    | (db', BuildReturns log) => (db', Orchestrator.StepReturns log)
    | (db', BuildRaisesBeforeCommit) =>
        (db', Orchestrator.StepRaises "statement rejected" "Traceback")
    | (db', BuildRaisesAfterCommit _) =>
        (db', Orchestrator.StepRaises "Permission denied" "Traceback")
    end.

Definition warehouse_step (store : store_behaviour)
  : database -> database * Orchestrator.step_outcome build_log :=
  warehouse_step_with true store.

Definition pipeline_with (writable : bool) (store : store_behaviour)
           (ingest transform
            : database -> database * Orchestrator.step_outcome build_log)
  : Orchestrator.environment database build_log :=
  {| Orchestrator.utcnow := fun _ => Sample.utcnow;
     Orchestrator.make_directories := fun db => db;
     Orchestrator.save_execution_log := fun _ db => db;
     Orchestrator.generate_data := step_that_returns;
     Orchestrator.ingest_to_staging := ingest;
     Orchestrator.validate_data := step_that_raises;
     Orchestrator.staging_to_production := transform;
     Orchestrator.load_warehouse := warehouse_step_with writable store |}.

Definition pipeline (store : store_behaviour)
           (ingest transform
            : database -> database * Orchestrator.step_outcome build_log)
  : Orchestrator.environment database build_log :=
  pipeline_with true store ingest transform.

End PipelineSample.

(* ------------------------------------------------------------------ *)
(** * Data quality checks ([scripts/quality_checks/validate_data.py]) *)
(* ------------------------------------------------------------------ *)

Module Quality.

(** The columns the checks read; a NULL cell is [None].  Numeric columns
    are exact rationals, a date is its ordinal. *)
Record customer := {
  customer_id : option string;
  email : option string;
  first_name : option string;
  last_name : option string
}.

Record product := {
  product_id : option string;
  product_name : option string;
  price : option Q;
  cost : option Q
}.

Record transaction := {
  transaction_id : option string;
  t_customer_id : option string;
  transaction_date : option Z
}.

Record transaction_item := {
  item_id : option string;
  ti_transaction_id : option string;
  ti_product_id : option string;
  quantity : option Z;
  discount_percentage : option Q
}.

(** The four tables of a schema. *)
Record tables := {
  customers : list customer;
  products : list product;
  transactions : list transaction;
  transaction_items : list transaction_item
}.

(** What the result dictionaries of the four checks hold: integers,
    strings and dictionaries.  Other Python values (a float, a list,
    [None]) are not among them and are not modelled. *)
Unset Elimination Schemes.
Inductive value :=
| VInt (n : Z)
| VStr (s : string)
| VDict (d : list (string * value)).
Set Elimination Schemes.

Definition is_null {A : Type} (cell : option A) : bool :=
  match cell with
  | None => true
  | Some _ => false
  end.

(** SQL's three-valued logic: [None] is unknown. *)
Definition sql_or (a b : option bool) : option bool :=
  match a, b with
  | Some true, _ => Some true
  | _, Some true => Some true
  | Some false, Some false => Some false
  | _, _ => None
  end.

Definition sql_cmp {A : Type} (cmp : A -> A -> bool) (a b : option A)
  : option bool :=
  match a, b with
  | Some x, Some y => Some (cmp x y)
  | _, _ => None
  end.

(** A WHERE or ON clause keeps a row when its condition is true. *)
Definition is_true (c : option bool) : bool :=
  match c with
  | Some true => true
  | _ => false
  end.

Definition Qlt_bool (x y : Q) : bool := negb (Qle_bool y x).

Definition option_eqb (a b : option string) : bool :=
  match a, b with
  | Some x, Some y => (x =? y)%string
  | None, None => true
  | _, _ => false
  end.

(** [SELECT COUNT(...) FROM rows WHERE col IS NULL] *)
Definition count_null {R A : Type} (col : R -> option A) (rows : list R) : Z :=
  Z.of_nat (List.length (filter (fun r => is_null (col r)) rows)).

(** The number of keys that [GROUP BY key HAVING COUNT(...) > 1] leaves;
    NULL keys make one group. *)
Definition count_duplicated {R : Type} (key : R -> option string)
           (rows : list R) : Z :=
  Z.of_nat
    (List.length
       (filter (fun g => 1 <? Z.of_nat (List.length (snd g)))
               (Sql.group_by option_eqb key rows))).

(** The number of rows of [l LEFT JOIN r ON fk = pk WHERE pk IS NULL]. *)
Definition count_orphans {L R : Type} (fk : L -> option string)
           (pk : R -> option string) (l : list L) (r : list R) : Z :=
  Z.of_nat
    (List.length
       (filter (fun row => match snd row with
                           | None => true
                           | Some parent => is_null (pk parent)
                           end)
               (Sql.left_join
                  (fun child parent =>
                     is_true (sql_cmp String.eqb (fk child) (pk parent)))
                  l r))).

Definition count_where {R : Type} (cond : R -> option bool) (rows : list R)
  : Z :=
  Z.of_nat (List.length (filter (fun r => is_true (cond r)) rows)).

Definition passed_or_failed (violations : Z) : value :=
  VStr (if 0 <? violations then "failed" else "passed").

Definition table_key (schema table : string) : string :=
  String.append schema (String.append "." table).

(** [check_null_values] *)
Definition check_null_values (schema : string) (db : tables) : value :=
  let details :=
    [(table_key schema "customers",
      [("customer_id", count_null customer_id (customers db));
       ("email", count_null email (customers db));
       ("first_name", count_null first_name (customers db));
       ("last_name", count_null last_name (customers db))]);
     (table_key schema "products",
      [("product_id", count_null product_id (products db));
       ("product_name", count_null product_name (products db));
       ("price", count_null price (products db));
       ("cost", count_null cost (products db))]);
     (table_key schema "transactions",
      [("transaction_id", count_null transaction_id (transactions db));
       ("customer_id", count_null t_customer_id (transactions db));
       ("transaction_date", count_null transaction_date (transactions db))]);
     (table_key schema "transaction_items",
      [("item_id", count_null item_id (transaction_items db));
       ("transaction_id",
        count_null ti_transaction_id (transaction_items db));
       ("product_id", count_null ti_product_id (transaction_items db));
       ("quantity", count_null quantity (transaction_items db))])] in
  let null_violations :=
    Sql.sum (flat_map (fun t => map snd (snd t)) details) in
  VDict
    [("status", passed_or_failed null_violations);
     ("schema", VStr schema);
     ("null_violations", VInt null_violations);
     ("details",
      VDict (map (fun t =>
                    (fst t,
                     VDict (map (fun c => (fst c, VInt (snd c))) (snd t))))
                 details))].

(** [check_duplicates] *)
Definition check_duplicates (schema : string) (db : tables) : value :=
  let details :=
    [(table_key schema "customers",
      count_duplicated customer_id (customers db));
     (table_key schema "products",
      count_duplicated product_id (products db));
     (table_key schema "transactions",
      count_duplicated transaction_id (transactions db));
     (table_key schema "transaction_items",
      count_duplicated item_id (transaction_items db))] in
  let duplicates_found := Sql.sum (map snd details) in
  VDict
    [("status", passed_or_failed duplicates_found);
     ("schema", VStr schema);
     ("duplicates_found", VInt duplicates_found);
     ("details", VDict (map (fun t => (fst t, VInt (snd t))) details))].

(** [check_referential_integrity] *)
Definition check_referential_integrity (schema : string) (db : tables)
  : value :=
  let orphan_txn_cust :=
    count_orphans t_customer_id customer_id (transactions db) (customers db) in
  let orphan_items_txn :=
    count_orphans ti_transaction_id transaction_id
                  (transaction_items db) (transactions db) in
  let orphan_items_prod :=
    count_orphans ti_product_id product_id
                  (transaction_items db) (products db) in
  let orphan_records :=
    0 + orphan_txn_cust + orphan_items_txn + orphan_items_prod in
  VDict
    [("status", passed_or_failed orphan_records);
     ("schema", VStr schema);
     ("orphan_records", VInt orphan_records);
     ("details",
      VDict [("transactions_customer_fk", VInt orphan_txn_cust);
             ("transaction_items_transaction_fk", VInt orphan_items_txn);
             ("transaction_items_product_fk", VInt orphan_items_prod)])].

(** [check_data_ranges] *)
Definition check_data_ranges (CURRENT_DATE : Z) (schema : string)
           (db : tables) : value :=
  let prod_viol :=
    count_where
      (fun p =>
         sql_or (sql_or (sql_cmp Qle_bool (price p) (Some 0%Q))
                        (sql_cmp Qlt_bool (cost p) (Some 0%Q)))
                (sql_cmp Qle_bool (price p) (cost p)))
      (products db) in
  let item_viol :=
    count_where
      (fun i =>
         sql_or (sql_or (sql_cmp Z.leb (quantity i) (Some 0))
                        (sql_cmp Qlt_bool (discount_percentage i)
                                 (Some 0%Q)))
                (sql_cmp Qlt_bool (Some 100%Q) (discount_percentage i)))
      (transaction_items db) in
  let txn_viol :=
    count_where
      (fun t => sql_cmp Z.ltb (Some CURRENT_DATE) (transaction_date t))
      (transactions db) in
  let violations := 0 + prod_viol + item_viol + txn_viol in
  VDict
    [("status", passed_or_failed violations);
     ("schema", VStr schema);
     ("violations", VInt violations);
     ("details",
      VDict [("products_price_cost", VInt prod_viol);
             ("transaction_items_quantity_discount", VInt item_viol);
             ("transactions_future_dates", VInt txn_viol)])].

(** [d.get(key, default)]; [None] when [d] is no dictionary. *)
Definition get (key : string) (default : value) (d : value) : option value :=
  match d with
  | VDict entries =>
      Some (match dict_get key entries with
            | Some v => v
            | None => default
            end)
  | _ => None
  end.

(** [max(a, b)] of two numbers. *)
Definition py_max (a b : Q) : Q := if Qlt_bool a b then b else a.

(** [100.0 if viol == 0 else max(0.0, 100.0 - viol * penalty)]; [None] when
    [viol] is no number. *)
Definition dimension_score (penalty : Z) (viol : value) : option Q :=
  match viol with
  | VInt n =>
      Some (if n =? 0 then 100%Q
            else py_max 0%Q (100%Q - inject_Z (n * penalty))%Q)
  | _ => None
  end.

(** [round(x, 2)]: to the nearest hundredth, ties to the even one. *)
Definition round_half_even (q : Q) : Z :=
  let f := Qfloor q in
  match (q - inject_Z f ?= 1 # 2)%Q with
  | Lt => f
  | Gt => f + 1
  | Eq => if Z.even f then f else f + 1
  end.

Definition round2 (q : Q) : Q :=
  (inject_Z (round_half_even (q * 100)) / 100)%Q.

Definition obind {A B : Type} (x : option A) (k : A -> option B) : option B :=
  match x with
  | Some a => k a
  | None => None
  end.

(** [calculate_quality_score]; [None] when it raises.  The floats are kept
    as exact rationals: for counts below 2^53 every value that occurs is a
    multiple of 1/4 that a float holds exactly. *)
Definition calculate_quality_score (check_results : list (string * value))
  : option Q :=
  let weights :=
    [("null_checks", 1 # 4); ("duplicate_checks", 1 # 4);
     ("range_checks", 1 # 4); ("referential_integrity", 1 # 4)]%Q in
  let weight key :=
    match dict_get key weights with Some x => x | None => 0%Q end in
  let score := 0%Q in
  obind (get "null_checks" (VDict []) (VDict check_results)) (fun null_res =>
  obind (get "null_violations" (VInt 0) null_res) (fun null_viol =>
  obind (dimension_score 1 null_viol) (fun null_score =>
  let score := (score + null_score * weight "null_checks")%Q in
  obind (get "duplicate_checks" (VDict []) (VDict check_results))
        (fun dup_res =>
  obind (get "duplicates_found" (VInt 0) dup_res) (fun dup_viol =>
  obind (dimension_score 1 dup_viol) (fun dup_score =>
  let score := (score + dup_score * weight "duplicate_checks")%Q in
  obind (get "range_checks" (VDict []) (VDict check_results))
        (fun range_res =>
  obind (get "violations" (VInt 0) range_res) (fun range_viol =>
  obind (dimension_score 1 range_viol) (fun range_score =>
  let score := (score + range_score * weight "range_checks")%Q in
  obind (get "referential_integrity" (VDict []) (VDict check_results))
        (fun ri_res =>
  obind (get "orphan_records" (VInt 0) ri_res) (fun orphan_viol =>
  obind (dimension_score 5 orphan_viol) (fun ri_score =>
  let score := (score + ri_score * weight "referential_integrity")%Q in
  Some (round2 score))))))))))))).

Record quality_report := {
  check_timestamp : string;
  checks_performed : list (string * value);
  overall_quality_score : Q;
  quality_grade : string
}.

(** [main]: the report it writes for the staging schema; [None] when the
    score cannot be computed. *)
Definition main (utcnow : string) (CURRENT_DATE : Z) (staging : tables)
  : option quality_report :=
  let null_checks := check_null_values "staging" staging in
  let duplicate_checks := check_duplicates "staging" staging in
  let referential_integrity :=
    check_referential_integrity "staging" staging in
  let range_checks := check_data_ranges CURRENT_DATE "staging" staging in
  let check_results :=
    [("null_checks", null_checks);
     ("duplicate_checks", duplicate_checks);
     ("referential_integrity", referential_integrity);
     ("range_checks", range_checks)] in
  obind (calculate_quality_score check_results) (fun overall_quality_score =>
  let quality_grade := "A" in
  let quality_grade :=
    if Qlt_bool overall_quality_score 90 then "B" else quality_grade in
  let quality_grade :=
    if Qlt_bool overall_quality_score 75 then "C" else quality_grade in
  let quality_grade :=
    if Qlt_bool overall_quality_score 60 then "D" else quality_grade in
  let quality_grade :=
    if Qlt_bool overall_quality_score 40 then "F" else quality_grade in
  Some {| check_timestamp := utcnow;
          checks_performed := check_results;
          overall_quality_score := overall_quality_score;
          quality_grade := quality_grade |}).

(** The integer a result dictionary holds under [key]; 0 when it has none. *)
Definition count_in (key : string) (result : value) : Z :=
  match get key (VInt 0) result with
  | Some (VInt n) => n
  | _ => 0
  end.

(** The status a result dictionary holds. *)
Definition status_in (result : value) : string :=
  match get "status" (VStr "") result with
  | Some (VStr s) => s
  | _ => ""
  end.

(** The count [calculate_quality_score] reads for a check: 0 when the check
    or its count is missing, the count when it is an integer, and nothing
    when the check is a number or a string or the count a string or a
    dictionary. *)
Definition count_read (check count : string)
           (check_results : list (string * value)) : option Z :=
  match dict_get check check_results with
  | None => Some 0
  | Some (VDict d) =>
      match dict_get count d with
      | None => Some 0
      | Some (VInt n) => Some n
      | Some _ => None
      end
  | Some _ => None
  end.

(** The points of one dimension: 100 less [penalty] for every violation,
    and never below 0. *)
Definition points (penalty n : Z) : Z :=
  if n =? 0 then 100 else Z.max 0 (100 - n * penalty).

(** The four counts [main] scores. *)
Definition null_violations (db : tables) : Z :=
  count_in "null_violations" (check_null_values "staging" db).
Definition duplicates_found (db : tables) : Z :=
  count_in "duplicates_found" (check_duplicates "staging" db).
Definition range_violations (CURRENT_DATE : Z) (db : tables) : Z :=
  count_in "violations" (check_data_ranges CURRENT_DATE "staging" db).
Definition orphan_records (db : tables) : Z :=
  count_in "orphan_records" (check_referential_integrity "staging" db).

(** How many of the four checks of a report failed. *)
Definition failed_checks (r : quality_report) : nat :=
  List.length
    (filter (fun c => (status_in (snd c) =? "failed")%string)
            (checks_performed r)).

(** No mandatory cell is NULL. *)
Definition complete (db : tables) : Prop :=
  (forall c, In c (customers db) ->
             customer_id c <> None /\ email c <> None
             /\ first_name c <> None /\ last_name c <> None)
  /\ (forall p, In p (products db) ->
                product_id p <> None /\ product_name p <> None
                /\ price p <> None /\ cost p <> None)
  /\ (forall t, In t (transactions db) ->
                transaction_id t <> None /\ t_customer_id t <> None
                /\ transaction_date t <> None)
  /\ (forall i, In i (transaction_items db) ->
                item_id i <> None /\ ti_transaction_id i <> None
                /\ ti_product_id i <> None /\ quantity i <> None).

(** No key occurs twice; two NULL keys count as the same key. *)
Definition keys_distinct (db : tables) : Prop :=
  NoDup (map customer_id (customers db))
  /\ NoDup (map product_id (products db))
  /\ NoDup (map transaction_id (transactions db))
  /\ NoDup (map item_id (transaction_items db)).

(** The rows with a given key. *)
Definition rows_with_key {R : Type} (key : R -> option string)
           (k : option string) (rows : list R) : list R :=
  filter (fun r => option_eqb (key r) k) rows.

(** A child row resolves: its foreign key is not NULL and is the key of a
    parent row. *)
Definition resolves {L R : Type} (fk : L -> option string)
           (pk : R -> option string) (parents : list R) (child : L) : Prop :=
  exists k, fk child = Some k /\ In (Some k) (map pk parents).

Definition is_orphan {L R : Type} (fk : L -> option string)
           (pk : R -> option string) (parents : list R) (child : L) : bool :=
  match fk child with
  | None => true
  | Some k => negb (existsb (fun p => option_eqb (pk p) (Some k)) parents)
  end.

Definition references_resolve (db : tables) : Prop :=
  (forall t, In t (transactions db) ->
             resolves t_customer_id customer_id (customers db) t)
  /\ (forall i, In i (transaction_items db) ->
                resolves ti_transaction_id transaction_id (transactions db) i
                /\ resolves ti_product_id product_id (products db) i).

(** What the range check counts.  A NULL cell takes part in no comparison. *)
Definition product_out_of_range (p : product) : Prop :=
  (exists x, price p = Some x /\ (x <= 0)%Q)
  \/ (exists c, cost p = Some c /\ (c < 0)%Q)
  \/ (exists x c, price p = Some x /\ cost p = Some c /\ (x <= c)%Q).

Definition item_out_of_range (i : transaction_item) : Prop :=
  (exists q, quantity i = Some q /\ q <= 0)
  \/ (exists d, discount_percentage i = Some d /\ ((d < 0)%Q \/ (100 < d)%Q)).

Definition dated_after (CURRENT_DATE : Z) (t : transaction) : Prop :=
  exists d, transaction_date t = Some d /\ CURRENT_DATE < d.

Definition in_range (CURRENT_DATE : Z) (db : tables) : Prop :=
  (forall p, In p (products db) -> ~ product_out_of_range p)
  /\ (forall i, In i (transaction_items db) -> ~ item_out_of_range i)
  /\ (forall t, In t (transactions db) -> ~ dated_after CURRENT_DATE t).

End Quality.

(* ------------------------------------------------------------------ *)
(** * The generator's integrity check
      ([scripts/data_generation/generate_data.py]) *)
(* ------------------------------------------------------------------ *)

Module Generation.

Record integrity_report := {
  orphan_transactions_customers : Z;
  orphan_items_transactions : Z;
  orphan_items_products : Z;
  total_violations : Z;
  quality_score : Q
}.

(** [sum(1 for x in column if x not in ids)] *)
Definition count_not_in (ids column : list string) : Z :=
  Z.of_nat
    (List.length
       (filter (fun x => negb (existsb (String.eqb x) ids)) column)).

(** [validate_referential_integrity], on the id columns it reads from the
    four frames. *)
Definition validate_referential_integrity
           (customers_customer_id products_product_id
            transactions_transaction_id transactions_customer_id
            items_transaction_id items_product_id : list string)
  : integrity_report :=
  let customer_ids := customers_customer_id in
  let product_ids := products_product_id in
  let txn_ids := transactions_transaction_id in
  let orphan_txn_customers :=
    count_not_in customer_ids transactions_customer_id in
  let orphan_items_txn := count_not_in txn_ids items_transaction_id in
  let orphan_items_prod := count_not_in product_ids items_product_id in
  let total_violations :=
    orphan_txn_customers + orphan_items_txn + orphan_items_prod in
  let quality_score :=
    if total_violations =? 0 then 100%Q
    else Quality.py_max 0%Q (100%Q - inject_Z total_violations)%Q in
  {| orphan_transactions_customers := orphan_txn_customers;
     orphan_items_transactions := orphan_items_txn;
     orphan_items_products := orphan_items_prod;
     total_violations := total_violations;
     quality_score := quality_score |}.

(** A key column without NULLs, as the generated frames have them. *)
Definition ids {R : Type} (key : R -> option string) (rows : list R)
  : list string :=
  map (fun r => match key r with Some k => k | None => "" end) rows.

Definition no_null {R : Type} (key : R -> option string) (rows : list R)
  : Prop :=
  forall r, In r rows -> key r <> None.

(** The integrity report of the frames that make up [db]. *)
Definition integrity_of (db : Quality.tables) : integrity_report :=
  validate_referential_integrity
    (ids Quality.customer_id (Quality.customers db))
    (ids Quality.product_id (Quality.products db))
    (ids Quality.transaction_id (Quality.transactions db))
    (ids Quality.t_customer_id (Quality.transactions db))
    (ids Quality.ti_transaction_id (Quality.transaction_items db))
    (ids Quality.ti_product_id (Quality.transaction_items db)).

End Generation.

Module QualitySample.

(** One customer, one product, and a transaction of a customer that is not
    staged, with one item. *)
Definition orphaned_transaction : Quality.tables :=
  {| Quality.customers :=
       [{| Quality.customer_id := Some "CUST000001";
           Quality.email := Some "cust000001@example.com";
           Quality.first_name := Some "Ada";
           Quality.last_name := Some "Lovelace" |}];
     Quality.products :=
       [{| Quality.product_id := Some "PROD000001";
           Quality.product_name := Some "Books Product 1";
           Quality.price := Some (20 # 1);
           Quality.cost := Some (12 # 1) |}];
     Quality.transactions :=
       [{| Quality.transaction_id := Some "TXN0000001";
           Quality.t_customer_id := Some "CUST000002";
           Quality.transaction_date := Some 738000 |}];
     Quality.transaction_items :=
       [{| Quality.item_id := Some "ITEM0000001";
           Quality.ti_transaction_id := Some "TXN0000001";
           Quality.ti_product_id := Some "PROD000001";
           Quality.quantity := Some 2;
           Quality.discount_percentage := Some (5 # 1) |}] |}.

End QualitySample.

(* ------------------------------------------------------------------ *)
(** * Staging to production
      ([scripts/transformation/staging_to_production.py]) *)
(* ------------------------------------------------------------------ *)

Module Transformation.

Definition is_lower (c : ascii) : bool :=
  let n := nat_of_ascii c in ((97 <=? n) && (n <=? 122))%nat.

Definition is_upper (c : ascii) : bool :=
  let n := nat_of_ascii c in ((65 <=? n) && (n <=? 90))%nat.

Definition upper_ascii (c : ascii) : ascii :=
  if is_lower c then ascii_of_nat (nat_of_ascii c - 32) else c.

(** [str.title()], on the ASCII letters: a letter that follows a letter is
    made lower case, any other letter upper case. *)
Fixpoint title_from (previous_is_cased : bool) (s : string) : string :=
  match s with
  | EmptyString => EmptyString
  | String c rest =>
      String (if previous_is_cased then lower_ascii c else upper_ascii c)
             (title_from (is_lower c || is_upper c) rest)
  end.

Definition title (s : string) : string := title_from false s.

(** [column.fillna(value)] on one cell. *)
Definition fillna {A : Type} (value : A) (cell : option A) : option A :=
  match cell with
  | Some _ => cell
  | None => Some value
  end.

(** [column.str.title()] on one cell. *)
Definition str_title (cell : option string) : option string :=
  option_map title cell.

(** [df.drop_duplicates(subset=[key], keep="first")]: a row is dropped
    when an earlier row has its key; NULL keys are equal to each other. *)
Fixpoint drop_duplicates_from {R : Type} (key : R -> option string)
         (seen : list (option string)) (rows : list R) : list R :=
  match rows with
  | [] => []
  | r :: rest =>
      if existsb (Quality.option_eqb (key r)) seen
      then drop_duplicates_from key seen rest
      else r :: drop_duplicates_from key (key r :: seen) rest
  end.

Definition drop_duplicates {R : Type} (key : R -> option string)
           (rows : list R) : list R :=
  drop_duplicates_from key [] rows.

Section Frames.
Context {O : Type}.

(** A row of the customers frame: the columns the cleansing touches, and
    the others. *)
Record customer := {
  customer_id : option string;
  first_name : option string;
  last_name : option string;
  email : option string;
  phone : option string;
  city : option string;
  state : option string;
  country : option string;
  age_group : option string;
  customer_rest : O
}.

Record product := {
  product_id : option string;
  product_name : option string;
  category : option string;
  sub_category : option string;
  brand : option string;
  price : option Q;
  cost : option Q;
  stock_quantity : option Q;
  supplier_id : option string;
  product_rest : O
}.

Record transaction_item := {
  quantity : option Z;
  unit_price : option Q;
  discount_percentage : option Q;
  line_total : option Q;
  item_rest : O
}.

Record transaction := {
  total_amount : option Q;
  transaction_rest : O
}.

(** [cleanse_customer_data] *)
Definition cleanse_customer_data (df : list customer) : list customer :=
  let df := drop_duplicates customer_id df in
  map (fun r =>
         {| customer_id := customer_id r;
            first_name := str_title (fillna "Unknown" (first_name r));
            last_name := str_title (fillna "Unknown" (last_name r));
            email := fillna "noemail@example.com" (email r);
            phone := fillna "Unknown" (phone r);
            city := fillna "Unknown" (city r);
            state := fillna "Unknown" (state r);
            country := fillna "Unknown" (country r);
            age_group := fillna "Unknown" (age_group r);
            customer_rest := customer_rest r |}) df.

(** [int(x)] of a float: towards zero. *)
Definition truncate (x : Q) : Z :=
  if Qle_bool 0 x then Qfloor x else Qceiling x.

(** The three repairs of price and cost, in the order of the source; a
    comparison with a missing cell selects nothing. *)
Definition fix_price (price : option Q) : option Q :=
  match price with
  | Some x => if Qle_bool x 0 then Some 1%Q else Some x
  | None => None
  end.

Definition fix_negative_cost (cost : option Q) : option Q :=
  match cost with
  | Some c => if Quality.Qlt_bool c 0 then Some 0%Q else Some c
  | None => None
  end.

Definition fix_cost_above_price (price cost : option Q) : option Q :=
  match price, cost with
  | Some x, Some c => if Qle_bool x c then Some (x * (1 # 2))%Q else Some c
  | _, _ => cost
  end.

(** [cleanse_product_data]; the float cells are exact rationals. *)
Definition cleanse_product_data (df : list product) : list product :=
  let df := drop_duplicates product_id df in
  map (fun r =>
         let price := fix_price (price r) in
         let cost := fix_negative_cost (cost r) in
         let cost := fix_cost_above_price price cost in
         {| product_id := product_id r;
            product_name := fillna "Unknown Product" (product_name r);
            category := str_title (fillna "Uncategorized" (category r));
            sub_category := fillna "General" (sub_category r);
            brand := fillna "Unknown Brand" (brand r);
            price := price;
            cost := cost;
            stock_quantity :=
              option_map (fun x => inject_Z (truncate x))
                         (fillna 0%Q (stock_quantity r));
            supplier_id := fillna "UNKNOWN" (supplier_id r);
            product_rest := product_rest r |}) df.

(** The frames [apply_business_rules] is given. *)
Inductive frame :=
| Items (rows : list transaction_item)
| Transactions (rows : list transaction).

(** Float arithmetic that is not exact is left to the caller: the rounded
    line total of a row, and the rounding of an amount to two places. *)
Variable line_total_of : option Z -> option Q -> option Q -> option Q.
Variable round_2 : Q -> Q.

(** [apply_business_rules]; [None] when a column of the rule is not in the
    frame. *)
Definition apply_business_rules (df : frame) (rule_type : string)
  : option frame :=
  if (rule_type =? "transaction_item")%string then
    match df with
    | Items rows =>
        let rows :=
          map (fun r =>
                 {| quantity := quantity r;
                    unit_price := unit_price r;
                    discount_percentage := discount_percentage r;
                    line_total :=
                      line_total_of (quantity r) (unit_price r)
                                    (discount_percentage r);
                    item_rest := item_rest r |}) rows in
        let rows :=
          filter (fun r => Quality.is_true
                             (Quality.sql_cmp Z.ltb (Some 0) (quantity r)))
                 rows in
        let rows :=
          filter (fun r =>
                    Quality.is_true
                      (Quality.sql_cmp Qle_bool (Some 0%Q)
                                       (discount_percentage r))
                    && Quality.is_true
                         (Quality.sql_cmp Qle_bool (discount_percentage r)
                                          (Some 100%Q)))
                 rows in
        Some (Items rows)
    | Transactions _ => None
    end
  else if (rule_type =? "transaction")%string then
    match df with
    | Transactions rows =>
        let rows :=
          map (fun r =>
                 {| total_amount :=
                      option_map round_2 (fillna 0%Q (total_amount r));
                    transaction_rest := transaction_rest r |}) rows in
        let rows :=
          filter (fun r => Quality.is_true
                             (Quality.sql_cmp Qle_bool (Some 0%Q)
                                              (total_amount r)))
                 rows in
        Some (Transactions rows)
    | Items _ => None
    end
  else Some df.

End Frames.

Arguments customer : clear implicits.
Arguments product : clear implicits.
Arguments transaction_item : clear implicits.
Arguments transaction : clear implicits.
Arguments frame : clear implicits.

(** The cells of a cleansed product that the range check reads. *)
Definition checked_product {O : Type} (p : product O) : Quality.product :=
  {| Quality.product_id := product_id p;
     Quality.product_name := product_name p;
     Quality.price := price p;
     Quality.cost := cost p |}.

(** The cells of an item that the range check reads. *)
Definition checked_item {O : Type} (item_id ti_transaction_id ti_product_id
                                    : O -> option string)
           (i : transaction_item O) : Quality.transaction_item :=
  {| Quality.item_id := item_id (item_rest i);
     Quality.ti_transaction_id := ti_transaction_id (item_rest i);
     Quality.ti_product_id := ti_product_id (item_rest i);
     Quality.quantity := quantity i;
     Quality.discount_percentage := discount_percentage i |}.

(** No cell of the eight columns that the customer cleansing fills is
    missing. *)
Definition filled {O : Type} (c : customer O) : Prop :=
  first_name c <> None /\ last_name c <> None /\ email c <> None
  /\ phone c <> None /\ city c <> None /\ state c <> None
  /\ country c <> None /\ age_group c <> None.

(** The row of [rows] that is the first with its key. *)
Definition first_with_key {R : Type} (key : R -> option string) (r : R)
           (rows : list R) : Prop :=
  exists before after,
    rows = before ++ r :: after
    /\ forall x, In x before -> key x <> key r.

End Transformation.

(* ------------------------------------------------------------------ *)
(** * What a warehouse build leaves in place *)
(* ------------------------------------------------------------------ *)

(** A dimension row was kept: it is the same version, rewritten at most
    from current to not current. *)
Definition customer_version_kept (r r' : dim_customer) : Prop :=
  same_customer_version r r'
  /\ (r' = r \/ (dc_is_current r = true /\ dc_is_current r' = false)).

Definition product_version_kept (r r' : dim_product) : Prop :=
  same_product_version r r'
  /\ (r' = r \/ (dp_is_current r = true /\ dp_is_current r' = false)).

(** [rows'] holds the rows of [rows], each kept, in their places, and then
    possibly more rows. *)
Definition grows {R : Type} (kept : R -> R -> Prop) (rows rows' : list R)
  : Prop :=
  exists old added, rows' = old ++ added /\ Forall2 kept rows old.

(** Every table of [w'] holds the rows of [w] in their places, unchanged
    but for dimension versions that stopped being current. *)
Definition only_grows (w w' : warehouse) : Prop :=
  grows customer_version_kept (dim_customers w) (dim_customers w')
  /\ grows product_version_kept (dim_products w) (dim_products w')
  /\ grows eq (dim_date w) (dim_date w')
  /\ grows eq (dim_payment_method w) (dim_payment_method w')
  /\ grows eq (fact_sales w) (fact_sales w')
  /\ grows eq (agg_daily_sales w) (agg_daily_sales w')
  /\ grows eq (agg_product_sales w) (agg_product_sales w')
  /\ grows eq (agg_customer_lifetime w) (agg_customer_lifetime w').

(* ------------------------------------------------------------------ *)
(** * Loading into production
      ([load_to_production] and [main] of
      [scripts/transformation/staging_to_production.py]) *)
(* ------------------------------------------------------------------ *)

Module Production.

(** [s.split(sep)] for a one-character separator. *)
Fixpoint split (sep : ascii) (s : string) : list string :=
  match s with
  | EmptyString => [EmptyString]
  | String c rest =>
      if Ascii.eqb c sep then EmptyString :: split sep rest
      else match split sep rest with
           | [] => [String c EmptyString]
           | part :: parts => String c part :: parts
           end
  end.

(** The dictionary [load_to_production] returns. *)
Record load_result := {
  table : string;
  rows_loaded : Z;
  status : string;
  error : option string
}.

Record table_summary := {
  summary_rows_loaded : Z;
  summary_status : string;
  summary_error : option string
}.

Record summary := {
  transformation_timestamp : string;
  tables_transformed : list (string * table_summary);
  transformation_status : string
}.

Section Loading.
(** [C] is the state of the connection and of the store behind it; [O]
    holds the columns of a row that the cleansing does not touch. *)
Context {C O : Type}.

(** [df.to_sql(table, con, schema, if_exists, ...)]: the connection
    afterwards, and the message of the exception if it raised. *)
Definition writer (R : Type) : Type :=
  string -> string -> string -> list R -> C -> C * option string.

(** [load_to_production]; [None] when the table name does not split into a
    schema and a table, which raises outside the [try]. *)
Definition load_to_production {R : Type} (to_sql : writer R) (df : list R)
           (table_name : string) (connection : C) (strategy : string)
  : option (C * load_result) :=
  match split "." table_name with
  | [schema; table] =>
      let if_exists :=
        if (strategy =? "replace")%string then "replace" else "append" in
      match to_sql table schema if_exists df connection with
      | (connection, None) =>
          Some (connection,
                {| table := table_name;
                   rows_loaded := Z.of_nat (List.length df);
                   status := "success";
                   error := None |})
      | (connection, Some e) =>
          Some (connection,
                {| table := table_name;
                   rows_loaded := 0;
                   status := "failed";
                   error := Some e |})
      end
  | _ => None
  end.

(** What [main] is connected to: [pd.read_sql] of each staging table
    ([None] when it raises), [to_sql] into each production table, and the
    end of the transaction. *)
Record store := {
  read_customers : C -> option (list (Transformation.customer O));
  read_products : C -> option (list (Transformation.product O));
  read_transactions : C -> option (list (Transformation.transaction O));
  read_items : C -> option (list (Transformation.transaction_item O));
  write_customers : writer (Transformation.customer O);
  write_products : writer (Transformation.product O);
  write_transactions : writer (Transformation.transaction O);
  write_items : writer (Transformation.transaction_item O);
  commit : C -> C;
  rollback : C -> C
}.

Variable line_total_of : option Z -> option Q -> option Q -> option Q.
Variable round_2 : Q -> Q.

(** The body of [with engine.begin() as conn]: the connection afterwards
    and the list [results], or nothing when a statement raised. *)
Definition main_transaction (db : store) (conn : C)
  : option (C * list load_result) :=
  let results := [] in
  match read_customers db conn with
  | None => None
  | Some stg_customers =>
  let customers_clean :=
    Transformation.cleanse_customer_data stg_customers in
  match load_to_production (write_customers db) customers_clean
                           "production.customers" conn "append" with
  | None => None
  | Some (conn, res) =>
  let results := results ++ [res] in
  match read_products db conn with
  | None => None
  | Some stg_products =>
  let products_clean := Transformation.cleanse_product_data stg_products in
  match load_to_production (write_products db) products_clean
                           "production.products" conn "append" with
  | None => None
  | Some (conn, res) =>
  let results := results ++ [res] in
  match read_transactions db conn with
  | None => None
  | Some stg_transactions =>
  match Transformation.apply_business_rules
          line_total_of round_2
          (Transformation.Transactions stg_transactions) "transaction" with
  | Some (Transformation.Transactions transactions_clean) =>
  match load_to_production (write_transactions db) transactions_clean
                           "production.transactions" conn "append" with
  | None => None
  | Some (conn, res) =>
  let results := results ++ [res] in
  match read_items db conn with
  | None => None
  | Some stg_items =>
  match Transformation.apply_business_rules
          line_total_of round_2
          (Transformation.Items stg_items) "transaction_item" with
  | Some (Transformation.Items items_clean) =>
  match load_to_production (write_items db) items_clean
                           "production.transaction_items" conn "append" with
  | None => None
  | Some (conn, res) =>
  let results := results ++ [res] in
  Some (conn, results)
  end
  | _ => None
  end
  end
  end
  | _ => None
  end
  end
  end
  end
  end
  end.

(** [main]: the connection after the commit or the rollback, and the
    summary it returns, or nothing when it raises.  The summary file it
    writes and the line it prints are left out. *)
Definition main (db : store) (utcnow : string) (conn : C)
  : C * option summary :=
  match main_transaction db conn with
  | None => (rollback db conn, None)
  | Some (conn, results) =>
      (commit db conn,
       Some
         {| transformation_timestamp := utcnow;
            tables_transformed :=
              fold_left
                (fun d r =>
                   Orchestrator.dict_set
                     (table r)
                     {| summary_rows_loaded := rows_loaded r;
                        summary_status := status r;
                        summary_error := error r |} d)
                results [];
            transformation_status :=
              if forallb (fun r => (status r =? "success")%string) results
              then "success" else "partial" |})
  end.


Inductive outcome :=
| MainReturns (s : summary)
| MainRaisesBeforeCommit
| MainRaisesAfterCommit (s : summary).



End Loading.

Arguments store : clear implicits.


End Production.

Module ProductionSample.

(** A store whose connection state is the list of statements it has seen;
    one customer is staged, and the load of the products is refused. *)
Definition refuses_products : Production.store (list string) unit :=
  {| Production.read_customers :=
       fun _ =>
         Some [{| Transformation.customer_id := Some "CUST000001";
                  Transformation.first_name := Some "ada";
                  Transformation.last_name := None;
                  Transformation.email := None;
                  Transformation.phone := None;
                  Transformation.city := None;
                  Transformation.state := None;
                  Transformation.country := None;
                  Transformation.age_group := None;
                  Transformation.customer_rest := tt |}];
     Production.read_products := fun _ => Some [];
     Production.read_transactions := fun _ => Some [];
     Production.read_items := fun _ => Some [];
     Production.write_customers :=
       fun table _ _ _ conn => (conn ++ [table], None);
     Production.write_products :=
       fun _ _ _ _ conn => (conn, Some "permission denied");
     Production.write_transactions :=
       fun table _ _ _ conn => (conn ++ [table], None);
     Production.write_items :=
       fun table _ _ _ conn => (conn ++ [table], None);
     Production.commit := fun conn => conn ++ ["COMMIT"];
     Production.rollback := fun conn => conn ++ ["ROLLBACK"] |}.

End ProductionSample.

(* ------------------------------------------------------------------ *)
(** * The steps behind the orchestrator *)
(* ------------------------------------------------------------------ *)



Module StepsSample.

(** A pipeline over the connection state of [ProductionSample]: the
    transformation step runs [staging_to_production.main] on the store that
    refuses the products, the validation step runs [validate_data.main] on
    staging tables with an orphaned transaction, and the other steps
    return. *)
Definition returns_nothing
  : list string -> list string * Orchestrator.step_outcome string :=
  fun conn => (conn, Orchestrator.StepReturns "None").

Definition validation_step
  : list string -> list string * Orchestrator.step_outcome string :=
  fun conn =>
    match Quality.main "2024-01-05T02:00:00" 739000
                       QualitySample.orphaned_transaction with
    | Some _ => (conn, Orchestrator.StepReturns "None")
    | None => (conn, Orchestrator.StepRaises "TypeError" "Traceback")
    end.

Definition transformation_step
  : list string -> list string * Orchestrator.step_outcome string :=
  fun conn =>
    match Production.main (fun _ _ _ => None) (fun x => x)
                          ProductionSample.refuses_products
                          "2024-01-05T02:00:00" conn with
    | (conn', Some _) => (conn', Orchestrator.StepReturns "summary")
    | (conn', None) =>
        (conn', Orchestrator.StepRaises "OperationalError" "Traceback")
    end.

Definition pipeline : Orchestrator.environment (list string) string :=
  {| Orchestrator.utcnow := fun _ => "2024-01-05T02:00:00";
     Orchestrator.make_directories := fun conn => conn;
     Orchestrator.save_execution_log := fun _ conn => conn;
     Orchestrator.generate_data := returns_nothing;
     Orchestrator.ingest_to_staging := returns_nothing;
     Orchestrator.validate_data := validation_step;
     Orchestrator.staging_to_production := transformation_step;
     Orchestrator.load_warehouse := returns_nothing |}.

End StepsSample.

(* ------------------------------------------------------------------ *)
(** * Ingestion ([scripts/ingestion/ingest_to_staging.py]) *)
(* ------------------------------------------------------------------ *)

Module Ingestion.

Inductive statement :=
| Truncate (table_name : string)
| InsertInto (table_name : string)
| SelectCount (table_name : string).

Record table_load := {
  rows_loaded : Z;
  status : string
}.

Record summary := {
  ingestion_timestamp : string;
  tables_loaded : list (string * table_load);
  table_row_counts : list (string * Z)
}.

Section Staging.
(** A row of a CSV file or of a staging table. *)
Context {row : Type}.

(** The tables of the store, by qualified name. *)
Definition tables : Type := list (string * list row).

(** What [main] runs against: the CSV files by path ([None] for a file
    that cannot be read), the statements the store rejects, whether
    [_get_engine()] can read config/config.yaml, whether data/staging can
    be made, and whether ingestion_summary.json can be written. *)
Record environment := {
  read_csv : string -> option (list row);
  rejects : statement -> bool;
  engine_created : bool;
  directory_made : bool;
  summary_written : summary -> bool
}.

(** A statement on the open connection: its value and the tables
    afterwards, or nothing when it raises. *)
Definition M (A : Type) : Type := tables -> option (A * tables).

Definition ret {A : Type} (a : A) : M A := fun t => Some (a, t).

Definition bind {A B : Type} (m : M A) (k : A -> M B) : M B :=
  fun t =>
    match m t with
    | Some (a, t') => k a t'
    | None => None
    end.

(** [TRUNCATE TABLE t]: the table must exist. *)
Definition truncate (env : environment) (t : string) : M unit :=
  fun db =>
    if rejects env (Truncate t) then None
    else match dict_get t db with
         | Some _ => Some (tt, Orchestrator.dict_set t [] db)
         | None => None
         end.

(** [df.to_sql(..., if_exists="append")]: the rows are added to the table,
    which is created when it does not exist. *)
Definition to_sql (env : environment) (t : string) (df : list row) : M unit :=
  fun db =>
    if rejects env (InsertInto t) then None
    else Some (tt,
               Orchestrator.dict_set
                 t
                 (match dict_get t db with
                  | Some rows => rows ++ df
                  | None => df
                  end) db).

(** [SELECT COUNT(...) FROM t] *)
Definition select_count (env : environment) (t : string) : M Z :=
  fun db =>
    if rejects env (SelectCount t) then None
    else match dict_get t db with
         | Some rows => Some (Z.of_nat (List.length rows), db)
         | None => None
         end.

(** [bulk_insert_data] *)
Definition bulk_insert_data (env : environment) (df : list row)
           (table_name : string) : M Z :=
  bind (to_sql env table_name df) (fun _ =>
  ret (Z.of_nat (List.length df))).

(** [load_csv_to_staging] *)
Definition load_csv_to_staging (env : environment)
           (csv_path table_name : string) : M (string * table_load) :=
  fun db =>
    match read_csv env csv_path with
    | None => None
    | Some df =>
        bind (bulk_insert_data env df table_name) (fun rows =>
        ret (table_name, {| rows_loaded := rows; status := "success" |})) db
    end.

(** [validate_staging_load] *)
Definition validate_staging_load (env : environment)
  : M (list (string * Z)) :=
  bind (select_count env "staging.customers") (fun n1 =>
  bind (select_count env "staging.products") (fun n2 =>
  bind (select_count env "staging.transactions") (fun n3 =>
  bind (select_count env "staging.transaction_items") (fun n4 =>
  ret [("staging.customers", n1); ("staging.products", n2);
       ("staging.transactions", n3); ("staging.transaction_items", n4)])))).

(** The body of [with engine.begin() as conn] in [main]. *)
Definition main_transaction (env : environment)
  : M (list (string * table_load) * list (string * Z)) :=
  bind (truncate env "staging.transaction_items") (fun _ =>
  bind (truncate env "staging.transactions") (fun _ =>
  bind (truncate env "staging.products") (fun _ =>
  bind (truncate env "staging.customers") (fun _ =>
  bind (load_csv_to_staging env "data/raw/customers.csv"
                            "staging.customers") (fun r1 =>
  bind (load_csv_to_staging env "data/raw/products.csv"
                            "staging.products") (fun r2 =>
  bind (load_csv_to_staging env "data/raw/transactions.csv"
                            "staging.transactions") (fun r3 =>
  bind (load_csv_to_staging env "data/raw/transaction_items.csv"
                            "staging.transaction_items") (fun r4 =>
  let results := [r1; r2; r3; r4] in
  bind (validate_staging_load env) (fun counts =>
  ret (results, counts)))))))))).

(** How a call of [main] ends: it returns, having written the summary; it
    raises before anything is committed; or it raises after the commit,
    while writing the summary. *)
Inductive outcome :=
| MainReturns (s : summary)
| MainRaisesBeforeCommit
| MainRaisesAfterCommit (s : summary).

(** [main]: the tables afterwards and how it ends.  [_get_engine()] and the
    [mkdir] come before the transaction; when the body of the transaction
    raises the tables are rolled back; the summary is built and written
    after the commit. *)
Definition main (env : environment) (utcnow : string) (db : tables)
  : tables * outcome :=
  if engine_created env then
    if directory_made env then
      match main_transaction env db with
      | Some ((results, counts), db') =>
          let summary :=
            {| ingestion_timestamp := utcnow;
               tables_loaded :=
                 fold_left
                   (fun d r => Orchestrator.dict_set (fst r) (snd r) d)
                   results [];
               table_row_counts := counts |} in
          (db', if summary_written env summary
                then MainReturns summary
                else MainRaisesAfterCommit summary)
      | None => (db, MainRaisesBeforeCommit)
      end
    else (db, MainRaisesBeforeCommit)
  else (db, MainRaisesBeforeCommit).

(** The summary of a run that committed. *)
Definition committed (o : outcome) : option summary :=
  match o with
  | MainReturns s => Some s
  | MainRaisesBeforeCommit => None
  | MainRaisesAfterCommit s => Some s
  end.

(** The four CSV files as [env] reads them. *)
Definition files_read (env : environment)
           (customers products transactions items : list row) : Prop :=
  read_csv env "data/raw/customers.csv" = Some customers
  /\ read_csv env "data/raw/products.csv" = Some products
  /\ read_csv env "data/raw/transactions.csv" = Some transactions
  /\ read_csv env "data/raw/transaction_items.csv" = Some items.

(** The four staging tables hold exactly the given rows. *)
Definition staged (db : tables)
           (customers products transactions items : list row) : Prop :=
  dict_get "staging.customers" db = Some customers
  /\ dict_get "staging.products" db = Some products
  /\ dict_get "staging.transactions" db = Some transactions
  /\ dict_get "staging.transaction_items" db = Some items.

Definition staging_table (t : string) : bool :=
  existsb (String.eqb t)
          ["staging.customers"; "staging.products"; "staging.transactions";
           "staging.transaction_items"].

(** The store rejects none of the statements [main] issues. *)
Definition accepted (env : environment) : Prop :=
  forall t, staging_table t = true ->
            rejects env (Truncate t) = false
            /\ rejects env (InsertInto t) = false
            /\ rejects env (SelectCount t) = false.

(** The four staging tables exist. *)
Definition tables_exist (db : tables) : Prop :=
  forall t, staging_table t = true -> dict_get t db <> None.

(** The tables other than the four staging tables are the same. *)
Definition same_other_tables (db db' : tables) : Prop :=
  forall t, staging_table t = false -> dict_get t db' = dict_get t db.

End Staging.

Arguments tables : clear implicits.
Arguments environment : clear implicits.

End Ingestion.

Module IngestionSample.

(** Rows are numbers here.  Two customers, one product, one transaction and
    two items are in the files; staging holds rows of an earlier load, and
    the store has one more table. *)
Definition files : Ingestion.environment Z :=
  {| Ingestion.read_csv :=
       fun path =>
         dict_get path
                  [("data/raw/customers.csv", [1; 2]);
                   ("data/raw/products.csv", [3]);
                   ("data/raw/transactions.csv", [4]);
                   ("data/raw/transaction_items.csv", [5; 6])];
     Ingestion.rejects := fun _ => false;
     Ingestion.engine_created := true;
     Ingestion.directory_made := true;
     Ingestion.summary_written := fun _ => true |}.

(** The same, with a summary file that cannot be written. *)
Definition files_without_summary : Ingestion.environment Z :=
  {| Ingestion.read_csv := Ingestion.read_csv files;
     Ingestion.rejects := fun _ => false;
     Ingestion.engine_created := true;
     Ingestion.directory_made := true;
     Ingestion.summary_written := fun _ => false |}.

Definition earlier_load : Ingestion.tables Z :=
  [("staging.customers", [7; 8; 9]);
   ("production.customers", [7]);
   ("staging.products", []);
   ("staging.transactions", [10]);
   ("staging.transaction_items", [11])].

End IngestionSample.
(* ------------------------------------------------------------------ *)
(** * Facts about the relational primitives *)
(* ------------------------------------------------------------------ *)

Section KeyedTables.
Context {R : Type} (key : R -> string) (current : R -> bool).

Lemma current_rows_app k t1 t2 :
  current_rows key current k (t1 ++ t2) = current_rows key current k t1 ++ current_rows key current k t2.
Proof. apply filter_app. Qed.

Lemma no_conflict_no_current r k table :
  existsb (fun old => (key r =? key old)%string) table = false ->
  key r = k ->
  current_rows key current k table = [].
Proof.
  intros Hex Hk. unfold current_rows.
  induction table as [|x xs IH]; simpl in *; [reflexivity|].
  apply orb_false_iff in Hex as [Hx Hxs].
  rewrite (IH Hxs).
  replace (key x =? k)%string with false; [now rewrite andb_false_r|].
  symmetry. apply String.eqb_neq. intros E.
  apply String.eqb_neq in Hx. apply Hx. congruence.
Qed.

(** Skip-on-conflict insertion never gives a business key a second current
    row. *)
Lemma insert_at_most_one_current k proposed :
  forall table,
    (List.length (current_rows key current k table) <= 1)%nat ->
    (List.length
       (current_rows key current k
          (fst (Sql.insert_on_conflict_do_nothing
                  (fun new old => (key new =? key old)%string)
                  table proposed))) <= 1)%nat.
Proof.
  induction proposed as [|r rest IH]; intros table H; simpl; [exact H|].
  destruct (existsb _ table) eqn:Hex.
  - apply IH, H.
  - specialize (IH (table ++ [r])).
    destruct (Sql.insert_on_conflict_do_nothing _ (table ++ [r]) rest)
      as [table' n] eqn:Hrec.
    simpl in *. apply IH.
    rewrite current_rows_app, length_app.
    destruct (String.eqb_spec (key r) k) as [E|E].
    + rewrite (no_conflict_no_current r k table Hex E). simpl.
      destruct (current r && _); simpl; lia.
    + unfold current_rows at 2. simpl.
      replace (key r =? k)%string with false
        by (symmetry; now apply String.eqb_neq).
      rewrite andb_false_r. simpl. lia.
Qed.

(** An update that clears the current flag and keeps the key never adds a
    current row. *)
Lemma update_at_most_one_current k cond set table :
  (forall r, current (set r) = false) ->
  (List.length (current_rows key current k table) <= 1)%nat ->
  (List.length (current_rows key current k (fst (Sql.update_where cond set table)))
   <= 1)%nat.
Proof.
  intros Hset H. simpl.
  assert (Hle : (List.length
                   (current_rows key current k
                      (map (fun r => if cond r then set r else r) table))
                 <= List.length (current_rows key current k table))%nat).
  { clear H. induction table as [|x xs IH]; simpl; [lia|].
    destruct (cond x).
    - rewrite Hset. simpl.
      destruct (current x && _); simpl; lia.
    - destruct (current x && _); simpl; lia. }
  lia.
Qed.
End KeyedTables.

(* ------------------------------------------------------------------ *)
(** * Reasoning about the connection monad *)
(* ------------------------------------------------------------------ *)

Lemma preserves_ret {A} I (a : A) : preserves I (ret a).
Proof.
  intros c a' c' H. inversion H; subst. split; [repeat split|auto].
Qed.

Lemma preserves_lift {A} I (r : result A) : preserves I (lift r).
Proof.
  intros c a' c' H. unfold lift in H. destruct r; inversion H; subst.
  split; [repeat split|auto].
Qed.

Lemma preserves_bind {A B} I (m : M A) (k : A -> M B) :
  preserves I m -> (forall a, preserves I (k a)) -> preserves I (bind m k).
Proof.
  intros Hm Hk c b c' H. unfold bind in H.
  destruct (m c) as [a c1|e] eqn:Hmc; [|discriminate].
  destruct (Hm _ _ _ Hmc) as [[S1 [S2 S3]] I1].
  destruct (Hk a _ _ _ H) as [[T1 [T2 T3]] I2].
  split; [repeat split; congruence|auto].
Qed.

Lemma preserves_execute {A} I s
      (effect : sources -> date -> warehouse -> warehouse * A) :
  (forall src today w, I w -> I (fst (effect src today w))) ->
  preserves I (execute s effect).
Proof.
  intros He c a c' H. unfold execute in H.
  destruct (store_fails c s); [discriminate|].
  specialize (He (conn_src c) (CURRENT_DATE c) (conn_wh c)).
  destruct (effect _ _ _) as [w x]. inversion H; subst. simpl in *.
  split; [repeat split|auto].
Qed.

(* ------------------------------------------------------------------ *)
(** * At most one current version per business key *)
(* ------------------------------------------------------------------ *)

Lemma insert_dim_customers_keeps src today w :
  at_most_one_current w ->
  at_most_one_current (fst (insert_dim_customers src today w)).
Proof.
  intros H k. unfold insert_dim_customers.
  pose proof (insert_at_most_one_current dc_customer_id dc_is_current k
                (Sql.with_serial (customer_sk_seq w) (dim_customer_of today)
                                 (filter c_is_active (customers src)))
                (dim_customers w) (proj1 (H k))) as Hk.
  unfold dim_customers_conflict.
  destruct (Sql.insert_on_conflict_do_nothing _ _ _) as [rows n].
  split; [exact Hk | exact (proj2 (H k))].
Qed.

Lemma insert_dim_products_keeps src today w :
  at_most_one_current w ->
  at_most_one_current (fst (insert_dim_products src today w)).
Proof.
  intros H k. unfold insert_dim_products.
  pose proof (insert_at_most_one_current dp_product_id dp_is_current k
                (Sql.with_serial (product_sk_seq w) (dim_product_of today)
                                 (filter p_is_active (products src)))
                (dim_products w) (proj2 (H k))) as Hk.
  unfold dim_products_conflict.
  destruct (Sql.insert_on_conflict_do_nothing _ _ _) as [rows n].
  split; [exact (proj1 (H k)) | exact Hk].
Qed.

Lemma update_dim_customers_keeps src today w :
  at_most_one_current w ->
  at_most_one_current (fst (update_dim_customers src today w)).
Proof.
  intros H k. split; [|exact (proj2 (H k))].
  apply (update_at_most_one_current dc_customer_id dc_is_current k);
    [reflexivity | exact (proj1 (H k))].
Qed.

Lemma update_dim_products_keeps src today w :
  at_most_one_current w ->
  at_most_one_current (fst (update_dim_products src today w)).
Proof.
  intros H k. split; [exact (proj1 (H k))|].
  apply (update_at_most_one_current dp_product_id dp_is_current k);
    [reflexivity | exact (proj2 (H k))].
Qed.

Lemma same_scd_dimensions_keeps w w' :
  same_scd_dimensions w w' -> at_most_one_current w -> at_most_one_current w'.
Proof.
  intros [Hc Hp] H k. unfold current_customer_rows, current_product_rows.
  rewrite Hc, Hp. apply H.
Qed.

Lemma insert_on_conflict_pair {R} conflicts (table proposed : list R) :
  Sql.insert_on_conflict_do_nothing conflicts table proposed
  = (fst (Sql.insert_on_conflict_do_nothing conflicts table proposed),
     snd (Sql.insert_on_conflict_do_nothing conflicts table proposed)).
Proof. apply surjective_pairing. Qed.

Ltac frame_dimensions :=
  intros; eapply same_scd_dimensions_keeps; [|eassumption];
  unfold insert_dim_payment_method, insert_agg_daily_sales,
    insert_agg_product_sales, insert_agg_customer_lifetime;
  try rewrite insert_on_conflict_pair; split; reflexivity.

Lemma apply_scd_type2_keeps dimension_name :
  preserves at_most_one_current (apply_scd_type2 dimension_name).
Proof.
  unfold apply_scd_type2.
  destruct (dimension_name =? "dim_customers")%string.
  - apply preserves_bind; [|intros; apply preserves_ret].
    apply preserves_execute. intros. now apply update_dim_customers_keeps.
  - destruct (dimension_name =? "dim_products")%string.
    + apply preserves_bind; [|intros; apply preserves_ret].
      apply preserves_execute. intros. now apply update_dim_products_keeps.
    + apply preserves_ret.
Qed.

Lemma main_transaction_keeps utcnow :
  preserves at_most_one_current (main_transaction utcnow).
Proof.
  unfold main_transaction.
  apply preserves_bind;
    [apply preserves_execute; intros; now apply insert_dim_customers_keeps|].
  intros cust_count. apply preserves_bind;
    [apply preserves_execute; intros; now apply insert_dim_products_keeps|].
  intros prod_count. apply preserves_bind;
    [apply preserves_execute; frame_dimensions|].
  intros date_range. apply preserves_bind.
  { unfold build_dim_date. apply preserves_bind; [apply preserves_lift|].
    intros dates. apply preserves_execute. frame_dimensions. }
  intros date_count. apply preserves_bind;
    [apply preserves_execute; frame_dimensions|].
  intros pm_count. apply preserves_bind;
    [apply preserves_execute; frame_dimensions|].
  intros fact_count. apply preserves_bind;
    [apply preserves_execute; frame_dimensions|].
  intros agg_daily. apply preserves_bind;
    [apply preserves_execute; frame_dimensions|].
  intros agg_prod. apply preserves_bind;
    [apply preserves_execute; frame_dimensions|].
  intros agg_cust. apply preserves_bind; [apply apply_scd_type2_keeps|].
  intros scd_cust. apply preserves_bind; [apply apply_scd_type2_keeps|].
  intros scd_prod. apply preserves_ret.
Qed.

Lemma build_body_keeps b : preserves at_most_one_current (build_body b).
Proof.
  destruct b; simpl; unfold discard;
    (apply preserves_bind; [|intros; apply preserves_ret]).
  - apply preserves_execute. intros. now apply insert_dim_customers_keeps.
  - apply preserves_execute. intros. now apply insert_dim_products_keeps.
  - apply apply_scd_type2_keeps.
  - apply main_transaction_keeps.
Qed.

Lemma run_build_keeps w b :
  at_most_one_current w -> at_most_one_current (run_build w b).
Proof.
  destruct b as [[src env] what]. intros H. unfold run_build, engine_begin.
  destruct (build_body what (connect env _)) as [a c|e] eqn:Hrun; simpl.
  - destruct (build_body_keeps what _ _ _ Hrun) as [_ Hk]. now apply Hk.
  - exact H.
Qed.

Lemma run_builds_keep builds :
  forall w, at_most_one_current w -> at_most_one_current (run_builds builds w).
Proof.
  induction builds as [|b rest IH]; intros w H; simpl; [exact H|].
  apply IH. now apply run_build_keeps.
Qed.

(** C1: starting from the empty warehouse, after any sequence of builds
    (dimension population, re-runs, SCD retirements and whole runs of
    [main], in any order, against any production data, committed or rolled
    back), every business key has at most one customer dimension row and at
    most one product dimension row with [is_current = true]. *)
Theorem at_most_one_current_after_any_builds :
  forall (builds : list (sources * store_behaviour * build))
         (business_key : string),
    let w := run_builds builds empty_warehouse in
    (List.length
       (filter (fun r => dc_is_current r
                         && (dc_customer_id r =? business_key)%string)
               (dim_customers w)) <= 1)%nat
    /\ (List.length
          (filter (fun r => dp_is_current r
                            && (dp_product_id r =? business_key)%string)
                  (dim_products w)) <= 1)%nat.
Proof.
  intros builds k w.
  assert (H0 : at_most_one_current empty_warehouse)
    by (intros k'; split; simpl; lia).
  exact (run_builds_keep builds empty_warehouse H0 k).
Qed.

(* ------------------------------------------------------------------ *)
(** * The statements a computation executes *)
(* ------------------------------------------------------------------ *)

Lemma executes_ret {A} (a : A) : executes (ret a) [].
Proof.
  intros c a' c' H. inversion H; subst.
  repeat split; auto using app_nil_r.
Qed.

Lemma executes_lift {A} (r : result A) : executes (lift r) [].
Proof.
  intros c a' c' H. unfold lift in H. destruct r; inversion H; subst.
  repeat split; auto using app_nil_r.
Qed.

Lemma executes_execute {A} s
      (effect : sources -> date -> warehouse -> warehouse * A) :
  executes (execute s effect) [s].
Proof.
  intros c a c' H. unfold execute in H.
  destruct (store_fails c s) eqn:Hs; [discriminate|].
  destruct (effect _ _ _) as [w x]. inversion H; subst. simpl.
  repeat split; auto.
Qed.

Lemma executes_bind {A B} (m : M A) (k : A -> M B) l1 l2 :
  executes m l1 -> (forall a, executes (k a) l2) ->
  executes (bind m k) (l1 ++ l2).
Proof.
  intros Hm Hk c b c' H. unfold bind in H.
  destruct (m c) as [a c1|e] eqn:Hmc; [|discriminate].
  destruct (Hm _ _ _ Hmc) as [[S1 [S2 S3]] [E1 F1]].
  destruct (Hk a _ _ _ H) as [[T1 [T2 T3]] [E2 F2]].
  split; [repeat split; congruence|]. split.
  - rewrite E2, E1. now rewrite app_assoc.
  - apply Forall_app. split; [exact F1|]. now rewrite S3 in F2.
Qed.

Lemma main_transaction_executes utcnow :
  executes (main_transaction utcnow) main_statements.
Proof.
  unfold main_transaction, main_statements.
  apply (executes_bind _ _ [_] _ (executes_execute _ _)); intros cust_count.
  apply (executes_bind _ _ [_] _ (executes_execute _ _)); intros prod_count.
  apply (executes_bind _ _ [_] _ (executes_execute _ _)); intros date_range.
  apply (executes_bind _ _ [_] _).
  { unfold build_dim_date.
    apply (executes_bind _ _ [] [_] (executes_lift _)); intros dates.
    apply executes_execute. }
  intros date_count.
  apply (executes_bind _ _ [_] _ (executes_execute _ _)); intros pm_count.
  apply (executes_bind _ _ [_] _ (executes_execute _ _)); intros fact_count.
  apply (executes_bind _ _ [_] _ (executes_execute _ _)); intros agg_daily.
  apply (executes_bind _ _ [_] _ (executes_execute _ _)); intros agg_prod.
  apply (executes_bind _ _ [_] _ (executes_execute _ _)); intros agg_cust.
  apply (executes_bind _ _ [_] _).
  { unfold apply_scd_type2. simpl.
    apply (executes_bind _ _ [_] [] (executes_execute _ _)); intros n.
    apply executes_ret. }
  intros scd_cust.
  apply (executes_bind _ _ [_] []).
  { unfold apply_scd_type2. simpl.
    apply (executes_bind _ _ [_] [] (executes_execute _ _)); intros n.
    apply executes_ret. }
  intros scd_prod. apply executes_ret.
Qed.

Lemma statement_in_main s : In s main_statements.
Proof. destruct s; simpl; tauto. Qed.

(** A rejected statement makes the body of the transaction raise. *)
Lemma rejected_statement_raises utcnow c s :
  store_fails c s = true -> exists e, main_transaction utcnow c = Raises e.
Proof.
  intros Hs.
  destruct (main_transaction utcnow c) as [log c'|e] eqn:Hrun; [|eauto].
  destruct (main_transaction_executes utcnow _ _ _ Hrun) as [_ [_ F]].
  rewrite Forall_forall in F.
  specialize (F s (statement_in_main s)). congruence.
Qed.

(* ------------------------------------------------------------------ *)
(** * Atomicity of the build *)
(* ------------------------------------------------------------------ *)

Lemma engine_begin_rolls_back {A} env db (body : M A) e :
  snd (engine_begin env db body) = Err e ->
  fst (engine_begin env db body) = db.
Proof.
  unfold engine_begin. destruct (body (connect env db)); simpl;
    [discriminate | reflexivity].
Qed.

(** C2: the build is one atomic unit.  Whenever [main] raises, the
    committed database is the one it started from; a statement rejected by
    the store makes [main] raise; in particular when the store rejects the
    fact insert, the committed fact table and the three committed aggregate
    tables are exactly the ones from before the build. *)
Theorem main_is_all_or_nothing :
  forall (utcnow : string) (env : store_behaviour) (db : database),
    (forall e, snd (main utcnow env db) = Err e ->
               fst (main utcnow env db) = db)
    /\ (forall s, rejects env s = true ->
                  exists e, main utcnow env db = (db, Err e))
    /\ (rejects env InsertFactSales = true ->
        let db' := fst (main utcnow env db) in
        (exists e, snd (main utcnow env db) = Err e)
        /\ fact_sales (db_wh db') = fact_sales (db_wh db)
        /\ agg_daily_sales (db_wh db') = agg_daily_sales (db_wh db)
        /\ agg_product_sales (db_wh db') = agg_product_sales (db_wh db)
        /\ agg_customer_lifetime (db_wh db')
           = agg_customer_lifetime (db_wh db)).
Proof.
  intros utcnow env db.
  assert (Hrej : forall s, rejects env s = true ->
                           exists e, main utcnow env db = (db, Err e)).
  { intros s Hs. unfold main, engine_begin.
    destruct (rejected_statement_raises utcnow (connect env db) s Hs)
      as [e He].
    rewrite He. eauto. }
  split; [|split].
  - intros e. apply engine_begin_rolls_back.
  - exact Hrej.
  - intros Hs db'. subst db'. destruct (Hrej _ Hs) as [e He]. rewrite He.
    simpl. eauto 6.
Qed.


Lemma main_is_all_or_nothing_witness :
  fact_sales (db_wh Sample.after_failed_fact_load) = []
  /\ agg_product_sales (db_wh Sample.after_failed_fact_load) = [].
Proof.
  destruct (main_is_all_or_nothing Sample.utcnow Sample.fact_load_fails
              (Sample.fresh Sample.day1)) as [_ [_ H]].
  destruct (H eq_refl) as [_ [Hf [_ [Hp _]]]].
  split; [exact Hf | exact Hp].
Defined.


(* ------------------------------------------------------------------ *)
(** * An empty transactions table *)
(* ------------------------------------------------------------------ *)

(** The text of a NULL date is not a date. *)
Lemma build_dim_date_of_null c :
  build_dim_date (str None) (str None) c = Raises (DateParseError "None").
Proof. reflexivity. Qed.

Lemma select_date_range_empty src w :
  transactions src = [] -> select_date_range src w = (None, None).
Proof. intros H. unfold select_date_range. now rewrite H. Qed.

Lemma main_transaction_empty_range utcnow c :
  transactions (conn_src c) = [] ->
  exists e,
    main_transaction utcnow c = Raises e
    /\ (store_fails c InsertDimCustomers = false ->
        store_fails c InsertDimProducts = false ->
        store_fails c SelectDateRange = false ->
        e = DateParseError "None").
Proof.
  intros Hempty. unfold main_transaction, bind.
  destruct (build_dim_customers c) as [n1 c1|e1] eqn:H1.
  2:{ exists e1. split; [reflexivity|]. intros F _ _.
      unfold build_dim_customers, execute in H1. rewrite F in H1.
      destruct (insert_dim_customers _ _ _); discriminate. }
  destruct (executes_execute _ _ _ _ _ H1) as [[S1 [_ R1]] _].
  destruct (build_dim_products c1) as [n2 c2|e2] eqn:H2.
  2:{ exists e2. split; [reflexivity|]. intros _ F _.
      unfold build_dim_products, execute in H2. rewrite R1, F in H2.
      destruct (insert_dim_products _ _ _); discriminate. }
  destruct (executes_execute _ _ _ _ _ H2) as [[S2 [_ R2]] _].
  destruct (query SelectDateRange select_date_range c2) as [dr c3|e3] eqn:H3.
  2:{ exists e3. split; [reflexivity|]. intros _ _ F.
      unfold query, execute in H3. rewrite R2, R1, F in H3. discriminate. }
  assert (Hdr : dr = (None, None)).
  { unfold query, execute in H3.
    destruct (store_fails c2 SelectDateRange); [discriminate|].
    inversion H3; subst. apply select_date_range_empty. congruence. }
  subst dr. simpl fst. simpl snd. rewrite build_dim_date_of_null.
  exists (DateParseError "None"). split; reflexivity.
Qed.

(** C3 (as the code has it): when the production transactions table is
    empty, [main] raises; the step is not skipped and no log is returned.
    The whole build is rolled back, so no date row (nor any other row) is
    committed; and unless the store rejected an earlier statement, the
    exception is the date-parsing ValueError for the text ["None"]. *)
Theorem empty_transactions_abort_the_build :
  forall (utcnow : string) (env : store_behaviour) (db : database),
    transactions (db_src db) = [] ->
    exists e,
      main utcnow env db = (db, Err e)
      /\ dim_date (db_wh (fst (main utcnow env db))) = dim_date (db_wh db)
      /\ (rejects env InsertDimCustomers = false ->
          rejects env InsertDimProducts = false ->
          rejects env SelectDateRange = false ->
          e = DateParseError "None").
Proof.
  intros utcnow env db Hempty.
  destruct (main_transaction_empty_range utcnow (connect env db) Hempty)
    as [e [He Hwhich]].
  exists e. unfold main, engine_begin. rewrite He. simpl.
  repeat split. exact Hwhich.
Qed.

Lemma empty_transactions_abort_the_build_witness :
  exists e,
    main Sample.utcnow Sample.healthy_store
         (Sample.fresh Sample.no_transactions)
    = (Sample.fresh Sample.no_transactions, Err e).
Proof.
  destruct (empty_transactions_abort_the_build Sample.utcnow
              Sample.healthy_store (Sample.fresh Sample.no_transactions)
              eq_refl) as [e [He _]].
  exists e. exact He.
Defined.

(** C3 (as stated) fails: with no transactions the date step is not skipped
    and reported with zero rows; no log is returned at all, and the
    exception is pandas' parse error. *)
Lemma empty_transactions_not_skipped :
  Sample.outcome_without_transactions = Err (DateParseError "None")
  /\ ~ (exists log,
          Sample.outcome_without_transactions = Ok log
          /\ dict_get "dim_date" (dimensions_built log) = Some 0).
Proof.
  split; [reflexivity|].
  intros [log [H _]]. vm_compute in H. discriminate.
Qed.

(* ------------------------------------------------------------------ *)
(** * Order of the steps *)
(* ------------------------------------------------------------------ *)

(** C4 (as the code has it): a build that returns has executed, in this
    order: the two inserting SCD statements, the date-range query and the
    date dimension, the payment-method dimension, then the fact load, then
    the three aggregates, and only then the two SCD retirements. *)
Theorem main_runs_retirement_last :
  forall (utcnow : string) (env : store_behaviour) (db : database)
         (log : build_log) (c : connection),
    main_transaction utcnow (connect env db) = Returns log c ->
    executed c = main_statements
    /\ retirement_last_order (executed c) = true
    /\ all_before aggregate_builder scd_retirement (executed c) = true.
Proof.
  intros utcnow env db log c H.
  destruct (main_transaction_executes utcnow _ _ _ H) as [_ [E _]].
  simpl in E. rewrite E. repeat split; reflexivity.
Qed.

Lemma main_runs_retirement_last_witness :
  exists log c,
    main_transaction Sample.utcnow
                     (connect Sample.healthy_store Sample.second_day)
    = Returns log c
    /\ executed c = main_statements.
Proof.
  eexists. eexists. split; [vm_compute; reflexivity|].
  eapply (main_runs_retirement_last Sample.utcnow
            Sample.healthy_store Sample.second_day).
  vm_compute. reflexivity.
Defined.

(** C4 (as stated) fails: in a build that retires a deactivated customer,
    the retirement does not complete before the fact load; the customer's
    new line item is loaded by the same build that retires the customer. *)
Lemma retirement_does_not_precede_fact_load :
  exists log c,
    main_transaction Sample.utcnow
                     (connect Sample.healthy_store Sample.second_day)
    = Returns log c
    /\ retirement_before_fact_order (executed c) = false
    /\ completes_before UpdateDimCustomers InsertFactSales (executed c)
       = false
    /\ dict_get "fact_sales" (fact_tables_built log) = Some 1
    /\ option_map records_updated
                  (dict_get "dim_customers" (scd_updates log)) = Some 1
    /\ map fs_item_id (fact_sales (conn_wh c)) = ["I1"; "I2"; "I3"].
Proof.
  eexists. eexists. split; [vm_compute; reflexivity|].
  repeat split; vm_compute; reflexivity.
Qed.


(* ------------------------------------------------------------------ *)
(** * Joins and filters *)
(* ------------------------------------------------------------------ *)

Lemma in_inner_join {A B} (on : A -> B -> bool) l r a b :
  In (a, b) (Sql.inner_join on l r) <-> In a l /\ In b r /\ on a b = true.
Proof.
  unfold Sql.inner_join. rewrite in_flat_map. split.
  - intros [a' [Ha Hin]]. apply in_map_iff in Hin as [b' [E Hb]].
    inversion E; subst. apply filter_In in Hb. tauto.
  - intros [Ha [Hb Hon]]. exists a. split; [exact Ha|].
    apply in_map. apply filter_In. tauto.
Qed.

Lemma in_left_join_left {A B} (on : A -> B -> bool) l r a ob :
  In (a, ob) (Sql.left_join on l r) -> In a l.
Proof.
  unfold Sql.left_join. rewrite in_flat_map. intros [a' [Ha Hin]].
  destruct (filter (on a') r) as [|m ms].
  - destruct Hin as [E|[]]. inversion E; subst. exact Ha.
  - apply in_map_iff in Hin as [b' [E _]]. inversion E; subst. exact Ha.
Qed.

Lemma filter_none {A} (f : A -> bool) l :
  (forall x, In x l -> f x = false) -> filter f l = [].
Proof.
  induction l as [|x xs IH]; intros H; simpl; [reflexivity|].
  rewrite (H x (or_introl eq_refl)). apply IH. intros y Hy. apply H. now right.
Qed.

(** What a row of the FROM clause of the fact load is made of. *)
Lemma in_fact_sales_from src w (j : joined) :
  In j (fact_sales_from src w) ->
  In (line_item_of j) (transaction_items src)
  /\ In (transaction_of j) (transactions src)
  /\ ti_transaction_id (line_item_of j) = t_transaction_id (transaction_of j)
  /\ In (customer_version_of j) (dim_customers w)
  /\ dc_is_current (customer_version_of j) = true
  /\ t_customer_id (transaction_of j) = dc_customer_id (customer_version_of j)
  /\ In (product_version_of j) (dim_products w)
  /\ dp_is_current (product_version_of j) = true
  /\ ti_product_id (line_item_of j) = dp_product_id (product_version_of j).
Proof.
  destruct j as [[[[[ti t] dc] dp] dd] dpm]. unfold fact_sales_from. simpl.
  intros H. apply in_left_join_left in H.
  apply in_inner_join in H as [H _].
  apply in_inner_join in H as [H [Hdp Hp]].
  apply in_inner_join in H as [H [Hdc Hc]].
  apply in_inner_join in H as [Hti [Ht Hid]].
  apply andb_true_iff in Hp as [Hp1 Hp2].
  apply andb_true_iff in Hc as [Hc1 Hc2].
  apply String.eqb_eq in Hp1, Hc1, Hid. tauto.
Qed.

Lemma fact_sales_select_loaded_by src w :
  fact_sales_select src w = map fact_sales_row_of (loaded_by src w).
Proof.
  unfold fact_sales_select, loaded_by. f_equal. apply filter_ext.
  intros [[[[[ti t] dc] dp] dd] dpm]. reflexivity.
Qed.

Lemma fs_item_id_row_of (j : joined) :
  fs_item_id (fact_sales_row_of j) = ti_item_id (line_item_of j).
Proof. destruct j as [[[[[ti t] dc] dp] dd] dpm]. reflexivity. Qed.

Lemma not_yet_loaded_false w ti :
  not_yet_loaded w ti = false <->
  exists fs, In fs (fact_sales w) /\ fs_item_id fs = ti_item_id ti.
Proof.
  unfold not_yet_loaded. rewrite negb_false_iff, existsb_exists.
  split; intros [fs [Hin E]]; exists fs; split; auto;
    now apply String.eqb_eq.
Qed.

(* ------------------------------------------------------------------ *)
(** * Idempotence of the fact load *)
(* ------------------------------------------------------------------ *)

Lemma set_fact_sales_same w : set_fact_sales (fact_sales w ++ []) w = w.
Proof. rewrite app_nil_r. destruct w; reflexivity. Qed.

(** Right after a load, the load selects nothing. *)
Lemma fact_sales_select_after_load src today w :
  fact_sales_select src (fst (insert_fact_sales src today w)) = [].
Proof.
  rewrite fact_sales_select_loaded_by. unfold loaded_by.
  unfold insert_fact_sales. simpl fst.
  change (fact_sales_from src (set_fact_sales _ w))
    with (fact_sales_from src w).
  rewrite filter_none; [reflexivity|].
  intros j Hj. apply not_yet_loaded_false. simpl.
  destruct (not_yet_loaded w (line_item_of j)) eqn:Hold.
  - exists (fact_sales_row_of j). split; [|apply fs_item_id_row_of].
    apply in_or_app. right. rewrite fact_sales_select_loaded_by.
    apply in_map. apply filter_In. split; assumption.
  - apply not_yet_loaded_false in Hold as [fs [Hin E]].
    exists fs. split; [apply in_or_app; now left | exact E].
Qed.

(** C5: when a fact load has returned, running the loader again on the same
    connection (same production data, same dimension tables) returns a
    rowcount of zero and leaves the fact table, and the whole warehouse, as
    the first run left it. *)
Theorem fact_load_is_idempotent :
  forall (c c1 : connection) (n : Z),
    build_fact_sales c = Returns n c1 ->
    exists c2,
      build_fact_sales c1 = Returns 0 c2
      /\ fact_sales (conn_wh c2) = fact_sales (conn_wh c1)
      /\ conn_wh c2 = conn_wh c1.
Proof.
  intros c c1 n H. unfold build_fact_sales, execute in *.
  destruct (store_fails c InsertFactSales) eqn:Hs; [discriminate|].
  destruct (insert_fact_sales (conn_src c) (CURRENT_DATE c) (conn_wh c))
    as [w1 n1] eqn:Hload.
  inversion H; subst. simpl. rewrite Hs.
  assert (Hsel : fact_sales_select (conn_src c) w1 = []).
  { replace w1 with (fst (insert_fact_sales (conn_src c) (CURRENT_DATE c)
                                            (conn_wh c)))
      by now rewrite Hload.
    apply fact_sales_select_after_load. }
  rewrite Hsel. simpl. rewrite set_fact_sales_same.
  eexists. repeat split.
Qed.

Lemma fact_load_is_idempotent_witness :
  exists c1 c2,
    build_fact_sales Sample.before_fact_load = Returns 2 c1
    /\ build_fact_sales c1 = Returns 0 c2
    /\ fact_sales (conn_wh c2) = fact_sales (conn_wh c1).
Proof.
  eexists.
  destruct (fact_load_is_idempotent Sample.before_fact_load _ 2
              ltac:(vm_compute; reflexivity)) as [c2 [H2 [Hf _]]].
  exists c2. split; [vm_compute; reflexivity|]. split; assumption.
Defined.


(* ------------------------------------------------------------------ *)
(** * Retirement and the fact load that follows it *)
(* ------------------------------------------------------------------ *)

Lemma existsb_string_in k l : existsb (String.eqb k) l = true <-> In k l.
Proof.
  rewrite existsb_exists. split.
  - intros [x [Hin E]]. apply String.eqb_eq in E. now subst.
  - intros H. exists k. split; [exact H | apply String.eqb_refl].
Qed.

Lemma in_inactive_customer_ids src k :
  In k (inactive_customer_ids src) <-> deactivated_customer src k.
Proof.
  unfold inactive_customer_ids, deactivated_customer.
  rewrite in_map_iff. split; intros [c H]; exists c.
  - destruct H as [E H]. apply filter_In in H as [Hin Ha].
    apply negb_true_iff in Ha. tauto.
  - destruct H as [Hin [E Ha]]. split; [exact E|].
    apply filter_In. split; [exact Hin | now rewrite Ha].
Qed.

Lemma in_inactive_product_ids src k :
  In k (inactive_product_ids src) <-> deactivated_product src k.
Proof.
  unfold inactive_product_ids, deactivated_product.
  rewrite in_map_iff. split; intros [p H]; exists p.
  - destruct H as [E H]. apply filter_In in H as [Hin Ha].
    apply negb_true_iff in Ha. tauto.
  - destruct H as [Hin [E Ha]]. split; [exact E|].
    apply filter_In. split; [exact Hin | now rewrite Ha].
Qed.

(** What [apply_scd_type2] does to the connection. *)
Lemma apply_scd_type2_customers c res c1 :
  apply_scd_type2 "dim_customers" c = Returns res c1 ->
  same_context c c1
  /\ conn_wh c1
     = fst (update_dim_customers (conn_src c) (CURRENT_DATE c) (conn_wh c))
  /\ records_updated res
     = snd (update_dim_customers (conn_src c) (CURRENT_DATE c) (conn_wh c)).
Proof.
  intros H. unfold apply_scd_type2 in H. simpl in H.
  unfold bind, execute, ret in H.
  destruct (store_fails c UpdateDimCustomers); [discriminate|].
  destruct (update_dim_customers (conn_src c) (CURRENT_DATE c) (conn_wh c))
    as [w n].
  inversion H; subst. repeat split; reflexivity.
Qed.

Lemma apply_scd_type2_products c res c1 :
  apply_scd_type2 "dim_products" c = Returns res c1 ->
  same_context c c1
  /\ conn_wh c1
     = fst (update_dim_products (conn_src c) (CURRENT_DATE c) (conn_wh c))
  /\ records_updated res
     = snd (update_dim_products (conn_src c) (CURRENT_DATE c) (conn_wh c)).
Proof.
  intros H. unfold apply_scd_type2 in H. simpl in H.
  unfold bind, execute, ret in H.
  destruct (store_fails c UpdateDimProducts); [discriminate|].
  destruct (update_dim_products (conn_src c) (CURRENT_DATE c) (conn_wh c))
    as [w n].
  inversion H; subst. repeat split; reflexivity.
Qed.

Lemma update_dim_customers_rows src today w :
  dim_customers (fst (update_dim_customers src today w))
  = map (fun r =>
           if dc_is_current r
              && existsb (String.eqb (dc_customer_id r))
                         (inactive_customer_ids src)
           then retire_customer today r else r)
        (dim_customers w).
Proof. reflexivity. Qed.

Lemma update_dim_products_rows src today w :
  dim_products (fst (update_dim_products src today w))
  = map (fun r =>
           if dp_is_current r
              && existsb (String.eqb (dp_product_id r))
                         (inactive_product_ids src)
           then retire_product today r else r)
        (dim_products w).
Proof. reflexivity. Qed.

(** After the retirement no deactivated business key has a current row. *)
Lemma no_current_customer_after_retirement src today w r :
  In r (dim_customers (fst (update_dim_customers src today w))) ->
  dc_is_current r = true ->
  ~ deactivated_customer src (dc_customer_id r).
Proof.
  rewrite update_dim_customers_rows, in_map_iff.
  intros [r0 [E Hin]] Hcur Hde.
  destruct (dc_is_current r0) eqn:Hc0; simpl in E.
  - destruct (existsb _ _) eqn:Hex.
    + subst r. discriminate.
    + subst r0. apply in_inactive_customer_ids, existsb_string_in in Hde.
      congruence.
  - subst r0. congruence.
Qed.

Lemma no_current_product_after_retirement src today w r :
  In r (dim_products (fst (update_dim_products src today w))) ->
  dp_is_current r = true ->
  ~ deactivated_product src (dp_product_id r).
Proof.
  rewrite update_dim_products_rows, in_map_iff.
  intros [r0 [E Hin]] Hcur Hde.
  destruct (dp_is_current r0) eqn:Hc0; simpl in E.
  - destruct (existsb _ _) eqn:Hex.
    + subst r. discriminate.
    + subst r0. apply in_inactive_product_ids, existsb_string_in in Hde.
      congruence.
  - subst r0. congruence.
Qed.

(** The rows a fact load appends. *)
Lemma build_fact_sales_appends c n c2 :
  build_fact_sales c = Returns n c2 ->
  fact_sales (conn_wh c2)
  = fact_sales (conn_wh c)
    ++ map fact_sales_row_of (loaded_by (conn_src c) (conn_wh c))
  /\ n = Z.of_nat (List.length (loaded_by (conn_src c) (conn_wh c))).
Proof.
  unfold build_fact_sales, execute.
  destruct (store_fails c InsertFactSales); [discriminate|].
  unfold insert_fact_sales. intros H. inversion H; subst. simpl.
  rewrite fact_sales_select_loaded_by, length_map. split; reflexivity.
Qed.

Lemma loaded_by_from src w j :
  In j (loaded_by src w) ->
  In j (fact_sales_from src w) /\ not_yet_loaded w (line_item_of j) = true.
Proof. unfold loaded_by. apply filter_In. Qed.


Lemma product_retirement_then_load c res c1 :
  apply_scd_type2 "dim_products" c = Returns res c1 ->
  (forall i r,
      nth_error (dim_products (conn_wh c)) i = Some r ->
      dp_is_current r = true ->
      deactivated_product (conn_src c) (dp_product_id r) ->
      exists r',
        nth_error (dim_products (conn_wh c1)) i = Some r'
        /\ dp_is_current r' = false
        /\ dp_end_date r' = Some (CURRENT_DATE c - 1)
        /\ dp_product_sk r' = dp_product_sk r
        /\ dp_product_id r' = dp_product_id r)
  /\ (forall n c2 k,
         build_fact_sales c1 = Returns n c2 ->
         deactivated_product (conn_src c) k ->
         (forall j, In j (fact_sales_from (conn_src c1) (conn_wh c1)) ->
                    ti_product_id (line_item_of j) <> k)
         /\ exists js,
             fact_sales (conn_wh c2)
             = fact_sales (conn_wh c1) ++ map fact_sales_row_of js
             /\ forall j, In j js -> ti_product_id (line_item_of j) <> k).
Proof.
  intros H. apply apply_scd_type2_products in H as [[Hsrc _] [Hw _]].
  split.
  - intros i r Hi Hcur Hde. exists (retire_product (CURRENT_DATE c) r).
    split; [|repeat split].
    rewrite Hw, update_dim_products_rows, nth_error_map, Hi. simpl.
    apply in_inactive_product_ids, existsb_string_in in Hde.
    now rewrite Hcur, Hde.
  - intros n c2 k Hload Hde.
    assert (Hfrom : forall j,
               In j (fact_sales_from (conn_src c1) (conn_wh c1)) ->
               ti_product_id (line_item_of j) <> k).
    { intros j Hj E. apply in_fact_sales_from in Hj.
      destruct Hj as [_ [_ [_ [_ [_ [_ [Hin [Hcur Hid]]]]]]]].
      rewrite Hw in Hin.
      apply (no_current_product_after_retirement _ _ _ _ Hin Hcur).
      congruence. }
    split; [exact Hfrom|].
    exists (loaded_by (conn_src c1) (conn_wh c1)).
    split; [apply (build_fact_sales_appends _ _ _ Hload)|].
    intros j Hj. apply Hfrom. now apply loaded_by_from in Hj.
Qed.

Lemma customer_retirement_then_load c res c1 :
  apply_scd_type2 "dim_customers" c = Returns res c1 ->
  (forall i r,
      nth_error (dim_customers (conn_wh c)) i = Some r ->
      dc_is_current r = true ->
      deactivated_customer (conn_src c) (dc_customer_id r) ->
      exists r',
        nth_error (dim_customers (conn_wh c1)) i = Some r'
        /\ dc_is_current r' = false
        /\ dc_end_date r' = Some (CURRENT_DATE c - 1)
        /\ dc_customer_sk r' = dc_customer_sk r
        /\ dc_customer_id r' = dc_customer_id r)
  /\ (forall n c2 k,
         build_fact_sales c1 = Returns n c2 ->
         deactivated_customer (conn_src c) k ->
         (forall j, In j (fact_sales_from (conn_src c1) (conn_wh c1)) ->
                    t_customer_id (transaction_of j) <> k)
         /\ exists js,
             fact_sales (conn_wh c2)
             = fact_sales (conn_wh c1) ++ map fact_sales_row_of js
             /\ forall j, In j js -> t_customer_id (transaction_of j) <> k).
Proof.
  intros H. apply apply_scd_type2_customers in H as [[Hsrc _] [Hw _]].
  split.
  - intros i r Hi Hcur Hde. exists (retire_customer (CURRENT_DATE c) r).
    split; [|repeat split].
    rewrite Hw, update_dim_customers_rows, nth_error_map, Hi. simpl.
    apply in_inactive_customer_ids, existsb_string_in in Hde.
    now rewrite Hcur, Hde.
  - intros n c2 k Hload Hde.
    assert (Hfrom : forall j,
               In j (fact_sales_from (conn_src c1) (conn_wh c1)) ->
               t_customer_id (transaction_of j) <> k).
    { intros j Hj E. apply in_fact_sales_from in Hj.
      destruct Hj as [_ [_ [_ [Hin [Hcur [Hid _]]]]]].
      rewrite Hw in Hin.
      apply (no_current_customer_after_retirement _ _ _ _ Hin Hcur).
      congruence. }
    split; [exact Hfrom|].
    exists (loaded_by (conn_src c1) (conn_wh c1)).
    split; [apply (build_fact_sales_appends _ _ _ Hload)|].
    intros j Hj. apply Hfrom. now apply loaded_by_from in Hj.
Qed.

(** C6: when [apply_scd_type2] returns for a dimension, every row of that
    dimension that was current and whose business key belongs to a
    deactivated production entity is, in place, no longer current and has
    [end_date = CURRENT_DATE - 1] (its keys untouched); and a fact load that
    follows joins no line item of such a business key, so every row it
    appends comes from a line item of another key. *)
Theorem retirement_sets_end_date_and_excludes_from_fact_load :
  forall (c c1 : connection) (res : scd_result),
    (apply_scd_type2 "dim_products" c = Returns res c1 ->
     (forall i r,
         nth_error (dim_products (conn_wh c)) i = Some r ->
         dp_is_current r = true ->
         deactivated_product (conn_src c) (dp_product_id r) ->
         exists r',
           nth_error (dim_products (conn_wh c1)) i = Some r'
           /\ dp_is_current r' = false
           /\ dp_end_date r' = Some (CURRENT_DATE c - 1)
           /\ dp_product_sk r' = dp_product_sk r
           /\ dp_product_id r' = dp_product_id r)
     /\ (forall n c2 k,
            build_fact_sales c1 = Returns n c2 ->
            deactivated_product (conn_src c) k ->
            (forall j, In j (fact_sales_from (conn_src c1) (conn_wh c1)) ->
                       ti_product_id (line_item_of j) <> k)
            /\ exists js,
                fact_sales (conn_wh c2)
                = fact_sales (conn_wh c1) ++ map fact_sales_row_of js
                /\ forall j, In j js -> ti_product_id (line_item_of j) <> k))
    /\ (apply_scd_type2 "dim_customers" c = Returns res c1 ->
        (forall i r,
            nth_error (dim_customers (conn_wh c)) i = Some r ->
            dc_is_current r = true ->
            deactivated_customer (conn_src c) (dc_customer_id r) ->
            exists r',
              nth_error (dim_customers (conn_wh c1)) i = Some r'
              /\ dc_is_current r' = false
              /\ dc_end_date r' = Some (CURRENT_DATE c - 1)
              /\ dc_customer_sk r' = dc_customer_sk r
              /\ dc_customer_id r' = dc_customer_id r)
        /\ (forall n c2 k,
               build_fact_sales c1 = Returns n c2 ->
               deactivated_customer (conn_src c) k ->
               (forall j, In j (fact_sales_from (conn_src c1) (conn_wh c1)) ->
                          t_customer_id (transaction_of j) <> k)
               /\ exists js,
                   fact_sales (conn_wh c2)
                   = fact_sales (conn_wh c1) ++ map fact_sales_row_of js
                   /\ forall j, In j js ->
                                t_customer_id (transaction_of j) <> k)).
Proof.
  intros c c1 res. split.
  - apply product_retirement_then_load.
  - apply customer_retirement_then_load.
Qed.


Lemma retirement_sets_end_date_and_excludes_from_fact_load_witness :
  exists res c1 r',
    apply_scd_type2 "dim_products" Sample.after_withdrawal = Returns res c1
    /\ records_updated res = 1
    /\ nth_error (dim_products (conn_wh c1)) 0 = Some r'
    /\ dp_is_current r' = false
    /\ dp_end_date r' = Some (ymd2ord 2024 1 31)
    /\ (forall j, In j (fact_sales_from (conn_src c1) (conn_wh c1)) ->
                  ti_product_id (line_item_of j) <> "P1").
Proof.
  let v := eval vm_compute in
             (apply_scd_type2 "dim_products" Sample.after_withdrawal) in
  match v with
  | Returns ?res ?c1 =>
      assert (H : apply_scd_type2 "dim_products" Sample.after_withdrawal
                  = Returns res c1) by (vm_compute; reflexivity);
      exists res, c1;
      destruct (retirement_sets_end_date_and_excludes_from_fact_load
                  Sample.after_withdrawal c1 res) as [Hp _]
  end.
  destruct (Hp H) as [Hretire Hload].
  assert (Hde : deactivated_product (conn_src Sample.after_withdrawal) "P1").
  { exists (Sample.a_product "P1" false). simpl. auto. }
  destruct (Hretire O _ ltac:(vm_compute; reflexivity) eq_refl Hde)
    as [r' [Hnth [Hcur [Hend _]]]].
  destruct (Hload _ _ "P1" ltac:(vm_compute; reflexivity) Hde) as [Hfrom _].
  exists r'. repeat split; try assumption.
Defined.

(* ------------------------------------------------------------------ *)
(** * The already-loaded check *)
(* ------------------------------------------------------------------ *)

Lemma filter_app_none {A} (f : A -> bool) l extra :
  (forall x, In x extra -> f x = false) ->
  filter f (l ++ extra) = filter f l.
Proof.
  intros H. rewrite filter_app, (filter_none f extra H). apply app_nil_r.
Qed.

Lemma fs_transaction_id_row_of src w (j : joined) :
  In j (fact_sales_from src w) ->
  fs_transaction_id (fact_sales_row_of j)
  = ti_transaction_id (line_item_of j).
Proof.
  intros H. apply in_fact_sales_from in H as [_ [_ [E _]]].
  destruct j as [[[[[ti t] dc] dp] dd] dpm]. simpl in *. congruence.
Qed.

(** C10 (as the code has it): the check of the fact load compares
    [item_id] alone.  Every row a load appends carries an [item_id] that no
    fact row had when the load started; a line item whose [item_id] is
    carried by such a row is not loaded, whatever transaction either belongs
    to; and the fact rows carrying an [item_id] that was already present are
    the same after the load as before.  Rows of different transactions
    sharing an [item_id] can therefore only enter in one and the same load:
    when production holds no two such line items at once, the fact table
    keeps holding none. *)
Theorem fact_load_checks_item_id_alone :
  forall (c c2 : connection) (n : Z),
    build_fact_sales c = Returns n c2 ->
    exists js,
      fact_sales (conn_wh c2)
      = fact_sales (conn_wh c) ++ map fact_sales_row_of js
      /\ (forall j old,
             In j js -> In old (fact_sales (conn_wh c)) ->
             fs_item_id old <> ti_item_id (line_item_of j))
      /\ (forall ti old,
             In old (fact_sales (conn_wh c)) ->
             fs_item_id old = ti_item_id ti ->
             forall j, In j js -> line_item_of j <> ti)
      /\ (forall old,
             In old (fact_sales (conn_wh c)) ->
             filter (fun fs => (fs_item_id fs =? fs_item_id old)%string)
                    (fact_sales (conn_wh c2))
             = filter (fun fs => (fs_item_id fs =? fs_item_id old)%string)
                      (fact_sales (conn_wh c)))
      /\ (item_id_names_transaction_in_production (conn_src c) ->
          item_id_names_transaction (fact_sales (conn_wh c)) ->
          item_id_names_transaction (fact_sales (conn_wh c2))).
Proof.
  intros c c2 n H. destruct (build_fact_sales_appends _ _ _ H) as [Happ _].
  exists (loaded_by (conn_src c) (conn_wh c)).
  assert (Hfresh : forall j old,
             In j (loaded_by (conn_src c) (conn_wh c)) ->
             In old (fact_sales (conn_wh c)) ->
             fs_item_id old <> ti_item_id (line_item_of j)).
  { intros j old Hj Hold E. apply loaded_by_from in Hj as [_ Hnot].
    assert (Hf : not_yet_loaded (conn_wh c) (line_item_of j) = false)
      by (apply not_yet_loaded_false; eauto).
    congruence. }
  split; [exact Happ|]. split; [exact Hfresh|]. split; [|split].
  - intros ti old Hold E j Hj Eti. subst ti. exact (Hfresh j old Hj Hold E).
  - intros old Hold. rewrite Happ. apply filter_app_none.
    intros fs Hfs. apply in_map_iff in Hfs as [j [Efs Hj]]. subst fs.
    rewrite fs_item_id_row_of. apply String.eqb_neq. intros E.
    exact (Hfresh j old Hj Hold (eq_sym E)).
  - intros Hprod Hfacts r1 r2 H1 H2 E. rewrite Happ in H1, H2.
    apply in_app_or in H1, H2.
    destruct H1 as [H1|H1], H2 as [H2|H2].
    + now apply Hfacts.
    + apply in_map_iff in H2 as [j [Ej Hj]]. subst r2.
      rewrite fs_item_id_row_of in E. now destruct (Hfresh j r1 Hj H1).
    + apply in_map_iff in H1 as [j [Ej Hj]]. subst r1.
      rewrite fs_item_id_row_of in E.
      now destruct (Hfresh j r2 Hj H2 (eq_sym E)).
    + apply in_map_iff in H1 as [j1 [E1 Hj1]].
      apply in_map_iff in H2 as [j2 [E2 Hj2]]. subst r1 r2.
      apply loaded_by_from in Hj1 as [Hj1 _].
      apply loaded_by_from in Hj2 as [Hj2 _].
      rewrite !fs_item_id_row_of in E.
      rewrite (fs_transaction_id_row_of _ _ _ Hj1),
              (fs_transaction_id_row_of _ _ _ Hj2).
      apply in_fact_sales_from in Hj1 as [Hi1 _].
      apply in_fact_sales_from in Hj2 as [Hi2 _].
      now apply Hprod.
Qed.

Lemma fact_load_checks_item_id_alone_witness :
  exists c2,
    build_fact_sales Sample.after_reuse = Returns 0 c2
    /\ map (fun fs => (fs_transaction_id fs, fs_item_id fs))
           (filter (fun fs => (fs_item_id fs =? "I1")%string)
                   (fact_sales (conn_wh c2)))
       = [("T1", "I1")].
Proof.
  let v := eval vm_compute in (build_fact_sales Sample.after_reuse) in
  match v with
  | Returns ?n ?c2 =>
      assert (H : build_fact_sales Sample.after_reuse = Returns n c2)
        by (vm_compute; reflexivity);
      exists c2
  end.
  split; [exact H|].
  destruct (fact_load_checks_item_id_alone _ _ _ H)
    as [js [_ [_ [_ [Hsame _]]]]].
  let rows := eval vm_compute in (fact_sales (conn_wh Sample.after_reuse)) in
  match rows with
  | ?x :: _ => specialize (Hsame x ltac:(vm_compute; left; reflexivity))
  end.
  etransitivity; [exact (f_equal (map _) Hsame)|].
  vm_compute. reflexivity.
Defined.

(** C10 (as stated) fails: two line items of different transactions that
    share an [item_id] are both loaded when neither was in the fact table
    before the load. *)
Lemma shared_item_id_loaded_twice :
  map (fun fs => (fs_transaction_id fs, fs_item_id fs))
      (fact_sales Sample.after_shared_item_id)
  = [("T1", "I1"); ("T2", "I1")]
  /\ ~ item_id_names_transaction (fact_sales Sample.after_shared_item_id)
  /\ exists r1 r2,
      In r1 (fact_sales Sample.after_shared_item_id)
      /\ In r2 (fact_sales Sample.after_shared_item_id)
      /\ fs_item_id r1 = fs_item_id r2
      /\ fs_transaction_id r1 <> fs_transaction_id r2.
Proof.
  assert (Hex : exists r1 r2,
             In r1 (fact_sales Sample.after_shared_item_id)
             /\ In r2 (fact_sales Sample.after_shared_item_id)
             /\ fs_item_id r1 = fs_item_id r2
             /\ fs_transaction_id r1 <> fs_transaction_id r2).
  { eexists. eexists. vm_compute.
    split; [left; reflexivity|]. split; [right; left; reflexivity|].
    split; [reflexivity | discriminate]. }
  split; [vm_compute; reflexivity|]. split; [|exact Hex].
  intros Hinv. destruct Hex as [r1 [r2 [H1 [H2 [E Hne]]]]].
  exact (Hne (Hinv r1 r2 H1 H2 E)).
Qed.


(* ------------------------------------------------------------------ *)
(** * Payment methods *)
(* ------------------------------------------------------------------ *)





Lemma in_with_serial {P R} (mk : Z -> P -> R) ps :
  forall next r,
    In r (Sql.with_serial next mk ps) ->
    exists sk p, In p ps /\ r = mk sk p.
Proof.
  induction ps as [|p rest IH]; intros next r H; simpl in *; [tauto|].
  destruct H as [H|H]; [eauto|].
  destruct (IH _ _ H) as [sk [p' [Hin E]]]. eauto.
Qed.

Lemma in_distinct {R} (eqb : R -> R -> bool) rows r :
  In r (Sql.distinct eqb rows) -> In r rows.
Proof.
  induction rows as [|x xs IH]; simpl; [tauto|].
  intros [H|H]; [auto|]. apply filter_In in H as [H _]. auto.
Qed.




(* ------------------------------------------------------------------ *)
(** * GROUP BY *)
(* ------------------------------------------------------------------ *)

Section GroupByFacts.
Context {R K : Type} (keq : K -> K -> bool).
Hypothesis keq_eq : forall a b, keq a b = true <-> a = b.

Lemma keq_refl k : keq k k = true.
Proof. now apply keq_eq. Qed.

Lemma group_rows_add k k' (r : R) (groups : list (K * list R)) :
  group_rows keq k (Sql.add_to_group keq k' r groups)
  = if keq k' k then group_rows keq k groups ++ [r]
    else group_rows keq k groups.
Proof.
  unfold group_rows.
  induction groups as [|[k0 rs] rest IH]; simpl.
  - destruct (keq k' k); reflexivity.
  - destruct (keq k0 k') eqn:E0; simpl.
    + apply keq_eq in E0. subst k0.
      destruct (keq k' k); reflexivity.
    + destruct (keq k0 k) eqn:E1; simpl; [|exact IH].
      apply keq_eq in E1. subst k0.
      destruct (keq k' k) eqn:E2; [|reflexivity].
      apply keq_eq in E2. subst k'. rewrite keq_refl in E0. discriminate.
Qed.

Lemma keys_add k (r : R) (groups : list (K * list R)) :
  map fst (Sql.add_to_group keq k r groups)
  = if existsb (keq k) (map fst groups) then map fst groups
    else map fst groups ++ [k].
Proof.
  induction groups as [|[k0 rs] rest IH]; simpl; [reflexivity|].
  destruct (keq k0 k) eqn:E0; simpl.
  - apply keq_eq in E0. subst k0. now rewrite keq_refl.
  - rewrite IH. replace (keq k k0) with false.
    + simpl. destruct (existsb (keq k) (map fst rest)); reflexivity.
    + symmetry. apply not_true_iff_false. intros E. apply keq_eq in E.
      subst k0. now rewrite keq_refl in E0.
Qed.

Lemma existsb_keq k l : existsb (keq k) l = true <-> In k l.
Proof.
  rewrite existsb_exists. split.
  - intros [x [Hin E]]. apply keq_eq in E. now subst.
  - intros H. exists k. split; [exact H | apply keq_refl].
Qed.

Lemma in_group_rows k (rs : list R) (groups : list (K * list R)) :
  NoDup (map fst groups) -> In (k, rs) groups ->
  group_rows keq k groups = rs.
Proof.
  unfold group_rows.
  induction groups as [|[k0 rs0] rest IH]; simpl; [tauto|].
  intros Hnd Hin. inversion Hnd as [|? ? Hnotin Hnd']; subst.
  destruct Hin as [E|Hin].
  - inversion E; subst. now rewrite keq_refl.
  - destruct (keq k0 k) eqn:E0; [|now apply IH].
    apply keq_eq in E0. subst k0. exfalso. apply Hnotin.
    apply in_map_iff. now exists (k, rs).
Qed.

Lemma add_to_group_nonempty k (r : R) (groups : list (K * list R)) k' rs :
  (forall k0 rs0, In (k0, rs0) groups -> rs0 <> []) ->
  In (k', rs) (Sql.add_to_group keq k r groups) -> rs <> [].
Proof.
  induction groups as [|[k0 rs0] rest IH]; simpl; intros Hne Hin.
  - destruct Hin as [E|[]]. inversion E. discriminate.
  - destruct (keq k0 k); simpl in Hin; destruct Hin as [E|Hin].
    + inversion E. intros Habs. now apply app_eq_nil in Habs as [_ Habs].
    + eapply Hne. right. exact Hin.
    + inversion E; subst. eapply Hne. now left.
    + apply IH; [|exact Hin]. intros k1 rs1 H1. eapply Hne. right. exact H1.
Qed.

Lemma well_grouped_step (key : R -> K) groups seen (r : R) :
  well_grouped keq key groups seen ->
  well_grouped keq key (Sql.add_to_group keq (key r) r groups) (seen ++ [r]).
Proof.
  intros [Hnd [Hrows [Hne Hkeys]]]. repeat split.
  - rewrite keys_add. destruct (existsb _ _) eqn:Hex; [exact Hnd|].
    apply NoDup_app; [exact Hnd | repeat constructor; simpl; tauto|].
    intros k Hk [E|[]]. subst k.
    apply existsb_keq in Hk. congruence.
  - intros k. rewrite group_rows_add, filter_app, Hrows. simpl.
    destruct (keq (key r) k); [reflexivity | now rewrite app_nil_r].
  - intros k rs. now apply add_to_group_nonempty.
  - intros r0 Hin. rewrite keys_add. apply in_app_or in Hin.
    destruct (existsb _ _) eqn:Hex.
    + destruct Hin as [Hin|[E|[]]]; [now apply Hkeys|].
      subst r0. now apply existsb_keq.
    + apply in_or_app. destruct Hin as [Hin|[E|[]]]; [left; now apply Hkeys|].
      subst r0. right. now left.
Qed.

Lemma well_grouped_fold (key : R -> K) rows :
  forall groups seen,
    well_grouped keq key groups seen ->
    well_grouped keq key
      (fold_left (fun gs r => Sql.add_to_group keq (key r) r gs) rows groups)
      (seen ++ rows).
Proof.
  induction rows as [|r rest IH]; intros groups seen H; simpl.
  - now rewrite app_nil_r.
  - replace (seen ++ r :: rest) with ((seen ++ [r]) ++ rest)
      by (rewrite <- app_assoc; reflexivity).
    apply IH. now apply well_grouped_step.
Qed.

(** GROUP BY yields one group per key that occurs, each holding exactly the
    rows with that key. *)
Lemma group_by_groups (key : R -> K) rows :
  NoDup (map fst (Sql.group_by keq key rows))
  /\ (forall k rs, In (k, rs) (Sql.group_by keq key rows) ->
                   rs = filter (fun r => keq (key r) k) rows /\ rs <> [])
  /\ (forall r, In r rows ->
                In (key r) (map fst (Sql.group_by keq key rows))).
Proof.
  assert (H0 : well_grouped keq key [] []).
  { repeat split; simpl; try tauto. constructor. }
  destruct (well_grouped_fold key rows [] [] H0) as [Hnd [Hrows [Hne Hkeys]]].
  simpl in *. split; [exact Hnd|]. split; [|exact Hkeys].
  intros k rs Hin. split; [|now apply (Hne k)].
  rewrite <- Hrows. symmetry. now apply in_group_rows.
Qed.
End GroupByFacts.


(* ------------------------------------------------------------------ *)
(** * COUNT(DISTINCT) and AVG *)
(* ------------------------------------------------------------------ *)

Lemma distinct_values {K} (keq : K -> K -> bool) (l : list K) :
  (forall a b, keq a b = true <-> a = b) ->
  NoDup (Sql.distinct keq l) /\ (forall x, In x (Sql.distinct keq l) <-> In x l).
Proof.
  intros keq_eq. induction l as [|a rest [IHnd IHin]]; simpl.
  - split; [constructor | tauto].
  - split.
    + constructor; [|now apply NoDup_filter].
      intros H. apply filter_In in H as [_ H].
      rewrite (proj2 (keq_eq a a) eq_refl) in H. discriminate.
    + intros x. rewrite filter_In, IHin. split.
      * tauto.
      * intros [E|H]; [now left|].
        destruct (keq a x) eqn:E; [left; now apply keq_eq | right; auto].
Qed.





(* ------------------------------------------------------------------ *)
(** * The aggregates *)
(* ------------------------------------------------------------------ *)







(** ** The customer-lifetime aggregate and its join with the dates *)






(** *** The date keys stay sound *)

Lemma with_serial_keys next dates :
  forall r, In r (Sql.with_serial next dim_date_row_of dates) ->
            next <= dd_date_sk r < next + Z.of_nat (List.length dates).
Proof.
  revert next. induction dates as [|d rest IH]; intros next r H;
    simpl in H; [tauto|].
  destruct H as [E|H].
  - subst r. simpl. lia.
  - specialize (IH _ _ H). simpl List.length. lia.
Qed.



















(* ------------------------------------------------------------------ *)
(** * The calendar *)
(* ------------------------------------------------------------------ *)

Ltac euclid := Z.to_euclidean_division_equations; lia.

Lemma days_before_year_step y :
  days_before_year (y + 1)
  = days_before_year y + (if is_leap y then 366 else 365).
Proof.
  unfold days_before_year, is_leap.
  destruct (y mod 4 =? 0) eqn:E4; destruct (y mod 100 =? 0) eqn:E100;
    destruct (y mod 400 =? 0) eqn:E400; simpl;
    rewrite ?Z.eqb_eq, ?Z.eqb_neq in *; euclid.
Qed.

Lemma days_before_year_mono y1 y2 :
  y1 <= y2 -> days_before_year y1 <= days_before_year y2.
Proof. intros H. unfold days_before_year. euclid. Qed.

Lemma days_before_year_lt y1 y2 :
  y1 < y2 -> days_before_year y1 < days_before_year y2.
Proof. intros H. unfold days_before_year. euclid. Qed.

(** The year of a day is the one whose days enclose it. *)
Lemma year_bounds n :
  days_before_year (year n) < n <= days_before_year (year n + 1).
Proof.
  unfold year, ord2ymd, DI400Y, DI100Y, DI4Y.
  set (n0 := n - 1).
  set (n400 := n0 / 146097). set (r1 := n0 mod 146097).
  set (n100 := r1 / 36524). set (r2 := r1 mod 36524).
  set (n4 := r2 / 1461). set (r3 := r2 mod 1461).
  set (n1 := r3 / 365). set (r4 := r3 mod 365).
  destruct ((n1 =? 4) || (n100 =? 4)) eqn:E.
  - simpl. unfold days_before_year.
    apply orb_true_iff in E. rewrite !Z.eqb_eq in E.
    subst n0 n400 r1 n100 r2 n4 r3 n1 r4. euclid.
  - apply orb_false_iff in E. rewrite !Z.eqb_neq in E.
    destruct (month_day_of_yday _ r4) as [m d]. simpl.
    unfold days_before_year.
    subst n0 n400 r1 n100 r2 n4 r3 n1 r4. euclid.
Qed.

Lemma year_unique n y :
  days_before_year y < n <= days_before_year (y + 1) -> year n = y.
Proof.
  intros H. pose proof (year_bounds n) as Hn.
  destruct (Z.lt_trichotomy (year n) y) as [Hlt|[E|Hgt]]; [|exact E|].
  - pose proof (days_before_year_mono (year n + 1) y). lia.
  - pose proof (days_before_year_mono (y + 1) (year n)). lia.
Qed.

Lemma month_day_of_yday_ok (leapyear : bool) n :
  0 <= n < (if leapyear then 366 else 365) ->
  month_day_ok leapyear n = true.
Proof.
  intros H.
  assert (Hall : forallb (fun k => month_day_ok leapyear (Z.of_nat k))
                         (seq 0 (if leapyear then 366 else 365)) = true)
    by (destruct leapyear; vm_compute; reflexivity).
  rewrite forallb_forall in Hall.
  specialize (Hall (Z.to_nat n)). rewrite Z2Nat.id in Hall by lia.
  apply Hall. apply in_seq. destruct leapyear; lia.
Qed.

Lemma month_day_of_yday_spec (leapyear : bool) n m d :
  0 <= n < (if leapyear then 366 else 365) ->
  month_day_of_yday leapyear n = (m, d) ->
  1 <= m <= 12
  /\ 1 <= d <= DAYS_IN_MONTH m + (if (m =? 2) && leapyear then 1 else 0)
  /\ DAYS_BEFORE_MONTH m + (if (2 <? m) && leapyear then 1 else 0) + d
     = n + 1.
Proof.
  intros Hn E. pose proof (month_day_of_yday_ok leapyear n Hn) as H.
  unfold month_day_ok in H. rewrite E in H.
  repeat (apply andb_true_iff in H; destruct H as [H ?]).
  rewrite ?Z.leb_le, ?Z.eqb_eq in *. lia.
Qed.

(** The leap flag computed from the position in the 400-year cycle is the
    leap flag of the year. *)
Lemma leap_flag_of_parts n400 n100 n4 n1 :
  0 <= n100 <= 3 -> 0 <= n4 <= 24 -> 0 <= n1 <= 3 ->
  is_leap (n400 * 400 + 1 + n100 * 100 + n4 * 4 + n1)
  = (n1 =? 3) && (negb (n4 =? 24) || (n100 =? 3)).
Proof.
  intros H100 H4 H1. unfold is_leap.
  set (y := n400 * 400 + 1 + n100 * 100 + n4 * 4 + n1).
  destruct (n1 =? 3) eqn:E1; destruct (n4 =? 24) eqn:E4;
    destruct (n100 =? 3) eqn:E100; simpl;
    rewrite ?Z.eqb_eq, ?Z.eqb_neq in *;
    repeat match goal with
           | |- context [?a mod ?b =? 0] =>
               let E := fresh "E" in
               destruct (a mod b =? 0) eqn:E;
               rewrite ?Z.eqb_eq, ?Z.eqb_neq in E
           end; simpl; try reflexivity; exfalso; subst y; euclid.
Qed.

(** The fields of a day denote that day. *)
Lemma ord2ymd_roundtrip n :
  ymd2ord (year n) (month n) (day n) = n
  /\ 1 <= month n <= 12
  /\ 1 <= day n <= days_in_month (year n) (month n).
Proof.
  unfold year, month, day, ord2ymd, DI400Y, DI100Y, DI4Y.
  set (n0 := n - 1).
  set (n400 := n0 / 146097). set (r1 := n0 mod 146097).
  set (n100 := r1 / 36524). set (r2 := r1 mod 36524).
  set (n4 := r2 / 1461). set (r3 := r2 mod 1461).
  set (n1 := r3 / 365). set (r4 := r3 mod 365).
  assert (Hr4 : 0 <= r4 < 365) by (subst r4; apply Z.mod_pos_bound; lia).
  assert (Hn100 : 0 <= n100 <= 4) by (subst n0 n400 r1 n100; euclid).
  assert (Hn4 : 0 <= n4 <= 24) by (subst n0 n400 r1 n100 r2 n4; euclid).
  assert (Hn1 : 0 <= n1 <= 4) by (subst n0 n400 r1 n100 r2 n4 r3 n1; euclid).
  destruct ((n1 =? 4) || (n100 =? 4)) eqn:E.
  - simpl. apply orb_true_iff in E. rewrite !Z.eqb_eq in E.
    set (y := n400 * 400 + 1 + n100 * 100 + n4 * 4 + n1 - 1).
    assert (Hleap : is_leap y = true).
    { unfold is_leap. apply andb_true_iff. split.
      - apply Z.eqb_eq. subst y n0 n400 r1 n100 r2 n4 r3 n1 r4. euclid.
      - apply orb_true_iff.
        destruct (y mod 100 =? 0) eqn:E100; [right | now left].
        rewrite Z.eqb_eq in *.
        subst y n0 n400 r1 n100 r2 n4 r3 n1 r4. euclid. }
    unfold ymd2ord, days_before_month, days_in_month. rewrite Hleap. simpl.
    split; [|lia].
    unfold days_before_year. subst y n0 n400 r1 n100 r2 n4 r3 n1 r4. euclid.
  - apply orb_false_iff in E. rewrite !Z.eqb_neq in E.
    assert (Hn100' : 0 <= n100 <= 3) by lia.
    assert (Hn1' : 0 <= n1 <= 3) by lia.
    rewrite <- (leap_flag_of_parts n400 n100 n4 n1 Hn100' Hn4 Hn1').
    set (y := n400 * 400 + 1 + n100 * 100 + n4 * 4 + n1).
    destruct (month_day_of_yday (is_leap y) r4) as [m d] eqn:Emd. simpl.
    destruct (month_day_of_yday_spec (is_leap y) r4 m d
                ltac:(destruct (is_leap y); lia) Emd) as [Hm [Hd Hsum]].
    unfold ymd2ord, days_before_month, days_in_month.
    split; [|split; [lia|]].
    + assert (Hy : days_before_year y + (r4 + 1) = n).
      { unfold days_before_year.
        subst y n0 n400 r1 n100 r2 n4 r3 n1 r4. euclid. }
      lia.
    + destruct ((m =? 2) && is_leap y) eqn:E2.
      * apply andb_true_iff in E2 as [E2 _]. apply Z.eqb_eq in E2.
        subst m. simpl in Hd. lia.
      * lia.
Qed.

Lemma ymd2ord_january_first y : ymd2ord y 1 1 = days_before_year y + 1.
Proof. unfold ymd2ord, days_before_month. simpl. lia. Qed.

(** Week 1 starts on the Monday that is at most three days away from
    1 January. *)
Lemma isoweek1monday_spec y :
  (isoweek1monday y + 6) mod 7 = 0
  /\ days_before_year y - 2 <= isoweek1monday y <= days_before_year y + 4.
Proof.
  unfold isoweek1monday. rewrite ymd2ord_january_first.
  destruct (Z.ltb_spec 3 ((days_before_year y + 1 + 6) mod 7)); euclid.
Qed.

Lemma year_length y :
  days_before_year (y + 1) = days_before_year y + 365
  \/ days_before_year (y + 1) = days_before_year y + 366.
Proof. rewrite days_before_year_step. destruct (is_leap y); lia. Qed.

(** [isocalendar] numbers weeks as ISO 8601 does: by the Thursday of the
    week, counted within the year that Thursday falls in. *)
Lemma isoweek_is_iso_week_number d : isoweek d = iso_week_number d.
Proof.
  unfold isoweek, isocalendar, iso_week_number, thursday_of_week, dayofweek.
  set (y := year d).
  pose proof (year_bounds d) as Hd. fold y in Hd.
  pose proof (isoweek1monday_spec y) as [M0 B0].
  pose proof (isoweek1monday_spec (y - 1)) as [Mp Bp].
  pose proof (isoweek1monday_spec (y + 1)) as [Mn Bn].
  pose proof (year_length (y - 1)) as Lp.
  replace (y - 1 + 1) with y in Lp by lia.
  pose proof (year_length y) as L0.
  pose proof (year_length (y + 1)) as Ln.
  set (W0 := isoweek1monday y) in *.
  set (Wp := isoweek1monday (y - 1)) in *.
  set (Wn := isoweek1monday (y + 1)) in *.
  set (th := d - (d + 6) mod 7 + 3).
  destruct (Z.ltb_spec ((d - W0) / 7) 0) as [Hneg|Hpos].
  - assert (Hy : year th = y - 1).
    { apply year_unique. replace (y - 1 + 1) with y by lia.
      subst th. clearbody W0 Wp Wn. euclid. }
    rewrite Hy, ymd2ord_january_first. simpl.
    subst th. clearbody W0 Wp Wn. euclid.
  - destruct ((52 <=? (d - W0) / 7) && (Wn <=? d)) eqn:Hlast.
    + apply andb_true_iff in Hlast as [H52 Hn].
      apply Z.leb_le in H52, Hn.
      assert (Hy : year th = y + 1).
      { apply year_unique. subst th. clearbody W0 Wp Wn. euclid. }
      rewrite Hy, ymd2ord_january_first. simpl.
      subst th. clearbody W0 Wp Wn. euclid.
    + assert (Hy : year th = y).
      { apply year_unique. apply andb_false_iff in Hlast.
        rewrite !Z.leb_gt in Hlast.
        subst th. clearbody W0 Wp Wn. destruct Hlast; euclid. }
      rewrite Hy, ymd2ord_january_first. simpl.
      apply andb_false_iff in Hlast. rewrite !Z.leb_gt in Hlast.
      subst th. clearbody W0 Wp Wn. destruct Hlast; euclid.
Qed.

(* ------------------------------------------------------------------ *)
(** * The text of a date *)
(* ------------------------------------------------------------------ *)









(* ------------------------------------------------------------------ *)
(** * The date dimension *)
(* ------------------------------------------------------------------ *)

Lemma dim_date_row_of_correct sk d : date_row_is_correct (dim_date_row_of sk d).
Proof.
  unfold date_row_is_correct. simpl.
  destruct (ord2ymd_roundtrip d) as [Hord [Hm _]].
  assert (Hdow : 0 <= dayofweek d < 7)
    by (unfold dayofweek; apply Z.mod_pos_bound; lia).
  split; [exact Hord|]. split; [exact Hm|]. split; [lia|]. split.
  { unfold dayofweek, A_MONDAY.
    change (ymd2ord 2024 1 1) with 738886. euclid. }
  split; [unfold ceiling_div; euclid|].
  split; [apply isoweek_is_iso_week_number|].
  rewrite Z.leb_le. lia.
Qed.

Lemma with_serial_dates next dates :
  map dd_date_id (Sql.with_serial next dim_date_row_of dates) = dates.
Proof.
  revert next. induction dates as [|d rest IH]; intros next; simpl;
    [reflexivity | now rewrite IH].
Qed.





(** What [build_dim_date] does once the range is known. *)
Lemma build_dim_date_appends start_text end_text dates c :
  date_range start_text end_text = Ok dates ->
  store_fails c InsertDimDate = false ->
  exists c' rows,
    build_dim_date start_text end_text c
    = Returns (Z.of_nat (List.length dates)) c'
    /\ dim_date (conn_wh c') = dim_date (conn_wh c) ++ rows
    /\ rows = Sql.with_serial (date_sk_seq (conn_wh c)) dim_date_row_of dates
    /\ map dd_date_id rows = dates
    /\ (forall r, In r rows -> date_row_is_correct r).
Proof.
  intros Hrange Hstore. unfold build_dim_date, bind, lift, execute.
  rewrite Hrange, Hstore. unfold append_dim_date.
  eexists. eexists. split.
  - f_equal. rewrite <- (with_serial_dates (date_sk_seq (conn_wh c)) dates)
                at 2.
    now rewrite length_map.
  - simpl. split; [reflexivity|]. split; [reflexivity|].
    split; [apply with_serial_dates|].
    intros r Hr. apply in_with_serial in Hr as [sk [d [_ E]]]. subst r.
    apply dim_date_row_of_correct.
Qed.




(* ------------------------------------------------------------------ *)
(** * What a fact load resolves *)
(* ------------------------------------------------------------------ *)

Lemma in_left_join_some {A B} (on : A -> B -> bool) l r a b :
  In (a, Some b) (Sql.left_join on l r) <->
  In a l /\ In b r /\ on a b = true.
Proof.
  unfold Sql.left_join. rewrite in_flat_map. split.
  - intros [a' [Ha Hin]]. destruct (filter (on a') r) as [|m ms] eqn:Hf.
    + destruct Hin as [E|[]]. discriminate.
    + apply in_map_iff in Hin as [b' [E Hb]]. inversion E; subst.
      rewrite <- Hf in Hb. apply filter_In in Hb. tauto.
  - intros [Ha [Hb Hon]]. exists a. split; [exact Ha|].
    assert (Hin : In b (filter (on a) r)) by (apply filter_In; tauto).
    destruct (filter (on a) r) as [|m ms]; [destruct Hin|].
    apply (in_map (fun b => (a, Some b))). exact Hin.
Qed.

Lemma in_left_join_none {A B} (on : A -> B -> bool) l r a :
  In (a, None) (Sql.left_join on l r) <->
  In a l /\ forall b, In b r -> on a b = false.
Proof.
  unfold Sql.left_join. rewrite in_flat_map. split.
  - intros [a' [Ha Hin]]. destruct (filter (on a') r) as [|m ms] eqn:Hf.
    + destruct Hin as [E|[]]. inversion E; subst. split; [exact Ha|].
      intros b Hb. destruct (on a b) eqn:Hon; [|reflexivity].
      assert (Hin : In b (filter (on a) r)) by (apply filter_In; tauto).
      rewrite Hf in Hin. destruct Hin.
    + apply in_map_iff in Hin as [b' [E _]]. discriminate.
  - intros [Ha Hnone]. exists a. split; [exact Ha|].
    rewrite (filter_none (on a) r Hnone). now left.
Qed.

(** The rows of the FROM clause of the fact load, exactly. *)
Lemma fact_sales_from_iff src w ti t dc dp dd dpm :
  In (ti, t, dc, dp, dd, dpm) (fact_sales_from src w) <->
  (In ti (transaction_items src) /\ In t (transactions src)
   /\ ti_transaction_id ti = t_transaction_id t)
  /\ (In dc (dim_customers w) /\ dc_is_current dc = true
      /\ t_customer_id t = dc_customer_id dc)
  /\ (In dp (dim_products w) /\ dp_is_current dp = true
      /\ ti_product_id ti = dp_product_id dp)
  /\ (In dd (dim_date w) /\ t_transaction_date t = dd_date_id dd)
  /\ match dpm with
     | Some m => In m (dim_payment_method w)
                 /\ payment_method_id (t_payment_method t)
                    = dpm_payment_method_id m
     | None => forall m, In m (dim_payment_method w) ->
                         payment_method_id (t_payment_method t)
                         <> dpm_payment_method_id m
     end.
Proof.
  unfold fact_sales_from.
  assert (Hinner :
            forall j4 : transaction_item * transaction * dim_customer
                        * dim_product * dim_date_row,
              j4 = (ti, t, dc, dp, dd) ->
              (In j4
                 (Sql.inner_join
                    (fun '(ti, t, dc, dp) dd =>
                       t_transaction_date t =? dd_date_id dd)
                    (Sql.inner_join
                       (fun '(ti, t, dc) dp =>
                          (ti_product_id ti =? dp_product_id dp)%string
                          && dp_is_current dp)
                       (Sql.inner_join
                          (fun '(ti, t) dc =>
                             (t_customer_id t =? dc_customer_id dc)%string
                             && dc_is_current dc)
                          (Sql.inner_join
                             (fun ti t =>
                                (ti_transaction_id ti
                                 =? t_transaction_id t)%string)
                             (transaction_items src) (transactions src))
                          (dim_customers w))
                       (dim_products w))
                    (dim_date w))
               <-> (In ti (transaction_items src) /\ In t (transactions src)
                    /\ ti_transaction_id ti = t_transaction_id t)
                   /\ (In dc (dim_customers w) /\ dc_is_current dc = true
                       /\ t_customer_id t = dc_customer_id dc)
                   /\ (In dp (dim_products w) /\ dp_is_current dp = true
                       /\ ti_product_id ti = dp_product_id dp)
                   /\ (In dd (dim_date w)
                       /\ t_transaction_date t = dd_date_id dd))).
  { intros j4 E. subst j4. rewrite !in_inner_join.
    rewrite !andb_true_iff, !String.eqb_eq, Z.eqb_eq. tauto. }
  destruct dpm as [m|].
  - rewrite in_left_join_some, (Hinner _ eq_refl), String.eqb_eq. tauto.
  - rewrite in_left_join_none, (Hinner _ eq_refl).
    split; intros [H1 H2]; repeat split; try tauto.
    + intros m Hm. apply String.eqb_neq. now apply H2.
    + intros m Hm. apply String.eqb_neq. apply H2. exact Hm.
Qed.

Lemma resolved_from_row_of src w ti t dc dp dd dpm :
  In (ti, t, dc, dp, dd, dpm) (fact_sales_from src w) ->
  resolved_from src w (fact_sales_row_of (ti, t, dc, dp, dd, dpm))
                ti t dc dp dd
  /\ payment_method_resolved
       w (fact_sales_row_of (ti, t, dc, dp, dd, dpm)) t.
Proof.
  intros H. apply fact_sales_from_iff in H.
  destruct H as [H1 [[Hc1 [Hc2 Hc3]] [[Hp1 [Hp2 Hp3]] [[Hd1 Hd2] Hpm]]]].
  split.
  - unfold resolved_from. simpl. repeat split; try tauto; congruence.
  - unfold payment_method_resolved. simpl. destruct dpm as [m|]; simpl.
    + exists m. destruct Hpm. repeat split; congruence.
    + intros m Hm E. apply (Hpm m Hm). congruence.
Qed.

(** X1: every row a fact load appends was resolved from a production line
    item and its transaction against a customer version and a product
    version that were current when the load ran, and a date row for the
    transaction date; its keys are their surrogate keys and its measures
    are copied from the line item and the transaction.  The rowcount is the
    number of appended rows. *)
Theorem fact_rows_reference_current_versions :
  forall (c c2 : connection) (n : Z),
    build_fact_sales c = Returns n c2 ->
    exists appended,
      fact_sales (conn_wh c2) = fact_sales (conn_wh c) ++ appended
      /\ n = Z.of_nat (List.length appended)
      /\ forall fs,
          In fs appended ->
          exists ti t dc dp dd,
            resolved_from (conn_src c) (conn_wh c) fs ti t dc dp dd
            /\ payment_method_resolved (conn_wh c) fs t.
Proof.
  intros c c2 n H. destruct (build_fact_sales_appends _ _ _ H) as [Happ Hn].
  exists (map fact_sales_row_of (loaded_by (conn_src c) (conn_wh c))).
  split; [exact Happ|]. split; [now rewrite length_map|].
  intros fs Hfs. apply in_map_iff in Hfs as [j [E Hj]]. subst fs.
  apply loaded_by_from in Hj as [Hj _].
  destruct j as [[[[[ti t] dc] dp] dd] dpm].
  exists ti, t, dc, dp, dd. now apply resolved_from_row_of.
Qed.

Lemma fact_rows_reference_current_versions_witness :
  exists c2 appended,
    build_fact_sales Sample.before_fact_load = Returns 2 c2
    /\ fact_sales (conn_wh c2) = appended
    /\ forall fs,
        In fs appended ->
        exists ti t dc dp dd,
          resolved_from (conn_src Sample.before_fact_load)
                        (conn_wh Sample.before_fact_load) fs ti t dc dp dd.
Proof.
  let v := eval vm_compute in (build_fact_sales Sample.before_fact_load) in
  match v with
  | Returns ?n ?c2 =>
      assert (H : build_fact_sales Sample.before_fact_load = Returns n c2)
        by (vm_compute; reflexivity);
      exists c2;
      destruct (fact_rows_reference_current_versions _ _ _ H)
        as [appended [Happ [_ Hall]]]
  end.
  exists appended. split; [exact H|]. split; [exact Happ|].
  intros fs Hfs. destruct (Hall fs Hfs) as [ti [t [dc [dp [dd [Hr _]]]]]].
  exists ti, t, dc, dp, dd. exact Hr.
Defined.

(** A line item whose joins resolve and that is not loaded yet gets a row. *)
Lemma line_item_is_loaded :
  forall (c c2 : connection) (n : Z) ti t dc dp dd,
    build_fact_sales c = Returns n c2 ->
    In ti (transaction_items (conn_src c)) ->
    In t (transactions (conn_src c)) ->
    ti_transaction_id ti = t_transaction_id t ->
    In dc (dim_customers (conn_wh c)) -> dc_is_current dc = true ->
    dc_customer_id dc = t_customer_id t ->
    In dp (dim_products (conn_wh c)) -> dp_is_current dp = true ->
    dp_product_id dp = ti_product_id ti ->
    In dd (dim_date (conn_wh c)) -> dd_date_id dd = t_transaction_date t ->
    (forall old, In old (fact_sales (conn_wh c)) ->
                 fs_item_id old <> ti_item_id ti) ->
    exists fs,
      In fs (fact_sales (conn_wh c2))
      /\ resolved_from (conn_src c) (conn_wh c) fs ti t dc dp dd
      /\ payment_method_resolved (conn_wh c) fs t
      /\ ((forall m, In m (dim_payment_method (conn_wh c)) ->
                     dpm_payment_method_id m
                     <> payment_method_id (t_payment_method t)) ->
          fs_payment_method_sk fs = None).
Proof.
  intros c c2 n ti t dc dp dd H Hti Ht Hid Hdc Hdcc Hdck Hdp Hdpc Hdpk
         Hdd Hddk Hnew.
  destruct (build_fact_sales_appends _ _ _ H) as [Happ _].
  set (matches := filter
                    (fun m => (payment_method_id (t_payment_method t)
                               =? dpm_payment_method_id m)%string)
                    (dim_payment_method (conn_wh c))).
  assert (Hj : exists dpm,
             In (ti, t, dc, dp, dd, dpm)
                (fact_sales_from (conn_src c) (conn_wh c))
             /\ ((forall m, In m (dim_payment_method (conn_wh c)) ->
                            dpm_payment_method_id m
                            <> payment_method_id (t_payment_method t)) ->
                 dpm = None)).
  { destruct matches as [|m ms] eqn:Hm.
    - exists None. split; [|reflexivity]. apply fact_sales_from_iff.
      repeat split; try assumption; try congruence.
      intros m Hin E.
      assert (Hf : In m matches)
        by (apply filter_In; split; [exact Hin | now apply String.eqb_eq]).
      rewrite Hm in Hf. destruct Hf.
    - assert (Hin : In m matches) by (rewrite Hm; now left).
      apply filter_In in Hin as [Hin E]. apply String.eqb_eq in E.
      exists (Some m). split.
      + apply fact_sales_from_iff.
        repeat split; try assumption; congruence.
      + intros Hnone. destruct (Hnone m Hin). congruence. }
  destruct Hj as [dpm [Hj Hnone]].
  exists (fact_sales_row_of (ti, t, dc, dp, dd, dpm)).
  destruct (resolved_from_row_of _ _ _ _ _ _ _ _ Hj) as [Hr Hp].
  split; [|split; [exact Hr | split; [exact Hp|]]].
  - rewrite Happ. apply in_or_app. right. apply in_map.
    apply filter_In. split; [exact Hj|]. simpl.
    destruct (not_yet_loaded (conn_wh c) ti) eqn:Hl; [reflexivity|].
    apply not_yet_loaded_false in Hl as [old [Hold E]].
    destruct (Hnew old Hold E).
  - intros Hn. rewrite (Hnone Hn). reflexivity.
Qed.


(** X2: a line item is loaded whenever its transaction is in production, a
    current customer version, a current product version and a date row
    match, and no fact row carries its item_id yet; a payment method that is
    missing from the dimension does not hold the row back: the row is
    appended with a NULL payment-method key, and with the key of a matching
    row otherwise. *)
Theorem fact_load_tolerates_missing_payment_method :
  forall (c c2 : connection) (n : Z) ti t dc dp dd,
    build_fact_sales c = Returns n c2 ->
    In ti (transaction_items (conn_src c)) ->
    In t (transactions (conn_src c)) ->
    ti_transaction_id ti = t_transaction_id t ->
    In dc (dim_customers (conn_wh c)) -> dc_is_current dc = true ->
    dc_customer_id dc = t_customer_id t ->
    In dp (dim_products (conn_wh c)) -> dp_is_current dp = true ->
    dp_product_id dp = ti_product_id ti ->
    In dd (dim_date (conn_wh c)) -> dd_date_id dd = t_transaction_date t ->
    (forall old, In old (fact_sales (conn_wh c)) ->
                 fs_item_id old <> ti_item_id ti) ->
    exists fs,
      In fs (fact_sales (conn_wh c2))
      /\ resolved_from (conn_src c) (conn_wh c) fs ti t dc dp dd
      /\ payment_method_resolved (conn_wh c) fs t
      /\ ((forall m, In m (dim_payment_method (conn_wh c)) ->
                     dpm_payment_method_id m
                     <> payment_method_id (t_payment_method t)) ->
          fs_payment_method_sk fs = None).
Proof.
  intros c c2 n ti t dc dp dd H Hti Ht Hid Hdc Hdcc Hdck Hdp Hdpc Hdpk
         Hdd Hddk Hnew.
  now apply (line_item_is_loaded c c2 n ti t dc dp dd).
Qed.

Lemma fact_load_tolerates_missing_payment_method_witness :
  exists c2 fs,
    build_fact_sales MoreSamples.before_fact_load = Returns 2 c2
    /\ In fs (fact_sales (conn_wh c2))
    /\ fs_item_id fs = "I1"
    /\ fs_payment_method_sk fs = None.
Proof.
  let v := eval vm_compute in (build_fact_sales MoreSamples.before_fact_load) in
  match v with
  | Returns ?n ?c2 =>
      assert (H : build_fact_sales MoreSamples.before_fact_load
                  = Returns n c2) by (vm_compute; reflexivity);
      exists c2
  end.
  let c := constr:(MoreSamples.before_fact_load) in
  let ti := eval vm_compute in (hd_error (transaction_items (conn_src c))) in
  let t := eval vm_compute in (hd_error (transactions (conn_src c))) in
  let dc := eval vm_compute in (hd_error (dim_customers (conn_wh c))) in
  let dp := eval vm_compute in (hd_error (dim_products (conn_wh c))) in
  let dd := eval vm_compute in (hd_error (dim_date (conn_wh c))) in
  match constr:((ti, t, dc, dp, dd)) with
  | (Some ?ti, Some ?t, Some ?dc, Some ?dp, Some ?dd) =>
      destruct (fact_load_tolerates_missing_payment_method
                  c _ _ ti t dc dp dd H
                  ltac:(vm_compute; left; reflexivity)
                  ltac:(vm_compute; left; reflexivity)
                  eq_refl
                  ltac:(vm_compute; left; reflexivity) eq_refl eq_refl
                  ltac:(vm_compute; left; reflexivity) eq_refl eq_refl
                  ltac:(vm_compute; left; reflexivity) eq_refl
                  ltac:(intros old Hold; vm_compute in Hold; destruct Hold))
        as [fs [Hin [Hres [_ Hnone]]]]
  end.
  exists fs. split; [exact H|]. split; [exact Hin|]. split.
  - destruct Hres as [_ [_ [_ [_ [Hid _]]]]]. exact Hid.
  - apply Hnone. intros m Hm. vm_compute in Hm. destruct Hm.
Defined.


(* ------------------------------------------------------------------ *)
(** * Retirement, again *)
(* ------------------------------------------------------------------ *)

Lemma update_where_settles {R} (cond : R -> bool) (set : R -> R) table :
  (forall r, cond (set r) = false) ->
  Sql.update_where cond set (fst (Sql.update_where cond set table))
  = (fst (Sql.update_where cond set table), 0).
Proof.
  intros Hset. unfold Sql.update_where. simpl.
  assert (Hnone : forall r,
             In r (map (fun r => if cond r then set r else r) table) ->
             cond r = false).
  { intros r Hr. apply in_map_iff in Hr as [r0 [E _]].
    destruct (cond r0) eqn:E0; subst r; [apply Hset | exact E0]. }
  f_equal.
  - rewrite <- (map_id (map _ table)) at 2. apply map_ext_in.
    intros r Hr. now rewrite (Hnone r Hr).
  - now rewrite (filter_none _ _ Hnone).
Qed.

Lemma update_where_count {R} (current cond : R -> bool) (set : R -> R) table :
  (forall r, cond r = true -> current r = true) ->
  (forall r, current (set r) = false) ->
  snd (Sql.update_where cond set table)
  = Z.of_nat (List.length (filter current table))
    - Z.of_nat (List.length
                  (filter current (fst (Sql.update_where cond set table)))).
Proof.
  intros Hcond Hset. unfold Sql.update_where. simpl.
  induction table as [|r rest IH]; simpl; [reflexivity|].
  destruct (cond r) eqn:Ec.
  - rewrite (Hcond r Ec), Hset. simpl List.length. lia.
  - destruct (current r); simpl List.length; lia.
Qed.

Lemma update_dim_customers_settles src today w :
  update_dim_customers src today (fst (update_dim_customers src today w))
  = (fst (update_dim_customers src today w), 0).
Proof.
  unfold update_dim_customers at 1.
  change (dim_customers (fst (update_dim_customers src today w)))
    with (fst (Sql.update_where
                 (fun r => dc_is_current r
                           && existsb (String.eqb (dc_customer_id r))
                                      (inactive_customer_ids src))
                 (retire_customer today) (dim_customers w))).
  rewrite update_where_settles by reflexivity. reflexivity.
Qed.

Lemma update_dim_products_settles src today w :
  update_dim_products src today (fst (update_dim_products src today w))
  = (fst (update_dim_products src today w), 0).
Proof.
  unfold update_dim_products at 1.
  change (dim_products (fst (update_dim_products src today w)))
    with (fst (Sql.update_where
                 (fun r => dp_is_current r
                           && existsb (String.eqb (dp_product_id r))
                                      (inactive_product_ids src))
                 (retire_product today) (dim_products w))).
  rewrite update_where_settles by reflexivity. reflexivity.
Qed.

(** X3: retirement is idempotent.  When [apply_scd_type2] has returned for
    a dimension name, calling it again on the same connection returns too,
    reports zero updated records and leaves the warehouse as the first call
    left it. *)
Theorem retirement_is_idempotent :
  forall (dimension_name : string) (c c1 : connection) (res : scd_result),
    apply_scd_type2 dimension_name c = Returns res c1 ->
    exists res2 c2,
      apply_scd_type2 dimension_name c1 = Returns res2 c2
      /\ records_updated res2 = 0
      /\ conn_wh c2 = conn_wh c1.
Proof.
  intros name c c1 res H. unfold apply_scd_type2 in *.
  destruct (name =? "dim_customers")%string.
  - unfold bind, execute, ret in *.
    destruct (store_fails c UpdateDimCustomers) eqn:Hs; [discriminate|].
    pose proof (update_dim_customers_settles
                  (conn_src c) (CURRENT_DATE c) (conn_wh c)) as Hsettle.
    destruct (update_dim_customers (conn_src c) (CURRENT_DATE c) (conn_wh c))
      as [w1 n1].
    inversion H; subst. cbn [fst] in Hsettle.
    cbn [conn_src conn_wh CURRENT_DATE store_fails executed].
    rewrite Hs, Hsettle. eexists. eexists. repeat split.
  - destruct (name =? "dim_products")%string.
    + unfold bind, execute, ret in *.
      destruct (store_fails c UpdateDimProducts) eqn:Hs; [discriminate|].
      pose proof (update_dim_products_settles
                    (conn_src c) (CURRENT_DATE c) (conn_wh c)) as Hsettle.
      destruct (update_dim_products (conn_src c) (CURRENT_DATE c) (conn_wh c))
        as [w1 n1].
      inversion H; subst. cbn [fst] in Hsettle.
      cbn [conn_src conn_wh CURRENT_DATE store_fails executed].
      rewrite Hs, Hsettle. eexists. eexists. repeat split.
    + unfold ret in *. inversion H; subst. eexists. eexists. repeat split.
Qed.

Lemma retirement_is_idempotent_witness :
  exists res1 c1 res2 c2,
    apply_scd_type2 "dim_products" Sample.after_withdrawal = Returns res1 c1
    /\ records_updated res1 = 1
    /\ apply_scd_type2 "dim_products" c1 = Returns res2 c2
    /\ records_updated res2 = 0
    /\ conn_wh c2 = conn_wh c1.
Proof.
  let v := eval vm_compute in
             (apply_scd_type2 "dim_products" Sample.after_withdrawal) in
  match v with
  | Returns ?res ?c1 =>
      assert (H : apply_scd_type2 "dim_products" Sample.after_withdrawal
                  = Returns res c1) by (vm_compute; reflexivity);
      exists res, c1;
      destruct (retirement_is_idempotent _ _ _ _ H)
        as [res2 [c2 [H2 [Hzero Hsame]]]]
  end.
  exists res2, c2. repeat split; assumption.
Defined.

Lemma customer_history_kept_refl rows : customer_history_kept rows rows.
Proof.
  split; [reflexivity|]. intros i r Hi. exists r.
  split; [exact Hi|]. split; [repeat split | now left].
Qed.

Lemma product_history_kept_refl rows : product_history_kept rows rows.
Proof.
  split; [reflexivity|]. intros i r Hi. exists r.
  split; [exact Hi|]. split; [repeat split | now left].
Qed.

Lemma customer_history_kept_update src today w :
  customer_history_kept
    (dim_customers w)
    (dim_customers (fst (update_dim_customers src today w))).
Proof.
  rewrite update_dim_customers_rows. split; [apply length_map|].
  intros i r Hi. rewrite nth_error_map, Hi. simpl.
  destruct (dc_is_current r) eqn:Hc; simpl.
  - destruct (existsb _ _).
    + exists (retire_customer today r). split; [reflexivity|].
      split; [repeat split | right; split; reflexivity].
    + exists r. split; [reflexivity|]. split; [repeat split | now left].
  - exists r. split; [reflexivity|]. split; [repeat split | now left].
Qed.

Lemma product_history_kept_update src today w :
  product_history_kept
    (dim_products w)
    (dim_products (fst (update_dim_products src today w))).
Proof.
  rewrite update_dim_products_rows. split; [apply length_map|].
  intros i r Hi. rewrite nth_error_map, Hi. simpl.
  destruct (dp_is_current r) eqn:Hc; simpl.
  - destruct (existsb _ _).
    + exists (retire_product today r). split; [reflexivity|].
      split; [repeat split | right; split; reflexivity].
    + exists r. split; [reflexivity|]. split; [repeat split | now left].
  - exists r. split; [reflexivity|]. split; [repeat split | now left].
Qed.

Lemma update_dim_customers_count src today w :
  snd (update_dim_customers src today w)
  = current_customers w
    - current_customers (fst (update_dim_customers src today w)).
Proof.
  unfold current_customers.
  change (dim_customers (fst (update_dim_customers src today w)))
    with (fst (Sql.update_where
                 (fun r => dc_is_current r
                           && existsb (String.eqb (dc_customer_id r))
                                      (inactive_customer_ids src))
                 (retire_customer today) (dim_customers w))).
  rewrite <- (update_where_count dc_is_current); [reflexivity| |reflexivity].
  intros r H. now apply andb_true_iff in H as [H _].
Qed.

Lemma update_dim_products_count src today w :
  snd (update_dim_products src today w)
  = current_products w
    - current_products (fst (update_dim_products src today w)).
Proof.
  unfold current_products.
  change (dim_products (fst (update_dim_products src today w)))
    with (fst (Sql.update_where
                 (fun r => dp_is_current r
                           && existsb (String.eqb (dp_product_id r))
                                      (inactive_product_ids src))
                 (retire_product today) (dim_products w))).
  rewrite <- (update_where_count dp_is_current); [reflexivity| |reflexivity].
  intros r H. now apply andb_true_iff in H as [H _].
Qed.

Lemma same_outside_scd_dimensions_refl w : same_outside_scd_dimensions w w.
Proof. repeat split. Qed.

(** X4: retirement keeps history.  Whatever dimension name it is called
    with, [apply_scd_type2] removes and adds no row and changes no key,
    attribute or effective date; the only rows it rewrites are rows that
    were current, which it makes not current (so a row retired earlier
    keeps its end date); it writes no table but the named dimension; the
    count it reports is the number of rows that stopped being current; and
    for a name that is neither dimension it touches nothing and still
    reports success. *)
Theorem retirement_keeps_history :
  forall (dimension_name : string) (c c1 : connection) (res : scd_result),
    apply_scd_type2 dimension_name c = Returns res c1 ->
    customer_history_kept (dim_customers (conn_wh c))
                          (dim_customers (conn_wh c1))
    /\ product_history_kept (dim_products (conn_wh c))
                            (dim_products (conn_wh c1))
    /\ same_outside_scd_dimensions (conn_wh c) (conn_wh c1)
    /\ records_updated res
       = (current_customers (conn_wh c) - current_customers (conn_wh c1))
         + (current_products (conn_wh c) - current_products (conn_wh c1))
    /\ (dimension_name <> "dim_customers" ->
        dim_customers (conn_wh c1) = dim_customers (conn_wh c))
    /\ (dimension_name <> "dim_products" ->
        dim_products (conn_wh c1) = dim_products (conn_wh c))
    /\ (dimension_name <> "dim_customers" ->
        dimension_name <> "dim_products" ->
        c1 = c /\ records_updated res = 0 /\ status res = "success").
Proof.
  intros name c c1 res H. unfold apply_scd_type2 in H.
  destruct (String.eqb_spec name "dim_customers") as [E1|E1].
  - subst name. apply (apply_scd_type2_customers c res c1) in H
      as [_ [Hw Hn]].
    rewrite Hn, Hw, update_dim_customers_count.
    split; [apply customer_history_kept_update|].
    split; [apply product_history_kept_refl|].
    split; [repeat split|]. split.
    { change (current_products
                (fst (update_dim_customers (conn_src c) (CURRENT_DATE c)
                                           (conn_wh c))))
        with (current_products (conn_wh c)). lia. }
    split; [congruence|]. split; [reflexivity | congruence].
  - destruct (String.eqb_spec name "dim_products") as [E2|E2].
    + subst name. apply (apply_scd_type2_products c res c1) in H
        as [_ [Hw Hn]].
      rewrite Hn, Hw, update_dim_products_count.
      split; [apply customer_history_kept_refl|].
      split; [apply product_history_kept_update|].
      split; [repeat split|]. split.
      { change (current_customers
                  (fst (update_dim_products (conn_src c) (CURRENT_DATE c)
                                            (conn_wh c))))
          with (current_customers (conn_wh c)). lia. }
      split; [reflexivity|]. split; congruence.
    + unfold ret in H. inversion H; subst.
      split; [apply customer_history_kept_refl|].
      split; [apply product_history_kept_refl|].
      split; [apply same_outside_scd_dimensions_refl|].
      simpl. split; [lia|]. repeat split.
Qed.

Lemma retirement_keeps_history_witness :
  exists res c1,
    apply_scd_type2 "dim_products" Sample.after_withdrawal = Returns res c1
    /\ records_updated res
       = current_products (conn_wh Sample.after_withdrawal)
         - current_products (conn_wh c1)
    /\ product_history_kept (dim_products (conn_wh Sample.after_withdrawal))
                            (dim_products (conn_wh c1)).
Proof.
  let v := eval vm_compute in
             (apply_scd_type2 "dim_products" Sample.after_withdrawal) in
  match v with
  | Returns ?res ?c1 =>
      assert (H : apply_scd_type2 "dim_products" Sample.after_withdrawal
                  = Returns res c1) by (vm_compute; reflexivity);
      exists res, c1;
      destruct (retirement_keeps_history _ _ _ _ H)
        as [Hc [Hp [_ [Hn _]]]]
  end.
  split; [exact H|]. split; [|exact Hp].
  rewrite Hn. vm_compute. reflexivity.
Defined.


(* ------------------------------------------------------------------ *)
(** * Running the date dimension again *)
(* ------------------------------------------------------------------ *)

Lemma build_dim_date_returns start_text end_text c n c1 :
  build_dim_date start_text end_text c = Returns n c1 ->
  exists dates,
    date_range start_text end_text = Ok dates
    /\ store_fails c InsertDimDate = false
    /\ store_fails c1 = store_fails c
    /\ n = Z.of_nat (List.length dates)
    /\ dim_date (conn_wh c1)
       = dim_date (conn_wh c)
         ++ Sql.with_serial (date_sk_seq (conn_wh c)) dim_date_row_of dates
    /\ date_sk_seq (conn_wh c1)
       = date_sk_seq (conn_wh c) + Z.of_nat (List.length dates).
Proof.
  unfold build_dim_date, bind, lift, execute. intros H.
  destruct (date_range start_text end_text) as [dates|e]; [|discriminate].
  destruct (store_fails c InsertDimDate) eqn:Hs; [discriminate|].
  unfold append_dim_date in H. inversion H; subst. simpl.
  exists dates. repeat split.
  rewrite <- (with_serial_dates (date_sk_seq (conn_wh c)) dates) at 2.
  now rewrite length_map.
Qed.

Lemma twice_in_app {A} (f : A -> bool) l1 l2 l3 x y :
  In x l2 -> f x = true -> In y l3 -> f y = true ->
  (2 <= List.length (filter f ((l1 ++ l2) ++ l3)))%nat.
Proof.
  intros Hx Hfx Hy Hfy. rewrite !filter_app, !length_app.
  assert (H2 : In x (filter f l2)) by (apply filter_In; tauto).
  assert (H3 : In y (filter f l3)) by (apply filter_In; tauto).
  destruct (filter f l2); [destruct H2|].
  destruct (filter f l3); [destruct H3|]. simpl. lia.
Qed.

(** X5: the date dimension is not idempotent.  Running [build_dim_date]
    again over the same range returns the same count and appends the same
    days once more, under new surrogate keys, so that every day of the range
    is then in the dimension at least twice. *)
Theorem date_dimension_rerun_appends_the_days_again :
  forall (start_date end_date : string) (c c1 : connection) (n : Z),
    build_dim_date start_date end_date c = Returns n c1 ->
    exists c2 rows1 rows2,
      build_dim_date start_date end_date c1 = Returns n c2
      /\ dim_date (conn_wh c1) = dim_date (conn_wh c) ++ rows1
      /\ dim_date (conn_wh c2) = dim_date (conn_wh c1) ++ rows2
      /\ n = Z.of_nat (List.length rows1)
      /\ map dd_date_id rows2 = map dd_date_id rows1
      /\ (forall r1 r2, In r1 rows1 -> In r2 rows2 ->
                        dd_date_sk r1 < dd_date_sk r2)
      /\ (forall r1, In r1 rows1 ->
                     (2 <= List.length
                             (filter (fun r => Z.eqb (dd_date_id r)
                                                     (dd_date_id r1))
                                     (dim_date (conn_wh c2))))%nat).
Proof.
  intros s e c c1 n H.
  destruct (build_dim_date_returns _ _ _ _ _ H)
    as [dates [Hrange [Hs [Hs1 [Hn [Hrows Hseq]]]]]].
  assert (Hs' : store_fails c1 InsertDimDate = false) by now rewrite Hs1.
  destruct (build_dim_date_appends s e dates c1 Hrange Hs')
    as [c2 [rows2 [Hrun2 [Happ2 [Hrows2 [Hdates2 _]]]]]].
  exists c2, (Sql.with_serial (date_sk_seq (conn_wh c)) dim_date_row_of dates),
    rows2.
  assert (Hdates1 := with_serial_dates (date_sk_seq (conn_wh c)) dates).
  assert (Hlen : List.length
                    (Sql.with_serial (date_sk_seq (conn_wh c))
                                     dim_date_row_of dates)
                  = List.length dates)
    by (rewrite <- (length_map dd_date_id), Hdates1; reflexivity).
  split; [now rewrite Hn|]. split; [exact Hrows|]. split; [exact Happ2|].
  split; [now rewrite Hlen|].
  split; [now rewrite Hdates1|]. split.
  - intros r1 r2 H1 H2. subst rows2.
    apply with_serial_keys in H1, H2. lia.
  - intros r1 H1. rewrite Happ2, Hrows.
    assert (Hd : In (dd_date_id r1) (map dd_date_id rows2)).
    { rewrite Hdates2, <- Hdates1. now apply in_map. }
    apply in_map_iff in Hd as [r2 [E2 H2]].
    apply (twice_in_app _ _ _ _ r1 r2); auto using Z.eqb_refl.
    now apply Z.eqb_eq.
Qed.

Lemma date_dimension_rerun_appends_the_days_again_witness :
  exists c1 c2,
    build_dim_date "2024-01-01" "2024-01-03"
                   (connect Sample.healthy_store (Sample.fresh Sample.day1))
    = Returns 3 c1
    /\ build_dim_date "2024-01-01" "2024-01-03" c1 = Returns 3 c2
    /\ List.length (dim_date (conn_wh c2)) = 6%nat.
Proof.
  let v := eval vm_compute in
             (build_dim_date "2024-01-01" "2024-01-03"
                (connect Sample.healthy_store (Sample.fresh Sample.day1))) in
  match v with
  | Returns ?n ?c1 =>
      assert (H : build_dim_date "2024-01-01" "2024-01-03"
                    (connect Sample.healthy_store (Sample.fresh Sample.day1))
                  = Returns n c1) by (vm_compute; reflexivity);
      exists c1;
      destruct (date_dimension_rerun_appends_the_days_again _ _ _ _ _ H)
        as [c2 [rows1 [rows2 [H2 [Happ1 [Happ2 [Hn [Hd _]]]]]]]]
  end.
  exists c2. split; [exact H|]. split; [exact H2|].
  rewrite Happ2, Happ1, !length_app.
  assert (Hl2 : List.length rows2 = List.length rows1)
    by (rewrite <- (length_map dd_date_id rows2), Hd; apply length_map).
  rewrite Hl2. simpl. lia.
Defined.


(* ------------------------------------------------------------------ *)
(** * Skip-on-conflict insertion *)
(* ------------------------------------------------------------------ *)

(** Whatever the conflict rule, existing rows stay where they are and the
    rowcount is the number of rows added, all of them proposed ones. *)
Lemma insert_on_conflict_appends {R} conflicts (proposed : list R) :
  forall table,
    exists added,
      Sql.insert_on_conflict_do_nothing conflicts table proposed
      = (table ++ added, Z.of_nat (List.length added))
      /\ forall r, In r added -> In r proposed.
Proof.
  induction proposed as [|p rest IH]; intros table; simpl.
  - exists []. rewrite app_nil_r. split; [reflexivity | tauto].
  - destruct (existsb (conflicts p) table).
    + destruct (IH table) as [added [E Hin]]. exists added.
      split; [exact E | auto].
    + destruct (IH (table ++ [p])) as [added [E Hin]]. rewrite E.
      exists (p :: added). rewrite <- app_assoc. simpl. split.
      * f_equal. lia.
      * intros r [Hr|Hr]; auto.
Qed.

Lemma insert_on_conflict_app {R} conflicts (p q : list R) :
  forall table,
    Sql.insert_on_conflict_do_nothing conflicts table (p ++ q)
    = let '(t1, n1) := Sql.insert_on_conflict_do_nothing conflicts table p in
      let '(t2, n2) := Sql.insert_on_conflict_do_nothing conflicts t1 q in
      (t2, n2 + n1).
Proof.
  induction p as [|x rest IH]; intros table; simpl.
  - destruct (Sql.insert_on_conflict_do_nothing conflicts table q).
    f_equal. lia.
  - destruct (existsb (conflicts x) table); [apply IH|].
    rewrite IH.
    destruct (Sql.insert_on_conflict_do_nothing conflicts (table ++ [x]) rest)
      as [t1 n1].
    destruct (Sql.insert_on_conflict_do_nothing conflicts t1 q) as [t2 n2].
    f_equal. lia.
Qed.

Section KeyedInsertion.
Context {R : Type} (key : R -> string).

Local Abbreviation conflicts := (fun new old => (key new =? key old)%string).

Lemma conflict_iff_key_present r table :
  existsb (conflicts r) table = true <-> In (key r) (map key table).
Proof.
  rewrite existsb_exists, in_map_iff.
  split; intros [x H]; exists x.
  - destruct H as [Hin E]. apply String.eqb_eq in E. auto.
  - destruct H as [E Hin]. split; [exact Hin|]. apply String.eqb_eq. auto.
Qed.

Lemma insert_keeps_keys_distinct proposed :
  forall table,
    NoDup (map key table) ->
    NoDup (map key (fst (Sql.insert_on_conflict_do_nothing
                           conflicts table proposed))).
Proof.
  induction proposed as [|p rest IH]; intros table Hnd; simpl; [exact Hnd|].
  destruct (existsb (conflicts p) table) eqn:Hex; [now apply IH|].
  specialize (IH (table ++ [p])).
  destruct (Sql.insert_on_conflict_do_nothing conflicts (table ++ [p]) rest).
  apply IH. rewrite map_app. simpl. apply NoDup_app.
  - exact Hnd.
  - repeat constructor. simpl. tauto.
  - intros k Hk [E|[]]. subst k.
    apply conflict_iff_key_present in Hk. congruence.
Qed.

Lemma insert_keeps_keys proposed :
  forall table k,
    In k (map key table) ->
    In k (map key (fst (Sql.insert_on_conflict_do_nothing
                          conflicts table proposed))).
Proof.
  intros table k Hk.
  destruct (insert_on_conflict_appends conflicts proposed table)
    as [added [E _]].
  rewrite E. simpl. rewrite map_app. apply in_or_app. now left.
Qed.

Lemma insert_covers_proposed_keys proposed :
  forall table r,
    In r proposed ->
    In (key r) (map key (fst (Sql.insert_on_conflict_do_nothing
                                conflicts table proposed))).
Proof.
  induction proposed as [|p rest IH]; intros table r Hr; simpl;
    [destruct Hr|].
  destruct (existsb (conflicts p) table) eqn:Hex.
  - destruct Hr as [E|Hr]; [|now apply IH].
    subst r. apply insert_keeps_keys.
    now apply conflict_iff_key_present.
  - pose proof (IH (table ++ [p])) as IH1.
    pose proof (insert_keeps_keys rest (table ++ [p]) (key p)) as IH2.
    destruct (Sql.insert_on_conflict_do_nothing conflicts (table ++ [p]) rest).
    simpl in *. destruct Hr as [E|Hr]; [|now apply IH1].
    subst r. apply IH2. rewrite map_app. apply in_or_app. right. now left.
Qed.

Lemma insert_of_present_keys proposed :
  forall table,
    (forall r, In r proposed -> In (key r) (map key table)) ->
    Sql.insert_on_conflict_do_nothing conflicts table proposed = (table, 0).
Proof.
  induction proposed as [|p rest IH]; intros table H; simpl; [reflexivity|].
  rewrite (proj2 (conflict_iff_key_present p table) (H p (or_introl eq_refl))).
  apply IH. intros r Hr. apply H. now right.
Qed.

(** Rows with key [k]: untouched when the key is taken, none when nobody
    proposes it. *)
Lemma insert_keeps_rows_of_taken_key proposed k :
  forall table,
    In k (map key table) ->
    filter (fun r => (key r =? k)%string)
           (fst (Sql.insert_on_conflict_do_nothing conflicts table proposed))
    = filter (fun r => (key r =? k)%string) table.
Proof.
  induction proposed as [|p rest IH]; intros table Hk; simpl; [reflexivity|].
  destruct (existsb (conflicts p) table) eqn:Hex; [now apply IH|].
  specialize (IH (table ++ [p])).
  destruct (Sql.insert_on_conflict_do_nothing conflicts (table ++ [p]) rest).
  simpl in *. rewrite IH by (rewrite map_app; apply in_or_app; now left).
  rewrite filter_app. simpl.
  destruct (String.eqb_spec (key p) k) as [E|E]; [|apply app_nil_r].
  subst k. apply conflict_iff_key_present in Hk. congruence.
Qed.

Lemma insert_without_key proposed k :
  forall table,
    (forall r, In r proposed -> key r <> k) ->
    filter (fun r => (key r =? k)%string)
           (fst (Sql.insert_on_conflict_do_nothing conflicts table proposed))
    = filter (fun r => (key r =? k)%string) table.
Proof.
  intros table H.
  destruct (insert_on_conflict_appends conflicts proposed table)
    as [added [E Hin]].
  rewrite E. simpl. apply filter_app_none.
  intros r Hr. apply String.eqb_neq. apply H. now apply Hin.
Qed.

(** The first proposed row with a free key is the one that takes it. *)
Lemma insert_first_proposed_wins before r0 after k :
  forall table,
    key r0 = k ->
    ~ In k (map key table) ->
    (forall r, In r before -> key r <> k) ->
    filter (fun r => (key r =? k)%string)
           (fst (Sql.insert_on_conflict_do_nothing
                   conflicts table (before ++ r0 :: after)))
    = [r0].
Proof.
  intros table Hk Hfree Hbefore.
  rewrite insert_on_conflict_app.
  pose proof (insert_without_key before k table Hbefore) as H1.
  destruct (Sql.insert_on_conflict_do_nothing conflicts table before)
    as [t1 n1].
  cbn [fst] in H1.
  assert (Hnone : filter (fun r => (key r =? k)%string) table = []).
  { apply filter_none. intros x Hx. apply String.eqb_neq. intros E.
    apply Hfree. apply in_map_iff. now exists x. }
  rewrite Hnone in H1.
  assert (Hex : existsb (conflicts r0) t1 = false).
  { apply not_true_iff_false. intros Hex.
    apply conflict_iff_key_present in Hex.
    apply in_map_iff in Hex as [x [Ex Hx]].
    assert (Hf : In x (filter (fun r => (key r =? k)%string) t1))
      by (apply filter_In; split;
          [exact Hx | apply String.eqb_eq; congruence]).
    rewrite H1 in Hf. destruct Hf. }
  simpl. rewrite Hex.
  pose proof (insert_keeps_rows_of_taken_key after k (t1 ++ [r0])) as H2.
  destruct (Sql.insert_on_conflict_do_nothing conflicts (t1 ++ [r0]) after)
    as [t2 n2].
  cbn [fst] in *. rewrite H2.
  - rewrite filter_app, H1. simpl.
    now rewrite (proj2 (String.eqb_eq (key r0) k) Hk).
  - rewrite map_app. apply in_or_app. right. simpl. now left.
Qed.
End KeyedInsertion.


(* ------------------------------------------------------------------ *)
(** * The payment-method dimension *)
(* ------------------------------------------------------------------ *)

Lemma select_row_eqb_eq a b : select_row_eqb a b = true <-> a = b.
Proof.
  destruct a as [[[i1 n1] c1] a1], b as [[[i2 n2] c2] a2]. simpl.
  rewrite !andb_true_iff, !String.eqb_eq, Bool.eqb_true_iff.
  split; [intros [[[? ?] ?] ?]; congruence | intros E; inversion E; auto].
Qed.

Lemma with_serial_app {P R} (mk : Z -> P -> R) ps qs :
  forall next,
    Sql.with_serial next mk (ps ++ qs)
    = Sql.with_serial next mk ps
      ++ Sql.with_serial (next + Z.of_nat (List.length ps)) mk qs.
Proof.
  induction ps as [|p rest IH]; intros next; simpl.
  - now rewrite Z.add_0_r.
  - rewrite IH. do 3 f_equal. lia.
Qed.

Lemma with_serial_covers {P R} (mk : Z -> P -> R) ps p :
  forall next,
    In p ps -> exists sk, In (mk sk p) (Sql.with_serial next mk ps).
Proof.
  induction ps as [|q rest IH]; intros next Hp; simpl; [destruct Hp|].
  destruct Hp as [E|Hp].
  - subst q. exists next. now left.
  - destruct (IH (next + 1) Hp) as [sk Hsk]. exists sk. now right.
Qed.

Lemma distinct_keeps_first {R} (eqb : R -> R -> bool) before x after :
  (forall a b, eqb a b = true <-> a = b) ->
  ~ In x before ->
  exists before' after',
    Sql.distinct eqb (before ++ x :: after) = before' ++ x :: after'
    /\ forall y, In y before' -> In y before.
Proof.
  intros Heq. induction before as [|a rest IH]; intros Hx; simpl.
  - exists [], (filter (fun y => negb (eqb x y)) (Sql.distinct eqb after)).
    split; [reflexivity | tauto].
  - destruct IH as [before' [after' [E Hin]]]; [simpl in Hx; tauto|].
    rewrite E, filter_app. simpl.
    assert (Hax : eqb a x = false).
    { apply not_true_iff_false. intros H. apply Heq in H. subst a.
      apply Hx. now left. }
    rewrite Hax. simpl.
    exists (a :: filter (fun y => negb (eqb a y)) before'),
      (filter (fun y => negb (eqb a y)) after').
    split; [reflexivity|].
    intros y [Hy|Hy]; [now left|]. right. apply Hin.
    now apply filter_In in Hy as [Hy _].
Qed.

Lemma dpm_id_of sk r :
  dpm_payment_method_id (dim_payment_method_of sk r) = fst (fst (fst r)).
Proof. now destruct r as [[[i n] c] a]. Qed.

(** The ids the statement proposes are the normalised labels of the staged
    transactions. *)
Lemma proposed_payment_method_ids src next r :
  In r (Sql.with_serial
          next dim_payment_method_of
          (Sql.distinct select_row_eqb
             (map payment_method_select_row (staging_transactions src)))) ->
  exists t, In t (staging_transactions src)
            /\ dpm_payment_method_id r
               = payment_method_id (t_payment_method t).
Proof.
  intros H. apply in_with_serial in H as [sk [p [Hp E]]].
  apply in_distinct, in_map_iff in Hp as [t [Et Ht]].
  exists t. split; [exact Ht|]. subst r p. reflexivity.
Qed.

Lemma staged_label_is_proposed src next t :
  In t (staging_transactions src) ->
  exists r,
    In r (Sql.with_serial
            next dim_payment_method_of
            (Sql.distinct select_row_eqb
               (map payment_method_select_row (staging_transactions src))))
    /\ dpm_payment_method_id r = payment_method_id (t_payment_method t).
Proof.
  intros Ht.
  assert (Hin : In (payment_method_select_row t)
                   (Sql.distinct select_row_eqb
                      (map payment_method_select_row
                           (staging_transactions src)))).
  { apply (distinct_values select_row_eqb _ select_row_eqb_eq).
    now apply in_map. }
  destruct (with_serial_covers dim_payment_method_of _ _ next Hin)
    as [sk Hsk].
  eexists. split; [exact Hsk | reflexivity].
Qed.

Lemma build_dim_payment_method_returns c n c1 :
  build_dim_payment_method c = Returns n c1 ->
  store_fails c InsertDimPaymentMethod = false
  /\ same_context c c1
  /\ conn_wh c1
     = fst (insert_dim_payment_method (conn_src c) (CURRENT_DATE c)
                                      (conn_wh c))
  /\ n = snd (insert_dim_payment_method (conn_src c) (CURRENT_DATE c)
                                        (conn_wh c)).
Proof.
  unfold build_dim_payment_method, execute. intros H.
  destruct (store_fails c InsertDimPaymentMethod); [discriminate|].
  destruct (insert_dim_payment_method _ _ _) as [w x].
  inversion H; subst. repeat split.
Qed.

Lemma insert_dim_payment_method_rows src today w :
  dim_payment_method (fst (insert_dim_payment_method src today w))
  = fst (Sql.insert_on_conflict_do_nothing
           dim_payment_method_conflict (dim_payment_method w)
           (Sql.with_serial
              (payment_method_sk_seq w) dim_payment_method_of
              (Sql.distinct select_row_eqb
                 (map payment_method_select_row
                      (staging_transactions src)))))
  /\ snd (insert_dim_payment_method src today w)
     = snd (Sql.insert_on_conflict_do_nothing
              dim_payment_method_conflict (dim_payment_method w)
              (Sql.with_serial
                 (payment_method_sk_seq w) dim_payment_method_of
                 (Sql.distinct select_row_eqb
                    (map payment_method_select_row
                         (staging_transactions src))))).
Proof.
  unfold insert_dim_payment_method.
  destruct (Sql.insert_on_conflict_do_nothing _ _ _). split; reflexivity.
Qed.

(** X6: the payment-method builder only appends, reports the number of
    rows it appended, keeps the ids of the dimension distinct, leaves every
    staged label with a row for its id, and is idempotent: run again on the
    same connection it returns zero and leaves the table as it is. *)
Theorem payment_method_dimension_has_one_row_per_id :
  forall (c c1 : connection) (n : Z),
    build_dim_payment_method c = Returns n c1 ->
    (exists added,
        dim_payment_method (conn_wh c1)
        = dim_payment_method (conn_wh c) ++ added
        /\ n = Z.of_nat (List.length added))
    /\ (NoDup (map dpm_payment_method_id (dim_payment_method (conn_wh c))) ->
        NoDup (map dpm_payment_method_id (dim_payment_method (conn_wh c1))))
    /\ (forall t, In t (staging_transactions (conn_src c)) ->
                  In (payment_method_id (t_payment_method t))
                     (map dpm_payment_method_id
                          (dim_payment_method (conn_wh c1))))
    /\ exists c2,
        build_dim_payment_method c1 = Returns 0 c2
        /\ dim_payment_method (conn_wh c2) = dim_payment_method (conn_wh c1).
Proof.
  intros c c1 n H.
  destruct (build_dim_payment_method_returns _ _ _ H)
    as [Hs [[Hsrc [Hdate Hfails]] [Hw Hn]]].
  destruct (insert_dim_payment_method_rows
              (conn_src c) (CURRENT_DATE c) (conn_wh c)) as [Hrows Hcount].
  assert (Hcover : forall t,
             In t (staging_transactions (conn_src c)) ->
             In (payment_method_id (t_payment_method t))
                (map dpm_payment_method_id
                     (dim_payment_method (conn_wh c1)))).
  { intros t Ht. rewrite Hw, Hrows.
    destruct (staged_label_is_proposed
                (conn_src c) (payment_method_sk_seq (conn_wh c)) t Ht)
      as [r [Hr E]].
    rewrite <- E.
    now apply (insert_covers_proposed_keys dpm_payment_method_id). }
  split; [|split; [|split; [exact Hcover|]]].
  - destruct (insert_on_conflict_appends
                dim_payment_method_conflict
                (Sql.with_serial
                   (payment_method_sk_seq (conn_wh c)) dim_payment_method_of
                   (Sql.distinct select_row_eqb
                      (map payment_method_select_row
                           (staging_transactions (conn_src c)))))
                (dim_payment_method (conn_wh c))) as [added [E _]].
    exists added. rewrite Hw, Hn, Hrows, Hcount, E. split; reflexivity.
  - intros Hnd. rewrite Hw, Hrows.
    now apply (insert_keeps_keys_distinct dpm_payment_method_id).
  - unfold build_dim_payment_method, execute. rewrite Hfails, Hs.
    destruct (insert_dim_payment_method_rows
                (conn_src c1) (CURRENT_DATE c1) (conn_wh c1))
      as [Hrows2 Hcount2].
    assert (Hsame :
              Sql.insert_on_conflict_do_nothing
                dim_payment_method_conflict (dim_payment_method (conn_wh c1))
                (Sql.with_serial
                   (payment_method_sk_seq (conn_wh c1)) dim_payment_method_of
                   (Sql.distinct select_row_eqb
                      (map payment_method_select_row
                           (staging_transactions (conn_src c1)))))
              = (dim_payment_method (conn_wh c1), 0)).
    { apply (insert_of_present_keys dpm_payment_method_id).
      intros r Hr. apply proposed_payment_method_ids in Hr as [t [Ht E]].
      rewrite E. apply Hcover. now rewrite <- Hsrc. }
    rewrite Hsame in Hrows2, Hcount2. cbn [fst snd] in *.
    destruct (insert_dim_payment_method (conn_src c1) (CURRENT_DATE c1)
                                        (conn_wh c1)) as [w2 n2].
    cbn [fst snd] in *. subst n2. eexists. split; [reflexivity|].
    exact Hrows2.
Qed.

Lemma payment_method_dimension_has_one_row_per_id_witness :
  exists c1 c2,
    build_dim_payment_method
      (connect Sample.healthy_store (Sample.fresh Sample.day1))
    = Returns 2 c1
    /\ build_dim_payment_method c1 = Returns 0 c2
    /\ NoDup (map dpm_payment_method_id (dim_payment_method (conn_wh c1))).
Proof.
  let v := eval vm_compute in
             (build_dim_payment_method
                (connect Sample.healthy_store (Sample.fresh Sample.day1))) in
  match v with
  | Returns ?n ?c1 =>
      assert (H : build_dim_payment_method
                    (connect Sample.healthy_store (Sample.fresh Sample.day1))
                  = Returns n c1) by (vm_compute; reflexivity);
      exists c1;
      destruct (payment_method_dimension_has_one_row_per_id _ _ _ H)
        as [_ [Hnd [_ [c2 [H2 _]]]]]
  end.
  exists c2. split; [exact H|]. split; [exact H2|].
  apply Hnd. constructor.
Defined.

(** In the order in which the rows of [staging.transactions] are proposed
    here, the row inserted for a free id is the one of the first label with
    that id. *)
Lemma first_proposed_label_is_inserted :
  forall (c c1 : connection) (n : Z) before t0 after,
    build_dim_payment_method c = Returns n c1 ->
    staging_transactions (conn_src c) = before ++ t0 :: after ->
    (forall t, In t before ->
               payment_method_id (t_payment_method t)
               <> payment_method_id (t_payment_method t0)) ->
    payment_method_rows (payment_method_id (t_payment_method t0)) (conn_wh c)
    = [] ->
    exists row,
      payment_method_rows (payment_method_id (t_payment_method t0))
                          (conn_wh c1) = [row]
      /\ dpm_payment_method_name row = t_payment_method t0
      /\ dpm_category row = payment_method_category (t_payment_method t0)
      /\ dpm_is_active row = true.
Proof.
  intros c c1 n before t0 after H Hstaged Hbefore Hfree.
  destruct (build_dim_payment_method_returns _ _ _ H) as [_ [_ [Hw _]]].
  destruct (insert_dim_payment_method_rows
              (conn_src c) (CURRENT_DATE c) (conn_wh c)) as [Hrows _].
  set (k := payment_method_id (t_payment_method t0)) in *.
  assert (Hnotin : ~ In (payment_method_select_row t0)
                        (map payment_method_select_row before)).
  { intros Hin. apply in_map_iff in Hin as [t [E Ht]].
    apply (Hbefore t Ht). unfold payment_method_select_row in E.
    inversion E. subst k. congruence. }
  destruct (distinct_keeps_first
              select_row_eqb (map payment_method_select_row before)
              (payment_method_select_row t0)
              (map payment_method_select_row after)
              select_row_eqb_eq Hnotin)
    as [before' [after' [Hdistinct Hsub]]].
  unfold payment_method_rows. rewrite Hw, Hrows, Hstaged.
  rewrite map_app. simpl map. rewrite Hdistinct, with_serial_app.
  simpl Sql.with_serial.
  exists (dim_payment_method_of
            (payment_method_sk_seq (conn_wh c)
             + Z.of_nat (List.length before'))
            (payment_method_select_row t0)).
  split; [|repeat split; reflexivity].
  apply (insert_first_proposed_wins dpm_payment_method_id).
  - reflexivity.
  - intros Hin. apply in_map_iff in Hin as [x [Ex Hx]].
    assert (Hf : In x (payment_method_rows k (conn_wh c)))
      by (apply filter_In; split; [exact Hx | now apply String.eqb_eq]).
    rewrite Hfree in Hf. destruct Hf.
  - intros r Hr. apply in_with_serial in Hr as [sk [p [Hp E]]].
    apply Hsub, in_map_iff in Hp as [t [Et Ht]]. subst r p.
    exact (Hbefore t Ht).
Qed.

Lemma first_with {A : Type} (P : A -> bool) (l : list A) :
  (exists x, In x l /\ P x = true) ->
  exists before x after,
    l = before ++ x :: after
    /\ P x = true
    /\ forall y, In y before -> P y = false.
Proof.
  induction l as [|a l IH]; intros [x [Hin Hx]]; [destruct Hin|].
  destruct (P a) eqn:Ea.
  - exists [], a, l. split; [reflexivity|]. split; [exact Ea|].
    intros y [].
  - destruct Hin as [->|Hin]; [congruence|].
    destruct (IH (ex_intro _ x (conj Hin Hx)))
      as (before & x0 & after & -> & Hx0 & Hbefore).
    exists (a :: before), x0, after. split; [reflexivity|].
    split; [exact Hx0|]. intros y [<-|Hy]; auto.
Qed.

(** X7: label variants of one id collapse into one row.  When the
    dimension has no row for an id and one or more staged labels normalise
    to it, the builder adds exactly one row for the id, and that row shows
    the name and the category of one of the staged labels with that id; the
    other labels with that id leave no trace in the dimension. *)
Theorem one_staged_label_names_the_payment_method :
  forall (c c1 : connection) (n : Z) (id : string),
    build_dim_payment_method c = Returns n c1 ->
    payment_method_rows id (conn_wh c) = [] ->
    (exists t, In t (staging_transactions (conn_src c))
               /\ payment_method_id (t_payment_method t) = id) ->
    exists row t,
      payment_method_rows id (conn_wh c1) = [row]
      /\ In t (staging_transactions (conn_src c))
      /\ payment_method_id (t_payment_method t) = id
      /\ dpm_payment_method_id row = id
      /\ dpm_payment_method_name row = t_payment_method t
      /\ dpm_category row = payment_method_category (t_payment_method t)
      /\ dpm_is_active row = true.
Proof.
  intros c c1 n id H Hfree [t [Hin Hid]].
  destruct (first_with
              (fun t => (payment_method_id (t_payment_method t) =? id)%string)
              (staging_transactions (conn_src c)))
    as (before & t0 & after & Hstaged & Ht0 & Hbefore).
  { exists t. split; [exact Hin|]. now apply String.eqb_eq. }
  apply String.eqb_eq in Ht0. subst id. rewrite <- Ht0 in Hfree, Hbefore.
  rewrite <- Ht0. clear Ht0.
  destruct (first_proposed_label_is_inserted
              c c1 n before t0 after H Hstaged) as (row & Hrows & Hname
                                                    & Hcat & Hact).
  - intros x Hx. apply String.eqb_neq. now apply Hbefore.
  - exact Hfree.
  - exists row, t0. split; [exact Hrows|]. split.
    + rewrite Hstaged. apply in_or_app. right. now left.
    + split; [reflexivity|]. split; [|auto].
      assert (Hr : In row (payment_method_rows
                             (payment_method_id (t_payment_method t0))
                             (conn_wh c1)))
        by (rewrite Hrows; now left).
      apply filter_In in Hr. destruct Hr as [_ Hr].
      now apply String.eqb_eq in Hr.
Qed.

Lemma one_staged_label_names_the_payment_method_witness :
  exists c1 row t,
    build_dim_payment_method
      (connect Sample.healthy_store
               (Sample.fresh MoreSamples.mixed_case_labels))
    = Returns 1 c1
    /\ payment_method_rows "upi" (conn_wh c1) = [row]
    /\ In t (staging_transactions MoreSamples.mixed_case_labels)
    /\ dpm_payment_method_name row = t_payment_method t.
Proof.
  let v := eval vm_compute in
             (build_dim_payment_method
                (connect Sample.healthy_store
                         (Sample.fresh MoreSamples.mixed_case_labels))) in
  match v with
  | Returns ?n ?c1 =>
      assert (H : build_dim_payment_method
                    (connect Sample.healthy_store
                             (Sample.fresh MoreSamples.mixed_case_labels))
                  = Returns n c1) by (vm_compute; reflexivity);
      exists c1;
      destruct (one_staged_label_names_the_payment_method
                  _ _ _ "upi" H eq_refl
                  (ex_intro _ MoreSamples.lower_case_label
                            (conj (or_introl eq_refl) eq_refl)))
        as (row & t & Hrows & Hin & _ & _ & Hname & _)
  end.
  exists row, t. split; [exact H|]. split; [exact Hrows|].
  split; [exact Hin | exact Hname].
Defined.


(* ------------------------------------------------------------------ *)
(** * A date that is in the dimension twice *)
(* ------------------------------------------------------------------ *)

Lemma two_in_filter {A} (f : A -> bool) l x y :
  In x l -> In y l -> x <> y -> f x = true -> f y = true ->
  (2 <= List.length (filter f l))%nat.
Proof.
  intros Hx Hy Hne Hfx Hfy.
  assert (Hnd : NoDup [x; y]).
  { repeat constructor; simpl; [intros [E|[]]; congruence | tauto]. }
  apply (NoDup_incl_length Hnd).
  intros z [E|[E|[]]]; subst z; apply filter_In; tauto.
Qed.

(** X8: one fact row per matching date row.  When the date dimension holds
    two rows, under different surrogate keys, for the date of a transaction
    (as it does after the date range was generated twice), a line item of
    that transaction that resolves and is not loaded yet is appended twice,
    once for each date row, so the fact table then holds its item_id at
    least twice. *)
Theorem duplicated_date_row_duplicates_fact_rows :
  forall (c c2 : connection) (n : Z) ti t dc dp dd1 dd2,
    build_fact_sales c = Returns n c2 ->
    In ti (transaction_items (conn_src c)) ->
    In t (transactions (conn_src c)) ->
    ti_transaction_id ti = t_transaction_id t ->
    In dc (dim_customers (conn_wh c)) -> dc_is_current dc = true ->
    dc_customer_id dc = t_customer_id t ->
    In dp (dim_products (conn_wh c)) -> dp_is_current dp = true ->
    dp_product_id dp = ti_product_id ti ->
    In dd1 (dim_date (conn_wh c)) -> dd_date_id dd1 = t_transaction_date t ->
    In dd2 (dim_date (conn_wh c)) -> dd_date_id dd2 = t_transaction_date t ->
    dd_date_sk dd1 <> dd_date_sk dd2 ->
    (forall old, In old (fact_sales (conn_wh c)) ->
                 fs_item_id old <> ti_item_id ti) ->
    (exists fs1 fs2,
        In fs1 (fact_sales (conn_wh c2)) /\ In fs2 (fact_sales (conn_wh c2))
        /\ fs_item_id fs1 = ti_item_id ti /\ fs_item_id fs2 = ti_item_id ti
        /\ fs_date_sk fs1 = dd_date_sk dd1
        /\ fs_date_sk fs2 = dd_date_sk dd2)
    /\ (2 <= List.length
               (filter (fun fs => String.eqb (fs_item_id fs) (ti_item_id ti))
                       (fact_sales (conn_wh c2))))%nat.
Proof.
  intros c c2 n ti t dc dp dd1 dd2 H Hti Ht Hid Hdc Hdcc Hdck Hdp Hdpc Hdpk
         Hdd1 Hddk1 Hdd2 Hddk2 Hsk Hnew.
  destruct (line_item_is_loaded c c2 n ti t dc dp dd1 H Hti Ht Hid Hdc Hdcc
              Hdck Hdp Hdpc Hdpk Hdd1 Hddk1 Hnew) as [fs1 [Hin1 [Hr1 _]]].
  destruct (line_item_is_loaded c c2 n ti t dc dp dd2 H Hti Ht Hid Hdc Hdcc
              Hdck Hdp Hdpc Hdpk Hdd2 Hddk2 Hnew) as [fs2 [Hin2 [Hr2 _]]].
  destruct Hr1 as [_ [_ [_ [_ [Hi1 [_ [_ [_ [Hd1 _]]]]]]]]].
  destruct Hr2 as [_ [_ [_ [_ [Hi2 [_ [_ [_ [Hd2 _]]]]]]]]].
  split.
  - exists fs1, fs2. repeat split; assumption.
  - apply (two_in_filter _ _ fs1 fs2); try assumption.
    + intros E. subst fs2. congruence.
    + now apply String.eqb_eq.
    + now apply String.eqb_eq.
Qed.

Lemma duplicated_date_row_duplicates_fact_rows_witness :
  exists c2,
    build_fact_sales MoreSamples.doubled_dates = Returns 4 c2
    /\ (2 <= List.length
               (filter (fun fs => String.eqb (fs_item_id fs) "I1")
                       (fact_sales (conn_wh c2))))%nat.
Proof.
  let v := eval vm_compute in (build_fact_sales MoreSamples.doubled_dates) in
  match v with
  | Returns ?n ?c2 =>
      assert (H : build_fact_sales MoreSamples.doubled_dates = Returns n c2)
        by (vm_compute; reflexivity);
      exists c2
  end.
  split; [exact H|].
  let c := constr:(MoreSamples.doubled_dates) in
  let ti := eval vm_compute in (hd_error (transaction_items (conn_src c))) in
  let t := eval vm_compute in (hd_error (transactions (conn_src c))) in
  let dc := eval vm_compute in (hd_error (dim_customers (conn_wh c))) in
  let dp := eval vm_compute in (hd_error (dim_products (conn_wh c))) in
  let dd1 := eval vm_compute in (nth_error (dim_date (conn_wh c)) 0) in
  let dd2 := eval vm_compute in (nth_error (dim_date (conn_wh c)) 3) in
  match constr:((ti, t, dc, dp, dd1, dd2)) with
  | (Some ?ti, Some ?t, Some ?dc, Some ?dp, Some ?dd1, Some ?dd2) =>
      destruct (duplicated_date_row_duplicates_fact_rows
                  c _ _ ti t dc dp dd1 dd2 H
                  ltac:(vm_compute; left; reflexivity)
                  ltac:(vm_compute; left; reflexivity)
                  eq_refl
                  ltac:(vm_compute; left; reflexivity) eq_refl eq_refl
                  ltac:(vm_compute; left; reflexivity) eq_refl eq_refl
                  ltac:(vm_compute; left; reflexivity) eq_refl
                  ltac:(vm_compute; do 3 right; left; reflexivity) eq_refl
                  ltac:(vm_compute; discriminate)
                  ltac:(intros old Hold; vm_compute in Hold; destruct Hold))
        as [_ Htwice]
  end.
  exact Htwice.
Defined.


(* ------------------------------------------------------------------ *)
(** * The build, statement by statement *)
(* ------------------------------------------------------------------ *)

Lemma execute_returns {A} s
      (effect : sources -> date -> warehouse -> warehouse * A) c a c1 :
  execute s effect c = Returns a c1 ->
  store_fails c s = false
  /\ conn_src c1 = conn_src c /\ CURRENT_DATE c1 = CURRENT_DATE c
  /\ store_fails c1 = store_fails c
  /\ conn_wh c1 = fst (effect (conn_src c) (CURRENT_DATE c) (conn_wh c))
  /\ a = snd (effect (conn_src c) (CURRENT_DATE c) (conn_wh c)).
Proof.
  unfold execute. intros H.
  destruct (store_fails c s); [discriminate|].
  destruct (effect _ _ _) as [w x]. inversion H; subst. repeat split.
Qed.

Lemma rows_app {R} (l1 l2 : list R) : rows (l1 ++ l2) = rows l1 + rows l2.
Proof. unfold rows. rewrite length_app. lia. Qed.

Lemma insert_result {R} conflicts (table proposed : list R) :
  exists added,
    fst (Sql.insert_on_conflict_do_nothing conflicts table proposed)
    = table ++ added
    /\ snd (Sql.insert_on_conflict_do_nothing conflicts table proposed)
       = rows added
    /\ forall r, In r added -> In r proposed.
Proof.
  destruct (insert_on_conflict_appends conflicts proposed table)
    as [added [E Hin]].
  exists added. rewrite E. repeat split. exact Hin.
Qed.

Lemma filter_all {A} (f : A -> bool) l :
  (forall x, In x l -> f x = true) -> filter f l = l.
Proof.
  induction l as [|x xs IH]; intros H; simpl; [reflexivity|].
  rewrite (H x (or_introl eq_refl)). f_equal. apply IH.
  intros y Hy. apply H. now right.
Qed.

(** What each statement does to the census of the warehouse. *)
Lemma insert_dim_customers_census src today w :
  census (fst (insert_dim_customers src today w))
  = add_census (census w)
      [snd (insert_dim_customers src today w); 0; 0; 0; 0; 0; 0; 0;
       snd (insert_dim_customers src today w); 0].
Proof.
  unfold insert_dim_customers.
  destruct (insert_result dim_customers_conflict (dim_customers w)
              (Sql.with_serial (customer_sk_seq w) (dim_customer_of today)
                               (filter c_is_active (customers src))))
    as [added [Ef [Es Hin]]].
  destruct (Sql.insert_on_conflict_do_nothing _ _ _) as [t n].
  cbn [fst snd] in *. subst t n.
  unfold census, add_census, current_customers, current_products.
  cbn [dim_customers dim_products dim_date dim_payment_method fact_sales
       agg_daily_sales agg_product_sales agg_customer_lifetime
       set_dim_customers map combine fst snd].
  rewrite filter_app, (filter_all dc_is_current added).
  - rewrite !rows_app. unfold rows. rewrite length_app.
    repeat (f_equal; try lia).
  - intros r Hr. apply Hin, in_with_serial in Hr as [sk [p [_ E]]].
    now subst r.
Qed.

Lemma insert_dim_products_census src today w :
  census (fst (insert_dim_products src today w))
  = add_census (census w)
      [0; snd (insert_dim_products src today w); 0; 0; 0; 0; 0; 0; 0;
       snd (insert_dim_products src today w)].
Proof.
  unfold insert_dim_products.
  destruct (insert_result dim_products_conflict (dim_products w)
              (Sql.with_serial (product_sk_seq w) (dim_product_of today)
                               (filter p_is_active (products src))))
    as [added [Ef [Es Hin]]].
  destruct (Sql.insert_on_conflict_do_nothing _ _ _) as [t n].
  cbn [fst snd] in *. subst t n.
  unfold census, add_census, current_customers, current_products.
  cbn [dim_customers dim_products dim_date dim_payment_method fact_sales
       agg_daily_sales agg_product_sales agg_customer_lifetime
       set_dim_products map combine fst snd].
  rewrite filter_app, (filter_all dp_is_current added).
  - rewrite !rows_app. unfold rows. rewrite length_app.
    repeat (f_equal; try lia).
  - intros r Hr. apply Hin, in_with_serial in Hr as [sk [p [_ E]]].
    now subst r.
Qed.

Ltac census_of_insert :=
  cbn [fst snd] in *; subst;
  unfold census, add_census, current_customers, current_products;
  cbn [dim_customers dim_products dim_date dim_payment_method fact_sales
       agg_daily_sales agg_product_sales agg_customer_lifetime
       set_dim_date set_dim_payment_method set_fact_sales
       set_agg_daily_sales set_agg_product_sales
       set_agg_customer_lifetime set_dim_customers set_dim_products
       map combine fst snd];
  rewrite ?rows_app; repeat (f_equal; try lia).

Lemma append_dim_date_census dates src today w :
  census (fst (append_dim_date dates src today w))
  = add_census (census w)
      [0; 0; snd (append_dim_date dates src today w); 0; 0; 0; 0; 0; 0; 0].
Proof. unfold append_dim_date. census_of_insert. Qed.

Lemma insert_dim_payment_method_census src today w :
  census (fst (insert_dim_payment_method src today w))
  = add_census (census w)
      [0; 0; 0; snd (insert_dim_payment_method src today w); 0; 0; 0; 0;
       0; 0].
Proof.
  unfold insert_dim_payment_method.
  destruct (insert_result dim_payment_method_conflict (dim_payment_method w)
              (Sql.with_serial
                 (payment_method_sk_seq w) dim_payment_method_of
                 (Sql.distinct select_row_eqb
                    (map payment_method_select_row
                         (staging_transactions src)))))
    as [added [Ef [Es _]]].
  destruct (Sql.insert_on_conflict_do_nothing _ _ _) as [t n].
  census_of_insert.
Qed.

Lemma insert_fact_sales_census src today w :
  census (fst (insert_fact_sales src today w))
  = add_census (census w)
      [0; 0; 0; 0; snd (insert_fact_sales src today w); 0; 0; 0; 0; 0].
Proof. unfold insert_fact_sales. census_of_insert. Qed.

Lemma insert_agg_daily_sales_census src today w :
  census (fst (insert_agg_daily_sales src today w))
  = add_census (census w)
      [0; 0; 0; 0; 0; snd (insert_agg_daily_sales src today w); 0; 0; 0; 0].
Proof.
  unfold insert_agg_daily_sales.
  destruct (insert_result agg_daily_sales_conflict (agg_daily_sales w)
              (agg_daily_sales_select w)) as [added [Ef [Es _]]].
  destruct (Sql.insert_on_conflict_do_nothing _ _ _) as [t n].
  census_of_insert.
Qed.

Lemma insert_agg_product_sales_census src today w :
  census (fst (insert_agg_product_sales src today w))
  = add_census (census w)
      [0; 0; 0; 0; 0; 0; snd (insert_agg_product_sales src today w); 0;
       0; 0].
Proof.
  unfold insert_agg_product_sales.
  destruct (insert_result agg_product_sales_conflict (agg_product_sales w)
              (agg_product_sales_select w)) as [added [Ef [Es _]]].
  destruct (Sql.insert_on_conflict_do_nothing _ _ _) as [t n].
  census_of_insert.
Qed.

Lemma insert_agg_customer_lifetime_census src today w :
  census (fst (insert_agg_customer_lifetime src today w))
  = add_census (census w)
      [0; 0; 0; 0; 0; 0; 0;
       snd (insert_agg_customer_lifetime src today w); 0; 0].
Proof.
  unfold insert_agg_customer_lifetime.
  destruct (insert_result agg_customer_lifetime_conflict
              (agg_customer_lifetime w) (agg_customer_lifetime_select w))
    as [added [Ef [Es _]]].
  destruct (Sql.insert_on_conflict_do_nothing _ _ _) as [t n].
  census_of_insert.
Qed.

Lemma update_dim_customers_census src today w :
  census (fst (update_dim_customers src today w))
  = add_census (census w)
      [0; 0; 0; 0; 0; 0; 0; 0; - snd (update_dim_customers src today w); 0].
Proof.
  rewrite update_dim_customers_count.
  unfold census, add_census.
  cbn [map combine fst snd].
  change (current_products (fst (update_dim_customers src today w)))
    with (current_products w).
  rewrite update_dim_customers_rows. unfold rows at 1.
  rewrite length_map. fold (rows (dim_customers w)).
  repeat (f_equal; try lia);
    match goal with
    | |- rows (?t (fst _)) = _ => change (rows (t w) = rows (t w) + 0); lia
    end.
Qed.

Lemma update_dim_products_census src today w :
  census (fst (update_dim_products src today w))
  = add_census (census w)
      [0; 0; 0; 0; 0; 0; 0; 0; 0; - snd (update_dim_products src today w)].
Proof.
  rewrite update_dim_products_count.
  unfold census, add_census.
  cbn [map combine fst snd].
  change (current_customers (fst (update_dim_products src today w)))
    with (current_customers w).
  rewrite update_dim_products_rows. unfold rows at 2.
  rewrite length_map. fold (rows (dim_products w)).
  repeat (f_equal; try lia);
    match goal with
    | |- rows (?t (fst _)) = _ => change (rows (t w) = rows (t w) + 0); lia
    end.
Qed.

Lemma apply_scd_type2_customers_result c res c1 :
  apply_scd_type2 "dim_customers" c = Returns res c1 ->
  res = {| dimension := "dim_customers";
           records_updated :=
             snd (update_dim_customers (conn_src c) (CURRENT_DATE c)
                                       (conn_wh c));
           status := "success" |}
  /\ conn_src c1 = conn_src c /\ CURRENT_DATE c1 = CURRENT_DATE c
  /\ conn_wh c1
     = fst (update_dim_customers (conn_src c) (CURRENT_DATE c) (conn_wh c)).
Proof.
  intros H. unfold apply_scd_type2 in H. simpl in H.
  unfold bind, ret in H.
  destruct (execute UpdateDimCustomers update_dim_customers c)
    as [n c'|e] eqn:E; [|discriminate].
  apply execute_returns in E as [_ [Hsrc [Hdate [_ [Hw Hn]]]]].
  inversion H; subst. repeat split; assumption.
Qed.

Lemma apply_scd_type2_products_result c res c1 :
  apply_scd_type2 "dim_products" c = Returns res c1 ->
  res = {| dimension := "dim_products";
           records_updated :=
             snd (update_dim_products (conn_src c) (CURRENT_DATE c)
                                      (conn_wh c));
           status := "success" |}
  /\ conn_src c1 = conn_src c /\ CURRENT_DATE c1 = CURRENT_DATE c
  /\ conn_wh c1
     = fst (update_dim_products (conn_src c) (CURRENT_DATE c) (conn_wh c)).
Proof.
  intros H. unfold apply_scd_type2 in H. simpl in H.
  unfold bind, ret in H.
  destruct (execute UpdateDimProducts update_dim_products c)
    as [n c'|e] eqn:E; [|discriminate].
  apply execute_returns in E as [_ [Hsrc [Hdate [_ [Hw Hn]]]]].
  inversion H; subst. repeat split; assumption.
Qed.

Lemma build_dim_date_census start_text end_text c n c1 :
  build_dim_date start_text end_text c = Returns n c1 ->
  conn_src c1 = conn_src c /\ CURRENT_DATE c1 = CURRENT_DATE c
  /\ census (conn_wh c1)
     = add_census (census (conn_wh c)) [0; 0; n; 0; 0; 0; 0; 0; 0; 0].
Proof.
  unfold build_dim_date, bind, lift. intros H.
  destruct (date_range start_text end_text) as [dates|e]; [|discriminate].
  apply execute_returns in H as [_ [Hsrc [Hdate [_ [Hw Hn]]]]].
  rewrite Hw, Hn. repeat split; try assumption.
  apply append_dim_date_census.
Qed.

Ltac open_census H :=
  unfold census, add_census in H; cbn [map combine fst snd] in H;
  injection H as ? ? ? ? ? ? ? ? ? ?.

(** X9: the report is accurate.  When the build returns, its log states for
    every table the number of rows the build added to it (the table's size
    after minus its size before), for each SCD dimension the number of
    versions that stopped being current, with status success, and carries
    the timestamp the build started with. *)
Theorem build_log_reports_the_rows_added :
  forall (utcnow : string) (c c' : connection) (log : build_log),
    main_transaction utcnow c = Returns log c' ->
    report_matches log (conn_wh c) (conn_wh c')
    /\ warehouse_build_timestamp log = utcnow.
Proof.
  intros utcnow c c' log H. unfold main_transaction, bind in H.
  destruct (build_dim_customers c) as [n1 c1|] eqn:H1; [|discriminate].
  destruct (build_dim_products c1) as [n2 c2|] eqn:H2; [|discriminate].
  destruct (query SelectDateRange select_date_range c2) as [dr c3|] eqn:H3;
    [|discriminate].
  destruct (build_dim_date (str (fst dr)) (str (snd dr)) c3)
    as [n4 c4|] eqn:H4; [|discriminate].
  destruct (build_dim_payment_method c4) as [n5 c5|] eqn:H5; [|discriminate].
  destruct (build_fact_sales c5) as [n6 c6|] eqn:H6; [|discriminate].
  destruct (build_agg_daily_sales c6) as [n7 c7|] eqn:H7; [|discriminate].
  destruct (build_agg_product_sales c7) as [n8 c8|] eqn:H8; [|discriminate].
  destruct (build_agg_customer_lifetime c8) as [n9 c9|] eqn:H9;
    [|discriminate].
  destruct (apply_scd_type2 "dim_customers" c9) as [r10 c10|] eqn:H10;
    [|discriminate].
  destruct (apply_scd_type2 "dim_products" c10) as [r11 c11|] eqn:H11;
    [|discriminate].
  unfold ret in H. inversion H; subst log c'. clear H.
  apply execute_returns in H1 as [_ [S1 [D1 [_ [W1 N1]]]]].
  apply execute_returns in H2 as [_ [S2 [D2 [_ [W2 N2]]]]].
  apply execute_returns in H3 as [_ [S3 [D3 [_ [W3 _]]]]].
  apply build_dim_date_census in H4 as [S4 [D4 C4]].
  apply execute_returns in H5 as [_ [S5 [D5 [_ [W5 N5]]]]].
  apply execute_returns in H6 as [_ [S6 [D6 [_ [W6 N6]]]]].
  apply execute_returns in H7 as [_ [S7 [D7 [_ [W7 N7]]]]].
  apply execute_returns in H8 as [_ [S8 [D8 [_ [W8 N8]]]]].
  apply execute_returns in H9 as [_ [S9 [D9 [_ [W9 N9]]]]].
  apply apply_scd_type2_customers_result in H10 as [R10 [S10 [D10 W10]]].
  apply apply_scd_type2_products_result in H11 as [R11 [_ [_ W11]]].
  assert (C1 := insert_dim_customers_census
                  (conn_src c) (CURRENT_DATE c) (conn_wh c)).
  rewrite <- W1, <- N1 in C1.
  assert (C2 := insert_dim_products_census
                  (conn_src c1) (CURRENT_DATE c1) (conn_wh c1)).
  rewrite <- W2, <- N2 in C2.
  cbn [fst] in W3.
  assert (C5 := insert_dim_payment_method_census
                  (conn_src c4) (CURRENT_DATE c4) (conn_wh c4)).
  rewrite <- W5, <- N5 in C5.
  assert (C6 := insert_fact_sales_census
                  (conn_src c5) (CURRENT_DATE c5) (conn_wh c5)).
  rewrite <- W6, <- N6 in C6.
  assert (C7 := insert_agg_daily_sales_census
                  (conn_src c6) (CURRENT_DATE c6) (conn_wh c6)).
  rewrite <- W7, <- N7 in C7.
  assert (C8 := insert_agg_product_sales_census
                  (conn_src c7) (CURRENT_DATE c7) (conn_wh c7)).
  rewrite <- W8, <- N8 in C8.
  assert (C9 := insert_agg_customer_lifetime_census
                  (conn_src c8) (CURRENT_DATE c8) (conn_wh c8)).
  rewrite <- W9, <- N9 in C9.
  assert (C10 := update_dim_customers_census
                   (conn_src c9) (CURRENT_DATE c9) (conn_wh c9)).
  rewrite <- W10 in C10.
  assert (C11 := update_dim_products_census
                   (conn_src c10) (CURRENT_DATE c10) (conn_wh c10)).
  rewrite <- W11 in C11.
  rewrite W3 in C4.
  set (u10 := snd (update_dim_customers (conn_src c9) (CURRENT_DATE c9)
                                        (conn_wh c9))) in *.
  set (u11 := snd (update_dim_products (conn_src c10) (CURRENT_DATE c10)
                                       (conn_wh c10))) in *.
  clearbody u10 u11.
  open_census C1. open_census C2. open_census C4. open_census C5.
  open_census C6. open_census C7. open_census C8. open_census C9.
  open_census C10. open_census C11.
  split; [|reflexivity]. unfold report_matches. subst r10 r11. simpl.
  repeat split; repeat (f_equal; try lia).
Qed.

Lemma build_log_reports_the_rows_added_witness :
  exists log c',
    main_transaction Sample.utcnow
                     (connect Sample.healthy_store Sample.second_day)
    = Returns log c'
    /\ report_matches
         log
         (conn_wh (connect Sample.healthy_store Sample.second_day))
         (conn_wh c').
Proof.
  let v := eval vm_compute in
             (main_transaction Sample.utcnow
                (connect Sample.healthy_store Sample.second_day)) in
  match v with
  | Returns ?log ?c' =>
      assert (H : main_transaction Sample.utcnow
                    (connect Sample.healthy_store Sample.second_day)
                  = Returns log c') by (vm_compute; reflexivity);
      exists log, c';
      destruct (build_log_reports_the_rows_added _ _ _ _ H) as [Hm _]
  end.
  split; [exact H | exact Hm].
Defined.

(* ------------------------------------------------------------------ *)
(** * The orchestrator *)
(* ------------------------------------------------------------------ *)

Section OrchestratorFacts.
Context {W value : Type}.
Import Orchestrator.

Local Ltac run_steps env w :=
  unfold pipeline_result, main, execute_pipeline, run_step, init,
    generation_ok, ingestion_ok, validation_ok, transformation_ok,
    warehouse_load_ok, world_after_warehouse_load,
    world_after_transformation, world_after_validation,
    world_after_ingestion, world_after_generation in *;
  cbn [fst snd] in *;
  destruct (generate_data env (make_directories env w)) as [w1 [r1|m1 t1]];
  cbn [fst snd returns negb] in *;
  destruct (ingest_to_staging env w1) as [w2 [r2|m2 t2]];
  cbn [fst snd returns negb] in *;
  destruct (validate_data env w2) as [w3 [r3|m3 t3]];
  cbn [fst snd returns negb] in *;
  destruct (staging_to_production env w3) as [w4 [r4|m4 t4]];
  cbn [fst snd returns negb] in *;
  destruct (load_warehouse env w4) as [w5 [r5|m5 t5]];
  cbn [fst snd returns negb overall_status set_overall_status
       set_pipeline_end append_error set_step pipeline_end errors steps
       andb] in *.

Lemma warehouse_failure_status :
  forall (env : environment W value) (w : W),
    ingestion_ok env w = true ->
    transformation_ok env w = true ->
    warehouse_load_ok env w = false ->
    overall_status (fst (pipeline_result env w)) = "completed_with_warnings"
    /\ fst (main env w) = 1.
Proof.
  intros env w Hi Ht Hw.
  run_steps env w; try discriminate; split; reflexivity.
Qed.


(** X10: the status tells which steps failed.  The pipeline ends with
    status success exactly when all five steps return; with failed exactly
    when the ingestion or the transformation step raises; and with
    completed_with_warnings exactly when those two return and the
    generation, the validation or the warehouse step raises.  [main] exits
    with 0 when the status is success and with 1 otherwise. *)
Theorem pipeline_status_tells_which_steps_failed :
  forall (env : environment W value) (w : W),
    let log := fst (pipeline_result env w) in
    (overall_status log = "success"
     <-> generation_ok env w && ingestion_ok env w && validation_ok env w
         && transformation_ok env w && warehouse_load_ok env w = true)
    /\ (overall_status log = "failed"
        <-> ingestion_ok env w = false \/ transformation_ok env w = false)
    /\ (overall_status log = "completed_with_warnings"
        <-> ingestion_ok env w = true /\ transformation_ok env w = true
            /\ (generation_ok env w = false \/ validation_ok env w = false
                \/ warehouse_load_ok env w = false))
    /\ (fst (main env w) = 0 <-> overall_status log = "success")
    /\ (fst (main env w) = 1 <-> overall_status log <> "success").
Proof.
  intros env w log. subst log.
  run_steps env w;
    repeat split; intros; try discriminate; try reflexivity;
      try tauto; try congruence;
      try (repeat match goal with
                  | H : _ /\ _ |- _ => destruct H
                  | H : _ \/ _ |- _ => destruct H
                  end; discriminate).
Qed.

(** X11: the execution log records the steps that ran.  Its entries are, in
    order, the steps up to the one that stopped the pipeline (two when the
    ingestion raises, four when the transformation raises, all five
    otherwise); every entry is either a success with a result or a failure
    with an error; there is one error message for each failed entry, and
    none exactly when the status is success; the end time is missing
    exactly when the status is failed; and the start time is the time the
    orchestrator was made. *)
Theorem execution_log_records_the_steps_that_ran :
  forall (env : environment W value) (w : W),
    let log := fst (pipeline_result env w) in
    map fst (steps log)
    = (if ingestion_ok env w
       then if transformation_ok env w then step_names
            else firstn 4 step_names
       else firstn 2 step_names)
    /\ (forall name r, In (name, r) (steps log) -> well_formed_record r)
    /\ List.length (errors log) = List.length (failed_steps log)
    /\ (errors log = [] <-> overall_status log = "success")
    /\ (pipeline_end log = None <-> overall_status log = "failed")
    /\ pipeline_start log = utcnow env w.
Proof.
  intros env w log. subst log.
  assert (Hok : forall t (v : value), well_formed_record
                  {| step_status := "success"; step_timestamp := t;
                     step_result := Some v; step_error := None |}).
  { intros t v. left. repeat split. discriminate. }
  assert (Hko : forall t m, well_formed_record
                  {| step_status := "failed"; step_timestamp := t;
                     step_result := (None : option value);
                     step_error := Some m |}).
  { intros t m. right. repeat split. discriminate. }
  unfold failed_steps.
  run_steps env w;
    cbn [dict_set String.eqb Ascii.eqb Bool.eqb map fst snd app filter
         step_status List.length firstn step_names pipeline_start] in *;
    (split; [reflexivity|]);
    (split; [intros name r Hin; cbn [In] in Hin;
             repeat (destruct Hin as [Hin|Hin];
                     [injection Hin as _ <-; auto|]);
             contradiction|]);
    (split; [reflexivity|]);
    repeat split; intros; try discriminate; try reflexivity.
Qed.

(** X12: nothing runs after a fatal failure.  When the ingestion step
    raises, what the pipeline returns and the world it leaves do not depend
    on the validation, transformation and warehouse steps: the world is the
    one the ingestion left, with the execution log saved.  Likewise the
    warehouse step plays no part when the transformation raises. *)
Theorem nothing_runs_after_a_fatal_failure :
  forall (env env' : environment W value) (w : W),
    (same_until_ingestion env env' ->
     ingestion_ok env w = false ->
     pipeline_result env w = pipeline_result env' w
     /\ snd (pipeline_result env w)
        = save_execution_log env (fst (pipeline_result env w))
                             (world_after_ingestion env w))
    /\ (same_until_transformation env env' ->
        transformation_ok env w = false ->
        pipeline_result env w = pipeline_result env' w
        /\ (ingestion_ok env w = true ->
            snd (pipeline_result env w)
            = save_execution_log env (fst (pipeline_result env w))
                                 (world_after_transformation env w))).
Proof.
  intros env env' w. split.
  - intros (Hu & Hm & Hs & Hg & Hi) Hko.
    unfold pipeline_result, execute_pipeline, run_step, init, ingestion_ok,
      world_after_ingestion, world_after_generation in *.
    cbn [fst snd] in *. rewrite <- Hu, <- Hm, <- Hs, <- Hg, <- Hi.
    destruct (generate_data env (make_directories env w)) as [w1 [r1|m1 t1]];
      cbn [fst snd] in *;
      destruct (ingest_to_staging env w1) as [w2 [r2|m2 t2]];
      cbn [fst snd returns negb] in *; try discriminate;
      split; reflexivity.
  - intros ((Hu & Hm & Hs & Hg & Hi) & Hv & Ht) Hko.
    unfold pipeline_result, execute_pipeline, run_step, init, ingestion_ok,
      transformation_ok, world_after_transformation, world_after_validation,
      world_after_ingestion, world_after_generation in *.
    cbn [fst snd] in *.
    rewrite <- Hu, <- Hm, <- Hs, <- Hg, <- Hi, <- Hv, <- Ht.
    destruct (generate_data env (make_directories env w)) as [w1 [r1|m1 t1]];
      cbn [fst snd] in *;
      destruct (ingest_to_staging env w1) as [w2 [r2|m2 t2]];
      cbn [fst snd returns negb] in *;
      destruct (validate_data env w2) as [w3 [r3|m3 t3]];
      cbn [fst snd returns negb] in *;
      destruct (staging_to_production env w3) as [w4 [r4|m4 t4]];
      cbn [fst snd returns negb] in *; try discriminate;
      split; try reflexivity; intros; try discriminate; reflexivity.
Qed.

Lemma world_after_pipeline :
  forall (env : environment W value) (w : W),
    ingestion_ok env w = true ->
    transformation_ok env w = true ->
    snd (pipeline_result env w)
    = save_execution_log env (fst (pipeline_result env w))
                         (world_after_warehouse_load env w).
Proof.
  intros env w Hi Ht. run_steps env w; try discriminate; reflexivity.
Qed.

End OrchestratorFacts.

Section WarehouseStep.
Context {W value : Type}.

(** X13: a failed warehouse build does not fail the pipeline and never
    leaves a half-built warehouse.  When the warehouse step is
    [load_warehouse.main], the steps before it got through and the build
    raises, the pipeline ends with completed_with_warnings and exit code 1.
    The database is then exactly the one the transformation step left when
    the build raised before its commit (no configuration, or a statement
    that raises inside the transaction), and the fully committed build when
    it raised after the commit, while writing its report.  When the build
    returns, the database is the one the build committed. *)
Theorem failed_warehouse_build_warns_and_is_never_partial :
  forall (env : Orchestrator.environment W value)
         (db_of : W -> database) (store_of : W -> store_behaviour)
         (files_of : W -> build_files) (now : W -> string) (w : W),
    runs_warehouse_build db_of store_of files_of now
                         (Orchestrator.load_warehouse env) ->
    save_keeps_database db_of env ->
    Orchestrator.ingestion_ok env w = true ->
    Orchestrator.transformation_ok env w = true ->
    let before := Orchestrator.world_after_transformation env w in
    let transaction := main (now before) (store_of before) (db_of before) in
    let build :=
      main_and_report (files_of before) (now before) (store_of before)
                      (db_of before) in
    let after := snd (Orchestrator.pipeline_result env w) in
    (Orchestrator.warehouse_load_ok env w = false ->
     Orchestrator.overall_status
       (fst (Orchestrator.pipeline_result env w))
     = "completed_with_warnings"
     /\ fst (Orchestrator.main env w) = 1
     /\ ((snd build = BuildRaisesBeforeCommit
          /\ (engine_created (files_of before) = false
              \/ exists e, snd transaction = Err e)
          /\ db_of after = db_of before)
         \/ (exists log,
               snd build = BuildRaisesAfterCommit log
               /\ engine_created (files_of before) = true
               /\ snd transaction = Ok log
               /\ report_written (files_of before) log = false
               /\ db_of after = fst transaction)))
    /\ (Orchestrator.warehouse_load_ok env w = true ->
        exists log,
          snd build = BuildReturns log
          /\ snd transaction = Ok log
          /\ db_of after = fst transaction)
    /\ (Orchestrator.warehouse_load_ok env w = true
        <-> engine_created (files_of before) = true
            /\ exists log,
                 snd transaction = Ok log
                 /\ report_written (files_of before) log = true).
Proof.
  intros env db_of store_of files_of now w Hload Hsave Hi Ht
         before transaction build after.
  pose proof (Hload before) as [Hdb Hret]. cbv zeta in Hdb, Hret.
  fold build in Hdb, Hret.
  assert (Hfinal : db_of after = fst build).
  { subst after. rewrite (world_after_pipeline env w Hi Ht).
    rewrite Hsave. exact Hdb. }
  assert (Hok : Orchestrator.warehouse_load_ok env w
                = Orchestrator.returns
                    (snd (Orchestrator.load_warehouse env before)))
    by reflexivity.
  rewrite Hok, Hret, Hfinal. clear Hok Hret Hfinal Hdb.
  assert (Hstatus :
            match snd build with BuildReturns _ => true | _ => false end
            = false ->
            Orchestrator.overall_status
              (fst (Orchestrator.pipeline_result env w))
            = "completed_with_warnings"
            /\ fst (Orchestrator.main env w) = 1).
  { intros Hw. apply (warehouse_failure_status env w Hi Ht).
    unfold Orchestrator.warehouse_load_ok. fold before.
    rewrite (proj2 (Hload before)). exact Hw. }
  assert (Hroll : forall e, snd transaction = Err e ->
                            fst transaction = db_of before).
  { intros e. apply engine_begin_rolls_back. }
  revert Hstatus. subst build. unfold main_and_report.
  fold transaction.
  destruct (engine_created (files_of before)).
  - destruct transaction as [db' [log|e]] eqn:Htr; cbn [fst snd] in *.
    + destruct (report_written (files_of before) log) eqn:Hrep;
        cbn [fst snd]; intros Hstatus.
      * split; [discriminate|]. split; [eauto|].
        split; [intros _; split; [reflexivity|]; exists log; auto|].
        reflexivity.
      * split.
        { intros _. destruct (Hstatus eq_refl) as [Hs Hx].
          split; [exact Hs|]. split; [exact Hx|]. right. exists log.
          repeat split; try reflexivity; assumption. }
        split; [discriminate|].
        split; [discriminate|].
        intros [_ [log' [Hl Hr]]]. injection Hl as <-. congruence.
    + cbn [fst snd]. intros Hstatus. split.
      { intros _. destruct (Hstatus eq_refl) as [Hs Hx].
        split; [exact Hs|]. split; [exact Hx|]. left.
        split; [reflexivity|]. split; [right; eauto|].
        exact (Hroll e eq_refl). }
      split; [discriminate|]. split; [discriminate|].
      intros [_ [log' [Hl _]]]. discriminate.
  - cbn [fst snd]. intros Hstatus. split.
    { intros _. destruct (Hstatus eq_refl) as [Hs Hx].
      split; [exact Hs|]. split; [exact Hx|]. left.
      split; [reflexivity|]. split; [left; reflexivity|]. reflexivity. }
    split; [discriminate|]. split; [discriminate|].
    intros [Hl _]. discriminate.
Qed.

End WarehouseStep.

Lemma nothing_runs_after_a_fatal_failure_witness :
  Orchestrator.pipeline_result
    (PipelineSample.pipeline Sample.healthy_store
       PipelineSample.step_that_raises PipelineSample.step_that_returns)
    (Sample.fresh Sample.day1)
  = Orchestrator.pipeline_result
      (PipelineSample.pipeline Sample.fact_load_fails
         PipelineSample.step_that_raises PipelineSample.step_that_raises)
      (Sample.fresh Sample.day1)
  /\ Orchestrator.pipeline_result
       (PipelineSample.pipeline Sample.healthy_store
          PipelineSample.step_that_returns PipelineSample.step_that_raises)
       (Sample.fresh Sample.day1)
     = Orchestrator.pipeline_result
         (PipelineSample.pipeline Sample.fact_load_fails
            PipelineSample.step_that_returns PipelineSample.step_that_raises)
         (Sample.fresh Sample.day1).
Proof.
  split.
  - destruct (nothing_runs_after_a_fatal_failure
                (PipelineSample.pipeline Sample.healthy_store
                   PipelineSample.step_that_raises
                   PipelineSample.step_that_returns)
                (PipelineSample.pipeline Sample.fact_load_fails
                   PipelineSample.step_that_raises
                   PipelineSample.step_that_raises)
                (Sample.fresh Sample.day1)) as [H _].
    apply H; [repeat split; reflexivity | reflexivity].
  - destruct (nothing_runs_after_a_fatal_failure
                (PipelineSample.pipeline Sample.healthy_store
                   PipelineSample.step_that_returns
                   PipelineSample.step_that_raises)
                (PipelineSample.pipeline Sample.fact_load_fails
                   PipelineSample.step_that_returns
                   PipelineSample.step_that_raises)
                (Sample.fresh Sample.day1)) as [_ H].
    apply H; [repeat split; reflexivity | reflexivity].
Defined.

Lemma failed_warehouse_build_warns_and_is_never_partial_witness :
  (Orchestrator.overall_status
     (fst (Orchestrator.pipeline_result
             (PipelineSample.pipeline_with true Sample.fact_load_fails
                PipelineSample.step_that_returns
                PipelineSample.step_that_returns)
             (Sample.fresh Sample.day1)))
   = "completed_with_warnings"
   /\ fst (Orchestrator.main
             (PipelineSample.pipeline_with true Sample.fact_load_fails
                PipelineSample.step_that_returns
                PipelineSample.step_that_returns)
             (Sample.fresh Sample.day1)) = 1)
  /\ Orchestrator.overall_status
       (fst (Orchestrator.pipeline_result
               (PipelineSample.pipeline_with false Sample.healthy_store
                  PipelineSample.step_that_returns
                  PipelineSample.step_that_returns)
               (Sample.fresh Sample.day1)))
     = "completed_with_warnings"
     /\ fst (Orchestrator.main
               (PipelineSample.pipeline_with false Sample.healthy_store
                  PipelineSample.step_that_returns
                  PipelineSample.step_that_returns)
               (Sample.fresh Sample.day1)) = 1.
Proof.
  assert (Hload : forall writable store,
             runs_warehouse_build
               (fun db : database => db) (fun _ => store)
               (fun _ => PipelineSample.files writable)
               (fun _ => Sample.utcnow)
               (PipelineSample.warehouse_step_with writable store)).
  { intros writable store db. cbv zeta.
    unfold PipelineSample.warehouse_step_with.
    destruct (main_and_report (PipelineSample.files writable) Sample.utcnow
                              store db) as [db' [log| |log]];
      split; reflexivity. }
  split.
  - destruct (failed_warehouse_build_warns_and_is_never_partial
                (PipelineSample.pipeline_with true Sample.fact_load_fails
                   PipelineSample.step_that_returns
                   PipelineSample.step_that_returns)
                (fun db => db) (fun _ => Sample.fact_load_fails)
                (fun _ => PipelineSample.files true)
                (fun _ => Sample.utcnow) (Sample.fresh Sample.day1)
                (Hload true Sample.fact_load_fails)
                (fun _ _ => eq_refl) eq_refl eq_refl) as [H _].
    destruct (H ltac:(vm_compute; reflexivity)) as (Hs & Hx & _).
    split; [exact Hs | exact Hx].
  - destruct (failed_warehouse_build_warns_and_is_never_partial
                (PipelineSample.pipeline_with false Sample.healthy_store
                   PipelineSample.step_that_returns
                   PipelineSample.step_that_returns)
                (fun db => db) (fun _ => Sample.healthy_store)
                (fun _ => PipelineSample.files false)
                (fun _ => Sample.utcnow) (Sample.fresh Sample.day1)
                (Hload false Sample.healthy_store)
                (fun _ _ => eq_refl) eq_refl eq_refl) as [H _].
    destruct (H ltac:(vm_compute; reflexivity)) as (Hs & Hx & _).
    split; [exact Hs | exact Hx].
Defined.

(* ------------------------------------------------------------------ *)
(** * The quality score *)
(* ------------------------------------------------------------------ *)

Lemma dimension_score_points (penalty n : Z) :
  Quality.dimension_score penalty (Quality.VInt n)
  = Some (inject_Z (Quality.points penalty n)).
Proof.
  unfold Quality.dimension_score, Quality.points, Quality.py_max,
    Quality.Qlt_bool.
  destruct (n =? 0); [reflexivity|]. f_equal.
  unfold Qle_bool, Qminus, Qplus, Qopp, inject_Z. cbn [Qnum Qden].
  change (1 * 1)%positive with 1%positive.
  destruct (Z.leb_spec ((100 * 1 + - (n * penalty) * 1) * 1) (0 * 1));
    cbn [negb]; f_equal; lia.
Qed.

Lemma round2_quarters (a b c d : Z) :
  (Quality.round2 (0 + inject_Z a * (1 # 4) + inject_Z b * (1 # 4)
                   + inject_Z c * (1 # 4) + inject_Z d * (1 # 4))
   == inject_Z (a + b + c + d) / 4)%Q.
Proof.
  unfold Quality.round2, Quality.round_half_even.
  set (q := ((0 + inject_Z a * (1 # 4) + inject_Z b * (1 # 4)
              + inject_Z c * (1 # 4) + inject_Z d * (1 # 4)) * 100)%Q).
  assert (E : (q == inject_Z (25 * (a + b + c + d)))%Q).
  { unfold q, Qeq, Qplus, Qmult, inject_Z. cbn [Qnum Qden]. lia. }
  assert (Ef : Qfloor q = 25 * (a + b + c + d)).
  { rewrite (Qfloor_comp _ _ E). apply Qfloor_Z. }
  rewrite Ef.
  assert (E0 : ((q - inject_Z (25 * (a + b + c + d)) ?= 1 # 2)%Q) = Lt).
  { rewrite E. unfold Qcompare, Qminus, Qplus, Qopp, inject_Z.
    cbn [Qnum Qden]. apply Z.compare_lt_iff. lia. }
  rewrite E0.
  unfold Qeq, Qdiv, Qmult, Qinv, inject_Z. cbn [Qnum Qden]. lia.
Qed.
Lemma read_count (check count : string) (penalty : Z)
      (cr : list (string * Quality.value)) (A : Type)
      (k : Q -> option A) :
  Quality.obind (Quality.get check (Quality.VDict []) (Quality.VDict cr))
    (fun res =>
       Quality.obind (Quality.get count (Quality.VInt 0) res)
         (fun viol => Quality.obind (Quality.dimension_score penalty viol) k))
  = match Quality.count_read check count cr with
    | Some n => k (inject_Z (Quality.points penalty n))
    | None => None
    end.
Proof.
  unfold Quality.count_read, Quality.get, Quality.obind.
  destruct (dict_get check cr) as [[n|s|d]|]; try reflexivity.
  destruct (dict_get count d) as [[n|s|d']|]; try reflexivity;
    rewrite dimension_score_points; reflexivity.
Qed.

Lemma calculate_quality_score_counts (cr : list (string * Quality.value)) :
  match Quality.count_read "null_checks" "null_violations" cr,
        Quality.count_read "duplicate_checks" "duplicates_found" cr,
        Quality.count_read "range_checks" "violations" cr,
        Quality.count_read "referential_integrity" "orphan_records" cr with
  | Some a, Some b, Some c, Some d =>
      exists s, Quality.calculate_quality_score cr = Some s
                /\ (s == inject_Z (Quality.points 1 a + Quality.points 1 b
                                  + Quality.points 1 c + Quality.points 5 d)
                         / 4)%Q
  | _, _, _, _ => Quality.calculate_quality_score cr = None
  end.
Proof.
  unfold Quality.calculate_quality_score.
  rewrite read_count.
  destruct (Quality.count_read "null_checks" _ cr) as [a|]; [|reflexivity].
  rewrite read_count.
  destruct (Quality.count_read "duplicate_checks" _ cr) as [b|];
    [|reflexivity].
  rewrite read_count.
  destruct (Quality.count_read "range_checks" _ cr) as [c|]; [|reflexivity].
  rewrite read_count.
  destruct (Quality.count_read "referential_integrity" _ cr) as [d|];
    [|reflexivity].
  eexists. split; [reflexivity|].
  apply round2_quarters.
Qed.



Lemma quarters_bounds (x : Z) :
  ((0 <= inject_Z x / 4)%Q <-> 0 <= x)
  /\ ((inject_Z x / 4 <= 100)%Q <-> x <= 400)
  /\ ((inject_Z x / 4 == 100)%Q <-> x = 400).
Proof.
  unfold Qle, Qeq, Qdiv, Qmult, Qinv, inject_Z. cbn [Qnum Qden]. lia.
Qed.

Lemma quarters_eq (x y : Z) :
  (inject_Z x / 4 == inject_Z y / 4)%Q <-> x = y.
Proof.
  unfold Qeq, Qdiv, Qmult, Qinv, inject_Z. cbn [Qnum Qden]. lia.
Qed.





Lemma calculate_quality_score_same_counts
      (cr cr' : list (string * Quality.value)) :
  Quality.count_read "null_checks" "null_violations" cr
  = Quality.count_read "null_checks" "null_violations" cr' ->
  Quality.count_read "duplicate_checks" "duplicates_found" cr
  = Quality.count_read "duplicate_checks" "duplicates_found" cr' ->
  Quality.count_read "range_checks" "violations" cr
  = Quality.count_read "range_checks" "violations" cr' ->
  Quality.count_read "referential_integrity" "orphan_records" cr
  = Quality.count_read "referential_integrity" "orphan_records" cr' ->
  Quality.calculate_quality_score cr = Quality.calculate_quality_score cr'.
Proof.
  intros E1 E2 E3 E4. unfold Quality.calculate_quality_score.
  rewrite !read_count, E1.
  destruct (Quality.count_read "null_checks" _ cr') as [a|]; [|reflexivity].
  rewrite !read_count, E2.
  destruct (Quality.count_read "duplicate_checks" _ cr') as [b|];
    [|reflexivity].
  rewrite !read_count, E3.
  destruct (Quality.count_read "range_checks" _ cr') as [c|]; [|reflexivity].
  rewrite !read_count, E4. reflexivity.
Qed.

Lemma calculate_quality_score_raises (cr : list (string * Quality.value)) :
  Quality.count_read "null_checks" "null_violations" cr = None
  \/ Quality.count_read "duplicate_checks" "duplicates_found" cr = None
  \/ Quality.count_read "range_checks" "violations" cr = None
  \/ Quality.count_read "referential_integrity" "orphan_records" cr = None ->
  Quality.calculate_quality_score cr = None.
Proof.
  pose proof (calculate_quality_score_counts cr) as H.
  destruct (Quality.count_read "null_checks" _ cr) as [a|];
    [|intros _; exact H].
  destruct (Quality.count_read "duplicate_checks" _ cr) as [b|];
    [|intros _; exact H].
  destruct (Quality.count_read "range_checks" _ cr) as [c|];
    [|intros _; exact H].
  destruct (Quality.count_read "referential_integrity" _ cr) as [d|];
    [|intros _; exact H].
  intros [E|[E|[E|E]]]; discriminate.
Qed.

(** X16: a missing check counts as a clean one, a malformed one makes the
    score fail.  A check that is absent from the results, and a count that
    is absent from its check, are read as zero violations: with none of the
    four checks present the score is 100, and putting in the absent check,
    or the absent count, with zero violations changes nothing.  A check
    that is a number or a string where a dictionary is expected, and a
    count that is a string or a dictionary, make [calculate_quality_score]
    raise. *)
Theorem quality_score_reads_missing_checks_as_clean :
  forall (check_results : list (string * Quality.value)),
    let checks :=
      [("null_checks", "null_violations");
       ("duplicate_checks", "duplicates_found");
       ("range_checks", "violations");
       ("referential_integrity", "orphan_records")] in
    (dict_get "null_checks" check_results = None ->
     dict_get "duplicate_checks" check_results = None ->
     dict_get "range_checks" check_results = None ->
     dict_get "referential_integrity" check_results = None ->
     exists score,
       Quality.calculate_quality_score check_results = Some score
       /\ (score == 100)%Q)
    /\ (forall check count,
          In (check, count) checks ->
          dict_get check check_results = None ->
          Quality.calculate_quality_score
            ((check, Quality.VDict [(count, Quality.VInt 0)])
               :: check_results)
          = Quality.calculate_quality_score check_results)
    /\ (forall check count d,
          In (check, count) checks ->
          dict_get check check_results = Some (Quality.VDict d) ->
          dict_get count d = None ->
          Quality.calculate_quality_score
            ((check, Quality.VDict ((count, Quality.VInt 0) :: d))
               :: check_results)
          = Quality.calculate_quality_score check_results)
    /\ (forall check count,
          In (check, count) checks ->
          (exists n, dict_get check check_results = Some (Quality.VInt n))
          \/ (exists s, dict_get check check_results
                        = Some (Quality.VStr s)) ->
          Quality.calculate_quality_score check_results = None)
    /\ (forall check count d,
          In (check, count) checks ->
          dict_get check check_results = Some (Quality.VDict d) ->
          (exists s, dict_get count d = Some (Quality.VStr s))
          \/ (exists d', dict_get count d = Some (Quality.VDict d')) ->
          Quality.calculate_quality_score check_results = None).
Proof.
  intros cr checks. subst checks.
  split; [|split; [|split; [|split]]].
  - intros E1 E2 E3 E4.
    pose proof (calculate_quality_score_counts cr) as H.
    unfold Quality.count_read in H.
    rewrite E1, E2, E3, E4 in H. destruct H as [s [Hs E]].
    exists s. split; [exact Hs|]. rewrite E. reflexivity.
  - intros check count Hin E.
    cbn [In] in Hin.
    destruct Hin as [Hc|[Hc|[Hc|[Hc|[]]]]]; injection Hc as <- <-;
      apply calculate_quality_score_same_counts;
      unfold Quality.count_read; cbn; try rewrite E; reflexivity.
  - intros check count d Hin E E'.
    cbn [In] in Hin.
    destruct Hin as [Hc|[Hc|[Hc|[Hc|[]]]]]; injection Hc as <- <-;
      apply calculate_quality_score_same_counts;
      unfold Quality.count_read; cbn; try rewrite E; try rewrite E';
        reflexivity.
  - intros check count Hin E.
    apply calculate_quality_score_raises.
    assert (Hread : Quality.count_read check count cr = None).
    { unfold Quality.count_read.
      destruct E as [[n E]|[s E]]; rewrite E; reflexivity. }
    cbn [In] in Hin.
    destruct Hin as [Hc|[Hc|[Hc|[Hc|[]]]]]; injection Hc as <- <-; tauto.
  - intros check count d Hin E E'.
    apply calculate_quality_score_raises.
    assert (Hread : Quality.count_read check count cr = None).
    { unfold Quality.count_read. rewrite E.
      destruct E' as [[s E']|[d' E']]; rewrite E'; reflexivity. }
    cbn [In] in Hin.
    destruct Hin as [Hc|[Hc|[Hc|[Hc|[]]]]]; injection Hc as <- <-; tauto.
Qed.

Lemma quality_score_reads_missing_checks_as_clean_witness :
  (exists score,
     Quality.calculate_quality_score
       [("check_timestamp", Quality.VStr "2024-01-05T02:00:00")]
     = Some score
     /\ (score == 100)%Q)
  /\ Quality.calculate_quality_score
       [("null_checks", Quality.VStr "not run")] = None.
Proof.
  split.
  - destruct (quality_score_reads_missing_checks_as_clean
                [("check_timestamp", Quality.VStr "2024-01-05T02:00:00")])
      as (H & _).
    apply H; reflexivity.
  - destruct (quality_score_reads_missing_checks_as_clean
                [("null_checks", Quality.VStr "not run")])
      as (_ & _ & _ & H & _).
    apply (H "null_checks" "null_violations"); [left; reflexivity|].
    right. exists "not run". reflexivity.
Defined.

(* ------------------------------------------------------------------ *)
(** * The four checks *)
(* ------------------------------------------------------------------ *)

Lemma count_zero {A : Type} (f : A -> bool) (l : list A) :
  Z.of_nat (List.length (filter f l)) = 0
  <-> forall x, In x l -> f x = false.
Proof.
  induction l as [|a l IH]; simpl.
  - split; [intros _ x []|reflexivity].
  - destruct (f a) eqn:E; simpl.
    + split; [lia|]. intros H. rewrite (H a) in E; [discriminate|auto].
    + rewrite IH. split.
      * intros H x [<-|Hin]; auto.
      * intros H x Hin. apply H. auto.
Qed.

Lemma count_nonneg {A : Type} (f : A -> bool) (l : list A) :
  0 <= Z.of_nat (List.length (filter f l)).
Proof. lia. Qed.

Lemma option_eqb_eq (a b : option string) :
  Quality.option_eqb a b = true <-> a = b.
Proof.
  destruct a as [x|], b as [y|]; simpl; try (split; congruence).
  rewrite String.eqb_eq. split; congruence.
Qed.

Lemma NoDup_map_fst_filter {A B : Type} (f : A * B -> bool)
      (l : list (A * B)) :
  NoDup (map fst l) -> NoDup (map fst (filter f l)).
Proof.
  induction l as [|a l IH]; simpl; intros H; [constructor|].
  inversion H as [|x xs Hnotin Hnd]; subst.
  destruct (f a); simpl; [|auto].
  constructor; [|auto]. intros Hin. apply Hnotin.
  apply in_map_iff in Hin. destruct Hin as [y [Hy Hin]].
  apply filter_In in Hin. apply in_map_iff. exists y. tauto.
Qed.

Section Keys.
Context {R : Type} (key : R -> option string).

Lemma rows_with_key_nonempty (k : option string) (rows : list R) :
  (1 <= List.length (Quality.rows_with_key key k rows))%nat
  <-> In k (map key rows).
Proof.
  unfold Quality.rows_with_key. induction rows as [|r rows IH]; simpl.
  - split; [lia|tauto].
  - destruct (Quality.option_eqb (key r) k) eqn:E; simpl.
    + apply option_eqb_eq in E. split; [auto|lia].
    + rewrite IH. split; [auto|]. intros [E'|H]; [|exact H].
      apply option_eqb_eq in E'. congruence.
Qed.

Lemma NoDup_keys (rows : list R) :
  NoDup (map key rows)
  <-> forall k, (List.length (Quality.rows_with_key key k rows) <= 1)%nat.
Proof.
  induction rows as [|r rows IH]; simpl.
  - split; [intros _ k; simpl; lia | constructor].
  - split.
    + intros H k. inversion H as [|x xs Hnotin Hnd]; subst.
      unfold Quality.rows_with_key. simpl.
      destruct (Quality.option_eqb (key r) k) eqn:E; simpl.
      * apply option_eqb_eq in E. subst k.
        destruct (Nat.le_gt_cases
                    (List.length (filter (fun r0 =>
                                            Quality.option_eqb (key r0)
                                                               (key r))
                                         rows)) 0) as [Hle|Hgt]; [lia|].
        exfalso. apply Hnotin. apply rows_with_key_nonempty.
        unfold Quality.rows_with_key. lia.
      * apply IH. exact Hnd.
    + intros H. constructor.
      * intros Hin. apply rows_with_key_nonempty in Hin.
        specialize (H (key r)). unfold Quality.rows_with_key in *.
        simpl in H.
        assert (E : Quality.option_eqb (key r) (key r) = true)
          by now apply option_eqb_eq.
        rewrite E in H. simpl in H. lia.
      * apply IH. intros k. specialize (H k).
        unfold Quality.rows_with_key in *. simpl in H.
        destruct (Quality.option_eqb (key r) k); simpl in H; lia.
Qed.

(** The duplicate count is the number of keys that occur more than once. *)
Lemma count_duplicated_keys (rows : list R) :
  exists ks,
    NoDup ks
    /\ Quality.count_duplicated key rows = Z.of_nat (List.length ks)
    /\ forall k, In k ks
                 <-> (2 <= List.length (Quality.rows_with_key key k rows))%nat.
Proof.
  destruct (group_by_groups Quality.option_eqb option_eqb_eq key rows)
    as (Hnd & Hrows & Hkeys).
  exists (map fst (filter (fun g => 1 <? Z.of_nat (List.length (snd g)))
                          (Sql.group_by Quality.option_eqb key rows))).
  split; [now apply NoDup_map_fst_filter|].
  split; [unfold Quality.count_duplicated; now rewrite length_map|].
  intros k. rewrite in_map_iff. split.
  - intros [[k' rs] [Hk Hin]]. simpl in Hk. subst k'.
    apply filter_In in Hin. destruct Hin as [Hin Hbig]. simpl in Hbig.
    destruct (Hrows _ _ Hin) as [-> _]. apply Z.ltb_lt in Hbig.
    unfold Quality.rows_with_key. lia.
  - intros Hbig.
    assert (Hin : In k (map key rows)).
    { apply rows_with_key_nonempty. lia. }
    apply in_map_iff in Hin. destruct Hin as [r [Hr Hin]].
    pose proof (Hkeys r Hin) as Hg. rewrite Hr in Hg.
    apply in_map_iff in Hg. destruct Hg as [[k' rs] [Hk Hg]].
    simpl in Hk. subst k'. exists (k, rs). split; [reflexivity|].
    apply filter_In. split; [exact Hg|]. simpl.
    destruct (Hrows _ _ Hg) as [-> _]. apply Z.ltb_lt.
    unfold Quality.rows_with_key in Hbig. lia.
Qed.

Lemma count_duplicated_zero (rows : list R) :
  Quality.count_duplicated key rows = 0 <-> NoDup (map key rows).
Proof.
  destruct (count_duplicated_keys rows) as (ks & _ & Hlen & Hks).
  rewrite Hlen, NoDup_keys. split.
  - intros H0 k. destruct ks; [|simpl in H0; lia].
    destruct (Nat.le_gt_cases
                (List.length (Quality.rows_with_key key k rows)) 1)
      as [Hle|Hgt]; [exact Hle|].
    exfalso. apply (Hks k). lia.
  - intros H. destruct ks as [|k ks]; [reflexivity|].
    pose proof (proj1 (Hks k) (or_introl eq_refl)). specialize (H k). lia.
Qed.

Lemma count_duplicated_nonneg (rows : list R) :
  0 <= Quality.count_duplicated key rows.
Proof. unfold Quality.count_duplicated. lia. Qed.

End Keys.
Section References.
Context {L R : Type} (fk : L -> option string) (pk : R -> option string).

Lemma matches_parent (child : L) (parent : R) :
  Quality.is_true (Quality.sql_cmp String.eqb (fk child) (pk parent)) = true
  <-> exists k, fk child = Some k /\ pk parent = Some k.
Proof.
  destruct (fk child) as [k|], (pk parent) as [k'|]; simpl.
  - destruct (String.eqb_spec k k') as [->|Hne]; simpl.
    + split; eauto.
    + split; [discriminate|]. intros [k0 [E1 E2]]. congruence.
  - split; [discriminate|]. intros [k0 [_ E]]. discriminate.
  - split; [discriminate|]. intros [k0 [E _]]. discriminate.
  - split; [discriminate|]. intros [k0 [E _]]. discriminate.
Qed.

Lemma is_orphan_no_match (parents : list R) (child : L) :
  Quality.is_orphan fk pk parents child = true
  <-> filter (fun parent =>
                Quality.is_true
                  (Quality.sql_cmp String.eqb (fk child) (pk parent)))
             parents = [].
Proof.
  unfold Quality.is_orphan. induction parents as [|p ps IH]; simpl.
  - destruct (fk child); tauto.
  - destruct (fk child) as [k|] eqn:Ek; simpl.
    + destruct (pk p) as [k'|] eqn:Ep; simpl.
      * rewrite (String.eqb_sym k' k).
        destruct (k =? k')%string; simpl; [split; discriminate|exact IH].
      * exact IH.
    + split; [intros _|reflexivity].
      clear IH. induction ps as [|q qs IHq]; simpl; [reflexivity|exact IHq].
Qed.

Lemma is_orphan_resolves (parents : list R) (child : L) :
  Quality.is_orphan fk pk parents child = false
  <-> Quality.resolves fk pk parents child.
Proof.
  unfold Quality.is_orphan, Quality.resolves.
  destruct (fk child) as [k|].
  - rewrite negb_false_iff, existsb_exists. split.
    + intros [p [Hin E]]. apply option_eqb_eq in E. exists k.
      split; [reflexivity|]. rewrite <- E. now apply in_map.
    + intros [k' [E Hin]]. injection E as <-.
      apply in_map_iff in Hin. destruct Hin as [p [E Hin]].
      exists p. split; [exact Hin|]. now apply option_eqb_eq.
  - split; [discriminate|]. intros [k [E _]]. discriminate.
Qed.

(** Every child row that is an orphan is counted once, whatever the number
    of parent rows. *)
Lemma count_orphans_filter (children : list L) (parents : list R) :
  Quality.count_orphans fk pk children parents
  = Z.of_nat (List.length
                (filter (Quality.is_orphan fk pk parents) children)).
Proof.
  unfold Quality.count_orphans, Sql.left_join. f_equal.
  induction children as [|c cs IH]; [reflexivity|].
  cbn [flat_map filter]. rewrite filter_app, length_app, IH. clear IH.
  destruct (Quality.is_orphan fk pk parents c) eqn:E.
  - apply is_orphan_no_match in E. rewrite E. reflexivity.
  - assert (Hne : filter (fun parent =>
                            Quality.is_true
                              (Quality.sql_cmp String.eqb (fk c) (pk parent)))
                         parents <> []).
    { intros H. apply is_orphan_no_match in H. congruence. }
    destruct (filter _ parents) as [|m ms] eqn:Em; [congruence|].
    assert (Hall : forall p, In p (m :: ms) -> pk p <> None).
    { intros p Hin. rewrite <- Em in Hin. apply filter_In in Hin.
      destruct Hin as [_ Hp]. apply matches_parent in Hp.
      destruct Hp as [k [_ Hp]]. congruence. }
    clear Em Hne.
    assert (H0 : forall l, (forall p, In p l -> pk p <> None) ->
                           filter (fun row : L * option R =>
                                     match snd row with
                                     | Some parent =>
                                         Quality.is_null (pk parent)
                                     | None => true
                                     end)
                                  (map (fun b => (c, Some b)) l) = []).
    { induction l as [|p l IHl]; simpl; intros Hl; [reflexivity|].
      destruct (pk p) eqn:Ep; simpl.
      - apply IHl. intros q Hq. apply Hl. auto.
      - exfalso. apply (Hl p); auto. }
    rewrite (H0 (m :: ms) Hall). reflexivity.
Qed.

Lemma count_orphans_zero (children : list L) (parents : list R) :
  Quality.count_orphans fk pk children parents = 0
  <-> forall c, In c children -> Quality.resolves fk pk parents c.
Proof.
  rewrite count_orphans_filter, count_zero. split; intros H c Hin.
  - apply is_orphan_resolves. auto.
  - apply is_orphan_resolves. auto.
Qed.

Lemma count_orphans_nonneg (children : list L) (parents : list R) :
  0 <= Quality.count_orphans fk pk children parents.
Proof. unfold Quality.count_orphans. lia. Qed.

End References.

Lemma Qlt_bool_iff (x y : Q) : Quality.Qlt_bool x y = true <-> (x < y)%Q.
Proof.
  unfold Quality.Qlt_bool. rewrite negb_true_iff. split.
  - intros H. apply Qnot_le_lt. intros Hle. apply Qle_bool_iff in Hle.
    congruence.
  - intros H. destruct (Qle_bool y x) eqn:E; [|reflexivity].
    apply Qle_bool_iff in E. exfalso. now apply (Qlt_not_le x y).
Qed.

Lemma sql_or_true (a b : option bool) :
  Quality.is_true (Quality.sql_or a b) = true
  <-> Quality.is_true a = true \/ Quality.is_true b = true.
Proof.
  destruct a as [[|]|], b as [[|]|]; simpl; split; auto;
    intros [H|H]; discriminate.
Qed.

Lemma is_true_some (b : bool) : Quality.is_true (Some b) = b.
Proof. destruct b; reflexivity. Qed.

Lemma cmp_true {A : Type} (cmp : A -> A -> bool) (a b : option A) :
  Quality.is_true (Quality.sql_cmp cmp a b) = true
  <-> exists x y, a = Some x /\ b = Some y /\ cmp x y = true.
Proof.
  destruct a as [x|], b as [y|]; cbn [Quality.sql_cmp].
  - rewrite is_true_some. split.
    + intros H. exists x, y. repeat split. exact H.
    + intros (x' & y' & Ex & Ey & H). congruence.
  - split; [discriminate|]. intros (x' & y' & Ex & Ey & H). discriminate.
  - split; [discriminate|]. intros (x' & y' & Ex & Ey & H). discriminate.
  - split; [discriminate|]. intros (x' & y' & Ex & Ey & H). discriminate.
Qed.

Lemma product_counted (p : Quality.product) :
  Quality.is_true
    (Quality.sql_or
       (Quality.sql_or (Quality.sql_cmp Qle_bool (Quality.price p) (Some 0%Q))
                       (Quality.sql_cmp Quality.Qlt_bool (Quality.cost p)
                                        (Some 0%Q)))
       (Quality.sql_cmp Qle_bool (Quality.price p) (Quality.cost p)))
  = true
  <-> Quality.product_out_of_range p.
Proof.
  rewrite !sql_or_true, !cmp_true. unfold Quality.product_out_of_range.
  split.
  - intros [[(x & y & Ex & Ey & H)|(x & y & Ex & Ey & H)]
           |(x & y & Ex & Ey & H)].
    + injection Ey as <-. apply Qle_bool_iff in H. eauto.
    + injection Ey as <-. apply Qlt_bool_iff in H. eauto.
    + apply Qle_bool_iff in H. eauto 8.
  - intros [(x & Ex & H)|[(c & Ec & H)|(x & c & Ex & Ec & H)]].
    + left. left. exists x, 0%Q. rewrite Qle_bool_iff. auto.
    + left. right. exists c, 0%Q. rewrite Qlt_bool_iff. auto.
    + right. exists x, c. rewrite Qle_bool_iff. auto.
Qed.

Lemma item_counted (i : Quality.transaction_item) :
  Quality.is_true
    (Quality.sql_or
       (Quality.sql_or
          (Quality.sql_cmp Z.leb (Quality.quantity i) (Some 0))
          (Quality.sql_cmp Quality.Qlt_bool (Quality.discount_percentage i)
                           (Some 0%Q)))
       (Quality.sql_cmp Quality.Qlt_bool (Some 100%Q)
                        (Quality.discount_percentage i)))
  = true
  <-> Quality.item_out_of_range i.
Proof.
  rewrite !sql_or_true, !cmp_true. unfold Quality.item_out_of_range.
  split.
  - intros [[(x & y & Ex & Ey & H)|(x & y & Ex & Ey & H)]
           |(x & y & Ex & Ey & H)].
    + injection Ey as <-. apply Z.leb_le in H. eauto.
    + injection Ey as <-. apply Qlt_bool_iff in H. eauto.
    + injection Ex as <-. apply Qlt_bool_iff in H. eauto.
  - intros [(q & Eq & H)|(d & Ed & [H|H])].
    + left. left. exists q, 0. rewrite Z.leb_le. auto.
    + left. right. exists d, 0%Q. rewrite Qlt_bool_iff. auto.
    + right. exists 100%Q, d. rewrite Qlt_bool_iff. auto.
Qed.

Lemma transaction_counted (CURRENT_DATE : Z) (t : Quality.transaction) :
  Quality.is_true
    (Quality.sql_cmp Z.ltb (Some CURRENT_DATE) (Quality.transaction_date t))
  = true
  <-> Quality.dated_after CURRENT_DATE t.
Proof.
  rewrite cmp_true. unfold Quality.dated_after. split.
  - intros (x & y & Ex & Ey & H). injection Ex as <-.
    apply Z.ltb_lt in H. eauto.
  - intros (d & Ed & H). exists CURRENT_DATE, d. rewrite Z.ltb_lt. auto.
Qed.

Lemma count_where_zero {R : Type} (cond : R -> option bool)
      (P : R -> Prop) (rows : list R) :
  (forall r, Quality.is_true (cond r) = true <-> P r) ->
  (Quality.count_where cond rows = 0 <-> forall r, In r rows -> ~ P r).
Proof.
  intros H. unfold Quality.count_where. rewrite count_zero.
  split; intros H0 r Hin.
  - rewrite <- H. rewrite (H0 r Hin). discriminate.
  - specialize (H0 r Hin). rewrite <- H in H0.
    destruct (Quality.is_true (cond r)); congruence.
Qed.

Lemma count_null_zero {R A : Type} (col : R -> option A) (rows : list R) :
  Quality.count_null col rows = 0 <-> forall r, In r rows -> col r <> None.
Proof.
  unfold Quality.count_null. rewrite count_zero.
  split; intros H r Hin; specialize (H r Hin);
    destruct (col r); simpl in *; congruence.
Qed.

Lemma null_violations_zero (db : Quality.tables) :
  Quality.null_violations db = 0 <-> Quality.complete db.
Proof.
  unfold Quality.complete.
  assert (E : Quality.null_violations db
              = Quality.count_null Quality.customer_id (Quality.customers db)
                + (Quality.count_null Quality.email (Quality.customers db)
                + (Quality.count_null Quality.first_name
                                      (Quality.customers db)
                + (Quality.count_null Quality.last_name
                                      (Quality.customers db)
                + (Quality.count_null Quality.product_id
                                      (Quality.products db)
                + (Quality.count_null Quality.product_name
                                      (Quality.products db)
                + (Quality.count_null Quality.price (Quality.products db)
                + (Quality.count_null Quality.cost (Quality.products db)
                + (Quality.count_null Quality.transaction_id
                                      (Quality.transactions db)
                + (Quality.count_null Quality.t_customer_id
                                      (Quality.transactions db)
                + (Quality.count_null Quality.transaction_date
                                      (Quality.transactions db)
                + (Quality.count_null Quality.item_id
                                      (Quality.transaction_items db)
                + (Quality.count_null Quality.ti_transaction_id
                                      (Quality.transaction_items db)
                + (Quality.count_null Quality.ti_product_id
                                      (Quality.transaction_items db)
                + (Quality.count_null Quality.quantity
                                      (Quality.transaction_items db)
                   + 0))))))))))))))) by reflexivity.
  rewrite E.
  repeat match goal with
         | |- context [Quality.count_null ?col ?rows] =>
             let n := fresh "n" in
             let Hn := fresh "Hn" in
             let Pn := fresh "Pn" in
             pose proof (count_null_zero col rows) as Hn;
             assert (Pn : 0 <= Quality.count_null col rows)
               by (unfold Quality.count_null; lia);
             set (n := Quality.count_null col rows) in *;
             clearbody n
         end.
  split.
  - intros H.
    repeat match goal with
           | Hn : ?n = 0 <-> _ |- _ =>
               let Hx := fresh "Hx" in
               assert (Hx : n = 0) by lia;
               pose proof (proj1 Hn Hx); clear Hn Hx
           end.
    repeat split; auto.
  - intros (Hc & Hp & Ht & Hi).
    repeat match goal with
           | Hn : ?n = 0 <-> _ |- _ =>
               let Hx := fresh "Hx" in
               assert (Hx : n = 0);
               [apply (proj2 Hn); intros r Hin;
                first [apply Hc in Hin | apply Hp in Hin
                       | apply Ht in Hin | apply Hi in Hin]; tauto
               |clear Hn]
           end.
    lia.
Qed.
Lemma status_passed (n : Z) :
  0 <= n ->
  (Quality.passed_or_failed n = Quality.VStr "passed" <-> n = 0)
  /\ (Quality.passed_or_failed n = Quality.VStr "failed" <-> n <> 0).
Proof.
  intros Hn. unfold Quality.passed_or_failed.
  destruct (Z.ltb_spec 0 n); split; split; intros; try discriminate;
    try reflexivity; lia.
Qed.

Lemma check_duplicates_result (schema : string) (db : Quality.tables) :
  Quality.count_in "duplicates_found" (Quality.check_duplicates schema db)
  = Quality.count_duplicated Quality.customer_id (Quality.customers db)
    + (Quality.count_duplicated Quality.product_id (Quality.products db)
       + (Quality.count_duplicated Quality.transaction_id
                                   (Quality.transactions db)
          + (Quality.count_duplicated Quality.item_id
                                      (Quality.transaction_items db) + 0)))
  /\ Quality.VStr (Quality.status_in (Quality.check_duplicates schema db))
     = Quality.passed_or_failed
         (Quality.count_in "duplicates_found"
                           (Quality.check_duplicates schema db)).
Proof. split; reflexivity. Qed.

Lemma duplicates_zero (schema : string) (db : Quality.tables) :
  0 <= Quality.count_in "duplicates_found"
                        (Quality.check_duplicates schema db)
  /\ (Quality.count_in "duplicates_found"
                       (Quality.check_duplicates schema db) = 0
      <-> Quality.keys_distinct db).
Proof.
  destruct (check_duplicates_result schema db) as [E _]. rewrite E.
  unfold Quality.keys_distinct.
  rewrite <- (count_duplicated_zero Quality.customer_id),
    <- (count_duplicated_zero Quality.product_id),
    <- (count_duplicated_zero Quality.transaction_id),
    <- (count_duplicated_zero Quality.item_id).
  pose proof (count_duplicated_nonneg Quality.customer_id
                                      (Quality.customers db)).
  pose proof (count_duplicated_nonneg Quality.product_id
                                      (Quality.products db)).
  pose proof (count_duplicated_nonneg Quality.transaction_id
                                      (Quality.transactions db)).
  pose proof (count_duplicated_nonneg Quality.item_id
                                      (Quality.transaction_items db)).
  lia.
Qed.

(** X17: the duplicate check counts repeated keys, not repeated rows.  What
    [check_duplicates] reports is, summed over the four tables, the number
    of distinct key values that occur in more than one row, two NULL keys
    counting as the same value; the check passes exactly when no key of any
    table occurs twice. *)
Theorem duplicate_check_counts_repeated_keys :
  forall (schema : string) (db : Quality.tables),
    let result := Quality.check_duplicates schema db in
    (exists kc kp kt ki,
        Quality.count_in "duplicates_found" result
        = Z.of_nat (List.length kc + List.length kp
                    + List.length kt + List.length ki)
        /\ NoDup kc /\ NoDup kp /\ NoDup kt /\ NoDup ki
        /\ (forall k, In k kc
                      <-> (2 <= List.length
                                  (Quality.rows_with_key
                                     Quality.customer_id k
                                     (Quality.customers db)))%nat)
        /\ (forall k, In k kp
                      <-> (2 <= List.length
                                  (Quality.rows_with_key
                                     Quality.product_id k
                                     (Quality.products db)))%nat)
        /\ (forall k, In k kt
                      <-> (2 <= List.length
                                  (Quality.rows_with_key
                                     Quality.transaction_id k
                                     (Quality.transactions db)))%nat)
        /\ (forall k, In k ki
                      <-> (2 <= List.length
                                  (Quality.rows_with_key
                                     Quality.item_id k
                                     (Quality.transaction_items db)))%nat))
    /\ (Quality.status_in result = "passed" <-> Quality.keys_distinct db)
    /\ (Quality.status_in result = "failed" <-> ~ Quality.keys_distinct db).
Proof.
  intros schema db result. subst result.
  destruct (check_duplicates_result schema db) as [E Es].
  destruct (duplicates_zero schema db) as [Hpos Hzero].
  destruct (status_passed _ Hpos) as [Hp Hf].
  split; [|split].
  - destruct (count_duplicated_keys Quality.customer_id
                                    (Quality.customers db))
      as (kc & Nc & Lc & Hc).
    destruct (count_duplicated_keys Quality.product_id
                                    (Quality.products db))
      as (kp & Np & Lp & Hp').
    destruct (count_duplicated_keys Quality.transaction_id
                                    (Quality.transactions db))
      as (kt & Nt & Lt & Ht).
    destruct (count_duplicated_keys Quality.item_id
                                    (Quality.transaction_items db))
      as (ki & Ni & Li & Hi).
    exists kc, kp, kt, ki. rewrite E, Lc, Lp, Lt, Li.
    repeat split; auto; try apply Hc; try apply Hp'; try apply Ht;
      try apply Hi; lia.
  - rewrite <- Hzero, <- Hp, <- Es. split; congruence.
  - rewrite <- Hzero, <- Hf, <- Es. split; congruence.
Qed.

Lemma check_referential_integrity_result (schema : string)
      (db : Quality.tables) :
  Quality.count_in "orphan_records"
                   (Quality.check_referential_integrity schema db)
  = 0 + Quality.count_orphans Quality.t_customer_id Quality.customer_id
                              (Quality.transactions db)
                              (Quality.customers db)
    + Quality.count_orphans Quality.ti_transaction_id
                            Quality.transaction_id
                            (Quality.transaction_items db)
                            (Quality.transactions db)
    + Quality.count_orphans Quality.ti_product_id Quality.product_id
                            (Quality.transaction_items db)
                            (Quality.products db)
  /\ Quality.VStr
       (Quality.status_in (Quality.check_referential_integrity schema db))
     = Quality.passed_or_failed
         (Quality.count_in "orphan_records"
                           (Quality.check_referential_integrity schema db)).
Proof. split; reflexivity. Qed.

Lemma orphans_zero (schema : string) (db : Quality.tables) :
  0 <= Quality.count_in "orphan_records"
                        (Quality.check_referential_integrity schema db)
  /\ (Quality.count_in "orphan_records"
                       (Quality.check_referential_integrity schema db) = 0
      <-> Quality.references_resolve db).
Proof.
  destruct (check_referential_integrity_result schema db) as [E _].
  rewrite E. unfold Quality.references_resolve.
  rewrite <- (count_orphans_zero Quality.t_customer_id Quality.customer_id).
  pose proof (count_orphans_zero Quality.ti_transaction_id
                                 Quality.transaction_id
                                 (Quality.transaction_items db)
                                 (Quality.transactions db)) as H1.
  pose proof (count_orphans_zero Quality.ti_product_id Quality.product_id
                                 (Quality.transaction_items db)
                                 (Quality.products db)) as H2.
  pose proof (count_orphans_nonneg Quality.t_customer_id Quality.customer_id
                                   (Quality.transactions db)
                                   (Quality.customers db)).
  pose proof (count_orphans_nonneg Quality.ti_transaction_id
                                   Quality.transaction_id
                                   (Quality.transaction_items db)
                                   (Quality.transactions db)).
  pose proof (count_orphans_nonneg Quality.ti_product_id Quality.product_id
                                   (Quality.transaction_items db)
                                   (Quality.products db)).
  split; [lia|]. split.
  - intros Hsum. split; [lia|]. intros i Hin. split.
    + apply H1; [lia|exact Hin].
    + apply H2; [lia|exact Hin].
  - intros [Ht Hi].
    assert (E1 : Quality.count_orphans Quality.ti_transaction_id
                   Quality.transaction_id (Quality.transaction_items db)
                   (Quality.transactions db) = 0).
    { apply H1. intros i Hin. now apply Hi. }
    assert (E2 : Quality.count_orphans Quality.ti_product_id
                   Quality.product_id (Quality.transaction_items db)
                   (Quality.products db) = 0).
    { apply H2. intros i Hin. now apply Hi. }
    lia.
Qed.

(** X18: the referential check counts each unresolved row once.  What
    [check_referential_integrity] reports is the number of transactions
    whose customer_id is NULL or the id of no customer, plus the number of
    items whose transaction_id, and of items whose product_id, is NULL or
    refers to no row; a row is counted once however many parent rows share
    a key.  The check passes exactly when every reference resolves, so a
    single NULL foreign key makes it fail. *)
Theorem orphan_check_counts_unresolved_rows :
  forall (schema : string) (db : Quality.tables),
    let result := Quality.check_referential_integrity schema db in
    Quality.count_in "orphan_records" result
    = Z.of_nat
        (List.length
           (filter (Quality.is_orphan Quality.t_customer_id
                                      Quality.customer_id
                                      (Quality.customers db))
                   (Quality.transactions db))
         + List.length
             (filter (Quality.is_orphan Quality.ti_transaction_id
                                        Quality.transaction_id
                                        (Quality.transactions db))
                     (Quality.transaction_items db))
         + List.length
             (filter (Quality.is_orphan Quality.ti_product_id
                                        Quality.product_id
                                        (Quality.products db))
                     (Quality.transaction_items db)))
    /\ (Quality.status_in result = "passed"
        <-> Quality.references_resolve db)
    /\ (Quality.status_in result = "failed"
        <-> ~ Quality.references_resolve db)
    /\ (forall t, In t (Quality.transactions db) ->
                  Quality.t_customer_id t = None ->
                  Quality.status_in result = "failed")
    /\ (forall i, In i (Quality.transaction_items db) ->
                  Quality.ti_transaction_id i = None
                  \/ Quality.ti_product_id i = None ->
                  Quality.status_in result = "failed").
Proof.
  intros schema db result. subst result.
  destruct (check_referential_integrity_result schema db) as [E Es].
  destruct (orphans_zero schema db) as [Hpos Hzero].
  destruct (status_passed _ Hpos) as [Hp Hf].
  assert (Hfailed : Quality.status_in
                      (Quality.check_referential_integrity schema db)
                    = "failed" <-> ~ Quality.references_resolve db).
  { rewrite <- Hzero, <- Hf, <- Es. split; congruence. }
  split; [|split; [|split; [|split]]].
  - rewrite E, !count_orphans_filter. lia.
  - rewrite <- Hzero, <- Hp, <- Es. split; congruence.
  - exact Hfailed.
  - intros t Hin Hnull. apply Hfailed. intros [Ht _].
    destruct (Ht t Hin) as [k [Ek _]]. congruence.
  - intros i Hin Hnull. apply Hfailed. intros [_ Hi].
    destruct (Hi i Hin) as [[k [Ek _]] [k' [Ek' _]]].
    destruct Hnull; congruence.
Qed.
Lemma check_data_ranges_result (CURRENT_DATE : Z) (schema : string)
      (db : Quality.tables) :
  Quality.count_in "violations"
                   (Quality.check_data_ranges CURRENT_DATE schema db)
  = 0 + Quality.count_where
          (fun p =>
             Quality.sql_or
               (Quality.sql_or
                  (Quality.sql_cmp Qle_bool (Quality.price p) (Some 0%Q))
                  (Quality.sql_cmp Quality.Qlt_bool (Quality.cost p)
                                   (Some 0%Q)))
               (Quality.sql_cmp Qle_bool (Quality.price p) (Quality.cost p)))
          (Quality.products db)
    + Quality.count_where
        (fun i =>
           Quality.sql_or
             (Quality.sql_or
                (Quality.sql_cmp Z.leb (Quality.quantity i) (Some 0))
                (Quality.sql_cmp Quality.Qlt_bool
                                 (Quality.discount_percentage i) (Some 0%Q)))
             (Quality.sql_cmp Quality.Qlt_bool (Some 100%Q)
                              (Quality.discount_percentage i)))
        (Quality.transaction_items db)
    + Quality.count_where
        (fun t => Quality.sql_cmp Z.ltb (Some CURRENT_DATE)
                                  (Quality.transaction_date t))
        (Quality.transactions db)
  /\ Quality.VStr
       (Quality.status_in
          (Quality.check_data_ranges CURRENT_DATE schema db))
     = Quality.passed_or_failed
         (Quality.count_in "violations"
            (Quality.check_data_ranges CURRENT_DATE schema db)).
Proof. split; reflexivity. Qed.

Lemma ranges_zero (CURRENT_DATE : Z) (schema : string)
      (db : Quality.tables) :
  0 <= Quality.count_in "violations"
                        (Quality.check_data_ranges CURRENT_DATE schema db)
  /\ (Quality.count_in "violations"
                       (Quality.check_data_ranges CURRENT_DATE schema db) = 0
      <-> Quality.in_range CURRENT_DATE db).
Proof.
  destruct (check_data_ranges_result CURRENT_DATE schema db) as [E _].
  rewrite E. unfold Quality.in_range.
  rewrite <- (count_where_zero _ _ (Quality.products db) product_counted),
    <- (count_where_zero _ _ (Quality.transaction_items db) item_counted),
    <- (count_where_zero _ _ (Quality.transactions db)
                         (transaction_counted CURRENT_DATE)).
  unfold Quality.count_where. lia.
Qed.

(** X19: NULL cells never count as range violations.  The range check
    counts a product when its price is at most 0, its cost below 0 or its
    cost at least its price, an item when its quantity is at most 0 or its
    discount outside 0..100, and a transaction dated after the current
    date; a comparison with a NULL cell counts for nothing.  The check
    passes exactly when no row is counted, and so it passes on tables whose
    compared cells are all NULL. *)
Theorem range_check_ignores_null_cells :
  forall (CURRENT_DATE : Z) (schema : string) (db : Quality.tables),
    let result := Quality.check_data_ranges CURRENT_DATE schema db in
    (Quality.status_in result = "passed"
     <-> Quality.in_range CURRENT_DATE db)
    /\ (Quality.status_in result = "failed"
        <-> ~ Quality.in_range CURRENT_DATE db)
    /\ ((forall p, In p (Quality.products db) ->
                   Quality.price p = None /\ Quality.cost p = None) ->
        (forall i, In i (Quality.transaction_items db) ->
                   Quality.quantity i = None
                   /\ Quality.discount_percentage i = None) ->
        (forall t, In t (Quality.transactions db) ->
                   Quality.transaction_date t = None) ->
        Quality.status_in result = "passed").
Proof.
  intros today schema db result. subst result.
  destruct (check_data_ranges_result today schema db) as [E Es].
  destruct (ranges_zero today schema db) as [Hpos Hzero].
  destruct (status_passed _ Hpos) as [Hp Hf].
  assert (Hpassed : Quality.status_in
                      (Quality.check_data_ranges today schema db)
                    = "passed" <-> Quality.in_range today db).
  { rewrite <- Hzero, <- Hp, <- Es. split; congruence. }
  split; [exact Hpassed|]. split.
  - rewrite <- Hzero, <- Hf, <- Es. split; congruence.
  - intros Hprod Hitem Htxn. apply Hpassed. repeat split.
    + intros p Hin [(x & Ex & _)|[(c & Ec & _)|(x & c & Ex & _)]];
        destruct (Hprod p Hin); congruence.
    + intros i Hin [(q & Eq & _)|(d & Ed & _)];
        destruct (Hitem i Hin); congruence.
    + intros t Hin (d & Ed & _). rewrite (Htxn t Hin) in Ed. discriminate.
Qed.

Lemma range_check_ignores_null_cells_witness :
  Quality.status_in
    (Quality.check_data_ranges
       739000 "staging"
       {| Quality.customers := [];
          Quality.products :=
            [{| Quality.product_id := Some "PROD000001";
                Quality.product_name := None;
                Quality.price := None;
                Quality.cost := None |}];
          Quality.transactions := [];
          Quality.transaction_items := [] |})
  = "passed".
Proof.
  apply (range_check_ignores_null_cells
           739000 "staging"
           {| Quality.customers := [];
              Quality.products :=
                [{| Quality.product_id := Some "PROD000001";
                    Quality.product_name := None;
                    Quality.price := None;
                    Quality.cost := None |}];
              Quality.transactions := [];
              Quality.transaction_items := [] |}).
  - intros p [<-|[]]. split; reflexivity.
  - intros i [].
  - intros t [].
Defined.
Lemma check_null_values_result (schema : string) (db : Quality.tables) :
  Quality.VStr (Quality.status_in (Quality.check_null_values schema db))
  = Quality.passed_or_failed
      (Quality.count_in "null_violations"
                        (Quality.check_null_values schema db))
  /\ Quality.count_in "null_violations"
                      (Quality.check_null_values schema db)
     = Quality.null_violations db.
Proof. split; reflexivity. Qed.

Lemma null_violations_nonneg (db : Quality.tables) :
  0 <= Quality.null_violations db.
Proof.
  change (0 <= Sql.sum
                 [Quality.count_null Quality.customer_id
                                     (Quality.customers db);
                  Quality.count_null Quality.email (Quality.customers db);
                  Quality.count_null Quality.first_name
                                     (Quality.customers db);
                  Quality.count_null Quality.last_name
                                     (Quality.customers db);
                  Quality.count_null Quality.product_id
                                     (Quality.products db);
                  Quality.count_null Quality.product_name
                                     (Quality.products db);
                  Quality.count_null Quality.price (Quality.products db);
                  Quality.count_null Quality.cost (Quality.products db);
                  Quality.count_null Quality.transaction_id
                                     (Quality.transactions db);
                  Quality.count_null Quality.t_customer_id
                                     (Quality.transactions db);
                  Quality.count_null Quality.transaction_date
                                     (Quality.transactions db);
                  Quality.count_null Quality.item_id
                                     (Quality.transaction_items db);
                  Quality.count_null Quality.ti_transaction_id
                                     (Quality.transaction_items db);
                  Quality.count_null Quality.ti_product_id
                                     (Quality.transaction_items db);
                  Quality.count_null Quality.quantity
                                     (Quality.transaction_items db)]).
  unfold Sql.sum, Quality.count_null. cbn [fold_right]. lia.
Qed.

(** What [main] puts in its report. *)
Lemma main_report (utcnow : string) (CURRENT_DATE : Z)
      (db : Quality.tables) :
  exists r,
    Quality.main utcnow CURRENT_DATE db = Some r
    /\ Quality.check_timestamp r = utcnow
    /\ Quality.checks_performed r
       = [("null_checks", Quality.check_null_values "staging" db);
          ("duplicate_checks", Quality.check_duplicates "staging" db);
          ("referential_integrity",
           Quality.check_referential_integrity "staging" db);
          ("range_checks",
           Quality.check_data_ranges CURRENT_DATE "staging" db)]
    /\ (Quality.overall_quality_score r
        == inject_Z (Quality.points 1 (Quality.null_violations db)
                     + Quality.points 1 (Quality.duplicates_found db)
                     + Quality.points 1
                         (Quality.range_violations CURRENT_DATE db)
                     + Quality.points 5 (Quality.orphan_records db)) / 4)%Q
    /\ Quality.quality_grade r
       = (if Quality.Qlt_bool (Quality.overall_quality_score r) 40 then "F"
          else if Quality.Qlt_bool (Quality.overall_quality_score r) 60
               then "D"
          else if Quality.Qlt_bool (Quality.overall_quality_score r) 75
               then "C"
          else if Quality.Qlt_bool (Quality.overall_quality_score r) 90
               then "B"
          else "A").
Proof.
  unfold Quality.main.
  pose proof (calculate_quality_score_counts
                [("null_checks", Quality.check_null_values "staging" db);
                 ("duplicate_checks", Quality.check_duplicates "staging" db);
                 ("referential_integrity",
                  Quality.check_referential_integrity "staging" db);
                 ("range_checks",
                  Quality.check_data_ranges CURRENT_DATE "staging" db)])
    as H.
  change (Quality.count_read "null_checks" "null_violations" _)
    with (Some (Quality.null_violations db)) in H.
  change (Quality.count_read "duplicate_checks" "duplicates_found" _)
    with (Some (Quality.duplicates_found db)) in H.
  change (Quality.count_read "range_checks" "violations" _)
    with (Some (Quality.range_violations CURRENT_DATE db)) in H.
  change (Quality.count_read "referential_integrity" "orphan_records" _)
    with (Some (Quality.orphan_records db)) in H.
  cbv beta iota in H. destruct H as [s [Hs E]].
  rewrite Hs. cbn [Quality.obind]. eexists. split; [reflexivity|].
  cbn [Quality.check_timestamp Quality.checks_performed
       Quality.overall_quality_score Quality.quality_grade].
  split; [reflexivity|]. split; [reflexivity|]. split; [exact E|].
  destruct (Quality.Qlt_bool s 40) eqn:E40, (Quality.Qlt_bool s 60) eqn:E60,
    (Quality.Qlt_bool s 75) eqn:E75, (Quality.Qlt_bool s 90) eqn:E90;
    reflexivity.
Qed.
Lemma failed_flag (result : Quality.value) (n : Z) :
  Quality.VStr (Quality.status_in result) = Quality.passed_or_failed n ->
  (Quality.status_in result =? "failed")%string = (0 <? n).
Proof.
  unfold Quality.passed_or_failed. intros H. injection H as ->.
  destruct (0 <? n); reflexivity.
Qed.

Lemma failed_checks_count (utcnow : string) (CURRENT_DATE : Z)
      (db : Quality.tables) (r : Quality.quality_report) :
  Quality.main utcnow CURRENT_DATE db = Some r ->
  Quality.failed_checks r
  = ((if Z.ltb 0 (Quality.null_violations db) then 1 else 0)
     + (if Z.ltb 0 (Quality.duplicates_found db) then 1 else 0)
     + (if Z.ltb 0 (Quality.orphan_records db) then 1 else 0)
     + (if Z.ltb 0 (Quality.range_violations CURRENT_DATE db)
        then 1 else 0))%nat.
Proof.
  intros Hr. destruct (main_report utcnow CURRENT_DATE db)
    as (r' & Hr' & _ & Hchecks & _).
  rewrite Hr in Hr'. injection Hr' as <-.
  unfold Quality.failed_checks. rewrite Hchecks. cbn [filter snd].
  rewrite (failed_flag _ _ (proj1 (check_null_values_result "staging" db))).
  rewrite (failed_flag _ _ (proj2 (check_duplicates_result "staging" db))).
  rewrite (failed_flag _ _
             (proj2 (check_referential_integrity_result "staging" db))).
  rewrite (failed_flag _ _
             (proj2 (check_data_ranges_result CURRENT_DATE "staging" db))).
  change (Quality.count_in "null_violations"
                           (Quality.check_null_values "staging" db))
    with (Quality.null_violations db).
  change (Quality.count_in "duplicates_found"
                           (Quality.check_duplicates "staging" db))
    with (Quality.duplicates_found db).
  change (Quality.count_in "orphan_records"
            (Quality.check_referential_integrity "staging" db))
    with (Quality.orphan_records db).
  change (Quality.count_in "violations"
            (Quality.check_data_ranges CURRENT_DATE "staging" db))
    with (Quality.range_violations CURRENT_DATE db).
  destruct (0 <? Quality.null_violations db),
    (0 <? Quality.duplicates_found db),
    (0 <? Quality.orphan_records db),
    (0 <? Quality.range_violations CURRENT_DATE db); reflexivity.
Qed.

Lemma quarters_lt (x : Z) (c : Z) :
  (inject_Z x / 4 < c # 1)%Q <-> x < 4 * c.
Proof.
  unfold Qlt, Qdiv, Qmult, Qinv, inject_Z. cbn [Qnum Qden]. lia.
Qed.

Lemma Qlt_bool_quarters (s : Q) (x c : Z) :
  (s == inject_Z x / 4)%Q ->
  Quality.Qlt_bool s (c # 1) = (x <? 4 * c).
Proof.
  intros E. destruct (Z.ltb_spec x (4 * c)) as [H|H].
  - apply Qlt_bool_iff. rewrite E. now apply quarters_lt.
  - destruct (Quality.Qlt_bool s (c # 1)) eqn:E'; [|reflexivity].
    apply Qlt_bool_iff in E'. rewrite E in E'. apply quarters_lt in E'. lia.
Qed.

Lemma points_of_count (penalty n : Z) :
  0 < penalty -> 0 <= n ->
  0 <= Quality.points penalty n <= 100
  /\ (n = 0 -> Quality.points penalty n = 100)
  /\ (0 < n -> Quality.points penalty n < 100).
Proof.
  intros Hp Hn. unfold Quality.points.
  destruct (Z.eqb_spec n 0); [lia|nia].
Qed.

(** X20: the grade follows the score.  [main] always writes a report; its
    score lies between 0 and 100 and its grade is A from 90, B from 75, C
    from 60, D from 40 and F below.  Since each check weighs a quarter, a
    report with at most one failed check is graded A or B, and a report
    graded F has at least three failed checks. *)
Theorem quality_grade_follows_the_score :
  forall (utcnow : string) (CURRENT_DATE : Z) (db : Quality.tables),
  exists r,
    Quality.main utcnow CURRENT_DATE db = Some r
    /\ Quality.check_timestamp r = utcnow
    /\ (0 <= Quality.overall_quality_score r)%Q
    /\ (Quality.overall_quality_score r <= 100)%Q
    /\ (Quality.quality_grade r = "A"
        <-> (90 <= Quality.overall_quality_score r)%Q)
    /\ (Quality.quality_grade r = "B"
        <-> (75 <= Quality.overall_quality_score r)%Q
            /\ (Quality.overall_quality_score r < 90)%Q)
    /\ (Quality.quality_grade r = "C"
        <-> (60 <= Quality.overall_quality_score r)%Q
            /\ (Quality.overall_quality_score r < 75)%Q)
    /\ (Quality.quality_grade r = "D"
        <-> (40 <= Quality.overall_quality_score r)%Q
            /\ (Quality.overall_quality_score r < 60)%Q)
    /\ (Quality.quality_grade r = "F"
        <-> (Quality.overall_quality_score r < 40)%Q)
    /\ ((Quality.failed_checks r <= 1)%nat ->
        Quality.quality_grade r = "A" \/ Quality.quality_grade r = "B")
    /\ (Quality.quality_grade r = "F" -> (3 <= Quality.failed_checks r)%nat).
Proof.
  intros utcnow today db.
  destruct (main_report utcnow today db) as (r & Hr & Ht & Hc & Es & Hg).
  exists r. split; [exact Hr|]. split; [exact Ht|].
  rewrite (failed_checks_count _ _ _ _ Hr).
  destruct (points_of_count 1 (Quality.null_violations db) ltac:(lia)
                            (null_violations_nonneg db)) as (B1 & Z1 & P1).
  destruct (points_of_count 1 (Quality.duplicates_found db) ltac:(lia)
                            (proj1 (duplicates_zero "staging" db)))
    as (B2 & Z2 & P2).
  destruct (points_of_count 1 (Quality.range_violations today db) ltac:(lia)
                            (proj1 (ranges_zero today "staging" db)))
    as (B3 & Z3 & P3).
  destruct (points_of_count 5 (Quality.orphan_records db) ltac:(lia)
                            (proj1 (orphans_zero "staging" db)))
    as (B4 & Z4 & P4).
  pose proof (null_violations_nonneg db) as N1.
  pose proof (proj1 (duplicates_zero "staging" db)) as N2.
  pose proof (proj1 (ranges_zero today "staging" db)) as N3.
  pose proof (proj1 (orphans_zero "staging" db)) as N4.
  change (Quality.count_in "duplicates_found"
                           (Quality.check_duplicates "staging" db))
    with (Quality.duplicates_found db) in N2.
  change (Quality.count_in "violations"
            (Quality.check_data_ranges today "staging" db))
    with (Quality.range_violations today db) in N3.
  change (Quality.count_in "orphan_records"
            (Quality.check_referential_integrity "staging" db))
    with (Quality.orphan_records db) in N4.
  set (K := Quality.points 1 (Quality.null_violations db)
            + Quality.points 1 (Quality.duplicates_found db)
            + Quality.points 1 (Quality.range_violations today db)
            + Quality.points 5 (Quality.orphan_records db)) in *.
  rewrite Hg.
  rewrite (Qlt_bool_quarters _ K 40 Es), (Qlt_bool_quarters _ K 60 Es),
    (Qlt_bool_quarters _ K 75 Es), (Qlt_bool_quarters _ K 90 Es).
  assert (Hlt : forall c, (Quality.overall_quality_score r < c # 1)%Q
                          <-> K < 4 * c).
  { intros c. rewrite Es. apply quarters_lt. }
  assert (Hle : forall c, (c # 1 <= Quality.overall_quality_score r)%Q
                          <-> 4 * c <= K).
  { intros c. rewrite Es. unfold Qle, Qdiv, Qmult, Qinv, inject_Z.
    cbn [Qnum Qden]. lia. }
  assert (Hle' : (Quality.overall_quality_score r <= 100)%Q <-> K <= 400).
  { rewrite Es. unfold Qle, Qdiv, Qmult, Qinv, inject_Z.
    cbn [Qnum Qden]. lia. }
  rewrite (Hle 0), Hle', (Hle 90), (Hle 75), (Hle 60), (Hle 40),
    (Hlt 90), (Hlt 75), (Hlt 60), (Hlt 40).
  destruct (Z.ltb_spec K (4 * 40)), (Z.ltb_spec K (4 * 60)),
    (Z.ltb_spec K (4 * 75)), (Z.ltb_spec K (4 * 90));
    try lia;
    (split; [lia|]); (split; [lia|]);
    repeat match goal with
           | |- _ /\ _ => split
           | |- _ <-> _ => split
           end;
    intros; try discriminate; try reflexivity; try lia; auto;
    try (exfalso;
         destruct (Z.ltb_spec 0 (Quality.null_violations db)),
           (Z.ltb_spec 0 (Quality.duplicates_found db)),
           (Z.ltb_spec 0 (Quality.orphan_records db)),
           (Z.ltb_spec 0 (Quality.range_violations today db));
         simpl in *; lia);
    try (destruct (Z.ltb_spec 0 (Quality.null_violations db)),
           (Z.ltb_spec 0 (Quality.duplicates_found db)),
           (Z.ltb_spec 0 (Quality.orphan_records db)),
           (Z.ltb_spec 0 (Quality.range_violations today db));
         simpl in *; lia).
Qed.
(** X21: a score of 100 means clean data.  The report of [main] scores 100
    exactly when the staging tables have no NULL in a mandatory column, no
    key that occurs twice, no reference that does not resolve and no value
    out of range; that is also exactly when none of the four checks
    failed, and the grade is then A. *)
Theorem perfect_score_means_clean_data :
  forall (utcnow : string) (CURRENT_DATE : Z) (db : Quality.tables),
  exists r,
    Quality.main utcnow CURRENT_DATE db = Some r
    /\ ((Quality.overall_quality_score r == 100)%Q
        <-> Quality.complete db /\ Quality.keys_distinct db
            /\ Quality.references_resolve db
            /\ Quality.in_range CURRENT_DATE db)
    /\ ((Quality.overall_quality_score r == 100)%Q
        <-> Quality.failed_checks r = 0%nat)
    /\ ((Quality.overall_quality_score r == 100)%Q ->
        Quality.quality_grade r = "A").
Proof.
  intros utcnow today db.
  destruct (main_report utcnow today db) as (r & Hr & Ht & Hc & Es & Hg).
  exists r. split; [exact Hr|].
  rewrite (failed_checks_count _ _ _ _ Hr).
  destruct (points_of_count 1 (Quality.null_violations db) ltac:(lia)
                            (null_violations_nonneg db)) as (B1 & Z1 & P1).
  destruct (points_of_count 1 (Quality.duplicates_found db) ltac:(lia)
                            (proj1 (duplicates_zero "staging" db)))
    as (B2 & Z2 & P2).
  destruct (points_of_count 1 (Quality.range_violations today db) ltac:(lia)
                            (proj1 (ranges_zero today "staging" db)))
    as (B3 & Z3 & P3).
  destruct (points_of_count 5 (Quality.orphan_records db) ltac:(lia)
                            (proj1 (orphans_zero "staging" db)))
    as (B4 & Z4 & P4).
  pose proof (null_violations_nonneg db) as N1.
  destruct (duplicates_zero "staging" db) as [N2 D2].
  destruct (ranges_zero today "staging" db) as [N3 D3].
  destruct (orphans_zero "staging" db) as [N4 D4].
  pose proof (null_violations_zero db) as D1.
  change (Quality.count_in "duplicates_found"
                           (Quality.check_duplicates "staging" db))
    with (Quality.duplicates_found db) in *.
  change (Quality.count_in "violations"
            (Quality.check_data_ranges today "staging" db))
    with (Quality.range_violations today db) in *.
  change (Quality.count_in "orphan_records"
            (Quality.check_referential_integrity "staging" db))
    with (Quality.orphan_records db) in *.
  rewrite <- D1, <- D2, <- D3, <- D4.
  set (K := Quality.points 1 (Quality.null_violations db)
            + Quality.points 1 (Quality.duplicates_found db)
            + Quality.points 1 (Quality.range_violations today db)
            + Quality.points 5 (Quality.orphan_records db)) in *.
  assert (H100 : (Quality.overall_quality_score r == 100)%Q <-> K = 400).
  { rewrite Es. apply quarters_bounds. }
  rewrite H100, Hg.
  rewrite (Qlt_bool_quarters _ K 40 Es), (Qlt_bool_quarters _ K 60 Es),
    (Qlt_bool_quarters _ K 75 Es), (Qlt_bool_quarters _ K 90 Es).
  split; [|split].
  - split; [intros HK|intros (E1 & E2 & E4 & E3)]; lia.
  - destruct (Z.ltb_spec 0 (Quality.null_violations db)),
      (Z.ltb_spec 0 (Quality.duplicates_found db)),
      (Z.ltb_spec 0 (Quality.orphan_records db)),
      (Z.ltb_spec 0 (Quality.range_violations today db));
      simpl; split; intros; try discriminate; lia.
  - intros ->. reflexivity.
Qed.
(* ------------------------------------------------------------------ *)
(** * The generator's integrity check *)
(* ------------------------------------------------------------------ *)

Lemma count_not_in_orphans {L R : Type} (fk : L -> option string)
      (pk : R -> option string) (children : list L) (parents : list R) :
  Generation.no_null fk children ->
  Generation.no_null pk parents ->
  Generation.count_not_in (Generation.ids pk parents)
                          (Generation.ids fk children)
  = Quality.count_orphans fk pk children parents.
Proof.
  intros Hfk Hpk. rewrite count_orphans_filter.
  unfold Generation.count_not_in, Generation.ids. f_equal.
  induction children as [|c cs IH]; [reflexivity|].
  cbn [map filter].
  assert (E : negb (existsb
                      (String.eqb match fk c with
                                  | Some k => k
                                  | None => ""
                                  end)
                      (map (fun r => match pk r with
                                     | Some k => k
                                     | None => ""
                                     end) parents))
              = Quality.is_orphan fk pk parents c).
  { unfold Quality.is_orphan.
    destruct (fk c) as [k|] eqn:Ek; [|exfalso; apply (Hfk c); simpl; auto].
    f_equal. clear - Hpk.
    induction parents as [|p ps IHp]; [reflexivity|].
    cbn [map existsb]. rewrite IHp.
    - f_equal. destruct (pk p) as [k'|] eqn:Ep.
      + simpl. apply String.eqb_sym.
      + exfalso. apply (Hpk p); simpl; auto.
    - intros r Hin. apply Hpk. simpl. auto. }
  rewrite E. destruct (Quality.is_orphan fk pk parents c); simpl;
    rewrite IH; try reflexivity; intros r Hin; apply Hfk; simpl; auto.
Qed.

(** X22: the generator's integrity check agrees with the staging check.
    On frames without NULL ids, [validate_referential_integrity] counts the
    same orphans, reference by reference and in total, as
    [check_referential_integrity] counts on the tables loaded from them; its
    score is 100 exactly when there is no orphan, and is otherwise 100 less
    one point for every orphan, but not below 0. *)
Theorem generator_and_staging_checks_agree :
  forall (schema : string) (db : Quality.tables),
    Generation.no_null Quality.customer_id (Quality.customers db) ->
    Generation.no_null Quality.product_id (Quality.products db) ->
    Generation.no_null Quality.transaction_id (Quality.transactions db) ->
    Generation.no_null Quality.t_customer_id (Quality.transactions db) ->
    Generation.no_null Quality.ti_transaction_id
                       (Quality.transaction_items db) ->
    Generation.no_null Quality.ti_product_id
                       (Quality.transaction_items db) ->
    let report := Generation.integrity_of db in
    let result := Quality.check_referential_integrity schema db in
    Quality.get "details" (Quality.VDict []) result
    = Some (Quality.VDict
              [("transactions_customer_fk",
                Quality.VInt
                  (Generation.orphan_transactions_customers report));
               ("transaction_items_transaction_fk",
                Quality.VInt (Generation.orphan_items_transactions report));
               ("transaction_items_product_fk",
                Quality.VInt (Generation.orphan_items_products report))])
    /\ Quality.count_in "orphan_records" result
       = Generation.total_violations report
    /\ (Quality.status_in result = "passed"
        <-> (Generation.quality_score report == 100)%Q)
    /\ (Generation.quality_score report
        == inject_Z (Z.max 0 (100 - Generation.total_violations report)))%Q.
Proof.
  intros schema db Hc Hp Ht Htc Hit Hip report result.
  subst report result.
  destruct (check_referential_integrity_result schema db) as [E Es].
  destruct (orphans_zero schema db) as [Hpos Hzero].
  destruct (status_passed _ Hpos) as [Hpass _].
  unfold Generation.integrity_of, Generation.validate_referential_integrity.
  cbn [Generation.orphan_transactions_customers
       Generation.orphan_items_transactions
       Generation.orphan_items_products Generation.total_violations
       Generation.quality_score].
  rewrite !count_not_in_orphans by assumption.
  assert (Etot : Quality.count_in "orphan_records"
                   (Quality.check_referential_integrity schema db)
                 = Quality.count_orphans Quality.t_customer_id
                     Quality.customer_id (Quality.transactions db)
                     (Quality.customers db)
                   + Quality.count_orphans Quality.ti_transaction_id
                       Quality.transaction_id (Quality.transaction_items db)
                       (Quality.transactions db)
                   + Quality.count_orphans Quality.ti_product_id
                       Quality.product_id (Quality.transaction_items db)
                       (Quality.products db)).
  { rewrite E. lia. }
  rewrite <- Etot.
  set (n := Quality.count_in "orphan_records"
              (Quality.check_referential_integrity schema db)) in *.
  split; [reflexivity|]. split; [reflexivity|].
  assert (Escore : ((if n =? 0 then 100
                     else Quality.py_max 0 (100 - inject_Z n))
                    == inject_Z (Z.max 0 (100 - n)))%Q).
  { pose proof (dimension_score_points 1 n) as Hd.
    unfold Quality.dimension_score, Quality.points in Hd.
    rewrite Z.mul_1_r in Hd. injection Hd as Hd. rewrite Hd.
    destruct (Z.eqb_spec n 0) as [->|Hn]; reflexivity. }
  split; [|exact Escore].
  rewrite Escore.
  assert (Hs : Quality.status_in
                 (Quality.check_referential_integrity schema db) = "passed"
               <-> n = 0).
  { rewrite <- Hpass, <- Es. split; congruence. }
  rewrite Hs. unfold Qeq, inject_Z. cbn [Qnum Qden]. lia.
Qed.

Lemma generator_and_staging_checks_agree_witness :
  Quality.count_in
    "orphan_records"
    (Quality.check_referential_integrity
       "staging" QualitySample.orphaned_transaction)
  = Generation.total_violations
      (Generation.integrity_of QualitySample.orphaned_transaction)
  /\ Generation.total_violations
       (Generation.integrity_of QualitySample.orphaned_transaction) = 1.
Proof.
  split; [|reflexivity].
  apply (generator_and_staging_checks_agree
           "staging" QualitySample.orphaned_transaction);
    intros r [<-|[]]; discriminate.
Defined.
(* ------------------------------------------------------------------ *)
(** * Staging to production *)
(* ------------------------------------------------------------------ *)

Lemma seen_key (k : option string) (seen : list (option string)) :
  existsb (Quality.option_eqb k) seen = true <-> In k seen.
Proof.
  rewrite existsb_exists. split.
  - intros [x [Hin E]]. apply option_eqb_eq in E. now subst.
  - intros Hin. exists k. split; [exact Hin|]. now apply option_eqb_eq.
Qed.

Section DropDuplicates.
Context {R : Type} (key : R -> option string).

Lemma drop_duplicates_from_keys (rows : list R) :
  forall seen k,
    In k (map key (Transformation.drop_duplicates_from key seen rows))
    <-> In k (map key rows) /\ ~ In k seen.
Proof.
  induction rows as [|r rows IH]; intros seen k;
    cbn [Transformation.drop_duplicates_from map In]; [tauto|].
  destruct (existsb (Quality.option_eqb (key r)) seen) eqn:E.
  - apply seen_key in E. rewrite IH. split; [tauto|].
    intros [[Hk|H] Hn]; [subst k|]; tauto.
  - assert (Hn : ~ In (key r) seen).
    { intros H. apply seen_key in H. congruence. }
    cbn [map In]. rewrite IH. cbn [In].
    destruct (Quality.option_eqb (key r) k) eqn:Ek.
    + apply option_eqb_eq in Ek. subst k. tauto.
    + assert (Hne : key r <> k).
      { intros Hx. apply option_eqb_eq in Hx. congruence. }
      tauto.
Qed.

Lemma drop_duplicates_from_NoDup (rows : list R) :
  forall seen,
    NoDup (map key (Transformation.drop_duplicates_from key seen rows)).
Proof.
  induction rows as [|r rows IH]; intros seen; simpl; [constructor|].
  destruct (existsb (Quality.option_eqb (key r)) seen); [apply IH|].
  simpl. constructor; [|apply IH].
  rewrite drop_duplicates_from_keys. simpl. tauto.
Qed.

Lemma drop_duplicates_from_first (rows : list R) :
  forall seen r,
    In r (Transformation.drop_duplicates_from key seen rows) ->
    ~ In (key r) seen /\ Transformation.first_with_key key r rows.
Proof.
  induction rows as [|r0 rows IH]; intros seen r; simpl; [tauto|].
  destruct (existsb (Quality.option_eqb (key r0)) seen) eqn:E.
  - apply seen_key in E. intros Hin.
    destruct (IH _ _ Hin) as [Hn (before & after & -> & Hb)].
    split; [exact Hn|]. exists (r0 :: before), after.
    split; [reflexivity|]. intros x [<-|Hx]; [|now apply Hb].
    intros Ek. rewrite Ek in E. tauto.
  - assert (Hn0 : ~ In (key r0) seen).
    { intros H. apply seen_key in H. congruence. }
    intros [<-|Hin].
    + split; [exact Hn0|]. exists [], rows. split; [reflexivity|].
      intros x [].
    + destruct (IH _ _ Hin) as [Hn (before & after & -> & Hb)].
      simpl in Hn. split; [tauto|]. exists (r0 :: before), after.
      split; [reflexivity|]. intros x [<-|Hx]; [|now apply Hb].
      intros Ek. apply Hn. now left.
Qed.

Lemma drop_duplicates_from_keeps_first (rows : list R) :
  forall seen before r after,
    rows = before ++ r :: after ->
    (forall x, In x before -> key x <> key r) ->
    ~ In (key r) seen ->
    In r (Transformation.drop_duplicates_from key seen rows).
Proof.
  induction rows as [|r0 rows IH]; intros seen before r after E Hb Hn.
  - destruct before; discriminate.
  - destruct before as [|b before]; simpl in E; injection E as E1 E2.
    + subst r0 rows. simpl. destruct (existsb _ seen) eqn:Es.
      * apply seen_key in Es. tauto.
      * now left.
    + subst r0 rows. simpl. destruct (existsb _ seen) eqn:Es.
      * apply (IH seen before r after eq_refl); [|exact Hn].
        intros x Hx. apply Hb. now right.
      * right. apply (IH _ before r after eq_refl).
        -- intros x Hx. apply Hb. now right.
        -- simpl. intros [E|H]; [|tauto].
           apply (Hb b); [now left|exact E].
Qed.


Lemma drop_duplicates_from_length (rows : list R) :
  forall seen,
    (List.length (Transformation.drop_duplicates_from key seen rows)
     <= List.length rows)%nat.
Proof.
  induction rows as [|r rows IH]; intros seen; simpl; [lia|].
  destruct (existsb _ seen); simpl.
  - specialize (IH seen). lia.
  - specialize (IH (key r :: seen)). lia.
Qed.

End DropDuplicates.






Section Cleansing.
Context {O : Type}.

(** X23: cleansed customers have distinct ids and no missing text.  The
    customers [cleanse_customer_data] returns carry every customer_id of
    its input exactly once (NULL counting as an id: it is never filled in);
    each returned row is made from a row that is the first of the input
    with its id, whose id and untouched columns it keeps; its names are the
    title-cased input names and its other text columns the input cells,
    each with its default where the cell was missing; and no row is
    added. *)
Theorem cleansed_customers_are_distinct_and_filled :
  forall (df : list (Transformation.customer O)),
    let out := Transformation.cleanse_customer_data df in
    NoDup (map Transformation.customer_id out)
    /\ (forall k, In k (map Transformation.customer_id out)
                  <-> In k (map Transformation.customer_id df))
    /\ (List.length out <= List.length df)%nat
    /\ (forall r, Transformation.first_with_key
                    Transformation.customer_id r df ->
                  exists c, In c out
                            /\ Transformation.customer_id c
                               = Transformation.customer_id r)
    /\ (forall c, In c out ->
          Transformation.filled c
          /\ exists r,
               Transformation.first_with_key Transformation.customer_id r df
               /\ Transformation.customer_id c = Transformation.customer_id r
               /\ Transformation.customer_rest c
                  = Transformation.customer_rest r
               /\ Transformation.first_name c
                  = Some (Transformation.title
                            (match Transformation.first_name r with
                             | Some s => s
                             | None => "Unknown"
                             end))
               /\ Transformation.last_name c
                  = Some (Transformation.title
                            (match Transformation.last_name r with
                             | Some s => s
                             | None => "Unknown"
                             end))
               /\ Transformation.email c
                  = Some (match Transformation.email r with
                          | Some s => s
                          | None => "noemail@example.com"
                          end)
               /\ Transformation.phone c
                  = Some (match Transformation.phone r with
                          | Some s => s
                          | None => "Unknown"
                          end)
               /\ Transformation.city c
                  = Some (match Transformation.city r with
                          | Some s => s
                          | None => "Unknown"
                          end)
               /\ Transformation.state c
                  = Some (match Transformation.state r with
                          | Some s => s
                          | None => "Unknown"
                          end)
               /\ Transformation.country c
                  = Some (match Transformation.country r with
                          | Some s => s
                          | None => "Unknown"
                          end)
               /\ Transformation.age_group c
                  = Some (match Transformation.age_group r with
                          | Some s => s
                          | None => "Unknown"
                          end)).
Proof.
  intros df out. subst out. unfold Transformation.cleanse_customer_data.
  set (clean := fun r : Transformation.customer O => _).
  assert (Hkey : forall l, map Transformation.customer_id (map clean l)
                           = map Transformation.customer_id l).
  { intros l. rewrite map_map. apply map_ext. reflexivity. }
  unfold Transformation.drop_duplicates.
  rewrite Hkey. split; [apply drop_duplicates_from_NoDup|].
  split.
  { intros k. rewrite drop_duplicates_from_keys. simpl. tauto. }
  split.
  { rewrite length_map. apply drop_duplicates_from_length. }
  split.
  { intros r (before & after & E & Hb).
    exists (clean r). split; [|reflexivity]. apply in_map.
    apply (drop_duplicates_from_keeps_first _ _ _ before r after E Hb).
    simpl. tauto. }
  intros c Hc. apply in_map_iff in Hc. destruct Hc as [r [<- Hr]].
  apply drop_duplicates_from_first in Hr. destruct Hr as [_ Hfirst].
  split.
  - unfold Transformation.filled, clean.
    cbn [Transformation.first_name Transformation.last_name
         Transformation.email Transformation.phone Transformation.city
         Transformation.state Transformation.country
         Transformation.age_group].
    destruct (Transformation.first_name r), (Transformation.last_name r),
      (Transformation.email r), (Transformation.phone r),
      (Transformation.city r), (Transformation.state r),
      (Transformation.country r), (Transformation.age_group r);
      repeat split; discriminate.
  - exists r. split; [exact Hfirst|]. unfold clean.
    cbn [Transformation.customer_id Transformation.customer_rest
         Transformation.first_name Transformation.last_name
         Transformation.email Transformation.phone Transformation.city
         Transformation.state Transformation.country
         Transformation.age_group].
    destruct (Transformation.first_name r), (Transformation.last_name r),
      (Transformation.email r), (Transformation.phone r),
      (Transformation.city r), (Transformation.state r),
      (Transformation.country r), (Transformation.age_group r);
      repeat split; reflexivity.
Qed.


End Cleansing.
Lemma repaired_price_and_cost (price cost : option Q) :
  let price' := Transformation.fix_price price in
  let cost' :=
    Transformation.fix_cost_above_price
      price' (Transformation.fix_negative_cost cost) in
  (forall x, price' = Some x -> (0 < x)%Q)
  /\ (forall c, cost' = Some c -> (0 <= c)%Q)
  /\ (forall x c, price' = Some x -> cost' = Some c -> (c < x)%Q)
  /\ (price = None <-> price' = None)
  /\ (cost = None <-> cost' = None)
  /\ ((forall x, price = Some x -> (0 < x)%Q) -> price' = price)
  /\ ((forall x, price = Some x -> (0 < x)%Q) ->
      (forall c, cost = Some c -> (0 <= c)%Q) ->
      (forall x c, price = Some x -> cost = Some c -> (c < x)%Q) ->
      cost' = cost).
Proof.
  unfold Transformation.fix_price, Transformation.fix_negative_cost,
    Transformation.fix_cost_above_price.
  destruct price as [x|], cost as [c|]; cbv zeta.
  - destruct (Qle_bool x 0) eqn:Ex;
      [apply Qle_bool_iff in Ex
      |assert (Hx : (0 < x)%Q)
         by (apply Qnot_le_lt; intros H; apply Qle_bool_iff in H;
             congruence)];
      (destruct (Quality.Qlt_bool c 0) eqn:Ec;
       [apply Qlt_bool_iff in Ec
       |assert (Hc : (0 <= c)%Q)
          by (apply Qnot_lt_le; intros H; apply Qlt_bool_iff in H;
              congruence)]);
      match goal with
      | |- context [Qle_bool ?a ?b] =>
          destruct (Qle_bool a b) eqn:Exc;
          [apply Qle_bool_iff in Exc
          |assert (Hxc : (b < a)%Q)
             by (apply Qnot_le_lt; intros H; apply Qle_bool_iff in H;
                 congruence)]
      end;
      repeat split; intros;
        repeat match goal with
               | H : Some _ = Some _ |- _ => injection H as H; subst
               | H : Some _ = None |- _ => discriminate H
               | H : None = Some _ |- _ => discriminate H
               end;
        try discriminate; try reflexivity; try lra;
        try (exfalso;
             match goal with
             | H : forall x0, Some ?x = Some x0 -> _ |- _ =>
                 pose proof (H x eq_refl)
             end; lra);
        try (exfalso;
             repeat match goal with
                    | H : forall x0, Some ?a = Some x0 -> _ |- _ =>
                        pose proof (H a eq_refl); clear H
                    | H : forall x0 c0, Some ?a = Some x0 ->
                                        Some ?b = Some c0 -> _ |- _ =>
                        pose proof (H a b eq_refl eq_refl); clear H
                    end; lra).
  - destruct (Qle_bool x 0) eqn:Ex;
      [apply Qle_bool_iff in Ex
      |assert (Hx : (0 < x)%Q)
         by (apply Qnot_le_lt; intros H; apply Qle_bool_iff in H;
             congruence)];
      repeat split; intros;
        repeat match goal with
               | H : Some _ = Some _ |- _ => injection H as H; subst
               | H : Some _ = None |- _ => discriminate H
               | H : None = Some _ |- _ => discriminate H
               end;
        try discriminate; try reflexivity; try lra;
        try (exfalso;
             match goal with
             | H : forall x0, Some ?x = Some x0 -> _ |- _ =>
                 pose proof (H x eq_refl)
             end; lra).
  - destruct (Quality.Qlt_bool c 0) eqn:Ec;
      [apply Qlt_bool_iff in Ec
      |assert (Hc : (0 <= c)%Q)
         by (apply Qnot_lt_le; intros H; apply Qlt_bool_iff in H;
             congruence)];
      repeat split; intros;
        repeat match goal with
               | H : Some _ = Some _ |- _ => injection H as H; subst
               | H : Some _ = None |- _ => discriminate H
               | H : None = Some _ |- _ => discriminate H
               end;
        try discriminate; try reflexivity; try lra;
        try (exfalso;
             match goal with
             | H : forall x0, Some ?x = Some x0 -> _ |- _ =>
                 pose proof (H x eq_refl)
             end; lra).
  - repeat split; intros; try discriminate; reflexivity.
Qed.
Section ProductCleansing.
Context {O : Type}.

(** X25: cleansed products pass the price and cost check.  The products
    [cleanse_product_data] returns have distinct ids; in each of them a
    price that is not missing is above 0 and a cost that is not missing is
    at least 0 and below the price, so that [check_data_ranges] counts no
    product of a table that holds them; a missing price or cost stays
    missing; and a row whose price and cost were in range keeps both. *)
Theorem cleansed_products_pass_the_range_check :
  forall (df : list (Transformation.product O)),
    let out := Transformation.cleanse_product_data df in
    NoDup (map Transformation.product_id out)
    /\ (forall p, In p out ->
                  ~ Quality.product_out_of_range
                      (Transformation.checked_product p))
    /\ (forall (CURRENT_DATE : Z) (schema : string) (db : Quality.tables),
          Quality.products db = map Transformation.checked_product out ->
          exists details,
            Quality.get "details" (Quality.VDict [])
                        (Quality.check_data_ranges CURRENT_DATE schema db)
            = Some details
            /\ Quality.get "products_price_cost" (Quality.VInt 0) details
               = Some (Quality.VInt 0))
    /\ (forall p, In p out ->
          exists r,
            Transformation.first_with_key Transformation.product_id r df
            /\ Transformation.product_id p = Transformation.product_id r
            /\ (Transformation.price r = None
                <-> Transformation.price p = None)
            /\ (Transformation.cost r = None
                <-> Transformation.cost p = None)
            /\ (~ Quality.product_out_of_range
                    (Transformation.checked_product r) ->
                Transformation.price p = Transformation.price r
                /\ Transformation.cost p = Transformation.cost r)).
Proof.
  intros df out. subst out. unfold Transformation.cleanse_product_data.
  set (clean := fun r : Transformation.product O => _).
  assert (Hkey : forall l, map Transformation.product_id (map clean l)
                           = map Transformation.product_id l).
  { intros l. rewrite map_map. apply map_ext. reflexivity. }
  assert (Hrange : forall r, ~ Quality.product_out_of_range
                                 (Transformation.checked_product (clean r))).
  { intros r. unfold Quality.product_out_of_range,
                Transformation.checked_product, clean.
    cbn [Quality.price Quality.cost Transformation.price
         Transformation.cost].
    destruct (repaired_price_and_cost (Transformation.price r)
                                      (Transformation.cost r))
      as (Hp & Hc & Hpc & _).
    cbv zeta in Hp, Hc, Hpc.
    intros [(x & Ex & H)|[(c & Ec & H)|(x & c & Ex & Ec & H)]].
    - specialize (Hp x Ex). lra.
    - specialize (Hc c Ec). lra.
    - specialize (Hpc x c Ex Ec). lra. }
  unfold Transformation.drop_duplicates.
  split; [rewrite Hkey; apply drop_duplicates_from_NoDup|].
  split.
  { intros p Hp. apply in_map_iff in Hp. destruct Hp as [r [<- _]].
    apply Hrange. }
  split.
  { intros today schema db Hdb. eexists. split; [reflexivity|].
    cbn [Quality.get dict_get String.eqb Ascii.eqb Bool.eqb].
    do 2 f_equal.
    apply (count_where_zero _ _ (Quality.products db) product_counted).
    intros p Hp. rewrite Hdb in Hp. apply in_map_iff in Hp.
    destruct Hp as [p' [<- Hp']]. apply in_map_iff in Hp'.
    destruct Hp' as [r [<- _]]. apply Hrange. }
  intros p Hp. apply in_map_iff in Hp. destruct Hp as [r [<- Hr]].
  apply drop_duplicates_from_first in Hr. destruct Hr as [_ Hfirst].
  exists r. split; [exact Hfirst|]. split; [reflexivity|].
  unfold clean. cbn [Transformation.price Transformation.cost].
  destruct (repaired_price_and_cost (Transformation.price r)
                                    (Transformation.cost r))
    as (_ & _ & _ & Hnp & Hnc & Hkp & Hkc).
  cbv zeta in Hnp, Hnc, Hkp, Hkc.
  split; [exact Hnp|]. split; [exact Hnc|].
  intros Hin.
  assert (H1 : forall x, Transformation.price r = Some x -> (0 < x)%Q).
  { intros x Ex. apply Qnot_le_lt. intros Hle. apply Hin. left.
    exists x. split; [exact Ex|exact Hle]. }
  assert (H2 : forall c, Transformation.cost r = Some c -> (0 <= c)%Q).
  { intros c Ec. apply Qnot_lt_le. intros Hlt. apply Hin. right. left.
    exists c. split; [exact Ec|exact Hlt]. }
  assert (H3 : forall x c, Transformation.price r = Some x ->
                           Transformation.cost r = Some c -> (c < x)%Q).
  { intros x c Ex Ec. apply Qnot_le_lt. intros Hle. apply Hin. right. right.
    exists x, c. repeat split; assumption. }
  split; [apply Hkp; exact H1 | apply Hkc; assumption].
Qed.

End ProductCleansing.
Lemma filter_map_swap {A B : Type} (f : B -> bool) (h : A -> B)
      (l : list A) :
  filter f (map h l) = map h (filter (fun x => f (h x)) l).
Proof.
  induction l as [|a l IH]; simpl; [reflexivity|].
  destruct (f (h a)); simpl; now rewrite IH.
Qed.

Lemma filter_filter {A : Type} (f g : A -> bool) (l : list A) :
  filter g (filter f l) = filter (fun x => f x && g x) l.
Proof.
  induction l as [|a l IH]; simpl; [reflexivity|].
  destruct (f a); simpl; [destruct (g a)|]; now rewrite IH.
Qed.

Section BusinessRules.
Context {O : Type}.
Variable line_total_of : option Z -> option Q -> option Q -> option Q.
Variable round_2 : Q -> Q.

(** X26: the business rules drop the rows they cannot accept.  Of an items
    frame, the item rule keeps, in their order, exactly the rows whose
    quantity is above 0 and whose discount lies between 0 and 100, with the
    line total recomputed; a row with a missing quantity or discount is
    dropped, and no kept row is one the range check counts.  Of a
    transactions frame, the transaction rule keeps the rows whose rounded
    total, 0 for a missing one, is at least 0, so that no kept row has a
    missing or negative total.  A rule given the other frame raises, and an
    unknown rule returns the frame as it is. *)
Theorem business_rules_keep_the_rows_in_range :
  forall (items : list (Transformation.transaction_item O))
         (txns : list (Transformation.transaction O)),
    (exists out,
        Transformation.apply_business_rules
          line_total_of round_2 (Transformation.Items items)
          "transaction_item"
        = Some (Transformation.Items out)
        /\ out
           = map (fun r =>
                    {| Transformation.quantity := Transformation.quantity r;
                       Transformation.unit_price :=
                         Transformation.unit_price r;
                       Transformation.discount_percentage :=
                         Transformation.discount_percentage r;
                       Transformation.line_total :=
                         line_total_of
                           (Transformation.quantity r)
                           (Transformation.unit_price r)
                           (Transformation.discount_percentage r);
                       Transformation.item_rest :=
                         Transformation.item_rest r |})
                 (filter
                    (fun r =>
                       match Transformation.quantity r,
                             Transformation.discount_percentage r with
                       | Some q, Some d =>
                           (0 <? q) && Qle_bool 0 d && Qle_bool d 100
                       | _, _ => false
                       end) items)
        /\ (forall i, In i out ->
              (exists q, Transformation.quantity i = Some q /\ 0 < q)
              /\ (exists d, Transformation.discount_percentage i = Some d
                            /\ (0 <= d)%Q /\ (d <= 100)%Q)
              /\ forall item_id ti_transaction_id ti_product_id,
                   ~ Quality.item_out_of_range
                       (Transformation.checked_item
                          item_id ti_transaction_id ti_product_id i)))
    /\ (exists out,
           Transformation.apply_business_rules
             line_total_of round_2 (Transformation.Transactions txns)
             "transaction"
           = Some (Transformation.Transactions out)
           /\ (forall t, In t out ->
                 exists r x,
                   In r txns
                   /\ Transformation.transaction_rest t
                      = Transformation.transaction_rest r
                   /\ Transformation.total_amount t = Some x
                   /\ x = round_2 (match Transformation.total_amount r with
                                   | Some a => a
                                   | None => 0%Q
                                   end)
                   /\ (0 <= x)%Q)
           /\ (forall r, In r txns ->
                 (0 <= round_2 (match Transformation.total_amount r with
                                | Some a => a
                                | None => 0%Q
                                end))%Q ->
                 exists t, In t out
                           /\ Transformation.transaction_rest t
                              = Transformation.transaction_rest r))
    /\ Transformation.apply_business_rules
         line_total_of round_2 (Transformation.Transactions txns)
         "transaction_item" = None
    /\ Transformation.apply_business_rules
         line_total_of round_2 (Transformation.Items items)
         "transaction" = None
    /\ (forall (df : Transformation.frame O) rule_type,
          rule_type <> "transaction_item" -> rule_type <> "transaction" ->
          Transformation.apply_business_rules
            line_total_of round_2 df rule_type = Some df).
Proof.
  intros items txns. split; [|split; [|split; [|split]]].
  - eexists. split; [reflexivity|]. split.
    + rewrite filter_filter, filter_map_swap. f_equal.
      apply filter_ext. intros r.
      cbn [Transformation.quantity Transformation.discount_percentage].
      destruct (Transformation.quantity r) as [q|],
        (Transformation.discount_percentage r) as [d|];
        cbn [Quality.sql_cmp Quality.is_true andb];
        try reflexivity.
      * destruct (0 <? q), (Qle_bool 0 d), (Qle_bool d 100); reflexivity.
      * destruct (0 <? q); reflexivity.
    + intros i Hi. apply filter_In in Hi. destruct Hi as [Hi Hd].
      apply filter_In in Hi. destruct Hi as [_ Hq].
      apply andb_true_iff in Hd. destruct Hd as [Hd0 Hd100].
      apply cmp_true in Hq. destruct Hq as (z & q & Ez & Eq & Hq).
      injection Ez as <-. apply Z.ltb_lt in Hq.
      apply cmp_true in Hd0. destruct Hd0 as (z & d & Ez & Ed & Hd0).
      injection Ez as <-. apply Qle_bool_iff in Hd0.
      apply cmp_true in Hd100. destruct Hd100 as (d' & h & Ed' & Eh & Hd100).
      injection Eh as <-. rewrite Ed in Ed'. injection Ed' as <-.
      apply Qle_bool_iff in Hd100.
      split; [eauto|]. split; [eauto|].
      intros f g h. unfold Quality.item_out_of_range,
                      Transformation.checked_item.
      cbn [Quality.quantity Quality.discount_percentage].
      rewrite Eq, Ed.
      intros [(q' & E & H)|(d' & E & [H|H])]; injection E as <-;
        [lia|lra|lra].
  - eexists. split; [reflexivity|]. split.
    + intros t Ht. apply filter_In in Ht. destruct Ht as [Ht Hx].
      apply in_map_iff in Ht. destruct Ht as [r [<- Hr]].
      cbn [Transformation.total_amount Transformation.transaction_rest]
        in *.
      apply cmp_true in Hx. destruct Hx as (z & x & Ez & Ex & Hx).
      injection Ez as <-. apply Qle_bool_iff in Hx.
      exists r, x. split; [exact Hr|]. split; [reflexivity|].
      split; [exact Ex|]. split; [|exact Hx].
      destruct (Transformation.total_amount r);
        cbn [Transformation.fillna option_map] in Ex; congruence.
    + intros r Hr Hx. eexists. split.
      * apply filter_In. split.
        -- apply in_map. exact Hr.
        -- cbn [Transformation.total_amount]. apply cmp_true.
           exists 0%Q,
             (round_2 (match Transformation.total_amount r with
                       | Some a => a
                       | None => 0%Q
                       end)).
           split; [reflexivity|]. split.
           ++ destruct (Transformation.total_amount r);
                cbn [Transformation.fillna option_map]; reflexivity.
           ++ apply Qle_bool_iff. exact Hx.
      * reflexivity.
  - reflexivity.
  - reflexivity.
  - intros df rule_type H1 H2. unfold Transformation.apply_business_rules.
    destruct (String.eqb_spec rule_type "transaction_item");
      [contradiction|].
    destruct (String.eqb_spec rule_type "transaction"); [contradiction|].
    reflexivity.
Qed.

End BusinessRules.
(* ------------------------------------------------------------------ *)
(** * What a warehouse build leaves in place *)
(* ------------------------------------------------------------------ *)

Lemma Forall2_refl {R : Type} (kept : R -> R -> Prop) (l : list R) :
  (forall r, kept r r) -> Forall2 kept l l.
Proof. intros H. induction l; constructor; auto. Qed.

Lemma Forall2_trans {R : Type} (kept : R -> R -> Prop) :
  (forall a b c, kept a b -> kept b c -> kept a c) ->
  forall l1 l2 l3, Forall2 kept l1 l2 -> Forall2 kept l2 l3 ->
                   Forall2 kept l1 l3.
Proof.
  intros Ht l1 l2 l3 H12. revert l3.
  induction H12 as [|a b l1 l2 Hab _ IH]; intros l3 H23;
    inversion H23; subst; constructor; eauto.
Qed.

Lemma grows_refl {R : Type} (kept : R -> R -> Prop) (rows : list R) :
  (forall r, kept r r) -> grows kept rows rows.
Proof.
  intros H. exists rows, []. rewrite app_nil_r.
  split; [reflexivity|now apply Forall2_refl].
Qed.

Lemma grows_app {R : Type} (kept : R -> R -> Prop) (rows added : list R) :
  (forall r, kept r r) -> grows kept rows (rows ++ added).
Proof.
  intros H. exists rows, added. split; [reflexivity|now apply Forall2_refl].
Qed.

Lemma grows_trans {R : Type} (kept : R -> R -> Prop) :
  (forall r, kept r r) ->
  (forall a b c, kept a b -> kept b c -> kept a c) ->
  forall l1 l2 l3, grows kept l1 l2 -> grows kept l2 l3 -> grows kept l1 l3.
Proof.
  intros Hr Ht l1 l2 l3 (old1 & add1 & -> & H1) (old2 & add2 & -> & H2).
  apply Forall2_app_inv_l in H2.
  destruct H2 as (o1 & o2 & Ho1 & Ho2 & ->).
  exists o1, (o2 ++ add2). split; [now rewrite app_assoc|].
  now apply (Forall2_trans kept Ht l1 old1 o1).
Qed.

Lemma grows_eq_in {R : Type} (rows rows' : list R) :
  grows eq rows rows' <-> exists added, rows' = rows ++ added.
Proof.
  split.
  - intros (old & added & -> & H). exists added. f_equal.
    induction H; [reflexivity|]. now subst.
  - intros [added ->]. apply grows_app. reflexivity.
Qed.

Lemma customer_version_kept_refl r : customer_version_kept r r.
Proof. split; [repeat split|now left]. Qed.

Lemma product_version_kept_refl r : product_version_kept r r.
Proof. split; [repeat split|now left]. Qed.

Lemma customer_version_kept_trans a b c :
  customer_version_kept a b -> customer_version_kept b c ->
  customer_version_kept a c.
Proof.
  intros [Sab Hab] [Sbc Hbc]. split.
  - unfold same_customer_version in *.
    repeat match goal with H : _ /\ _ |- _ => destruct H end.
    repeat split; congruence.
  - destruct Hab as [->|[Ha Hb]]; [exact Hbc|].
    destruct Hbc as [->|[Hb' _]]; [now right|congruence].
Qed.

Lemma product_version_kept_trans a b c :
  product_version_kept a b -> product_version_kept b c ->
  product_version_kept a c.
Proof.
  intros [Sab Hab] [Sbc Hbc]. split.
  - unfold same_product_version in *.
    repeat match goal with H : _ /\ _ |- _ => destruct H end.
    repeat split; congruence.
  - destruct Hab as [->|[Ha Hb]]; [exact Hbc|].
    destruct Hbc as [->|[Hb' _]]; [now right|congruence].
Qed.

Lemma only_grows_refl w : only_grows w w.
Proof.
  unfold only_grows.
  repeat split;
    first [apply grows_refl; reflexivity
          |apply grows_refl; apply customer_version_kept_refl
          |apply grows_refl; apply product_version_kept_refl].
Qed.

Lemma only_grows_trans w1 w2 w3 :
  only_grows w1 w2 -> only_grows w2 w3 -> only_grows w1 w3.
Proof.
  intros (A1 & A2 & A3 & A4 & A5 & A6 & A7 & A8)
         (B1 & B2 & B3 & B4 & B5 & B6 & B7 & B8).
  assert (Heq : forall R, forall a b c : R, a = b -> b = c -> a = c)
    by (intros; congruence).
  unfold only_grows. repeat split.
  - apply (grows_trans _ customer_version_kept_refl
                       customer_version_kept_trans _ _ _ A1 B1).
  - apply (grows_trans _ product_version_kept_refl
                       product_version_kept_trans _ _ _ A2 B2).
  - apply (grows_trans eq (@eq_refl _) (Heq _) _ _ _ A3 B3).
  - apply (grows_trans eq (@eq_refl _) (Heq _) _ _ _ A4 B4).
  - apply (grows_trans eq (@eq_refl _) (Heq _) _ _ _ A5 B5).
  - apply (grows_trans eq (@eq_refl _) (Heq _) _ _ _ A6 B6).
  - apply (grows_trans eq (@eq_refl _) (Heq _) _ _ _ A7 B7).
  - apply (grows_trans eq (@eq_refl _) (Heq _) _ _ _ A8 B8).
Qed.

Lemma update_where_kept {R : Type} (kept : R -> R -> Prop)
      (cond : R -> bool) (set : R -> R) (table : list R) :
  (forall r, kept r r) ->
  (forall r, cond r = true -> kept r (set r)) ->
  grows kept table (fst (Sql.update_where cond set table)).
Proof.
  intros Hr Hs. exists (fst (Sql.update_where cond set table)), [].
  rewrite app_nil_r. split; [reflexivity|].
  unfold Sql.update_where. cbn [fst].
  induction table as [|r rows IH]; [constructor|].
  cbn [map]. constructor; [|exact IH].
  destruct (cond r) eqn:E; auto.
Qed.

Ltac grows_same :=
  first [apply grows_refl; reflexivity
        |apply grows_refl; apply customer_version_kept_refl
        |apply grows_refl; apply product_version_kept_refl].

Ltac grows_by_insert :=
  match goal with
  | |- context [Sql.insert_on_conflict_do_nothing ?c ?t ?p] =>
      let added := fresh "added" in
      let E := fresh "E" in
      destruct (insert_on_conflict_appends c p t) as [added [E _]];
      rewrite E; unfold only_grows; cbn;
      repeat split;
      first [grows_same
            |apply grows_app; reflexivity
            |apply grows_app; apply customer_version_kept_refl
            |apply grows_app; apply product_version_kept_refl]
  end.

Lemma insert_dim_customers_grows src today w :
  only_grows w (fst (insert_dim_customers src today w)).
Proof. unfold insert_dim_customers. grows_by_insert. Qed.

Lemma insert_dim_products_grows src today w :
  only_grows w (fst (insert_dim_products src today w)).
Proof. unfold insert_dim_products. grows_by_insert. Qed.

Lemma insert_dim_payment_method_grows src today w :
  only_grows w (fst (insert_dim_payment_method src today w)).
Proof. unfold insert_dim_payment_method. grows_by_insert. Qed.

Lemma insert_agg_daily_sales_grows src today w :
  only_grows w (fst (insert_agg_daily_sales src today w)).
Proof. unfold insert_agg_daily_sales. grows_by_insert. Qed.

Lemma insert_agg_product_sales_grows src today w :
  only_grows w (fst (insert_agg_product_sales src today w)).
Proof. unfold insert_agg_product_sales. grows_by_insert. Qed.

Lemma insert_agg_customer_lifetime_grows src today w :
  only_grows w (fst (insert_agg_customer_lifetime src today w)).
Proof. unfold insert_agg_customer_lifetime. grows_by_insert. Qed.

Lemma append_dim_date_grows dates src today w :
  only_grows w (fst (append_dim_date dates src today w)).
Proof.
  unfold append_dim_date, only_grows. cbn.
  repeat split; first [grows_same | apply grows_app; reflexivity].
Qed.

Lemma insert_fact_sales_grows src today w :
  only_grows w (fst (insert_fact_sales src today w)).
Proof.
  unfold insert_fact_sales, only_grows. cbn.
  repeat split; first [grows_same | apply grows_app; reflexivity].
Qed.

Lemma update_dim_customers_grows src today w :
  only_grows w (fst (update_dim_customers src today w)).
Proof.
  unfold update_dim_customers.
  pose proof (update_where_kept
                customer_version_kept
                (fun r => dc_is_current r
                          && existsb (String.eqb (dc_customer_id r))
                                     (inactive_customer_ids src))
                (retire_customer today) (dim_customers w)
                customer_version_kept_refl) as H.
  destruct (Sql.update_where _ _ (dim_customers w)) as [rows n].
  unfold only_grows. cbn in *.
  repeat split; try grows_same.
  apply H. intros r Hr. apply andb_true_iff in Hr. destruct Hr as [Hr _].
  split; [repeat split|]. right. split; [exact Hr|reflexivity].
Qed.

Lemma update_dim_products_grows src today w :
  only_grows w (fst (update_dim_products src today w)).
Proof.
  unfold update_dim_products.
  pose proof (update_where_kept
                product_version_kept
                (fun r => dp_is_current r
                          && existsb (String.eqb (dp_product_id r))
                                     (inactive_product_ids src))
                (retire_product today) (dim_products w)
                product_version_kept_refl) as H.
  destruct (Sql.update_where _ _ (dim_products w)) as [rows n].
  unfold only_grows. cbn in *.
  repeat split; try grows_same.
  apply H. intros r Hr. apply andb_true_iff in Hr. destruct Hr as [Hr _].
  split; [repeat split|]. right. split; [exact Hr|reflexivity].
Qed.

Section GrowsFrom.
Variable w0 : warehouse.

Lemma grows_step {A}
      (effect : sources -> date -> warehouse -> warehouse * A) :
  (forall src today w, only_grows w (fst (effect src today w))) ->
  forall src today w, only_grows w0 w ->
                      only_grows w0 (fst (effect src today w)).
Proof. intros H src today w H0. eapply only_grows_trans; eauto. Qed.

Lemma apply_scd_type2_grows dimension_name :
  preserves (only_grows w0) (apply_scd_type2 dimension_name).
Proof.
  unfold apply_scd_type2.
  destruct (dimension_name =? "dim_customers")%string.
  - apply preserves_bind; [|intros; apply preserves_ret].
    apply preserves_execute. apply grows_step.
    apply update_dim_customers_grows.
  - destruct (dimension_name =? "dim_products")%string.
    + apply preserves_bind; [|intros; apply preserves_ret].
      apply preserves_execute. apply grows_step.
      apply update_dim_products_grows.
    + apply preserves_ret.
Qed.

Lemma main_transaction_grows utcnow :
  preserves (only_grows w0) (main_transaction utcnow).
Proof.
  unfold main_transaction.
  apply preserves_bind;
    [apply preserves_execute; apply grows_step;
     apply insert_dim_customers_grows|].
  intros cust_count. apply preserves_bind;
    [apply preserves_execute; apply grows_step;
     apply insert_dim_products_grows|].
  intros prod_count. apply preserves_bind;
    [apply preserves_execute; intros; assumption|].
  intros date_range. apply preserves_bind.
  { unfold build_dim_date. apply preserves_bind; [apply preserves_lift|].
    intros dates. apply preserves_execute. apply grows_step.
    apply append_dim_date_grows. }
  intros date_count. apply preserves_bind;
    [apply preserves_execute; apply grows_step;
     apply insert_dim_payment_method_grows|].
  intros pm_count. apply preserves_bind;
    [apply preserves_execute; apply grows_step;
     apply insert_fact_sales_grows|].
  intros fact_count. apply preserves_bind;
    [apply preserves_execute; apply grows_step;
     apply insert_agg_daily_sales_grows|].
  intros agg_daily. apply preserves_bind;
    [apply preserves_execute; apply grows_step;
     apply insert_agg_product_sales_grows|].
  intros agg_prod. apply preserves_bind;
    [apply preserves_execute; apply grows_step;
     apply insert_agg_customer_lifetime_grows|].
  intros agg_cust. apply preserves_bind; [apply apply_scd_type2_grows|].
  intros scd_cust. apply preserves_bind; [apply apply_scd_type2_grows|].
  intros scd_prod. apply preserves_ret.
Qed.

Lemma build_body_grows b : preserves (only_grows w0) (build_body b).
Proof.
  destruct b; simpl; unfold discard;
    (apply preserves_bind; [|intros; apply preserves_ret]).
  - apply preserves_execute. apply grows_step.
    apply insert_dim_customers_grows.
  - apply preserves_execute. apply grows_step.
    apply insert_dim_products_grows.
  - apply apply_scd_type2_grows.
  - apply main_transaction_grows.
Qed.

End GrowsFrom.

Lemma run_build_grows w b : only_grows w (run_build w b).
Proof.
  destruct b as [[src env] what]. unfold run_build, engine_begin.
  destruct (build_body what (connect env _)) as [a c|e] eqn:Hrun; simpl.
  - destruct (build_body_grows w what _ _ _ Hrun) as [_ Hk].
    apply Hk. apply only_grows_refl.
  - apply only_grows_refl.
Qed.

(** X27: a build never removes or rewrites a loaded row.  After any
    sequence of builds (dimension loads, retirements and whole runs of
    [main], committed or rolled back), every table of the warehouse still
    holds the rows it held before, in their places and unchanged, followed
    by the rows added since; the only rows ever rewritten are dimension
    versions that were current and no longer are.  In particular a fact row
    or an aggregate row, once loaded, stays as it was loaded, whatever is
    loaded later. *)
Theorem builds_never_remove_or_rewrite_rows :
  forall (builds : list (sources * store_behaviour * build))
         (w : warehouse),
    let w' := run_builds builds w in
    only_grows w w'
    /\ (forall fs, In fs (fact_sales w) -> In fs (fact_sales w'))
    /\ (forall a, In a (agg_daily_sales w) -> In a (agg_daily_sales w'))
    /\ (forall a, In a (agg_product_sales w) -> In a (agg_product_sales w'))
    /\ (forall a, In a (agg_customer_lifetime w) ->
                  In a (agg_customer_lifetime w'))
    /\ (forall d, In d (dim_date w) -> In d (dim_date w'))
    /\ (forall utcnow env db,
          only_grows (db_wh db) (db_wh (fst (main utcnow env db)))).
Proof.
  intros builds w w'. subst w'.
  assert (H : only_grows w (run_builds builds w)).
  { revert w. induction builds as [|b rest IH]; intros w; simpl.
    - apply only_grows_refl.
    - eapply only_grows_trans; [apply run_build_grows|apply IH]. }
  split; [exact H|].
  destruct H as (_ & _ & Hd & _ & Hf & Ha & Hp & Hc).
  apply grows_eq_in in Hd, Hf, Ha, Hp, Hc.
  destruct Hd as [xd Hd], Hf as [xf Hf], Ha as [xa Ha], Hp as [xp Hp],
    Hc as [xc Hc].
  rewrite Hd, Hf, Ha, Hp, Hc.
  do 5 (split; [intros x Hx; apply in_or_app; now left|]).
  intros utcnow env db. unfold main, engine_begin.
  destruct (main_transaction utcnow (connect env db)) as [log c|e] eqn:Hrun;
    cbn [fst db_wh]; [|apply only_grows_refl].
  destruct (main_transaction_grows (db_wh db) utcnow _ _ _ Hrun) as [_ Hk].
  apply Hk. apply only_grows_refl.
Qed.
(* ------------------------------------------------------------------ *)
(** * Loading into production *)
(* ------------------------------------------------------------------ *)

Section ProductionLoads.
Context {C O : Type}.
Variable line_total_of : option Z -> option Q -> option Q -> option Q.
Variable round_2 : Q -> Q.





End ProductionLoads.

(* ------------------------------------------------------------------ *)
(** * The steps behind the orchestrator *)
(* ------------------------------------------------------------------ *)


Section Steps.
Context {W value C O : Type}.
Variable line_total_of : option Z -> option Q -> option Q -> option Q.
Variable round_2 : Q -> Q.



End Steps.

(* ------------------------------------------------------------------ *)
(** * Ingestion *)
(* ------------------------------------------------------------------ *)

Lemma dict_get_set_same {V : Type} (k : string) (v : V)
      (d : list (string * V)) :
  dict_get k (Orchestrator.dict_set k v d) = Some v.
Proof.
  induction d as [|[k' v'] d IH]; simpl.
  - now rewrite String.eqb_refl.
  - destruct (String.eqb_spec k' k) as [->|Hne]; simpl.
    + now rewrite String.eqb_refl.
    + destruct (String.eqb_spec k' k); [contradiction|exact IH].
Qed.

Lemma dict_get_set_other {V : Type} (k k' : string) (v : V)
      (d : list (string * V)) :
  k <> k' ->
  dict_get k' (Orchestrator.dict_set k v d) = dict_get k' d.
Proof.
  intros Hne. induction d as [|[k0 v0] d IH]; simpl.
  - destruct (String.eqb_spec k k'); [contradiction|reflexivity].
  - destruct (String.eqb_spec k0 k) as [->|Hne0]; simpl.
    + destruct (String.eqb_spec k k'); [contradiction|reflexivity].
    + destruct (String.eqb_spec k0 k'); [reflexivity|exact IH].
Qed.

Section IngestionFacts.
Context {row : Type}.

Lemma truncate_runs (env : Ingestion.environment row) (t : string)
      (db : Ingestion.tables row) :
  match Ingestion.truncate env t db with
  | Some (_, db') =>
      Ingestion.rejects env (Ingestion.Truncate t) = false
      /\ dict_get t db <> None
      /\ db' = Orchestrator.dict_set t [] db
  | None =>
      Ingestion.rejects env (Ingestion.Truncate t) = true
      \/ dict_get t db = None
  end.
Proof.
  unfold Ingestion.truncate.
  destruct (Ingestion.rejects env (Ingestion.Truncate t)); [now left|].
  destruct (dict_get t db); [|now right].
  repeat split. discriminate.
Qed.

Lemma load_runs (env : Ingestion.environment row) (path t : string)
      (db : Ingestion.tables row) :
  match Ingestion.load_csv_to_staging env path t db with
  | Some (r, db') =>
      exists df,
        Ingestion.read_csv env path = Some df
        /\ Ingestion.rejects env (Ingestion.InsertInto t) = false
        /\ r = (t, {| Ingestion.rows_loaded := Z.of_nat (List.length df);
                      Ingestion.status := "success" |})
        /\ db' = Orchestrator.dict_set
                   t (match dict_get t db with
                      | Some rows => rows ++ df
                      | None => df
                      end) db
  | None =>
      Ingestion.read_csv env path = None
      \/ Ingestion.rejects env (Ingestion.InsertInto t) = true
  end.
Proof.
  unfold Ingestion.load_csv_to_staging, Ingestion.bulk_insert_data,
    Ingestion.bind, Ingestion.to_sql, Ingestion.ret.
  destruct (Ingestion.read_csv env path) as [df|]; [|now left].
  destruct (Ingestion.rejects env (Ingestion.InsertInto t)); [now right|].
  exists df. repeat split.
Qed.

Lemma count_runs (env : Ingestion.environment row) (t : string)
      (db : Ingestion.tables row) :
  match Ingestion.select_count env t db with
  | Some (n, db') =>
      Ingestion.rejects env (Ingestion.SelectCount t) = false
      /\ db' = db
      /\ exists rows, dict_get t db = Some rows
                      /\ n = Z.of_nat (List.length rows)
  | None =>
      Ingestion.rejects env (Ingestion.SelectCount t) = true
      \/ dict_get t db = None
  end.
Proof.
  unfold Ingestion.select_count.
  destruct (Ingestion.rejects env (Ingestion.SelectCount t)); [now left|].
  destruct (dict_get t db) as [rows|]; [|now right].
  repeat split. exists rows. split; reflexivity.
Qed.

End IngestionFacts.
Section IngestionRun.
Context {row : Type}.

Lemma staging_table_cases (t : string) :
  Ingestion.staging_table t = true
  <-> t = "staging.customers" \/ t = "staging.products"
      \/ t = "staging.transactions" \/ t = "staging.transaction_items".
Proof.
  unfold Ingestion.staging_table. cbn [existsb].
  rewrite !orb_true_iff, !String.eqb_eq. intuition discriminate.
Qed.

Ltac lookups :=
  repeat first [rewrite dict_get_set_same
               |rewrite dict_get_set_other by discriminate].

(** What a run of the transaction that returns has done. *)
Lemma main_transaction_returns (env : Ingestion.environment row)
      (db db' : Ingestion.tables row) res :
  Ingestion.main_transaction env db = Some (res, db') ->
  Ingestion.accepted env /\ Ingestion.tables_exist db
  /\ exists customers products transactions items,
       Ingestion.files_read env customers products transactions items
       /\ Ingestion.staged db' customers products transactions items
       /\ Ingestion.same_other_tables db db'
       /\ res
          = ([("staging.customers",
               {| Ingestion.rows_loaded :=
                    Z.of_nat (List.length customers);
                  Ingestion.status := "success" |});
              ("staging.products",
               {| Ingestion.rows_loaded := Z.of_nat (List.length products);
                  Ingestion.status := "success" |});
              ("staging.transactions",
               {| Ingestion.rows_loaded :=
                    Z.of_nat (List.length transactions);
                  Ingestion.status := "success" |});
              ("staging.transaction_items",
               {| Ingestion.rows_loaded := Z.of_nat (List.length items);
                  Ingestion.status := "success" |})],
             [("staging.customers", Z.of_nat (List.length customers));
              ("staging.products", Z.of_nat (List.length products));
              ("staging.transactions",
               Z.of_nat (List.length transactions));
              ("staging.transaction_items",
               Z.of_nat (List.length items))]).
Proof.
  unfold Ingestion.main_transaction, Ingestion.validate_staging_load,
    Ingestion.bind, Ingestion.ret.
  pose proof (truncate_runs env "staging.transaction_items" db) as T1.
  destruct (Ingestion.truncate env "staging.transaction_items" db)
    as [[u1 d1]|]; [|discriminate].
  destruct T1 as (A1 & B1 & ->).
  match goal with
  | |- context [Ingestion.truncate env "staging.transactions" ?d] =>
      pose proof (truncate_runs env "staging.transactions" d) as T2;
      destruct (Ingestion.truncate env "staging.transactions" d)
        as [[u2 d2]|]; [|discriminate]
  end.
  destruct T2 as (A2 & B2 & ->).
  match goal with
  | |- context [Ingestion.truncate env "staging.products" ?d] =>
      pose proof (truncate_runs env "staging.products" d) as T3;
      destruct (Ingestion.truncate env "staging.products" d)
        as [[u3 d3]|]; [|discriminate]
  end.
  destruct T3 as (A3 & B3 & ->).
  match goal with
  | |- context [Ingestion.truncate env "staging.customers" ?d] =>
      pose proof (truncate_runs env "staging.customers" d) as T4;
      destruct (Ingestion.truncate env "staging.customers" d)
        as [[u4 d4]|]; [|discriminate]
  end.
  destruct T4 as (A4 & B4 & E4).
  match goal with
  | |- context [Ingestion.load_csv_to_staging env ?p ?t d4] =>
      pose proof (load_runs env p t d4) as L1;
      destruct (Ingestion.load_csv_to_staging env p t d4)
        as [[r1 d5]|]; [|discriminate]
  end.
  destruct L1 as (c & F1 & I1 & -> & E5).
  match goal with
  | |- context [Ingestion.load_csv_to_staging env ?p ?t d5] =>
      pose proof (load_runs env p t d5) as L2;
      destruct (Ingestion.load_csv_to_staging env p t d5)
        as [[r2 d6]|]; [|discriminate]
  end.
  destruct L2 as (p & F2 & I2 & -> & E6).
  match goal with
  | |- context [Ingestion.load_csv_to_staging env ?p ?t d6] =>
      pose proof (load_runs env p t d6) as L3;
      destruct (Ingestion.load_csv_to_staging env p t d6)
        as [[r3 d7]|]; [|discriminate]
  end.
  destruct L3 as (t & F3 & I3 & -> & E7).
  match goal with
  | |- context [Ingestion.load_csv_to_staging env ?p ?t d7] =>
      pose proof (load_runs env p t d7) as L4;
      destruct (Ingestion.load_csv_to_staging env p t d7)
        as [[r4 d8]|]; [|discriminate]
  end.
  destruct L4 as (i & F4 & I4 & -> & E8).
  pose proof (count_runs env "staging.customers" d8) as C1.
  destruct (Ingestion.select_count env "staging.customers" d8)
    as [[n1 e1]|]; [|discriminate].
  destruct C1 as (S1 & -> & rows1 & G1 & ->).
  pose proof (count_runs env "staging.products" d8) as C2.
  destruct (Ingestion.select_count env "staging.products" d8)
    as [[n2 e2]|]; [|discriminate].
  destruct C2 as (S2 & -> & rows2 & G2 & ->).
  pose proof (count_runs env "staging.transactions" d8) as C3.
  destruct (Ingestion.select_count env "staging.transactions" d8)
    as [[n3 e3]|]; [|discriminate].
  destruct C3 as (S3 & -> & rows3 & G3 & ->).
  pose proof (count_runs env "staging.transaction_items" d8) as C4.
  destruct (Ingestion.select_count env "staging.transaction_items" d8)
    as [[n4 e4]|]; [|discriminate].
  destruct C4 as (S4 & -> & rows4 & G4 & ->).
  intros H. injection H as Hres Hdb. subst res db'.
  (* the lookups of the tables after the loads *)
  assert (K5 : dict_get "staging.customers" d4 = Some []).
  { rewrite E4. now lookups. }
  rewrite K5 in E5. cbn [app] in E5.
  assert (K6 : dict_get "staging.products" d5 = Some []).
  { rewrite E5, E4. now lookups. }
  rewrite K6 in E6. cbn [app] in E6.
  assert (K7 : dict_get "staging.transactions" d6 = Some []).
  { rewrite E6, E5, E4. now lookups. }
  rewrite K7 in E7. cbn [app] in E7.
  assert (K8 : dict_get "staging.transaction_items" d7 = Some []).
  { rewrite E7, E6, E5, E4. now lookups. }
  rewrite K8 in E8. cbn [app] in E8.
  assert (Hstaged : Ingestion.staged d8 c p t i).
  { unfold Ingestion.staged. rewrite E8, E7, E6, E5, E4.
    repeat split; now lookups. }
  destruct Hstaged as (Q1 & Q2 & Q3 & Q4).
  rewrite Q1 in G1. rewrite Q2 in G2. rewrite Q3 in G3. rewrite Q4 in G4.
  injection G1 as <-. injection G2 as <-. injection G3 as <-.
  injection G4 as <-.
  rewrite dict_get_set_other in B2 by discriminate.
  rewrite !dict_get_set_other in B3 by discriminate.
  rewrite !dict_get_set_other in B4 by discriminate.
  split; [|split].
  - intros name Hname. apply staging_table_cases in Hname.
    destruct Hname as [-> | [-> | [-> | ->]]]; repeat split; assumption.
  - intros name Hname. apply staging_table_cases in Hname.
    destruct Hname as [-> | [-> | [-> | ->]]]; assumption.
  - exists c, p, t, i. split; [repeat split; assumption|].
    split; [repeat split; assumption|]. split; [|reflexivity].
    intros name Hname.
    assert (Hn : ~ (name = "staging.customers" \/ name = "staging.products"
                    \/ name = "staging.transactions"
                    \/ name = "staging.transaction_items")).
    { intros Hc. apply staging_table_cases in Hc. congruence. }
    rewrite E8, E7, E6, E5, E4.
    repeat rewrite dict_get_set_other by (intros Hx; apply Hn; auto).
    reflexivity.
Qed.

(** A run returns when the store accepts its statements, the staging
    tables exist and the files can be read. *)
Lemma main_transaction_runs (env : Ingestion.environment row)
      (db : Ingestion.tables row) customers products transactions items :
  Ingestion.accepted env -> Ingestion.tables_exist db ->
  Ingestion.files_read env customers products transactions items ->
  Ingestion.main_transaction env db <> None.
Proof.
  intros Ha He (F1 & F2 & F3 & F4).
  assert (Hc := Ha "staging.customers" eq_refl).
  assert (Hp := Ha "staging.products" eq_refl).
  assert (Ht := Ha "staging.transactions" eq_refl).
  assert (Hi := Ha "staging.transaction_items" eq_refl).
  destruct Hc as (Tc & Ic & Sc), Hp as (Tp & Ip & Sp), Ht as (Tt & It & St),
    Hi as (Ti & Ii & Si).
  assert (Ec := He "staging.customers" eq_refl).
  assert (Ep := He "staging.products" eq_refl).
  assert (Et := He "staging.transactions" eq_refl).
  assert (Ei := He "staging.transaction_items" eq_refl).
  unfold Ingestion.main_transaction, Ingestion.validate_staging_load,
    Ingestion.bind, Ingestion.ret, Ingestion.truncate,
    Ingestion.load_csv_to_staging, Ingestion.bulk_insert_data,
    Ingestion.to_sql, Ingestion.select_count, Ingestion.bind, Ingestion.ret.
  rewrite Ti.
  destruct (dict_get "staging.transaction_items" db); [|congruence].
  rewrite Tt. lookups.
  destruct (dict_get "staging.transactions" db); [|congruence].
  rewrite Tp. lookups.
  destruct (dict_get "staging.products" db); [|congruence].
  rewrite Tc. lookups.
  destruct (dict_get "staging.customers" db); [|congruence].
  rewrite F1, Ic, F2, Ip, F3, It, F4, Ii, Sc. lookups.
  rewrite Sp. lookups. rewrite St. lookups. rewrite Si. lookups.
  discriminate.
Qed.

End IngestionRun.
Section IngestionMain.
Context {row : Type}.

(** X30: ingestion replaces the staging tables or changes nothing.  A run
    of [main] either commits or leaves every table as it was; it commits
    exactly when the configuration can be read, data/staging can be made,
    the store accepts its statements, the four staging tables exist and the
    four files can be read.  When it commits, each of the four staging
    tables holds exactly the rows of its CSV file, whatever it held before,
    every other table is as it was, and the summary reports for each table
    the number of rows of the file both as rows loaded and as row count;
    [main] then returns when the summary file can be written and raises,
    with staging already replaced, when it cannot.  Running it again on the
    same files gives the same tables and, but for the timestamp, the same
    summary. *)
Theorem ingestion_replaces_staging_or_changes_nothing :
  forall (env : Ingestion.environment row) (utcnow : string)
         (db : Ingestion.tables row),
    let after := fst (Ingestion.main env utcnow db) in
    let outcome := snd (Ingestion.main env utcnow db) in
    (outcome = Ingestion.MainRaisesBeforeCommit -> after = db)
    /\ (outcome <> Ingestion.MainRaisesBeforeCommit
        <-> Ingestion.engine_created env = true
            /\ Ingestion.directory_made env = true
            /\ Ingestion.accepted env /\ Ingestion.tables_exist db
            /\ exists customers products transactions items,
                 Ingestion.files_read env customers products transactions
                                      items)
    /\ (forall s,
          Ingestion.committed outcome = Some s ->
          outcome = (if Ingestion.summary_written env s
                     then Ingestion.MainReturns s
                     else Ingestion.MainRaisesAfterCommit s)
          /\ exists customers products transactions items,
            Ingestion.files_read env customers products transactions items
            /\ Ingestion.staged after customers products transactions items
            /\ Ingestion.same_other_tables db after
            /\ Ingestion.ingestion_timestamp s = utcnow
            /\ Ingestion.tables_loaded s
               = [("staging.customers",
                   {| Ingestion.rows_loaded :=
                        Z.of_nat (List.length customers);
                      Ingestion.status := "success" |});
                  ("staging.products",
                   {| Ingestion.rows_loaded :=
                        Z.of_nat (List.length products);
                      Ingestion.status := "success" |});
                  ("staging.transactions",
                   {| Ingestion.rows_loaded :=
                        Z.of_nat (List.length transactions);
                      Ingestion.status := "success" |});
                  ("staging.transaction_items",
                   {| Ingestion.rows_loaded := Z.of_nat (List.length items);
                      Ingestion.status := "success" |})]
            /\ Ingestion.table_row_counts s
               = [("staging.customers", Z.of_nat (List.length customers));
                  ("staging.products", Z.of_nat (List.length products));
                  ("staging.transactions",
                   Z.of_nat (List.length transactions));
                  ("staging.transaction_items",
                   Z.of_nat (List.length items))]
            /\ forall utcnow',
                 Ingestion.committed (snd (Ingestion.main env utcnow' after))
                 = Some {| Ingestion.ingestion_timestamp := utcnow';
                           Ingestion.tables_loaded :=
                             Ingestion.tables_loaded s;
                           Ingestion.table_row_counts :=
                             Ingestion.table_row_counts s |}
                 /\ forall name,
                      dict_get name (fst (Ingestion.main env utcnow' after))
                      = dict_get name after).
Proof.
  intros env utcnow db after outcome. subst after outcome.
  unfold Ingestion.main.
  destruct (Ingestion.engine_created env) eqn:Hengine;
    [|cbn [fst snd Ingestion.committed]; split; [reflexivity|];
      split; [split; [congruence|intros (H & _); discriminate H]
             |discriminate]].
  destruct (Ingestion.directory_made env) eqn:Hdir;
    [|cbn [fst snd Ingestion.committed]; split; [reflexivity|];
      split; [split; [congruence|intros (_ & H & _); discriminate H]
             |discriminate]].
  split; [|split].
  - destruct (Ingestion.main_transaction env db) as [[[res counts] db']|];
      [|reflexivity].
    cbn [fst snd]. destruct (Ingestion.summary_written env _); discriminate.
  - destruct (Ingestion.main_transaction env db) as [[[res counts] db']|]
      eqn:Hrun.
    + apply main_transaction_returns in Hrun.
      destruct Hrun as (Ha & He & c & p & t & i & Hf & _).
      cbn [snd].
      split; [intros _|
              intros _; destruct (Ingestion.summary_written env _);
              discriminate].
      split; [reflexivity|]. split; [reflexivity|].
      split; [exact Ha|]. split; [exact He|]. exists c, p, t, i. exact Hf.
    + cbn [snd]. split; [congruence|].
      intros (_ & _ & Ha & He & c & p & t & i & Hf). exfalso.
      now apply (main_transaction_runs env db c p t i Ha He Hf).
  - intros s. destruct (Ingestion.main_transaction env db)
      as [[[res counts] db']|] eqn:Hrun; [|discriminate].
    cbn [fst snd]. intros Hs.
    assert (Hs' : s = {| Ingestion.ingestion_timestamp := utcnow;
                         Ingestion.tables_loaded :=
                           fold_left
                             (fun d r =>
                                Orchestrator.dict_set (fst r) (snd r) d)
                             res [];
                         Ingestion.table_row_counts := counts |}).
    { destruct (Ingestion.summary_written env _);
        cbn [Ingestion.committed] in Hs; congruence. }
    clear Hs. subst s. split; [reflexivity|].
    apply main_transaction_returns in Hrun.
    destruct Hrun as (Ha & He & c & p & t & i & Hf & Hst & Hsame & Hres).
    injection Hres as -> ->.
    exists c, p, t, i. split; [exact Hf|]. split; [exact Hst|].
    split; [exact Hsame|]. split; [reflexivity|].
    split; [reflexivity|]. split; [reflexivity|].
    intros utcnow'.
    assert (He' : Ingestion.tables_exist db').
    { intros name Hname. apply staging_table_cases in Hname.
      destruct Hst as (Q1 & Q2 & Q3 & Q4).
      destruct Hname as [-> | [-> | [-> | ->]]]; congruence. }
    destruct (Ingestion.main_transaction env db')
      as [[[res2 counts2] db2]|] eqn:Hrun2;
      [|exfalso; now apply (main_transaction_runs env db' c p t i Ha He' Hf)].
    apply main_transaction_returns in Hrun2.
    destruct Hrun2 as (_ & _ & c2 & p2 & t2 & i2 & Hf2 & Hst2 & Hsame2
                       & Hres2).
    destruct Hf as (F1 & F2 & F3 & F4), Hf2 as (G1 & G2 & G3 & G4).
    rewrite F1 in G1. rewrite F2 in G2. rewrite F3 in G3. rewrite F4 in G4.
    injection G1 as <-. injection G2 as <-. injection G3 as <-.
    injection G4 as <-.
    injection Hres2 as -> ->. cbn [fst snd]. split.
    + destruct (Ingestion.summary_written env _); reflexivity.
    + intros name. destruct (Ingestion.staging_table name) eqn:Hname.
      * apply staging_table_cases in Hname.
        destruct Hst as (Q1 & Q2 & Q3 & Q4), Hst2 as (P1 & P2 & P3 & P4).
        destruct Hname as [-> | [-> | [-> | ->]]]; congruence.
      * now apply Hsame2.
Qed.

End IngestionMain.

Lemma ingestion_replaces_staging_or_changes_nothing_witness :
  (exists s,
     snd (Ingestion.main IngestionSample.files_without_summary
                         "2024-01-05T02:00:00"
                         IngestionSample.earlier_load)
     = Ingestion.MainRaisesAfterCommit s)
  /\ Ingestion.staged
       (fst (Ingestion.main IngestionSample.files_without_summary
                            "2024-01-05T02:00:00"
                            IngestionSample.earlier_load))
       [1; 2] [3] [4] [5; 6]
  /\ dict_get "production.customers"
              (fst (Ingestion.main IngestionSample.files_without_summary
                                   "2024-01-05T02:00:00"
                                   IngestionSample.earlier_load))
     = Some [7].
Proof.
  destruct (ingestion_replaces_staging_or_changes_nothing
              IngestionSample.files_without_summary "2024-01-05T02:00:00"
              IngestionSample.earlier_load) as (_ & _ & H).
  destruct (H _ eq_refl)
    as (Hout & c & p & t & i & (F1 & F2 & F3 & F4) & Hst & Hsame & _).
  injection F1 as <-. injection F2 as <-. injection F3 as <-.
  injection F4 as <-.
  split; [eexists; exact Hout|].
  split; [exact Hst|]. apply (Hsame "production.customers"). reflexivity.
Defined.
